(* ===== verification/_CoqProject ===== *)
-Q . S2P
Prelude.v
Civil.v
JsNumber.v
JsDate.v
JsString.v
Json.v
Layout.v
Dashboard.v
ChatServer.v
ChatWidget.v
ChatSession.v
TaskServer.v
Forms.v
Auth.v
PageLoad.v
Webhook.v
GenerateData.v
