(* ===== verification/Prelude.v ===== *)
(** * A verification development of the calendar/task dashboard

    The repository is a small web application (Express server plus a
    browser front end):
    - [src/public/js/dashboard.js]: the calendar widget.  It keeps the
      fetched Google events in [calendarEvents] and renders one of three
      views into two mount points ([.time-column], [#eventsColumn]):
      [switchView] dispatches to [generateHours]/[renderHourView]/
      [renderEvent] (hour view, inline), [renderWeekView] (seven day
      columns, in a modal) and [renderMonthView] (a month grid with
      per-day counts, in a modal).  [showCurrentTimeLine] and
      [scrollToCurrentTime] place a marker at the current minute; a
      60-second interval re-places it.  Clicks on the view selector and
      on the modal backdrop drive [switchView].  Helpers: [formatTime],
      [getColor], [getTodoColor].
    - [src/server.js]: the HTTP handlers ([/api/chat] with its weather
      side channel, [/api/analyze-task], [/user], [/calendar/events]),
      the Google sign-in through passport ([/auth/google], its callback,
      [/logout], the session's [serializeUser]/[deserializeUser]), the
      user resolution [getDbUser] and the reminder poller
      [checkReminders]; [src/models/Event.js] is the stored record.
    - [src/public/js/dashboard.js] also holds the task modal and its
      form (posting to [/api/analyze-task]), the todo list built from
      [/todo.json], the pending-task checklist over the shared
      [pendingTasksData] objects, the [/user] profile header, the help
      button's [openChatModal] and the Chart.js data.
    - [src/public/js/chatbot-widget.js]: the [support-chatbot] custom
      element: a chat transcript rendered as escaped bubbles, persisted
      to localStorage (the last 200 messages), sent to its [endpoint]
      with [getReply] (defined twice; the second definition wins).
    - [src/send.js]: [sendToWebhook], the n8n forwarder the task handler
      calls; [src/generateData.js]: a generator of random sample tasks.

    ** Layout of the library (one file per component, in dependency order)
    - [Prelude] (this file): the [cal_scope] notations, the [cal] hint
      database, the tactics, and the shared lemmas on lists (and
      [update_nth], an array slot written in place), runs of step
      relations ([star], [star_invariant]), ranges checked by
      computation and decimal printing.
    - [Civil]: the ECMAScript day/civil-date arithmetic the program
      relies on through [Date] (day numbers, years, months, weekdays,
      leap years, days per month), with its round-trip theorems.  This
      models the JavaScript runtime, not code of the repository.
    - [JsNumber]: JavaScript numbers as IEEE binary64 ([PrimFloat]),
      with [Math.floor], [Math.round] and [%] on the values the program
      produces.
    - [JsDate]: [Date] time values in milliseconds, local time under a
      fixed offset, the getters, [setDate], [new Date(y, m, d)], and the
      ISO-8601 parser of [new Date(string)].
    - [JsString]: JavaScript strings as lists of characters decoded
      from UTF-8 ([decode]/[encode] round trip, and any slice of decoded
      text survives the trip), with [toLowerCase], [includes], [trim],
      [split], the [\s] class and truthiness.
    - [Json]: [JSON.stringify] (QuoteJSONString escapes, integers) and
      [JSON.parse] (a fuel-driven recursive-descent parser), with the
      round trip [parse (stringify v) = Some v] and the sufficiency of
      the fuel; how code reads parsed values ([!!v], [v.k], template
      literals, [a || b]); what [fetch] settles with.
    - [Layout]: the pure parts of dashboard.js: [generateHours],
      [formatTime], [getColor], [getTodoColor], the descriptors of
      [renderHourView]/[renderEvent], [renderWeekView] and
      [renderMonthView].
    - [Dashboard]: the DOM state the widget mutates, [switchView] and
      the handlers (view click, backdrop click, interval tick, event
      load) as a step relation, with its reachability invariants.
    - [ChatServer] (Module [Chat]): [POST /api/chat] and [handleWeather]
      of src/server.js as functions of the request, with Gemini,
      OpenWeather and the API key as section parameters.  Theorems: the
      history sent to Gemini never starts with a model turn and loses no
      user message; weather requests are routed first; the regular
      expression model is sound.
    - [ChatWidget] (Module [Widget]): the custom element's state record
      (configuration, transcript, flags, shadow DOM, the localStorage
      item) and every method as a function on it ([constructor],
      [attributeChangedCallback], [connectedCallback], [persistState],
      [renderMessages], [escape], [push], [updateOpenState],
      [handleSend] split at its [await], both [getReply]s), throws
      returned next to the state reached; the element's life as the
      step relation [wstep], requests in flight answered in any order.
      Theorems: the persistence round trip; escaping is undone by the
      browser and leaves no tag; the message-type invariant; and, as
      findings, that the attribute callbacks erase the saved transcript
      on upgrade, a non-string reply breaks every later render and
      reload, and a late reply can overtake an earlier one.
    - [ChatSession] (Module [Session]): the widget composed with
      [ChatServer] through the JSON body and response: the typed text is
      what the handler reads, a reply is shown verbatim, the
      message-type invariant holds for the application, the 500 reply is
      shown as raw JSON, and the dead first [getReply] would only ever
      get the greeting (the last three as lemmas beside the claims).
    - [TaskServer] (Module [Tasks]): [getDbUser] against the class
      [UserStore] (User.findOne/User.create) with an insertion-ordered
      instance, [POST /api/analyze-task], [checkReminders] and the
      10-second poller, [/user] and [/calendar/events]; the server as a
      step relation [srv_step] over the database and the alert log, and
      the [await]s of [getDbUser] and of overlapping polls as
      interleaving relations ([gstep], [pstep]).  Theorems: no event is
      alerted twice on any reachable run; polls 10 s apart alert every
      reminder in their window; one poll marks exactly the due events;
      sequential user resolution keeps one user per email; what a task
      request stores and answers; and, as findings, that interleaved
      requests duplicate users, overlapping polls alert twice, and the
      server alone never produces a reminder.
    - [Forms] (Module [Forms]): the task form (its click up to the
      [await], the rest after it, and the step relation [fstep] of
      clicks and responses) composed with [analyze_task]; the todo
      list; the checklist [renderPendingTasks]/[pending_change] over
      the shared task objects (step relation [clstep]); the profile
      header; [openChatModal]; the bar chart.  Theorems: the form's
      round trip through the server, at most one request in flight
      with the button disabled exactly then, the checklist always shows
      the shared objects, the chart's green bars are its free slots.
    - [Auth] (Module [Auth]): the session routes of server.js (the
      verify callback, [/auth/google] and its callback, [/user],
      [/calendar/events], [/logout], [GET /api/chat]), one definition per
      route and [router] for Express's dispatch, over a session store
      reached through the class [SessionStore] and its laws
      [SessionLaws]; [KeepStore] (a login inside the current session,
      passport before 0.6) and [RegenStore] (a regenerated session) are
      lawful.  The contract [spec_trace] is stated on the view a client
      has of the store (cookie to profile, up to pointwise equality, with
      [Proper] instances for setoid rewriting).  Theorems: the routes
      refine the contract for every lawful store; [/user] never reveals
      a profile to a cookie its login did not answer; what a sign-in
      and a logout do; the dashboard's [fetch('/user')] composed with the
      answer; and, as a finding, that a fixed cookie survives sign-in
      only on a store that does not regenerate the session.
    - [PageLoad] (Module [PageLoad]): the page the sign-in redirects to,
      composed across the server and the browser: [fetch('/user')], the
      header, [loadGoogleEvents] and [switchView('hour')], answered by
      [Auth]'s routes, with Google's event resources as JSON read back
      field by field.  Theorems: after a granted sign-in the page shows
      the profile and exactly the events Google lists for the token;
      and, with the task form and [analyze_task], a task typed on that
      page is filed for the Google account of the session, because the
      [localStorage] email the form posts is never written.
      The two fetches are apart ([page_load_between] serves other
      requests between them); as a finding, a sign-out in between
      leaves the profile shown over an empty calendar, the 401 read as
      no events.
    - [Webhook]: the body [sendToWebhook] posts and what it resolves
      to; the webhook receives the text byte for byte.
    - [GenerateData] (Module [Generate]): [randomInt], [generateTasks]
      and [dataset] as a state-passing computation over the draws of
      [Math.random] (a section parameter, in [0, 1) by hypothesis).
      Theorems: every task in range with its ids and draw count; as
      lemmas, the dataset's shape and that a task may end before it
      starts.

    ** How the parts interact
    The browser's dashboard fetches [/user] and [/calendar/events] and
    renders the events ([Layout], [Dashboard]); its task form posts to
    [/api/analyze-task], which forwards the text to the n8n webhook and
    stores a TODO through [getDbUser]; the poller scans the stored
    events; the chat widget posts its transcript to [/api/chat].  Each
    side's model takes the other side's answers as inputs; the two
    conversations across the boundary are composed in [ChatSession]
    (widget and chat handler, through [Json]), [Forms] (task form
    and [analyze_task]), [Auth] (the profile header and [/user]) and
    [PageLoad] (the whole signed-in page load),
    where a request's body is the [stringify] of what the client sends
    and the handler reads it back with [parse].  The session store is
    the one interface between the routes and a library: the routes'
    theorems are proved against [SessionLaws], and each store proves
    the laws.

    ** Bounds and fuel
    Checks run by [vm_compute] over small finite ranges: the 400 year
    starts of a Gregorian era, the 366 days of a March-based year and
    the 12 months ([Civil]), the 1440 minutes of a day for the binary64
    layout arithmetic ([Layout]), and the 18 bars of the chart
    ([Forms]).  [Civil] lifts the first three to every day number with
    a monotonicity lemma and the era periodicity (146097 days, 400
    years), and the successor day and month ends follow from the year
    length, so nothing ranges over a whole era.  The JSON parser runs
    on fuel [2 * length + 1]: every call consumes a character or
    descends into a value or a member, so [parse_fuel_enough] shows any
    larger fuel gives the same result.  The generator's draws are a
    counter threaded through the computation, six per task.

    ** Not modelled
    Daylight-saving changes (the local offset is one fixed number of
    minutes), CSS and markup, scrolling, focus and element sizes, the
    DOM outside the parts listed, the network and the external services
    (the OAuth exchange with Google, which reaches the callback as a
    granted or denied outcome; express-session's cookie signing and
    storage, described only by the session laws; MongoDB's own behaviour beyond find/create/save in
    insertion order, Gemini, OpenWeather, n8n), Chart.js drawing and
    the pie chart's constant data, the locale formatting of a time
    ([toLocaleTimeString] is a parameter), numbers with fractions or
    exponents in JSON text (the program exchanges integers and strings
    only), non-ASCII case mappings that yield non-ASCII letters (no
    operation modelled can observe them), logging, and the final
    printing of generateData.js. *)

From Stdlib Require Import ZArith List String Bool Lia.
From Stdlib Require Import DecimalString.
Import ListNotations.

Declare Scope cal_scope.
Delimit Scope cal_scope with cal.

Create HintDb cal discriminated.
Create Rewrite HintDb cal_rw.

(** ** Fallible code: the option monad *)

Definition obind {A B} (o : option A) (k : A -> option B) : option B :=
  match o with Some a => k a | None => None end.

Notation "'let?' x ':=' c 'in' k" := (obind c (fun x => k))
  (at level 10, x name, c at level 100, k at level 200) : cal_scope.
Notation "'let?' ' p ':=' c 'in' k" := (obind c (fun p => k))
  (at level 10, p pattern, c at level 100, k at level 200) : cal_scope.

Lemma obind_Some {A B} (o : option A) (k : A -> option B) b :
  obind o k = Some b <-> exists a, o = Some a /\ k a = Some b.
Proof. destruct o; simpl; split; intros; eauto; try discriminate;
  destruct H as (a' & H1 & H2); congruence. Qed.

#[export] Hint Rewrite @obind_Some : cal_rw.

(** [injection] normalises both sides, which is slow on large records
    built from date arithmetic; this lemma does not. *)
Lemma Some_eq_inv {A} (a b : A) : Some a = Some b -> a = b.
Proof. congruence. Qed.

(** ** Exhaustive checks over an integer range *)

Section Range.
Local Open Scope Z_scope.

Fixpoint check_range (P : Z -> bool) (lo : Z) (n : nat) : bool :=
  match n with
  | O => true
  | S n' => P lo && check_range P (lo + 1) n'
  end.

Lemma check_range_spec P lo n :
  check_range P lo n = true ->
  forall z, (lo <= z < lo + Z.of_nat n)%Z -> P z = true.
Proof.
  revert lo. induction n as [|n IH]; simpl; intros lo H z Hz; [lia|].
  apply andb_true_iff in H as [H1 H2].
  destruct (Z.eq_dec z lo) as [->|Hne]; [exact H1|].
  apply (IH (lo + 1)); [exact H2|lia].
Qed.

End Range.

(** The half-open range [lo, hi). *)
Definition check_between (P : Z -> bool) (lo hi : Z) : bool :=
  check_range P lo (Z.to_nat (hi - lo)).

Lemma check_between_spec P lo hi :
  check_between P lo hi = true -> forall z, (lo <= z < hi)%Z -> P z = true.
Proof.
  unfold check_between. intros H z Hz.
  apply (check_range_spec P lo _ H). lia.
Qed.

Notation "'check' P 'over' lo '..' hi" := (check_between P lo hi)
  (at level 10, P at level 9, lo at level 9, hi at level 9) : cal_scope.

(** ** Decimal printing of non-negative integers, as template literals do *)

Definition nat_to_string (n : nat) : string :=
  NilZero.string_of_uint (Nat.to_uint n).

Definition z_to_string (z : Z) : string :=
  if (z <? 0)%Z then ("-" ++ nat_to_string (Z.to_nat (- z)%Z))%string
  else nat_to_string (Z.to_nat z).

(** ** Lists *)

Lemma length_filter_le {A} (p : A -> bool) (l : list A) :
  List.length (filter p l) <= List.length l.
Proof. induction l as [|a l IH]; simpl; [lia|destruct (p a); simpl; lia]. Qed.

Lemma filter_ext_in_eq {A} (p q : A -> bool) (l : list A) :
  (forall x, In x l -> p x = q x) -> filter p l = filter q l.
Proof. apply filter_ext_in. Qed.

#[export] Hint Resolve length_filter_le : cal.

(** [a[k] = f(a[k])] on an array or an object held by position;
    nothing happens past the end. *)
Fixpoint update_nth {A} (f : A -> A) (k : nat) (l : list A) : list A :=
  match l, k with
  | [], _ => []
  | x :: r, O => f x :: r
  | x :: r, S k' => x :: update_nth f k' r
  end.

Lemma update_nth_map {A B} (f : A -> A) (g : B -> B) (h : A -> B) k l :
  (forall x, h (f x) = g (h x)) -> map h (update_nth f k l) = update_nth g k (map h l).
Proof.
  intros H. revert k. induction l as [|x l IH]; intros [|k]; cbn; f_equal; auto.
Qed.

Lemma length_update_nth {A} (f : A -> A) k l : List.length (update_nth f k l) = List.length l.
Proof. revert k. induction l as [|x l IH]; intros [|k]; cbn; auto. Qed.

(** Duplicate-freedom decided by a boolean test. *)
Fixpoint nodupb {A} (eqb : A -> A -> bool) (l : list A) : bool :=
  match l with
  | [] => true
  | x :: r => negb (existsb (eqb x) r) && nodupb eqb r
  end.

Lemma nodupb_NoDup {A} (eqb : A -> A -> bool) (Heq : forall a b, eqb a b = true <-> a = b)
  (l : list A) : nodupb eqb l = true -> NoDup l.
Proof.
  induction l as [|x r IH]; cbn; intros H; constructor.
  - apply andb_true_iff in H as [H _]. apply negb_true_iff in H.
    intros Hin. assert (existsb (eqb x) r = true) by (apply existsb_exists; exists x;
      split; [exact Hin | now apply Heq]). congruence.
  - apply IH. apply andb_true_iff in H as [_ H]. exact H.
Qed.

(** ** Runs of a step relation *)

Inductive star {A} (R : A -> A -> Prop) : A -> A -> Prop :=
  | star_refl a : star R a a
  | star_step a b c : R a b -> star R b c -> star R a c.

Lemma star_one {A} (R : A -> A -> Prop) a b : R a b -> star R a b.
Proof. intros H. eapply star_step; [exact H|apply star_refl]. Qed.

Lemma star_invariant {A} (R : A -> A -> Prop) (P : A -> Prop) :
  (forall a b, P a -> R a b -> P b) -> forall a b, star R a b -> P a -> P b.
Proof. intros HR a b Hs. induction Hs; eauto. Qed.

Lemma star_trans {A} (R : A -> A -> Prop) a b c :
  star R a b -> star R b c -> star R a c.
Proof. induction 1; eauto using star_step. Qed.

#[export] Hint Constructors star : cal.

(** [lia] does not see through [Z.div] and [Z.modulo]: name the
    quotients and remainders first. *)
Ltac zlia := Z.to_euclidean_division_equations; lia.

(** Bool/Prop glue used by the arithmetic proofs. *)
Ltac zbool :=
  repeat match goal with
  | H : (_ <? _)%Z = true |- _ => apply Z.ltb_lt in H
  | H : (_ <? _)%Z = false |- _ => apply Z.ltb_ge in H
  | H : (_ <=? _)%Z = true |- _ => apply Z.leb_le in H
  | H : (_ <=? _)%Z = false |- _ => apply Z.leb_gt in H
  | H : (_ =? _)%Z = true |- _ => apply Z.eqb_eq in H
  | H : (_ =? _)%Z = false |- _ => apply Z.eqb_neq in H
  | H : _ && _ = true |- _ => apply andb_true_iff in H as [? ?]
  end.
