(* ===== verification/Civil.v ===== *)
(** * Civil-date arithmetic of the JavaScript runtime

    ECMAScript defines [Date] through day numbers: [Day(t)] counts days
    since 1970-01-01, and [YearFromTime], [MonthFromTime],
    [DateFromTime], [WeekDay] and [MakeDay] convert between day numbers
    and proleptic Gregorian dates.  The dashboard depends on them in
    [renderWeekView] and [renderMonthView].  We implement both directions
    with the era-based formulas (an era is 400 years = 146097 days) and
    prove them mutually inverse on valid dates.  Months are 1-based here;
    [JsDate] shifts them to JavaScript's 0-based months. *)

From Stdlib Require Import ZArith List Bool Lia.
From S2P Require Import Prelude.
Import ListNotations.

Local Open Scope Z_scope.
Local Open Scope cal_scope.

Module Civil.

(** ** Leap years and month lengths *)

Definition is_leap (y : Z) : bool :=
  (y mod 4 =? 0) && (negb (y mod 100 =? 0) || (y mod 400 =? 0)).

(** [days_in_month y m] for [1 <= m <= 12]. *)
Definition days_in_month (y m : Z) : Z :=
  if m =? 2 then (if is_leap y then 29 else 28)
  else if (m =? 4) || (m =? 6) || (m =? 9) || (m =? 11) then 30
  else 31.

Definition valid_date (y m d : Z) : bool :=
  (1 <=? m) && (m <=? 12) && (1 <=? d) && (d <=? days_in_month y m).

(** ** Within one era

    An era starts on a March 1st; its March-based years [yoe] (0..399)
    start on day [start_of_year yoe]; within a year the day [doy] (0..365)
    splits into a March-based month [mp] (0 = March .. 11 = February) and
    a day of the month. *)

Definition start_of_year (yoe : Z) : Z := 365 * yoe + yoe / 4 - yoe / 100.

Definition yoe_of (doe : Z) : Z := (doe - doe / 1460 + doe / 36524 - doe / 146096) / 365.

Definition doy_of (mp d : Z) : Z := (153 * mp + 2) / 5 + d - 1.

Definition doy_split (doy : Z) : Z * Z :=
  let mp := (5 * doy + 2) / 153 in (mp, doy - (153 * mp + 2) / 5 + 1).

Definition doe_of (yoe mp d : Z) : Z := start_of_year yoe + doy_of mp d.

Definition split_doe (doe : Z) : Z * Z * Z :=
  let yoe := yoe_of doe in
  let '(mp, d) := doy_split (doe - start_of_year yoe) in
  (yoe, mp, d).

(** March-based month index to the calendar month (1..12), and back. *)
Definition month_of_mp (mp : Z) : Z := if mp <? 10 then mp + 3 else mp - 9.
Definition mp_of_month (m : Z) : Z := (m + 9) mod 12.

(** January and February belong to the March-based year before. *)
Definition year_shift (m : Z) : Z := if m <=? 2 then 1 else 0.

(** Length of the month [mp] of the year-of-era [yoe]. *)
Definition era_month_days (yoe mp : Z) : Z :=
  days_in_month (yoe + year_shift (month_of_mp mp)) (month_of_mp mp).

(** Month lengths by March-based index; February has 29 days in a leap year. *)
Definition mp_days (leap : bool) (mp : Z) : Z :=
  if mp =? 11 then (if leap then 29 else 28)
  else if (mp =? 1) || (mp =? 3) || (mp =? 6) || (mp =? 8) then 30
  else 31.

(** ** The two conversions *)

(** [days_from_civil y m d]: days since 1970-01-01 of the date y-m-d. *)
Definition days_from_civil (y m d : Z) : Z :=
  let y' := y - year_shift m in
  let era := y' / 400 in
  era * 146097 + doe_of (y' - era * 400) (mp_of_month m) d - 719468.

(** [civil_from_days z]: the date (year, month 1..12, day) of day [z]. *)
Definition civil_from_days (z : Z) : Z * Z * Z :=
  let z' := z + 719468 in
  let era := z' / 146097 in
  let '(yoe, mp, d) := split_doe (z' mod 146097) in
  let m := month_of_mp mp in
  (yoe + era * 400 + year_shift m, m, d).

(** [WeekDay]: 0 is Sunday; day 0 (1970-01-01) was a Thursday. *)
Definition week_day (z : Z) : Z := (z + 4) mod 7.

(** The following calendar day. *)
Definition next_date (c : Z * Z * Z) : Z * Z * Z :=
  let '(y, m, d) := c in
  if d <? days_in_month y m then (y, m, d + 1)
  else if m <? 12 then (y, m + 1, 1)
  else (y + 1, 1, 1).

(** ECMAScript [MakeDay(year, month, date)] with a 0-based month that may
    lie outside 0..11 and a date that may lie outside the month: both
    overflow into the neighbouring months and years. *)
Definition make_day (y mon dt : Z) : Z :=
  days_from_civil (y + mon / 12) (mon mod 12 + 1) 1 + dt - 1.

(** ** Finite checks: the 400 years of an era, the 366 days of a year *)

(** The first day of year [y] of the era; the era ends at 146097, one
    day after [start_of_year 400], the 400-year leap day. *)
Definition year_start (y : Z) : Z := if y =? 400 then 146097 else start_of_year y.

Definition year_ok (yoe : Z) : bool :=
  (yoe_of (start_of_year yoe) =? yoe) && (yoe_of (year_start (yoe + 1) - 1) =? yoe)
  && (year_start (yoe + 1) - start_of_year yoe =? 365 + (if is_leap (yoe + 1) then 1 else 0)).

Definition doy_ok (doy : Z) : bool :=
  let '(mp, d) := doy_split doy in
  (0 <=? mp) && (mp <? 12) && (1 <=? d) && (doy_of mp d =? doy)
  && (d <=? mp_days (365 <=? doy) mp).

Definition month_ok (mp : Z) : bool :=
  check (fun d => match doy_split (doy_of mp d) with
                  | (mp', d') => (mp' =? mp) && (d' =? d)
                  end && (0 <=? doy_of mp d)
                  && (doy_of mp d <=? 364 + (if (mp =? 11) && (d =? 29) then 1 else 0)))
    over 1 .. (mp_days true mp + 1)
  && (doy_of mp (mp_days true mp) + 1 =? (if mp =? 11 then 366 else doy_of (mp + 1) 1)).

Lemma year_ok_all : check year_ok over 0 .. 400 = true.
Proof. vm_compute. reflexivity. Qed.

Lemma doy_ok_all : check doy_ok over 0 .. 366 = true.
Proof. vm_compute. reflexivity. Qed.

Lemma month_ok_all : check month_ok over 0 .. 12 = true.
Proof. vm_compute. reflexivity. Qed.

Lemma year_start_400 : year_start 400 = 146097.
Proof. reflexivity. Qed.

Lemma year_start_lt y : y < 400 -> year_start y = start_of_year y.
Proof. intros H. unfold year_start. now replace (y =? 400) with false by (symmetry; apply Z.eqb_neq; lia). Qed.

(** ** Periodicity and the era decomposition *)

Lemma mod_add_multiple y k c q : c <> 0 -> c * q = 400 -> (y + 400 * k) mod c = y mod c.
Proof.
  intros Hc Hq. rewrite <- Hq.
  replace (y + c * q * k) with (y + (q * k) * c) by ring.
  now apply Z.mod_add.
Qed.

Lemma is_leap_periodic y k : is_leap (y + 400 * k) = is_leap y.
Proof.
  unfold is_leap.
  rewrite (mod_add_multiple y k 4 100), (mod_add_multiple y k 100 4),
    (mod_add_multiple y k 400 1) by lia.
  reflexivity.
Qed.

Lemma days_in_month_periodic y k m :
  days_in_month (y + 400 * k) m = days_in_month y m.
Proof. unfold days_in_month. now rewrite is_leap_periodic. Qed.

Lemma mp_of_month_of_mp mp : 0 <= mp < 12 -> mp_of_month (month_of_mp mp) = mp.
Proof. unfold mp_of_month, month_of_mp; intros; destruct (mp <? 10) eqn:E; zbool; zlia. Qed.

Lemma month_of_mp_of_month m : 1 <= m <= 12 -> month_of_mp (mp_of_month m) = m.
Proof. unfold mp_of_month, month_of_mp; intros; destruct ((m + 9) mod 12 <? 10) eqn:E; zbool; zlia. Qed.

Lemma month_of_mp_range mp : 0 <= mp < 12 -> 1 <= month_of_mp mp <= 12.
Proof. unfold month_of_mp; intros; destruct (mp <? 10) eqn:E; zbool; zlia. Qed.

(** The month lengths of the March-based year [yoe]: February's follows
    the calendar year [yoe + 1]. *)
Lemma era_month_days_mp yoe mp :
  0 <= mp < 12 -> era_month_days yoe mp = mp_days (is_leap (yoe + 1)) mp.
Proof.
  intros Hmp. unfold era_month_days, mp_days, month_of_mp, year_shift, days_in_month.
  assert (mp = 0 \/ mp = 1 \/ mp = 2 \/ mp = 3 \/ mp = 4 \/ mp = 5 \/ mp = 6 \/ mp = 7
          \/ mp = 8 \/ mp = 9 \/ mp = 10 \/ mp = 11) as Hc by lia.
  repeat destruct Hc as [->|Hc]; subst; reflexivity.
Qed.

Lemma yoe_mono a b : 0 <= a <= b -> b <= 146096 -> yoe_of a <= yoe_of b.
Proof. unfold yoe_of. intros. zlia. Qed.

Lemma year_facts yoe :
  0 <= yoe < 400 ->
  yoe_of (start_of_year yoe) = yoe /\ yoe_of (year_start (yoe + 1) - 1) = yoe /\
  year_start (yoe + 1) - start_of_year yoe = 365 + (if is_leap (yoe + 1) then 1 else 0).
Proof.
  intros H. pose proof (check_between_spec _ _ _ year_ok_all yoe H) as Hk.
  unfold year_ok in Hk. zbool. repeat split; assumption.
Qed.

Lemma start_of_year_nonneg yoe : 0 <= yoe -> 0 <= start_of_year yoe.
Proof. unfold start_of_year. zlia. Qed.

Lemma year_start_le yoe : 0 <= yoe < 400 -> year_start (yoe + 1) <= 146097.
Proof. unfold year_start, start_of_year. intros. destruct (yoe + 1 =? 400); zlia. Qed.

(** Every day of the era lies in the year [yoe_of] names. *)
Lemma yoe_of_in_year doe :
  0 <= doe < 146097 ->
  0 <= yoe_of doe < 400 /\
  start_of_year (yoe_of doe) <= doe < year_start (yoe_of doe + 1).
Proof.
  intros Hd.
  assert (Hex : forall n : nat, (n <= 400)%nat -> doe < year_start (Z.of_nat n) ->
            exists y, 0 <= y < Z.of_nat n /\ start_of_year y <= doe < year_start (y + 1)).
  { induction n as [|n IH]; intros Hn Hlt.
    - cbn in Hlt. lia.
    - destruct (Z_lt_le_dec doe (year_start (Z.of_nat n))) as [L|L].
      + destruct (IH ltac:(lia) L) as (y & Hy & Hb). exists y. split; [lia|exact Hb].
      + exists (Z.of_nat n). split; [lia|]. rewrite year_start_lt in L by lia. split; [exact L|].
        replace (Z.of_nat n + 1) with (Z.of_nat (S n)) by lia. exact Hlt. }
  destruct (Hex 400%nat ltac:(lia) ltac:(cbn; lia)) as (y & Hy & Hlo & Hhi).
  destruct (year_facts y ltac:(lia)) as (H1 & H2 & _).
  pose proof (start_of_year_nonneg y ltac:(lia)). pose proof (year_start_le y ltac:(lia)).
  assert (yoe_of doe = y).
  { pose proof (yoe_mono (start_of_year y) doe ltac:(lia) ltac:(lia)).
    pose proof (yoe_mono doe (year_start (y + 1) - 1) ltac:(lia) ltac:(lia)). lia. }
  subst y. split; [lia|]. split; assumption.
Qed.

Lemma split_doe_spec doe :
  0 <= doe < 146097 ->
  exists yoe mp d, split_doe doe = (yoe, mp, d) /\
    0 <= yoe < 400 /\ 0 <= mp < 12 /\ 1 <= d <= era_month_days yoe mp /\
    doe_of yoe mp d = doe.
Proof.
  intros Hr. destruct (yoe_of_in_year doe Hr) as (Hy & Hlo & Hhi).
  destruct (year_facts (yoe_of doe) Hy) as (_ & _ & Hlen).
  set (doy := doe - start_of_year (yoe_of doe)).
  pose proof (check_between_spec _ _ _ doy_ok_all doy ltac:(destruct (is_leap _); lia)) as Hk.
  unfold split_doe. fold doy. unfold doy_ok in Hk.
  destruct (doy_split doy) as [mp d]. zbool.
  exists (yoe_of doe), mp, d. split; [reflexivity|]. split; [exact Hy|]. split; [lia|].
  split; [|unfold doe_of; lia].
  rewrite era_month_days_mp by lia. split; [lia|].
  destruct (365 <=? doy) eqn:E; zbool;
    destruct (is_leap (yoe_of doe + 1)); unfold mp_days in *;
    repeat match goal with |- context [if ?b then _ else _] => destruct b end; lia.
Qed.

Lemma split_doe_of yoe mp d :
  0 <= yoe < 400 -> 0 <= mp < 12 -> 1 <= d <= era_month_days yoe mp ->
  0 <= doe_of yoe mp d < 146097 /\ split_doe (doe_of yoe mp d) = (yoe, mp, d).
Proof.
  intros Hy Hm Hd. rewrite era_month_days_mp in Hd by exact Hm.
  destruct (year_facts yoe Hy) as (_ & _ & Hlen).
  pose proof (start_of_year_nonneg yoe ltac:(lia)). pose proof (year_start_le yoe Hy).
  pose proof (check_between_spec _ _ _ month_ok_all mp Hm) as Hk. unfold month_ok in Hk.
  apply andb_true_iff in Hk as [Hc Hstep]. apply Z.eqb_eq in Hstep.
  pose proof (check_between_spec _ _ _ Hc d
    ltac:(unfold mp_days in *; destruct (is_leap (yoe + 1));
          repeat match goal with |- context [if ?b then _ else _] => destruct b end; lia)) as Hk.
  cbv beta in Hk. destruct (doy_split (doy_of mp d)) as [mp' d'] eqn:Es. zbool. subst mp' d'.
  assert (Hdoy : doy_of mp d < year_start (yoe + 1) - start_of_year yoe).
  { rewrite Hlen. match goal with H : doy_of mp d <= 364 + _ |- _ => revert H end.
    destruct ((mp =? 11) && (d =? 29)) eqn:E; intros Hb; cbv iota in Hb; zbool; [|destruct (is_leap (yoe + 1)); lia].
    unfold mp_days in Hd. replace (mp =? 11) with true in Hd by (symmetry; apply Z.eqb_eq; lia).
    destruct (is_leap (yoe + 1)); lia. }
  unfold doe_of. split; [lia|].
  assert (Hyoe : yoe_of (start_of_year yoe + doy_of mp d) = yoe).
  { destruct (year_facts yoe Hy) as (Hs1 & Hs2 & _).
    pose proof (yoe_mono (start_of_year yoe) (start_of_year yoe + doy_of mp d) ltac:(lia) ltac:(lia)).
    pose proof (yoe_mono (start_of_year yoe + doy_of mp d) (year_start (yoe + 1) - 1)
                  ltac:(lia) ltac:(lia)). lia. }
  unfold split_doe. rewrite Hyoe.
  replace (start_of_year yoe + doy_of mp d - start_of_year yoe) with (doy_of mp d) by ring.
  now rewrite Es.
Qed.

(** ** The round trips *)

(** Every day number denotes a valid date. *)
Theorem civil_from_days_valid z y m d :
  civil_from_days z = (y, m, d) -> valid_date y m d = true.
Proof.
  unfold civil_from_days. intros Hc.
  destruct (split_doe_spec ((z + 719468) mod 146097) ltac:(zlia))
    as (yoe & mp & d' & Hs & Hy & Hm & Hd & _).
  rewrite Hs in Hc. injection Hc as <- <- <-.
  pose proof (month_of_mp_range mp Hm).
  unfold era_month_days in Hd. unfold valid_date.
  replace (yoe + (z + 719468) / 146097 * 400 + year_shift (month_of_mp mp))
    with (yoe + year_shift (month_of_mp mp) + 400 * ((z + 719468) / 146097)) by ring.
  rewrite days_in_month_periodic.
  apply andb_true_iff; split; [|apply Z.leb_le; lia].
  repeat (apply andb_true_iff; split); apply Z.leb_le; lia.
Qed.

Theorem days_from_civil_of_civil z y m d :
  civil_from_days z = (y, m, d) -> days_from_civil y m d = z.
Proof.
  unfold civil_from_days, days_from_civil. intros Hc.
  destruct (split_doe_spec ((z + 719468) mod 146097) ltac:(zlia))
    as (yoe & mp & d' & Hs & Hy & Hm & Hd & Hdoe).
  rewrite Hs in Hc. injection Hc as <- <- <-.
  rewrite mp_of_month_of_mp by exact Hm.
  set (era := (z + 719468) / 146097).
  replace (yoe + era * 400 + year_shift (month_of_mp mp) - year_shift (month_of_mp mp))
    with (yoe + era * 400) by lia.
  replace ((yoe + era * 400) / 400) with era by zlia.
  replace (yoe + era * 400 - era * 400) with yoe by lia.
  rewrite Hdoe. subst era. zlia.
Qed.

Theorem civil_of_days_from_civil y m d :
  valid_date y m d = true -> civil_from_days (days_from_civil y m d) = (y, m, d).
Proof.
  unfold valid_date. intros Hv. zbool.
  set (era := (y - year_shift m) / 400).
  set (yoe := y - year_shift m - era * 400).
  assert (Hyoe : 0 <= yoe < 400) by (subst yoe era; zlia).
  assert (Hmp : 0 <= mp_of_month m < 12) by (unfold mp_of_month; zlia).
  assert (Hd : 1 <= d <= era_month_days yoe (mp_of_month m)).
  { unfold era_month_days. rewrite month_of_mp_of_month by lia.
    replace y with (yoe + year_shift m + 400 * era) in * by (subst yoe; lia).
    rewrite days_in_month_periodic in *. lia. }
  destruct (split_doe_of yoe (mp_of_month m) d Hyoe Hmp Hd) as [Hr Hs].
  unfold days_from_civil, civil_from_days. fold era. fold yoe.
  replace ((era * 146097 + doe_of yoe (mp_of_month m) d - 719468 + 719468) / 146097)
    with era by zlia.
  replace ((era * 146097 + doe_of yoe (mp_of_month m) d - 719468 + 719468) mod 146097)
    with (doe_of yoe (mp_of_month m) d) by zlia.
  rewrite Hs, month_of_mp_of_month by lia. f_equal. f_equal. subst yoe. lia.
Qed.

(** ** Successor days, month ends and [MakeDay] *)

(** Days before the March-based year [Y], from the era formula. *)
Definition days_before (Y : Z) : Z := Y / 400 * 146097 + start_of_year (Y - Y / 400 * 400).

Lemma days_from_civil_eq y m d :
  days_from_civil y m d = days_before (y - year_shift m) + doy_of (mp_of_month m) d - 719468.
Proof. unfold days_from_civil, days_before, doe_of. ring. Qed.

(** A March-based year has 365 days, 366 when its February is a leap one. *)
Lemma days_before_succ Y :
  days_before (Y + 1) = days_before Y + 365 + (if is_leap (Y + 1) then 1 else 0).
Proof.
  unfold days_before. set (era := Y / 400). set (yoe := Y - era * 400).
  assert (Hy : 0 <= yoe < 400) by (subst yoe era; zlia).
  destruct (year_facts yoe Hy) as (_ & _ & Hlen).
  replace (Y + 1) with (yoe + 1 + 400 * era) by (subst yoe; lia).
  rewrite is_leap_periodic in *.
  destruct (Z.eq_dec yoe 399) as [E|E].
  - rewrite E in *. replace ((399 + 1 + 400 * era) / 400) with (era + 1) by zlia.
    replace (399 + 1 + 400 * era - (era + 1) * 400) with 0 by lia.
    replace (year_start (399 + 1)) with 146097 in Hlen by reflexivity.
    replace (start_of_year 0) with 0 by reflexivity. lia.
  - replace ((yoe + 1 + 400 * era) / 400) with era by zlia.
    replace (yoe + 1 + 400 * era - era * 400) with (yoe + 1) by lia.
    replace (Y - era * 400) with yoe by (subst yoe; lia).
    rewrite year_start_lt in Hlen by lia. lia.
Qed.

Lemma days_in_month_mp y m :
  1 <= m <= 12 -> days_in_month y m = mp_days (is_leap y) (mp_of_month m).
Proof.
  intros Hm. unfold days_in_month, mp_days, mp_of_month.
  assert (m = 1 \/ m = 2 \/ m = 3 \/ m = 4 \/ m = 5 \/ m = 6 \/ m = 7 \/ m = 8 \/ m = 9
          \/ m = 10 \/ m = 11 \/ m = 12) as Hc by lia.
  repeat destruct Hc as [->|Hc]; subst; reflexivity.
Qed.

Lemma days_in_month_range y m : 28 <= days_in_month y m <= 31.
Proof.
  unfold days_in_month.
  destruct (m =? 2), (is_leap y), ((m =? 4) || (m =? 6) || (m =? 9) || (m =? 11)); lia.
Qed.

Lemma valid_date_month_end y m :
  1 <= m <= 12 -> valid_date y m (days_in_month y m) = true.
Proof.
  intros Hm. pose proof (days_in_month_range y m). unfold valid_date.
  repeat (apply andb_true_iff; split); apply Z.leb_le; lia.
Qed.

Lemma valid_date_first y m : 1 <= m <= 12 -> valid_date y m 1 = true.
Proof.
  intros Hm. pose proof (days_in_month_range y m). unfold valid_date.
  repeat (apply andb_true_iff; split); apply Z.leb_le; lia.
Qed.

Lemma days_from_civil_day y m d :
  days_from_civil y m d = days_from_civil y m 1 + d - 1.
Proof. unfold days_from_civil, doe_of, doy_of. lia. Qed.

(** The last day of a month and the first of the next are consecutive. *)
Lemma month_step y m :
  1 <= m < 12 -> days_from_civil y m (days_in_month y m) + 1 = days_from_civil y (m + 1) 1.
Proof.
  intros Hm. rewrite !days_from_civil_eq, days_in_month_mp by lia.
  destruct (Z.eq_dec m 2) as [->|E].
  - replace (year_shift 2) with 1 by reflexivity. replace (year_shift (2 + 1)) with 0 by reflexivity.
    replace (mp_of_month 2) with 11 by reflexivity. replace (mp_of_month (2 + 1)) with 0 by reflexivity.
    replace (y - 0) with (y - 1 + 1) by lia.
    rewrite days_before_succ. replace (y - 1 + 1) with y by lia.
    unfold mp_days, doy_of. cbn. destruct (is_leap y); lia.
  - assert (Hs : year_shift (m + 1) = year_shift m)
      by (unfold year_shift; destruct (m <=? 2) eqn:A, (m + 1 <=? 2) eqn:B; zbool; lia).
    assert (Hmp : mp_of_month (m + 1) = mp_of_month m + 1) by (unfold mp_of_month; zlia).
    assert (Hr : 0 <= mp_of_month m < 11) by (unfold mp_of_month; zlia).
    pose proof (check_between_spec _ _ _ month_ok_all (mp_of_month m) ltac:(lia)) as Hk.
    unfold month_ok in Hk. zbool.
    replace (mp_of_month m =? 11) with false in * by (symmetry; apply Z.eqb_neq; lia).
    assert (Hd : mp_days (is_leap y) (mp_of_month m) = mp_days true (mp_of_month m))
      by (unfold mp_days; replace (mp_of_month m =? 11) with false by (symmetry; apply Z.eqb_neq; lia);
          reflexivity).
    rewrite Hs, Hmp, Hd. lia.
Qed.

Lemma year_step y :
  days_from_civil y 12 31 + 1 = days_from_civil (y + 1) 1 1.
Proof.
  rewrite !days_from_civil_eq. replace (year_shift 12) with 0 by reflexivity.
  replace (year_shift 1) with 1 by reflexivity.
  replace (mp_of_month 12) with 9 by reflexivity. replace (mp_of_month 1) with 10 by reflexivity.
  replace (y + 1 - 1) with (y - 0) by lia. unfold doy_of. cbn. lia.
Qed.

(** The day after a valid date is [next_date]. *)
Lemma days_from_civil_next y m d :
  valid_date y m d = true ->
  let '(y', m', d') := next_date (y, m, d) in
  valid_date y' m' d' = true /\ days_from_civil y' m' d' = days_from_civil y m d + 1.
Proof.
  unfold valid_date at 1. intros Hv. zbool. unfold next_date.
  destruct (d <? days_in_month y m) eqn:E1; zbool.
  - split; [|rewrite (days_from_civil_day y m (d + 1)), (days_from_civil_day y m d); lia].
    unfold valid_date. repeat (apply andb_true_iff; split); apply Z.leb_le; lia.
  - assert (d = days_in_month y m) as -> by lia.
    destruct (m <? 12) eqn:E2; zbool.
    + split; [apply valid_date_first; lia|]. symmetry. apply month_step. lia.
    + assert (m = 12) as -> by lia. split; [apply valid_date_first; lia|].
      replace (days_in_month y 12) with 31 by reflexivity. symmetry. apply year_step.
Qed.

Theorem civil_from_days_succ z :
  civil_from_days (z + 1) = next_date (civil_from_days z).
Proof.
  destruct (civil_from_days z) as [[y m] d] eqn:E.
  pose proof (civil_from_days_valid _ _ _ _ E) as Hv.
  pose proof (days_from_civil_of_civil _ _ _ _ E) as Hz.
  pose proof (days_from_civil_next y m d Hv) as Hn.
  destruct (next_date (y, m, d)) as [[y' m'] d'] eqn:En. destruct Hn as [Hv' Hd'].
  rewrite <- Hz, <- Hd'. apply civil_of_days_from_civil, Hv'.
Qed.

(** The day after the last day of month [m] is the first of the next
    month, December rolling over into January of the next year. *)
Theorem days_from_civil_month_end y m :
  1 <= m <= 12 ->
  days_from_civil y m (days_in_month y m) + 1 =
  days_from_civil (y + m / 12) (m mod 12 + 1) 1.
Proof.
  intros Hm. destruct (Z.eq_dec m 12) as [->|E].
  - apply year_step.
  - replace (m / 12) with 0 by zlia. replace (m mod 12 + 1) with (m + 1) by zlia.
    rewrite Z.add_0_r. apply month_step. lia.
Qed.

Lemma make_day_civil y m d :
  1 <= m <= 12 -> make_day y (m - 1) d = days_from_civil y m d.
Proof.
  intros Hm. unfold make_day.
  replace ((m - 1) / 12) with 0 by zlia.
  replace ((m - 1) mod 12 + 1) with m by zlia.
  rewrite Z.add_0_r, (days_from_civil_day y m d). lia.
Qed.

(** [new Date(y, mon + 1, 0)] names the last day of month [mon]. *)
Theorem make_day_month_end y mon :
  0 <= mon < 12 ->
  make_day y (mon + 1) 0 = days_from_civil y (mon + 1) (days_in_month y (mon + 1)).
Proof.
  intros Hm. unfold make_day.
  rewrite <- days_from_civil_month_end by lia. lia.
Qed.

Lemma week_day_range z : 0 <= week_day z < 7.
Proof. unfold week_day. zlia. Qed.

Lemma week_day_add z k : week_day (z + k) = (week_day z + k) mod 7.
Proof. unfold week_day. zlia. Qed.

End Civil.
