(* ===== verification/JsNumber.v ===== *)
(** * JavaScript numbers

    A JavaScript number is an IEEE-754 binary64 value: [PrimFloat.float],
    whose [+ - * /] round to nearest-even exactly as the JavaScript
    operators do.  The operations the dashboard applies beyond those
    ([Math.floor], [Math.round], the remainder [%], truthiness and the
    printing of integral values in template literals) are defined here
    through the exact [SpecFloat] view of a float ([Prim2SF]): a finite
    value is [(-1)^s * m * 2^e], and each operation is computed exactly
    on integers and converted back.  This models the JavaScript runtime,
    not code of the repository. *)

From Stdlib Require Import ZArith Bool List String Lia.
From Stdlib Require Import PrimFloat SpecFloat FloatOps Uint63.
From S2P Require Import Prelude.
Import ListNotations.

Module JsNumber.

Local Open Scope Z_scope.

(** The exact value [n * 2^e] rounded to binary64 (exact whenever it is
    representable, which is the case for every use below). *)
Definition of_Z_exp (n e : Z) : float :=
  SF2Prim (SpecFloat.binary_normalize prec emax n e false).

Definition of_Z (n : Z) : float := of_Z_exp n 0.

Definition signed (s : bool) (m : positive) : Z := if s then Z.neg m else Z.pos m.

(** [Math.floor]. *)
Definition js_floor (x : float) : float :=
  match Prim2SF x with
  | S754_finite s m e =>
      if 0 <=? e then x else of_Z (signed s m / 2 ^ (- e))
  | _ => x
  end.

(** [Math.round]: the integer nearest to [x], ties towards +infinity,
    computed exactly as [floor(x + 1/2)]; a negative argument that
    rounds to zero gives [-0]. *)
Definition js_round (x : float) : float :=
  match Prim2SF x with
  | S754_finite s m e =>
      if 0 <=? e then x
      else
        let r := (2 * signed s m + 2 ^ (- e)) / 2 ^ (1 - e) in
        if (r =? 0) && s then PrimFloat.neg_zero else of_Z r
  | _ => x
  end.

(** The remainder [x % y]: [x - y * trunc(x / y)] computed exactly, with
    the sign of the dividend. *)
Definition js_rem (x y : float) : float :=
  match Prim2SF x, Prim2SF y with
  | S754_nan, _ | _, S754_nan | S754_infinity _, _ | _, S754_zero _ => nan
  | S754_zero _, _ | S754_finite _ _ _, S754_infinity _ => x
  | S754_finite s1 m1 e1, S754_finite s2 m2 e2 =>
      let e := Z.min e1 e2 in
      let r := Z.rem (signed s1 m1 * 2 ^ (e1 - e)) (signed s2 m2 * 2 ^ (e2 - e)) in
      if r =? 0 then (if s1 then PrimFloat.neg_zero else PrimFloat.zero) else of_Z_exp r e
  end.

(** [ToBoolean] of a number: [0], [-0] and [NaN] are falsy. *)
Definition truthy (x : float) : bool :=
  negb (PrimFloat.is_nan x || PrimFloat.is_zero x).

(** The exact integer value of an integral float. *)
Definition integral_value (x : float) : option Z :=
  match Prim2SF x with
  | S754_zero _ => Some 0
  | S754_finite s m e =>
      if 0 <=? e then Some (signed s m * 2 ^ e)
      else if Z.pos m mod 2 ^ (- e) =? 0 then Some (signed s m / 2 ^ (- e))
      else None
  | _ => None
  end.

(** [ToString] of a number, for the values the program prints: integral
    values (below 10^21 they print as plain decimals), [NaN] and the
    infinities.  Non-integral values print through the shortest
    round-trip algorithm, which is not modelled: they are never printed
    by the code modelled here ([formatTime] prints [Math.floor] and
    [Math.round] results). *)
Definition to_display (x : float) : string :=
  if PrimFloat.is_nan x then "NaN"%string
  else if PrimFloat.is_infinity x then
    (if PrimFloat.get_sign x then "-Infinity" else "Infinity")%string
  else match integral_value x with
       | Some z => z_to_string z
       | None => "<fraction>"%string
       end.

End JsNumber.
