(* ===== verification/JsDate.v ===== *)
(** * JavaScript [Date] objects

    A [Date] holds a time value: milliseconds since 1970-01-01T00:00Z,
    or NaN ("Invalid Date"), modelled as [option Z].  Local time is UTC
    shifted by a fixed offset [tz] in minutes east of Greenwich (the
    Section variable): daylight-saving changes are not modelled.  The
    getters, [new Date(y, mon, d)], [setDate] and [toDateString] follow
    the ECMAScript algorithms over [Civil]; [parse] is [new Date(string)]
    on the Date Time String Format, where a date-only form denotes UTC
    midnight and a date-time form without an offset denotes local time.
    This models the JavaScript runtime, not code of the repository. *)

From Stdlib Require Import ZArith List String Ascii Bool Lia.
From S2P Require Import Prelude Civil.
Import ListNotations.

Module JsDate.

Local Open Scope Z_scope.
Local Open Scope cal_scope.

Definition ms_per_second : Z := 1000.
Definition ms_per_minute : Z := 60000.
Definition ms_per_hour : Z := 3600000.
Definition ms_per_day : Z := 86400000.
Definition max_time : Z := 8640000000000000.

Definition time_value := option Z.

(** [TimeClip]: time values beyond 8.64e15 ms are NaN. *)
Definition time_clip (t : Z) : time_value :=
  if Z.abs t <=? max_time then Some t else None.

Definition day (t : Z) : Z := t / ms_per_day.
Definition time_within_day (t : Z) : Z := t mod ms_per_day.
Definition make_time (h mi s ms : Z) : Z :=
  h * ms_per_hour + mi * ms_per_minute + s * ms_per_second + ms.
Definition make_date (dy tm : Z) : Z := dy * ms_per_day + tm.

(** [toDateString] prints "Www Mmm DD YYYY": weekday, month, day and
    year of the local date, an injective format on valid dates.  We keep
    its four fields; an invalid date prints "Invalid Date". *)
Inductive date_string :=
| DS_invalid
| DS (weekday year month date : Z).

Section Local.

Variable tz : Z.

Definition local_time (t : Z) : Z := t + tz * ms_per_minute.
Definition utc (l : Z) : Z := l - tz * ms_per_minute.

Definition local_civil (t : Z) : Z * Z * Z := Civil.civil_from_days (day (local_time t)).

Definition get_hours (t : Z) : Z := (local_time t / ms_per_hour) mod 24.
Definition get_minutes (t : Z) : Z := (local_time t / ms_per_minute) mod 60.
Definition get_day (t : Z) : Z := Civil.week_day (day (local_time t)).
Definition get_full_year (t : Z) : Z := fst (fst (local_civil t)).
Definition get_month (t : Z) : Z := snd (fst (local_civil t)) - 1.
Definition get_date (t : Z) : Z := snd (local_civil t).

(** [new Date(y, mon, dt)] in local time; years 0..99 mean 1900..1999. *)
Definition new_date_ymd (y mon dt : Z) : time_value :=
  let yr := if (0 <=? y) && (y <=? 99) then 1900 + y else y in
  time_clip (utc (make_date (Civil.make_day yr mon dt) 0)).

(** [d.setDate(dt)]: same local year, month and time of day. *)
Definition set_date (t dt : Z) : time_value :=
  time_clip (utc (make_date (Civil.make_day (get_full_year t) (get_month t) dt)
                            (time_within_day (local_time t)))).

Definition to_date_string (t : time_value) : date_string :=
  match t with
  | None => DS_invalid
  | Some t => DS (get_day t) (get_full_year t) (get_month t) (get_date t)
  end.

(** ** Facts on the getters *)

Lemma local_utc l : local_time (utc l) = l.
Proof. unfold local_time, utc. lia. Qed.

Lemma day_make_date dy tm : 0 <= tm < ms_per_day -> day (make_date dy tm) = dy.
Proof. unfold day, make_date, ms_per_day. zlia. Qed.

Lemma get_hours_range t : 0 <= get_hours t < 24.
Proof. unfold get_hours. zlia. Qed.

Lemma get_minutes_range t : 0 <= get_minutes t < 60.
Proof. unfold get_minutes. zlia. Qed.

Lemma get_day_range t : 0 <= get_day t < 7.
Proof. apply Civil.week_day_range. Qed.

(** The local date of a time value is a valid date, read back by
    [days_from_civil]. *)
Lemma local_civil_spec t :
  Civil.valid_date (get_full_year t) (get_month t + 1) (get_date t) = true /\
  Civil.days_from_civil (get_full_year t) (get_month t + 1) (get_date t) = day (local_time t).
Proof.
  unfold get_full_year, get_month, get_date, local_civil.
  destruct (Civil.civil_from_days (day (local_time t))) as [[y m] d] eqn:E; simpl.
  replace (m - 1 + 1) with m by lia.
  split; [exact (Civil.civil_from_days_valid _ _ _ _ E)
         | exact (Civil.days_from_civil_of_civil _ _ _ _ E)].
Qed.

Lemma local_civil_of_day t y m d :
  Civil.valid_date y m d = true -> day (local_time t) = Civil.days_from_civil y m d ->
  get_full_year t = y /\ get_month t = m - 1 /\ get_date t = d.
Proof.
  intros Hv Hd. unfold get_full_year, get_month, get_date, local_civil.
  rewrite Hd, Civil.civil_of_days_from_civil by exact Hv. simpl. lia.
Qed.

Lemma day_shift x k : day (x + k * ms_per_day) = day x + k.
Proof. unfold day, ms_per_day. zlia. Qed.

Lemma local_time_shift x k : local_time (x + k) = local_time x + k.
Proof. unfold local_time. lia. Qed.

Lemma get_day_shift t k : get_day (t + k * ms_per_day) = (get_day t + k) mod 7.
Proof. unfold get_day. rewrite local_time_shift, day_shift. apply Civil.week_day_add. Qed.

(** [setDate(dt)] moves by [dt - getDate()] whole days, overflowing into
    the neighbouring months; the time of day is kept. *)
Lemma set_date_eq t dt :
  set_date t dt = time_clip (t + (dt - get_date t) * ms_per_day).
Proof.
  unfold set_date. f_equal.
  destruct (local_civil_spec t) as [Hv Hd].
  unfold Civil.valid_date in Hv. zbool.
  replace (get_month t) with (get_month t + 1 - 1) by lia.
  rewrite Civil.make_day_civil by lia.
  rewrite (Civil.days_from_civil_day _ _ dt).
  rewrite (Civil.days_from_civil_day _ _ (get_date t)) in Hd.
  unfold utc, make_date, time_within_day. unfold day in Hd.
  unfold local_time in *. unfold ms_per_day in *. zlia.
Qed.

Lemma set_date_day t dt t' :
  set_date t dt = Some t' ->
  day (local_time t') = day (local_time t) + dt - get_date t.
Proof.
  rewrite set_date_eq. unfold time_clip. destruct (_ <=? max_time); intros H; [|discriminate].
  injection H as <-. rewrite local_time_shift, day_shift. lia.
Qed.

(** Two time values have the same local date iff the same local day. *)
Lemma same_local_date a b :
  (get_full_year a = get_full_year b /\ get_month a = get_month b /\ get_date a = get_date b)
  <-> day (local_time a) = day (local_time b).
Proof.
  destruct (local_civil_spec a) as [Hva Hda], (local_civil_spec b) as [Hvb Hdb].
  split.
  - intros (Hy & Hm & Hd). rewrite <- Hda, <- Hdb, Hy, Hm, Hd. reflexivity.
  - intros Heq. rewrite <- Hdb in Heq.
    destruct (local_civil_of_day a _ _ _ Hvb Heq) as (? & ? & ?). lia.
Qed.

(** [new Date(y, mon, dt)] for a year above 99 and a month 0..11 is local
    midnight of day [make_day y mon dt]. *)
Lemma new_date_ymd_day y mon dt t :
  99 < y -> new_date_ymd y mon dt = Some t -> day (local_time t) = Civil.make_day y mon dt.
Proof.
  unfold new_date_ymd, time_clip. intros Hy.
  replace ((0 <=? y) && (y <=? 99)) with false by (symmetry; apply andb_false_iff; right; apply Z.leb_gt; lia).
  destruct (_ <=? max_time); intros H; [|discriminate].
  injection H as <-. rewrite local_utc. apply day_make_date. unfold ms_per_day. lia.
Qed.

End Local.

(** ** [new Date(string)] on the ISO-8601 subset of ECMAScript *)

Definition digit (c : ascii) : option Z :=
  let n := Z.of_nat (nat_of_ascii c) in
  if (48 <=? n) && (n <=? 57) then Some (n - 48) else None.

Fixpoint digits (n : nat) (s : string) (acc : Z) : option (Z * string) :=
  match n with
  | O => Some (acc, s)
  | S n' =>
      match s with
      | EmptyString => None
      | String c r => let? v := digit c in digits n' r (acc * 10 + v)
      end
  end.

Definition expect (c : ascii) (s : string) : option string :=
  match s with
  | String c' r => if Ascii.eqb c c' then Some r else None
  | EmptyString => None
  end.

(** YYYY, YYYY-MM or YYYY-MM-DD; absent fields are 01. *)
Definition parse_date_part (s : string) : option (Z * Z * Z * string) :=
  let? '(y, r) := digits 4 s 0 in
  match expect "-" r with
  | None => Some (y, 1, 1, r)
  | Some r1 =>
      let? '(m, r2) := digits 2 r1 0 in
      match expect "-" r2 with
      | None => Some (y, m, 1, r2)
      | Some r3 => let? '(d, r4) := digits 2 r3 0 in Some (y, m, d, r4)
      end
  end.

(** HH:mm, HH:mm:ss or HH:mm:ss.sss *)
Definition parse_time_part (s : string) : option (Z * Z * Z * Z * string) :=
  let? '(h, r1) := digits 2 s 0 in
  let? r2 := expect ":" r1 in
  let? '(mi, r3) := digits 2 r2 0 in
  match expect ":" r3 with
  | None => Some (h, mi, 0, 0, r3)
  | Some r4 =>
      let? '(sec, r5) := digits 2 r4 0 in
      match expect "." r5 with
      | None => Some (h, mi, sec, 0, r5)
      | Some r6 => let? '(ms, r7) := digits 3 r6 0 in Some (h, mi, sec, ms, r7)
      end
  end.

(** The offset suffix, in minutes east: [None] when absent (local time). *)
Definition parse_offset (s : string) : option (option Z) :=
  match s with
  | EmptyString => Some None
  | String "Z" EmptyString => Some (Some 0)
  | String c r =>
      let sign := if Ascii.eqb c "+" then Some 1 else if Ascii.eqb c "-" then Some (-1) else None in
      let? sg := sign in
      let? '(oh, r1) := digits 2 r 0 in
      let? r2 := expect ":" r1 in
      let? '(om, r3) := digits 2 r2 0 in
      match r3 with
      | EmptyString =>
          if (oh <=? 23) && (om <=? 59) then Some (Some (sg * (oh * 60 + om))) else None
      | _ => None
      end
  end.

Definition valid_time (h mi s ms : Z) : bool :=
  ((h <? 24) && (mi <=? 59) && (s <=? 59))
  || ((h =? 24) && (mi =? 0) && (s =? 0) && (ms =? 0)).

(** The time value denoted by a string, [None] for "Invalid Date".
    Strings outside the format (which engines may accept through
    implementation-specific fallbacks) are taken as invalid. *)
Definition parse (tz : Z) (s : string) : time_value :=
  let? '(y, m, d, r) := parse_date_part s in
  if negb (Civil.valid_date y m d) then None else
  let dy := Civil.days_from_civil y m d in
  match r with
  | EmptyString => time_clip (make_date dy 0)
  | String "T" r' =>
      let? '(h, mi, sec, ms, r2) := parse_time_part r' in
      if negb (valid_time h mi sec ms) then None else
      let? off := parse_offset r2 in
      let t := make_date dy (make_time h mi sec ms) in
      match off with
      | None => time_clip (utc tz t)
      | Some o => time_clip (t - o * ms_per_minute)
      end
  | _ => None
  end.

(** ** Printing dates in the Date Time String Format *)

Definition digit_char (v : Z) : ascii := ascii_of_nat (48 + Z.to_nat v).

Definition pad2 (v : Z) : string :=
  String (digit_char (v / 10)) (String (digit_char (v mod 10)) EmptyString).

Definition pad4 (v : Z) : string :=
  String (digit_char (v / 1000)) (String (digit_char (v / 100 mod 10))
    (String (digit_char (v / 10 mod 10)) (String (digit_char (v mod 10)) EmptyString))).

(** "YYYY-MM-DD", the form of Google's all-day [date] field. *)
Definition iso_date (y m d : Z) : string := (pad4 y ++ "-" ++ pad2 m ++ "-" ++ pad2 d)%string.

(** "YYYY-MM-DDTHH:mm", a local date-time. *)
Definition iso_local (y m d h mi : Z) : string :=
  (iso_date y m d ++ "T" ++ pad2 h ++ ":" ++ pad2 mi)%string.

Lemma digit_char_ok : check (fun v => match digit (digit_char v) with
                                      | Some w => w =? v | None => false end) over 0 .. 10 = true.
Proof. reflexivity. Qed.

Lemma digit_digit_char v : 0 <= v < 10 -> digit (digit_char v) = Some v.
Proof.
  intros Hv. pose proof (check_between_spec _ _ _ digit_char_ok v Hv) as H. cbv beta in H.
  destruct (digit (digit_char v)); [zbool; congruence|discriminate].
Qed.

Lemma string_app_nil_r (s : string) : (s ++ "")%string = s.
Proof. induction s as [|c s IH]; cbn; [reflexivity|now rewrite IH]. Qed.

Lemma string_app_assoc (a b c : string) : (a ++ b ++ c)%string = ((a ++ b) ++ c)%string.
Proof. induction a as [|x a IH]; cbn; [reflexivity|now rewrite IH]. Qed.

Lemma digits_pad2 v rest acc :
  0 <= v < 100 -> digits 2 (pad2 v ++ rest) acc = Some (acc * 100 + v, rest).
Proof.
  intros Hv. cbn [pad2 append digits].
  rewrite !digit_digit_char by zlia. cbn [obind digits]. f_equal. f_equal. zlia.
Qed.

Lemma digits_pad4 v rest acc :
  0 <= v < 10000 -> digits 4 (pad4 v ++ rest) acc = Some (acc * 10000 + v, rest).
Proof.
  intros Hv. cbn [pad4 append digits].
  rewrite !digit_digit_char by zlia. cbn [obind digits]. f_equal. f_equal. zlia.
Qed.

Lemma time_clip_in_bounds t : Z.abs t <= max_time -> time_clip t = Some t.
Proof. unfold time_clip. intros H. apply Z.leb_le in H. now rewrite H. Qed.

(** Years 0..9999 lie well inside the range of time values. *)
Lemma days_from_civil_small y m d :
  0 <= y <= 9999 -> Civil.valid_date y m d = true ->
  -1000000 <= Civil.days_from_civil y m d <= 3000000.
Proof.
  intros Hy Hv. unfold Civil.valid_date in Hv. zbool.
  pose proof (Civil.days_in_month_range y m).
  unfold Civil.days_from_civil, Civil.doe_of, Civil.start_of_year, Civil.doy_of,
    Civil.year_shift, Civil.mp_of_month.
  destruct (m <=? 2) eqn:E; zbool; zlia.
Qed.

Lemma time_clip_days y m d :
  0 <= y <= 9999 -> Civil.valid_date y m d = true ->
  time_clip (make_date (Civil.days_from_civil y m d) 0) =
  Some (make_date (Civil.days_from_civil y m d) 0).
Proof.
  intros Hy Hv. pose proof (days_from_civil_small y m d Hy Hv).
  apply time_clip_in_bounds. unfold make_date, max_time, ms_per_day. lia.
Qed.

(** A date-only string denotes UTC midnight of that date, in any zone. *)
Theorem parse_iso_date tz y m d :
  0 <= y <= 9999 -> Civil.valid_date y m d = true ->
  parse tz (iso_date y m d) = Some (make_date (Civil.days_from_civil y m d) 0).
Proof.
  intros Hy Hv. pose proof Hv as Hv'. unfold Civil.valid_date in Hv'. zbool.
  pose proof (Civil.days_in_month_range y m).
  unfold parse, parse_date_part, iso_date.
  rewrite digits_pad4 by lia. cbn [obind expect append Ascii.eqb Bool.eqb].
  rewrite digits_pad2 by lia. cbn [obind expect append Ascii.eqb Bool.eqb].
  rewrite <- (string_app_nil_r (pad2 d)), digits_pad2 by lia. cbn [obind].
  rewrite !Z.mul_0_l, !Z.add_0_l, Hv. cbn [negb].
  apply time_clip_days; assumption.
Qed.

(** A local date-time string denotes that wall-clock time in the local
    zone: its getters give back the hour and minute written. *)
Theorem parse_iso_local tz y m d h mi :
  -1440 < tz < 1440 -> 0 <= y <= 9999 -> Civil.valid_date y m d = true ->
  0 <= h < 24 -> 0 <= mi < 60 ->
  exists t, parse tz (iso_local y m d h mi) = Some t /\
    get_hours tz t = h /\ get_minutes tz t = mi /\
    day (local_time tz t) = Civil.days_from_civil y m d.
Proof.
  intros Htz Hy Hv Hh Hmi. pose proof Hv as Hv'. unfold Civil.valid_date in Hv'. zbool.
  pose proof (Civil.days_in_month_range y m).
  pose proof (days_from_civil_small y m d Hy Hv).
  unfold parse, parse_date_part, iso_local, iso_date.
  rewrite <- !string_app_assoc.
  rewrite digits_pad4 by lia. cbn [obind expect append Ascii.eqb Bool.eqb].
  rewrite digits_pad2 by lia. cbn [obind expect append Ascii.eqb Bool.eqb].
  rewrite digits_pad2 by lia. cbn [obind append].
  rewrite !Z.mul_0_l, !Z.add_0_l, Hv. cbn [negb].
  unfold parse_time_part. rewrite digits_pad2 by lia. cbn [obind expect append Ascii.eqb Bool.eqb].
  rewrite <- (string_app_nil_r (pad2 mi)), digits_pad2 by lia. cbn [obind expect].
  rewrite !Z.mul_0_l, !Z.add_0_l.
  replace (valid_time h mi 0 0) with true
    by (symmetry; unfold valid_time; apply orb_true_iff; left;
        repeat (apply andb_true_iff; split); first [apply Z.ltb_lt | apply Z.leb_le]; lia).
  cbn [negb parse_offset obind].
  eexists. split; [apply time_clip_in_bounds|].
  - unfold utc, make_date, make_time, ms_per_day, ms_per_hour, ms_per_minute, ms_per_second,
      max_time in *. lia.
  - unfold get_hours, get_minutes, day, local_time, utc, make_date, make_time,
      ms_per_day, ms_per_hour, ms_per_minute, ms_per_second. repeat split; zlia.
Qed.

End JsDate.
