(* ===== verification/JsString.v ===== *)
(** * JavaScript strings as the server handlers use them

    A Rocq [string] holds the UTF-8 bytes of a text; the server's string
    operations ([toLowerCase], [includes], [trim], [split('@')] and the
    character class [[a-zA-Z\s]] of a regular expression) act on
    characters, so a text is decoded into a list of [jchar]: an ASCII
    character, or one non-ASCII character kept as its UTF-8 bytes.
    Decoding is structural and [encode] inverts it.  This models the
    JavaScript runtime, not code of the repository. *)

From Stdlib Require Import ZArith List String Ascii Bool Lia.
From S2P Require Import Prelude.
Import ListNotations.

Module JsString.

Local Open Scope list_scope.

Inductive jchar := JAscii (c : ascii) | JWide (bytes : string).

Definition jstring := list jchar.

Definition byte (c : ascii) : nat := nat_of_ascii c.

(** UTF-8 decoding: a lead byte below 128 is a character of its own; a
    lead byte of a 2-, 3- or 4-byte sequence takes its continuation
    bytes with it (a truncated sequence keeps what is left). *)
Fixpoint decode (s : string) : jstring :=
  match s with
  | EmptyString => []
  | String c r =>
      if (byte c <? 128)%nat then JAscii c :: decode r
      else if (byte c <? 224)%nat then
        match r with
        | String c2 r2 => JWide (String c (String c2 "")) :: decode r2
        | EmptyString => [JWide (String c "")]
        end
      else if (byte c <? 240)%nat then
        match r with
        | String c2 (String c3 r3) => JWide (String c (String c2 (String c3 ""))) :: decode r3
        | _ => [JWide (String c r)]
        end
      else
        match r with
        | String c2 (String c3 (String c4 r4)) =>
            JWide (String c (String c2 (String c3 (String c4 "")))) :: decode r4
        | _ => [JWide (String c r)]
        end
  end.

Definition jchar_bytes (j : jchar) : string :=
  match j with JAscii c => String c "" | JWide b => b end.

Fixpoint encode (s : jstring) : string :=
  match s with [] => "" | j :: r => jchar_bytes j ++ encode r end.

Definition jchar_eqb (a b : jchar) : bool :=
  match a, b with
  | JAscii x, JAscii y => Ascii.eqb x y
  | JWide x, JWide y => String.eqb x y
  | _, _ => false
  end.

Fixpoint jstring_eqb (a b : jstring) : bool :=
  match a, b with
  | [], [] => true
  | x :: a', y :: b' => jchar_eqb x y && jstring_eqb a' b'
  | _, _ => false
  end.

(** ** Character classes *)

Definition is_upper (c : ascii) : bool := (65 <=? byte c)%nat && (byte c <=? 90)%nat.
Definition is_lower (c : ascii) : bool := (97 <=? byte c)%nat && (byte c <=? 122)%nat.

(** [[a-zA-Z]], also under the [i] flag (a non-ASCII character never
    canonicalises to an ASCII one). *)
Definition is_alpha (j : jchar) : bool :=
  match j with JAscii c => is_upper c || is_lower c | JWide _ => false end.

(** [\s], the WhiteSpace and LineTerminator characters, which are also
    what [trim] removes: TAB, LF, VT, FF, CR, SPACE, U+00A0, U+1680,
    U+2000..U+200A, U+2028, U+2029, U+202F, U+205F, U+3000, U+FEFF. *)
Definition is_ws (j : jchar) : bool :=
  match j with
  | JAscii c => ((9 <=? byte c)%nat && (byte c <=? 13)%nat) || (byte c =? 32)%nat
  | JWide b =>
      match b with
      | String a (String b1 EmptyString) => (byte a =? 194)%nat && (byte b1 =? 160)%nat
      | String a (String b1 (String b2 EmptyString)) =>
          let a := byte a in let b1 := byte b1 in let b2 := byte b2 in
          ((a =? 225)%nat && (b1 =? 154)%nat && (b2 =? 128)%nat)
          || ((a =? 226)%nat && (b1 =? 128)%nat
              && (((128 <=? b2)%nat && (b2 <=? 138)%nat)
                  || (b2 =? 168)%nat || (b2 =? 169)%nat || (b2 =? 175)%nat))
          || ((a =? 226)%nat && (b1 =? 129)%nat && (b2 =? 159)%nat)
          || ((a =? 227)%nat && (b1 =? 128)%nat && (b2 =? 128)%nat)
          || ((a =? 239)%nat && (b1 =? 187)%nat && (b2 =? 191)%nat)
      | _ => false
      end
  end.

(** [[a-zA-Z\s]] *)
Definition in_city_class (j : jchar) : bool := is_alpha j || is_ws j.

(** ** [toLowerCase]

    ASCII capitals become small letters; the two non-ASCII characters
    whose lower case contains an ASCII letter are mapped too (KELVIN
    SIGN U+212A to [k], U+0130 to [i] followed by U+0307).  The other
    non-ASCII case mappings are not modelled: they map non-ASCII letters
    to non-ASCII letters, which none of the operations below can tell
    apart. *)
Definition lower_char (j : jchar) : jstring :=
  match j with
  | JAscii c => [JAscii (if is_upper c then ascii_of_nat (byte c + 32) else c)]
  | JWide b =>
      if String.eqb b (String "226" (String "132" (String "170" ""))) then [JAscii "k"]
      else if String.eqb b (String "196" (String "176" "")) then
        [JAscii "i"; JWide (String "204" (String "135" ""))]
      else [j]
  end.

Definition to_lower (s : jstring) : jstring := flat_map lower_char s.

(** ** [includes], [trim], [split] *)

Fixpoint is_prefix (p s : jstring) : bool :=
  match p, s with
  | [], _ => true
  | a :: p', b :: s' => jchar_eqb a b && is_prefix p' s'
  | _ :: _, [] => false
  end.

(** [s.includes(p)] *)
Fixpoint includes (s p : jstring) : bool :=
  is_prefix p s || match s with [] => false | _ :: s' => includes s' p end.

Fixpoint drop_ws (s : jstring) : jstring :=
  match s with j :: r => if is_ws j then drop_ws r else s | [] => [] end.

(** [s.trim()] *)
Definition trim (s : jstring) : jstring := rev (drop_ws (rev (drop_ws s))).

(** [s.split(sep)[0]]: the text before the first separator. *)
Fixpoint split_first (sep : jchar) (s : jstring) : jstring :=
  match s with
  | [] => []
  | j :: r => if jchar_eqb j sep then [] else j :: split_first sep r
  end.

(** ** Truthiness and length *)

(** [ToBoolean] of an optional string: [undefined] and [""] are falsy. *)
Definition str_truthy (o : option string) : bool :=
  match o with Some (String _ _) => true | _ => false end.

(** [a || b] on optional strings. *)
Definition str_or (a b : option string) : option string :=
  if str_truthy a then a else b.

(** JavaScript strings count UTF-16 code units; a Rocq string holds the
    UTF-8 bytes.  Every byte that starts a character counts one unit,
    and a four-byte character (outside the BMP) counts two. *)
Fixpoint js_length (s : string) : nat :=
  match s with
  | EmptyString => 0
  | String c r =>
      let b := nat_of_ascii c in
      (if (b <? 128) || (192 <=? b) then 1 else 0) + (if 240 <=? b then 1 else 0)
      + js_length r
  end%nat.

(** JavaScript literals of the handlers, from their UTF-8 text. *)
Definition lit (s : string) : jstring := decode s.

(** ** Lemmas *)

Lemma byte_ascii_of_nat n : (n < 256)%nat -> byte (ascii_of_nat n) = n.
Proof. intros H. unfold byte. apply nat_ascii_embedding. exact H. Qed.

(** Decoding loses nothing: the bytes are given back by [encode]. *)
Theorem encode_decode s : encode (decode s) = s.
Proof.
  assert (H : forall n s, (String.length s <= n)%nat -> encode (decode s) = s).
  { induction n as [|n IH]; intros [|c r] Hl; cbn [String.length] in Hl; cbn [decode]; try reflexivity; [lia|].
    destruct (byte c <? 128)%nat; [cbn; f_equal; apply IH; lia|].
    destruct (byte c <? 224)%nat;
      [destruct r as [|c2 r2]; cbn in *; [reflexivity|f_equal; f_equal; apply IH; lia]|].
    destruct (byte c <? 240)%nat.
    - destruct r as [|c2 [|c3 r3]]; cbn in *; try reflexivity.
      f_equal; f_equal; f_equal; apply IH; lia.
    - destruct r as [|c2 [|c3 [|c4 r4]]]; cbn in *; try reflexivity.
      f_equal; f_equal; f_equal; f_equal; apply IH; lia. }
  apply (H (String.length s)). lia.
Qed.

Lemma jchar_eqb_eq a b : jchar_eqb a b = true <-> a = b.
Proof.
  destruct a, b; cbn; split; intros H; try discriminate; try congruence.
  - apply Ascii.eqb_eq in H. congruence.
  - injection H as <-. apply Ascii.eqb_refl.
  - apply String.eqb_eq in H. congruence.
  - injection H as <-. apply String.eqb_refl.
Qed.

Lemma jchar_eqb_refl a : jchar_eqb a a = true.
Proof. apply jchar_eqb_eq. reflexivity. Qed.

Lemma jstring_eqb_eq a b : jstring_eqb a b = true <-> a = b.
Proof.
  revert b. induction a as [|x a IH]; intros [|y b]; cbn; try (split; congruence).
  rewrite andb_true_iff, jchar_eqb_eq, IH. split; [intros [-> ->]; reflexivity|].
  intros H. injection H as -> ->. auto.
Qed.

Lemma jstring_eqb_refl a : jstring_eqb a a = true.
Proof. apply jstring_eqb_eq. reflexivity. Qed.

Lemma is_prefix_spec p s : is_prefix p s = true <-> exists t, s = p ++ t.
Proof.
  revert s. induction p as [|a p IH]; intros [|b s]; cbn.
  - split; eauto.
  - split; eauto.
  - split; [discriminate|intros [t Ht]; discriminate].
  - rewrite andb_true_iff, jchar_eqb_eq, IH. split.
    + intros [-> [t ->]]. eauto.
    + intros [t Ht]. injection Ht as -> ->. eauto.
Qed.

(** [includes] is substring search. *)
Lemma includes_spec s p : includes s p = true <-> exists a b, s = a ++ p ++ b.
Proof.
  induction s as [|j s IH]; cbn [includes]; rewrite orb_true_iff, is_prefix_spec.
  - split.
    + intros [[t Ht]|H]; [exists [], t; exact Ht|discriminate].
    + intros (a & b & Hab). left. destruct a; [eauto|discriminate].
  - rewrite IH. split.
    + intros [[t Ht]|(a & b & Hab)]; [exists [], t; exact Ht|].
      exists (j :: a), b. cbn. congruence.
    + intros ([|c a] & b & Hab); [left; eauto|right].
      injection Hab as _ Hab. eauto.
Qed.

Lemma drop_ws_suffix s : exists a, s = a ++ drop_ws s /\ Forall (fun j => is_ws j = true) a.
Proof.
  induction s as [|j s IH]; cbn; [exists []; auto|].
  destruct (is_ws j) eqn:E; [|exists []; auto].
  destruct IH as (a & Ha & Hf). exists (j :: a). cbn. split; [congruence|auto].
Qed.

Lemma drop_ws_head s j r : drop_ws s = j :: r -> is_ws j = false.
Proof.
  induction s as [|k s IH]; cbn; [discriminate|].
  destruct (is_ws k) eqn:E; [exact IH|congruence].
Qed.

(** [trim] keeps a middle part of the text, which neither starts nor
    ends with white space. *)
Lemma trim_spec s :
  exists a b, s = a ++ trim s ++ b /\
    (forall j r, trim s = j :: r -> is_ws j = false) /\
    (forall j r, trim s = r ++ [j] -> is_ws j = false).
Proof.
  destruct (drop_ws_suffix s) as (a & Ha & _).
  destruct (drop_ws_suffix (rev (drop_ws s))) as (b & Hb & _).
  exists a, (rev b). unfold trim. set (D := drop_ws (rev (drop_ws s))) in *. split.
  - rewrite Ha at 1. f_equal.
    rewrite <- (rev_involutive (drop_ws s)), Hb, rev_app_distr. reflexivity.
  - split.
    + intros j r Ht.
      assert (Hin : drop_ws s = j :: r ++ rev b).
      { rewrite <- (rev_involutive (drop_ws s)), Hb, rev_app_distr, Ht. reflexivity. }
      apply (drop_ws_head _ _ _ Hin).
    + intros j r Ht. apply (f_equal (@rev _)) in Ht.
      rewrite rev_involutive, rev_app_distr in Ht. cbn in Ht.
      apply (drop_ws_head _ _ _ Ht).
Qed.

Lemma str_app_nil s : (s ++ "")%string = s.
Proof. induction s as [|a s IH]; cbn; congruence. Qed.

(** The first character [decode] reads: its bytes lead the text, and
    either it is complete (the same bytes decode to it in front of any
    text) or it is a truncated sequence taking the rest of the text. *)
Lemma decode_cons s j r :
  decode s = j :: r ->
  (exists rest, s = (jchar_bytes j ++ rest)%string /\ decode rest = r /\
     forall t, decode (jchar_bytes j ++ t) = j :: decode t)
  \/ (s = jchar_bytes j /\ r = []).
Proof.
  destruct s as [|c s]; [cbn; discriminate|]. cbn [decode].
  destruct (byte c <? 128)%nat eqn:E1.
  { intros H; injection H as <- <-. left. exists s. split; [reflexivity|]. split; [reflexivity|].
    intros t. cbn [decode jchar_bytes append]. now rewrite E1. }
  destruct (byte c <? 224)%nat eqn:E2.
  { destruct s as [|c2 s]; intros H; cbn [decode] in H; injection H as <- <-; [right; auto|left].
    exists s. split; [reflexivity|]. split; [reflexivity|]. intros t. cbn [decode jchar_bytes append]. now rewrite E1, E2. }
  destruct (byte c <? 240)%nat eqn:E3.
  { destruct s as [|c2 [|c3 s]]; intros H; cbn [decode] in H; injection H as <- <-; [right; auto|right; auto|left].
    exists s. split; [reflexivity|]. split; [reflexivity|]. intros t. cbn [decode jchar_bytes append]. now rewrite E1, E2, E3. }
  destruct s as [|c2 [|c3 [|c4 s]]]; intros H; cbn [decode] in H; injection H as <- <-; [right; auto..|left].
  exists s. split; [reflexivity|]. split; [reflexivity|]. intros t. cbn [decode jchar_bytes append]. now rewrite E1, E2, E3.
Qed.

Lemma decode_nonempty t : t <> ""%string -> decode t <> [].
Proof. intros Ht Hd. apply Ht. rewrite <- (encode_decode t), Hd. reflexivity. Qed.

(** Any two pieces of decoded text are text of their own: encoding
    either and decoding gives it back. *)
Lemma decode_split s a b : decode s = a ++ b -> decode (encode a) = a /\ decode (encode b) = b.
Proof.
  revert s. induction a as [|j a IH]; intros s H; cbn [app] in H.
  - split; [reflexivity|]. now rewrite <- H, encode_decode.
  - destruct (decode_cons s j (a ++ b) H) as [(rest & Hs & Hr & Hj)|(Hs & Hr)].
    + destruct (IH rest Hr) as [Ha Hb]. split; [|exact Hb]. cbn [encode]. now rewrite Hj, Ha.
    + apply app_eq_nil in Hr as [-> ->]. split; [|reflexivity].
      cbn [encode]. rewrite str_app_nil, <- Hs, H. reflexivity.
Qed.

(** The trimmed text of a string survives a trip through UTF-8. *)
Lemma decode_encode_trim s : decode (encode (trim (decode s))) = trim (decode s).
Proof.
  destruct (trim_spec (decode s)) as (a & b & H & _).
  apply decode_split in H as [_ H]. apply (decode_split _ _ _ H).
Qed.

Lemma trim_incl s : incl (trim s) s.
Proof.
  destruct (trim_spec s) as (a & b & Hs & _). rewrite Hs at 2.
  intros x Hx. apply in_or_app. right. apply in_or_app. left. exact Hx.
Qed.

(** [toLowerCase] leaves no ASCII capital. *)
Lemma to_lower_no_upper s c : In (JAscii c) (to_lower s) -> is_upper c = false.
Proof.
  unfold to_lower. rewrite in_flat_map. intros (j & _ & Hj).
  destruct j as [c'|b]; cbn in Hj.
  - destruct Hj as [Hj|[]]. injection Hj as <-.
    destruct (is_upper c') eqn:E; [|exact E].
    unfold is_upper in *. apply andb_true_iff in E as [E1 E2].
    apply Nat.leb_le in E1. apply Nat.leb_le in E2.
    rewrite byte_ascii_of_nat by lia. apply andb_false_iff. right. apply Nat.leb_gt. lia.
  - repeat match goal with H : context [if ?b then _ else _] |- _ => destruct b end;
      cbn in Hj; repeat destruct Hj as [Hj|Hj]; try discriminate; try contradiction;
      injection Hj as <-; reflexivity.
Qed.

End JsString.
