(* ===== verification/Json.v ===== *)
(** * JSON text: [JSON.stringify] and [JSON.parse]

    The values the program serialises ([localStorage] state of the
    chatbot element, the request bodies of the dashboard, the widget
    and send.js) and parses back.  Texts are [JsString.jstring]s.
    [stringify] follows ECMAScript's SerializeJSONProperty: no white
    space, object members in insertion order, strings escaped by
    QuoteJSONString.  [parse] is a recursive-descent parser with fuel;
    numbers are integers (the program serialises only [Date.now()]
    values and never fractions), a number with a fraction or an exponent
    is not modelled and is rejected.  A last section reads values the
    way the program's client code does: truthiness, property access,
    [String(v)] in template literals, [a || b] chains, and how [fetch]
    settles ([fetch_result], [http_ok]).  This models the JavaScript
    runtime, not code of the repository. *)

From Stdlib Require Import ZArith List String Ascii Bool Lia.
From S2P Require Import Prelude JsString.
Import ListNotations.

Module Json.

Import JsString.
Local Open Scope list_scope.

Inductive json :=
  | JNull
  | JBool (b : bool)
  | JNum (z : Z)
  | JStr (s : jstring)
  | JArr (l : list json)
  | JObj (l : list (jstring * json)).

(** Induction with hypotheses on the elements of arrays and objects. *)
Section JsonInd.
Variable P : json -> Prop.
Hypothesis HNull : P JNull.
Hypothesis HBool : forall b, P (JBool b).
Hypothesis HNum : forall z, P (JNum z).
Hypothesis HStr : forall s, P (JStr s).
Hypothesis HArr : forall l, Forall P l -> P (JArr l).
Hypothesis HObj : forall l, Forall (fun kv => P (snd kv)) l -> P (JObj l).

Fixpoint json_ind' (v : json) : P v :=
  match v with
  | JNull => HNull
  | JBool b => HBool b
  | JNum z => HNum z
  | JStr s => HStr s
  | JArr l => HArr l ((fix go (l : list json) : Forall P l :=
                        match l with
                        | [] => Forall_nil _
                        | x :: r => Forall_cons _ (json_ind' x) (go r)
                        end) l)
  | JObj l => HObj l ((fix go (l : list (jstring * json)) : Forall (fun kv => P (snd kv)) l :=
                        match l with
                        | [] => Forall_nil _
                        | kv :: r => Forall_cons _ (json_ind' (snd kv)) (go r)
                        end) l)
  end.
End JsonInd.

(** ** [JSON.stringify] *)

Definition c (a : ascii) : jchar := JAscii a.

(** The double quote character. *)
Definition dq : ascii := ascii_of_nat 34.

Definition hex_digit (n : nat) : jchar :=
  JAscii (ascii_of_nat (if (n <? 10)%nat then 48 + n else 87 + n)).

(** QuoteJSONString, one character: a backslash before the double
    quote and the backslash, the short escapes of BS, TAB, LF, FF, CR,
    [\u00xx] (lower-case hex) for the other control characters,
    anything else verbatim. *)
Definition escape_char (j : jchar) : jstring :=
  match j with
  | JAscii a =>
      let b := byte a in
      if (b =? 34)%nat then [c "\"; c dq]
      else if (b =? 92)%nat then [c "\"; c "\"]
      else if (b =? 8)%nat then [c "\"; c "b"]
      else if (b =? 9)%nat then [c "\"; c "t"]
      else if (b =? 10)%nat then [c "\"; c "n"]
      else if (b =? 12)%nat then [c "\"; c "f"]
      else if (b =? 13)%nat then [c "\"; c "r"]
      else if (b <? 32)%nat then
        [c "\"; c "u"; c "0"; c "0"; hex_digit (b / 16); hex_digit (b mod 16)]
      else [j]
  | JWide _ => [j]
  end.

Definition quote (s : jstring) : jstring := c dq :: flat_map escape_char s ++ [c dq].

(** Decimal digits of [n], most significant first, pushed onto [acc];
    [fuel] bounds the number of divisions by ten. *)
Fixpoint dec_digits (fuel : nat) (n : Z) (acc : list Z) : list Z :=
  match fuel with
  | O => n :: acc
  | S f => if (n <? 10)%Z then n :: acc else dec_digits f (n / 10) ((n mod 10)%Z :: acc)
  end.

Definition digit_char (d : Z) : jchar := JAscii (ascii_of_nat (48 + Z.to_nat d)).

(** [ToString] of an integral number: the sign and the decimal digits. *)
Definition number_text (z : Z) : jstring :=
  let digits n := map digit_char (dec_digits (Z.to_nat (Z.log2 n)) n []) in
  if (z <? 0)%Z then c "-" :: digits (- z)%Z else digits z.

(** [xs] joined by commas. *)
Fixpoint join (xs : list jstring) : jstring :=
  match xs with
  | [] => []
  | [x] => x
  | x :: r => x ++ c "," :: join r
  end.

Fixpoint stringify (v : json) : jstring :=
  match v with
  | JNull => lit "null"
  | JBool true => lit "true"
  | JBool false => lit "false"
  | JNum z => number_text z
  | JStr s => quote s
  | JArr l => c "[" :: join (map stringify l) ++ [c "]"]
  | JObj l => c "{" :: join (map (fun kv => quote (fst kv) ++ c ":" :: stringify (snd kv)) l)
                 ++ [c "}"]
  end.

(** ** [JSON.parse] *)

(** JSON white space: SPACE, TAB, LF, CR. *)
Definition json_ws (j : jchar) : bool :=
  match j with
  | JAscii a => let b := byte a in (b =? 32)%nat || (b =? 9)%nat || (b =? 10)%nat || (b =? 13)%nat
  | JWide _ => false
  end.

Fixpoint skip_ws (s : jstring) : jstring :=
  match s with j :: r => if json_ws j then skip_ws r else s | [] => [] end.

(** The ASCII character with code [n]. *)
Definition is_char (n : nat) (j : jchar) : bool :=
  match j with JAscii a => (byte a =? n)%nat | JWide _ => false end.

Definition digit_value (j : jchar) : option Z :=
  match j with
  | JAscii a => if (48 <=? byte a)%nat && (byte a <=? 57)%nat then Some (Z.of_nat (byte a - 48)) else None
  | JWide _ => None
  end.

Definition hex_value (j : jchar) : option nat :=
  match j with
  | JAscii a =>
      let b := byte a in
      if (48 <=? b)%nat && (b <=? 57)%nat then Some (b - 48)%nat
      else if (97 <=? b)%nat && (b <=? 102)%nat then Some (b - 87)%nat
      else if (65 <=? b)%nat && (b <=? 70)%nat then Some (b - 55)%nat
      else None
  | JWide _ => None
  end.

Definition hex4 (a b d e : jchar) : option nat :=
  match hex_value a, hex_value b, hex_value d, hex_value e with
  | Some x, Some y, Some z, Some w => Some (((x * 16 + y) * 16 + z) * 16 + w)%nat
  | _, _, _, _ => None
  end.

(** The character of a [\uXXXX] escape, as UTF-8 (one code unit: a
    surrogate half stays a character of its own). *)
Definition of_code_unit (n : nat) : jchar :=
  if (n <? 128)%nat then JAscii (ascii_of_nat n)
  else if (n <? 2048)%nat then
    JWide (String (ascii_of_nat (192 + n / 64)) (String (ascii_of_nat (128 + n mod 64)) EmptyString))
  else
    JWide (String (ascii_of_nat (224 + n / 4096))
             (String (ascii_of_nat (128 + (n / 64) mod 64))
                (String (ascii_of_nat (128 + n mod 64)) EmptyString))).

(** The character a short escape [\x] stands for. *)
Definition short_escape (e : jchar) : option jchar :=
  if is_char 34 e then Some (c dq)
  else if is_char 92 e then Some (c "\")
  else if is_char 47 e then Some (c "/")
  else if is_char 98 e then Some (JAscii (ascii_of_nat 8))
  else if is_char 102 e then Some (JAscii (ascii_of_nat 12))
  else if is_char 110 e then Some (JAscii (ascii_of_nat 10))
  else if is_char 114 e then Some (JAscii (ascii_of_nat 13))
  else if is_char 116 e then Some (JAscii (ascii_of_nat 9))
  else None.

Definition is_control (j : jchar) : bool :=
  match j with JAscii a => (byte a <? 32)%nat | JWide _ => false end.

Definition cons_fst {A B} (x : A) (p : list A * B) : list A * B := (x :: fst p, snd p).

(** The body of a string literal after its opening quote, up to and
    including the closing quote. *)
Fixpoint parse_chars (s : jstring) : option (jstring * jstring) :=
  match s with
  | [] => None
  | j :: r =>
      if is_char 34 j then Some ([], r)
      else if is_char 92 j then
        match r with
        | [] => None
        | e :: r2 =>
            match short_escape e with
            | Some x => option_map (cons_fst x) (parse_chars r2)
            | None =>
                if is_char 117 e then
                  match r2 with
                  | h1 :: h2 :: h3 :: h4 :: r3 =>
                      match hex4 h1 h2 h3 h4 with
                      | Some n => option_map (cons_fst (of_code_unit n)) (parse_chars r3)
                      | None => None
                      end
                  | _ => None
                  end
                else None
            end
        end
      else if is_control j then None
      else option_map (cons_fst j) (parse_chars r)
  end.

Fixpoint digits_acc (acc : Z) (s : jstring) : Z * jstring :=
  match s with
  | j :: r => match digit_value j with
              | Some d => digits_acc (acc * 10 + d)%Z r
              | None => (acc, s)
              end
  | [] => (acc, [])
  end.

(** An integer: a leading zero stands alone; a fraction or an exponent
    is not modelled. *)
Definition parse_number (s : jstring) : option (Z * jstring) :=
  let '(neg, s1) := match s with
                    | j :: r => if is_char 45 j then (true, r) else (false, s)
                    | [] => (false, s)
                    end in
  let uint := match s1 with
              | j :: r => match digit_value j with
                          | Some 0%Z => Some (0%Z, r)
                          | Some d => Some (digits_acc d r)
                          | None => None
                          end
              | [] => None
              end in
  match uint with
  | Some (n, r) =>
      match r with
      | j :: _ => if is_char 46 j || is_char 101 j || is_char 69 j then None
                  else Some (if neg then (- n)%Z else n, r)
      | [] => Some (if neg then (- n)%Z else n, r)
      end
  | None => None
  end.

Fixpoint parse_value (n : nat) (s : jstring) {struct n} : option (json * jstring) :=
  match n with
  | O => None
  | S n' =>
      match skip_ws s with
      | [] => None
      | j :: r =>
          if is_char 123 j then
            match skip_ws r with
            | k :: r' =>
                if is_char 125 k then Some (JObj [], r')
                else option_map (fun p => (JObj (fst p), snd p)) (parse_members n' (k :: r'))
            | [] => None
            end
          else if is_char 91 j then
            match skip_ws r with
            | k :: r' =>
                if is_char 93 k then Some (JArr [], r')
                else option_map (fun p => (JArr (fst p), snd p)) (parse_elems n' (k :: r'))
            | [] => None
            end
          else if is_char 34 j then option_map (fun p => (JStr (fst p), snd p)) (parse_chars r)
          else if is_prefix (lit "true") (j :: r) then Some (JBool true, skipn 4 (j :: r))
          else if is_prefix (lit "false") (j :: r) then Some (JBool false, skipn 5 (j :: r))
          else if is_prefix (lit "null") (j :: r) then Some (JNull, skipn 4 (j :: r))
          else option_map (fun p => (JNum (fst p), snd p)) (parse_number (j :: r))
      end
  end
with parse_elems (n : nat) (s : jstring) {struct n} : option (list json * jstring) :=
  match n with
  | O => None
  | S n' =>
      match parse_value n' s with
      | None => None
      | Some (v, r) =>
          match skip_ws r with
          | k :: r' =>
              if is_char 44 k then option_map (cons_fst v) (parse_elems n' r')
              else if is_char 93 k then Some ([v], r')
              else None
          | [] => None
          end
      end
  end
with parse_members (n : nat) (s : jstring) {struct n}
    : option (list (jstring * json) * jstring) :=
  match n with
  | O => None
  | S n' =>
      match skip_ws s with
      | q :: r =>
          if is_char 34 q then
            match parse_chars r with
            | None => None
            | Some (key, r1) =>
                match skip_ws r1 with
                | col :: r2 =>
                    if is_char 58 col then
                      match parse_value n' r2 with
                      | None => None
                      | Some (v, r3) =>
                          match skip_ws r3 with
                          | k :: r4 =>
                              if is_char 44 k then option_map (cons_fst (key, v)) (parse_members n' r4)
                              else if is_char 125 k then Some ([(key, v)], r4)
                              else None
                          | [] => None
                          end
                      end
                    else None
                | [] => None
                end
            end
          else None
      | [] => None
      end
  end.

(** [JSON.parse]: one value, white space around it and nothing else
    ([None] is the [SyntaxError]). *)
Definition parse (s : jstring) : option json :=
  match parse_value (2 * List.length s + 1) s with
  | Some (v, r) => match skip_ws r with [] => Some v | _ => None end
  | None => None
  end.

(** A property of an object: the last member with that key, as
    [JSON.parse] keeps it. *)
Fixpoint member (k : jstring) (l : list (jstring * json)) : option json :=
  match l with
  | [] => None
  | (k', v) :: r =>
      match member k r with
      | Some w => Some w
      | None => if jstring_eqb k k' then Some v else None
      end
  end.

(** ** Parsed values as JavaScript code reads them *)

(** [!!v] for a property value; [None] is [undefined]. *)
Definition truthy (o : option json) : bool :=
  match o with
  | None | Some JNull => false
  | Some (JBool b) => b
  | Some (JNum z) => negb (Z.eqb z 0)
  | Some (JStr s) => match s with [] => false | _ => true end
  | Some (JArr _) | Some (JObj _) => true
  end.

(** [v.k] on a value that is not [null], for the keys the program
    reads from parsed JSON ([isOpen], [messages], [role], [content],
    [ts], [error], [reply], [message], [text], [email], ...): an own property of an object ([member] keeps
    the last of duplicated keys, as [JSON.parse] does), [undefined] on
    arrays and primitives. *)
Definition prop (v : json) (k : jstring) : option json :=
  match v with JObj l => member k l | _ => None end.

(** [String(v)] as a template literal applies it: arrays are joined
    with commas, [null] elements becoming empty. *)
Fixpoint to_text (v : json) : jstring :=
  match v with
  | JNull => lit "null"
  | JBool b => if b then lit "true" else lit "false"
  | JNum z => number_text z
  | JStr s => s
  | JArr l => join (map (fun x => match x with JNull => [] | _ => to_text x end) l)
  | JObj _ => lit "[object Object]"
  end.

Definition template (o : option json) : jstring :=
  match o with None => lit "undefined" | Some v => to_text v end.

(** [a || b || ... || d] over property values: the first truthy one. *)
Fixpoint first_truthy (l : list (option json)) (d : json) : json :=
  match l with
  | [] => d
  | o :: r => if truthy o then match o with Some v => v | None => d end
              else first_truthy r d
  end.

(** A nullable string as a JSON value. *)
Definition opt_str (o : option jstring) : json :=
  match o with Some s => JStr s | None => JNull end.

(** How [fetch] settles: a rejection with its message, or a response
    with its status and the text of its body. *)
Inductive fetch_result := NetworkError (msg : jstring) | Response (status : Z) (body : jstring).

(** [res.ok] *)
Definition http_ok (st : Z) : bool := (200 <=? st)%Z && (st <=? 299)%Z.


(** ** Strings and numbers read back *)

(** One escaped character is read back as itself (checked for all 256
    ASCII characters). *)
Lemma parse_escape j t :
  parse_chars (escape_char j ++ t) = option_map (cons_fst j) (parse_chars t).
Proof.
  destruct j as [a|b]; [|reflexivity].
  destruct a as [[] [] [] [] [] [] [] []]; reflexivity.
Qed.

Lemma parse_quote s rest :
  parse_chars (flat_map escape_char s ++ c dq :: rest) = Some (s, rest).
Proof.
  induction s as [|j s IH]; [reflexivity|].
  cbn [flat_map]. rewrite <- app_assoc, parse_escape, IH. reflexivity.
Qed.

Definition digit_step (a d : Z) : Z := (a * 10 + d)%Z.

Lemma dec_digits_spec f : forall n acc,
  (0 <= n < 10 ^ Z.of_nat (S f))%Z ->
  exists d ds, dec_digits f n acc = d :: ds ++ acc /\ (0 <= d < 10)%Z /\ ((1 <= n)%Z -> (1 <= d)%Z) /\
    Forall (fun x => 0 <= x < 10)%Z ds /\ fold_left digit_step ds d = n.
Proof.
  induction f as [|f IH]; intros n acc Hn; cbn [dec_digits].
  - exists n, []. cbn in Hn. repeat split; auto; lia.
  - destruct (n <? 10)%Z eqn:E; zbool.
    + exists n, []. repeat split; auto; lia.
    + rewrite Nat2Z.inj_succ, Z.pow_succ_r in Hn by lia.
      destruct (IH (n / 10)%Z ((n mod 10)%Z :: acc) ltac:(zlia)) as (d & ds & Hd & Hr & H1 & Hf & Hv).
      exists d, (ds ++ [(n mod 10)%Z]). rewrite <- app_assoc.
      refine (conj Hd (conj Hr (conj _ (conj _ _)))).
      * intros _. apply H1. zlia.
      * apply Forall_app. split; [exact Hf|constructor; [zlia|constructor]].
      * rewrite fold_left_app, Hv. cbn. unfold digit_step. zlia.
Qed.

Lemma digit_value_char d : (0 <= d < 10)%Z -> digit_value (digit_char d) = Some d.
Proof.
  intros Hd. unfold digit_value, digit_char. rewrite byte_ascii_of_nat by lia.
  replace ((48 <=? 48 + Z.to_nat d)%nat && (48 + Z.to_nat d <=? 57)%nat) with true
    by (symmetry; apply andb_true_iff; split; apply Nat.leb_le; lia).
  f_equal. lia.
Qed.

Definition number_stop (rest : jstring) : Prop :=
  match rest with
  | j :: _ => digit_value j = None /\ (is_char 46 j || is_char 101 j || is_char 69 j) = false
  | [] => True
  end.

Lemma digits_acc_text ds acc rest :
  Forall (fun x => 0 <= x < 10)%Z ds -> number_stop rest ->
  digits_acc acc (map digit_char ds ++ rest) = (fold_left digit_step ds acc, rest).
Proof.
  intros Hf Hs. revert acc. induction Hf as [|d ds Hd _ IH]; intros acc.
  - destruct rest as [|j r]; cbn; [reflexivity|]. now rewrite (proj1 Hs).
  - cbn [map app digits_acc]. rewrite digit_value_char by exact Hd. apply IH.
Qed.

Lemma log2_digits n : (1 <= n)%Z -> (n < 10 ^ Z.of_nat (S (Z.to_nat (Z.log2 n))))%Z.
Proof.
  intros Hn. pose proof (Z.log2_spec n ltac:(lia)) as [_ H2]. pose proof (Z.log2_nonneg n).
  rewrite Nat2Z.inj_succ, Z2Nat.id by lia.
  eapply Z.lt_le_trans; [exact H2|]. apply Z.pow_le_mono_l. lia.
Qed.

Lemma parse_digits n rest :
  (0 <= n)%Z -> number_stop rest ->
  exists d r, map digit_char (dec_digits (Z.to_nat (Z.log2 n)) n []) ++ rest = digit_char d :: r /\
    (0 <= d < 10)%Z /\ ((1 <= n)%Z -> (1 <= d)%Z) /\
    (((1 <= n)%Z -> digits_acc d r = (n, rest)) /\ (n = 0%Z -> d = 0%Z /\ r = rest)).
Proof.
  intros Hn Hs. destruct (Z.eq_dec n 0) as [->|Hnz].
  - exists 0%Z, rest. repeat split; auto; lia.
  - destruct (dec_digits_spec _ n [] (conj Hn (log2_digits n ltac:(lia)))) as (d & ds & Hd & Hr & H1 & Hf & Hv).
    rewrite Hd, app_nil_r. exists d, (map digit_char ds ++ rest). repeat split; auto; try lia.
    intros _. rewrite digits_acc_text by assumption. now rewrite Hv.
Qed.

(** An integer is read back from its decimal text. *)
Lemma parse_number_text z rest :
  number_stop rest -> parse_number (number_text z ++ rest) = Some (z, rest).
Proof.
  intros Hs. unfold number_text. destruct (z <? 0)%Z eqn:Ez; zbool.
  - destruct (parse_digits (- z) rest ltac:(lia) Hs) as (d & r & Hr & Hd & H1 & Hv & _).
    cbn [app]. unfold parse_number. cbn [is_char c]. rewrite Hr.
    replace ((byte "-" =? 45)%nat) with true by reflexivity. cbn beta iota zeta.
    rewrite digit_value_char by exact Hd.
    destruct d as [|p|p]; [lia| |lia]. rewrite (Hv ltac:(lia)).
    destruct rest as [|j t]; cbn [number_stop] in Hs; [f_equal; f_equal; lia|].
    rewrite (proj2 Hs). f_equal. f_equal. lia.
  - destruct (parse_digits z rest ltac:(lia) Hs) as (d & r & Hr & Hd & H1 & Hv & H0).
    unfold parse_number. rewrite Hr.
    replace (is_char 45 (digit_char d)) with false
      by (unfold is_char, digit_char; rewrite byte_ascii_of_nat by lia; symmetry; apply Nat.eqb_neq; lia).
    rewrite digit_value_char by exact Hd.
    destruct d as [|p|p]; [| |lia].
    + assert (z = 0%Z) as -> by (destruct (Z.eq_dec z 0); auto; specialize (H1 ltac:(lia)); lia).
      rewrite (proj2 (H0 eq_refl)). destruct rest as [|j t]; cbn [number_stop] in Hs; [reflexivity|].
      now rewrite (proj2 Hs).
    + assert (Hz : (1 <= z)%Z) by (destruct (Z.eq_dec z 0) as [E|E]; [specialize (H0 E); lia|lia]).
      rewrite (Hv Hz).
      destruct rest as [|j t]; cbn [number_stop] in Hs; [reflexivity|]. now rewrite (proj2 Hs).
Qed.

(** ** Values read back *)

(** The fuel [parse_value] needs for a value: one per nesting level and
    per element. *)
Fixpoint need (v : json) : nat :=
  match v with
  | JArr l => S (list_sum (map (fun x => S (need x)) l))
  | JObj l => S (list_sum (map (fun kv => S (need (snd kv))) l))
  | _ => 1
  end.

Definition member_text (kv : jstring * json) : jstring := quote (fst kv) ++ c ":" :: stringify (snd kv).

Lemma skip_ws_cons x t : json_ws x = false -> skip_ws (x :: t) = x :: t.
Proof. intros H. cbn. now rewrite H. Qed.

Lemma number_text_cons z :
  exists x t, number_text z = x :: t /\ (x = c "-" \/ exists d, (0 <= d < 10)%Z /\ x = digit_char d).
Proof.
  unfold number_text. destruct (z <? 0)%Z eqn:E; zbool.
  - eexists _, _. split; [reflexivity|left; reflexivity].
  - destruct (parse_digits z [] ltac:(lia) I) as (d & r & Hr & Hd & _).
    rewrite app_nil_r in Hr. rewrite Hr. eexists _, _. split; [reflexivity|right; eauto].
Qed.

Lemma parse_value_scalar n x t :
  json_ws x = false -> is_char 123 x = false -> is_char 91 x = false -> is_char 34 x = false ->
  is_prefix (lit "true") (x :: t) = false -> is_prefix (lit "false") (x :: t) = false ->
  is_prefix (lit "null") (x :: t) = false ->
  parse_value (S n) (x :: t) = option_map (fun p => (JNum (fst p), snd p)) (parse_number (x :: t)).
Proof.
  intros H1 H2 H3 H4 H5 H6 H7. cbn [parse_value]. rewrite skip_ws_cons by exact H1.
  now rewrite H2, H3, H4, H5, H6, H7.
Qed.

Lemma parse_value_number n z rest :
  number_stop rest -> parse_value (S n) (number_text z ++ rest) = Some (JNum z, rest).
Proof.
  intros Hs. pose proof (parse_number_text z rest Hs) as Hp.
  destruct (number_text_cons z) as (x & t & Ht & [->|(d & Hd & ->)]); rewrite Ht in *; cbn [app] in *.
  - rewrite parse_value_scalar, Hp by reflexivity. reflexivity.
  - assert (d = 0 \/ d = 1 \/ d = 2 \/ d = 3 \/ d = 4 \/ d = 5 \/ d = 6 \/ d = 7 \/ d = 8 \/ d = 9)%Z
      as Hc by lia.
    repeat destruct Hc as [->|Hc]; try subst d; rewrite parse_value_scalar, Hp by reflexivity; reflexivity.
Qed.

Lemma stringify_head v :
  exists x t, stringify v = x :: t /\ json_ws x = false /\ is_char 93 x = false /\ is_char 125 x = false.
Proof.
  destruct v as [| [] |z|s|l|l]; try (eexists _, _; split; [reflexivity|auto]).
  destruct (number_text_cons z) as (x & t & Ht & [->|(d & Hd & ->)]); cbn [stringify]; rewrite Ht.
  - eexists _, _. split; [reflexivity|auto].
  - eexists _, _. split; [reflexivity|]. unfold json_ws, is_char, digit_char.
    rewrite byte_ascii_of_nat by lia.
    repeat split; repeat (apply orb_false_iff; split); apply Nat.eqb_neq; lia.
Qed.

Lemma join_map_cons {A} (f : A -> jstring) x l :
  exists t, join (map f (x :: l)) = f x ++ t /\ (l = [] -> t = []).
Proof.
  destruct l as [|y l]; cbn [map join].
  - exists []. now rewrite app_nil_r.
  - eexists. split; [reflexivity|discriminate].
Qed.

(** A non-empty list of values, as [parse_elems] reads it. *)
Lemma parse_elems_text l :
  Forall (fun v => forall n rest, need v <= n -> number_stop rest ->
                   parse_value n (stringify v ++ rest) = Some (v, rest)) l ->
  l <> [] -> forall n rest, list_sum (map (fun x => S (need x)) l) <= n ->
  parse_elems n (join (map stringify l) ++ c "]" :: rest) = Some (l, rest).
Proof.
  induction 1 as [|v l Hv Hl IH]; intros Hne n rest Hn; [congruence|].
  cbn [map list_sum fold_right] in Hn. destruct n as [|n]; [lia|].
  destruct l as [|w l].
  - cbn [map join parse_elems]. rewrite Hv by (cbn in *; auto; lia). reflexivity.
  - change (join (map stringify (v :: w :: l))) with (stringify v ++ c "," :: join (map stringify (w :: l))).
    cbn [parse_elems]. rewrite <- app_assoc. cbn [app]. rewrite Hv by (cbn in *; auto; lia).
    rewrite skip_ws_cons by reflexivity. replace (is_char 44 (c ",")) with true by reflexivity.
    rewrite IH by (discriminate || (unfold list_sum; lia)). reflexivity.
Qed.

(** The key and the colon of a member are read back. *)
Lemma parse_members_key n k v u :
  parse_members (S n) (member_text (k, v) ++ u) =
  match parse_value n (stringify v ++ u) with
  | None => None
  | Some (v', r3) =>
      match skip_ws r3 with
      | k' :: r4 =>
          if is_char 44 k' then option_map (cons_fst (k, v')) (parse_members n r4)
          else if is_char 125 k' then Some ([(k, v')], r4)
          else None
      | [] => None
      end
  end.
Proof.
  unfold member_text, quote. cbn [fst snd app parse_members]. rewrite skip_ws_cons by reflexivity.
  replace (is_char 34 (c dq)) with true by reflexivity.
  rewrite <- !app_assoc. cbn [app]. rewrite parse_quote.
  rewrite skip_ws_cons by reflexivity. replace (is_char 58 (c ":")) with true by reflexivity.
  reflexivity.
Qed.

Lemma parse_members_text l :
  Forall (fun kv => forall n rest, need (snd kv) <= n -> number_stop rest ->
                    parse_value n (stringify (snd kv) ++ rest) = Some (snd kv, rest)) l ->
  l <> [] -> forall n rest, list_sum (map (fun kv => S (need (snd kv))) l) <= n ->
  parse_members n (join (map member_text l) ++ c "}" :: rest) = Some (l, rest).
Proof.
  induction 1 as [|[k v] l Hv Hl IH]; intros Hne n rest Hn; [congruence|].
  cbn [map list_sum fold_right snd] in Hn, Hv. destruct n as [|n]; [lia|].
  destruct l as [|w l].
  - change (join (map member_text [(k, v)])) with (member_text (k, v)).
    rewrite parse_members_key, Hv by (cbn; auto; lia). reflexivity.
  - change (join (map member_text ((k, v) :: w :: l)))
      with (member_text (k, v) ++ c "," :: join (map member_text (w :: l))).
    rewrite <- app_assoc. cbn [app]. rewrite parse_members_key, Hv by (cbn; auto; lia).
    rewrite skip_ws_cons by reflexivity. replace (is_char 44 (c ",")) with true by reflexivity.
    rewrite IH by (discriminate || (unfold list_sum; lia)). reflexivity.
Qed.

Lemma parse_value_array n u :
  parse_value (S n) (c "[" :: u) =
  match skip_ws u with
  | k :: r' => if is_char 93 k then Some (JArr [], r')
               else option_map (fun p => (JArr (fst p), snd p)) (parse_elems n (k :: r'))
  | [] => None
  end.
Proof. cbn [parse_value]. rewrite skip_ws_cons by reflexivity. reflexivity. Qed.

Lemma parse_value_object n u :
  parse_value (S n) (c "{" :: u) =
  match skip_ws u with
  | k :: r' => if is_char 125 k then Some (JObj [], r')
               else option_map (fun p => (JObj (fst p), snd p)) (parse_members n (k :: r'))
  | [] => None
  end.
Proof. cbn [parse_value]. rewrite skip_ws_cons by reflexivity. reflexivity. Qed.

(** Every value is read back from its text, given the fuel it needs and
    a continuation that does not extend a number. *)
Lemma parse_value_text v :
  forall n rest, need v <= n -> number_stop rest -> parse_value n (stringify v ++ rest) = Some (v, rest).
Proof.
  induction v as [| [] |z|s|l IH|l IH] using json_ind'; intros n rest Hn Hs;
    destruct n as [|n]; cbn [need] in Hn; try lia.
  - reflexivity.
  - reflexivity.
  - reflexivity.
  - now apply parse_value_number.
  - cbn [stringify]. unfold quote. cbn [app parse_value]. rewrite skip_ws_cons by reflexivity.
    cbn -[parse_chars flat_map]. rewrite <- app_assoc. cbn [app]. now rewrite parse_quote.
  - destruct l as [|v l]; [reflexivity|].
    destruct (stringify_head v) as (x & t & Hx & Hw & H93 & _).
    destruct (join_map_cons stringify v l) as (u & Hu & _).
    cbn [stringify app]. rewrite parse_value_array, <- app_assoc. cbn [app].
    assert (HT : join (map stringify (v :: l)) ++ c "]" :: rest = x :: (t ++ u ++ c "]" :: rest))
      by (rewrite Hu, Hx; cbn [app]; now rewrite <- !app_assoc).
    rewrite HT, skip_ws_cons, H93 by exact Hw. rewrite <- HT.
    rewrite (parse_elems_text (v :: l) IH ltac:(discriminate) n rest ltac:(lia)). reflexivity.
  - destruct l as [|kv l]; [reflexivity|].
    destruct (join_map_cons member_text kv l) as (u & Hu & _).
    assert (Hm : exists t, member_text kv = c dq :: t) by (eexists; reflexivity).
    destruct Hm as (t & Hm).
    cbn [stringify app]. rewrite parse_value_object, <- app_assoc. cbn [app].
    change (map (fun kv => quote (fst kv) ++ c ":" :: stringify (snd kv)) (kv :: l))
      with (map member_text (kv :: l)).
    assert (HT : join (map member_text (kv :: l)) ++ c "}" :: rest = c dq :: (t ++ u ++ c "}" :: rest))
      by (rewrite Hu, Hm; cbn [app]; now rewrite <- !app_assoc).
    rewrite HT, skip_ws_cons by reflexivity. replace (is_char 125 (c dq)) with false by reflexivity.
    rewrite <- HT.
    rewrite (parse_members_text (kv :: l) IH ltac:(discriminate) n rest ltac:(lia)). reflexivity.
Qed.

Lemma join_length xs : list_sum (map (fun x => S (List.length x)) xs) <= S (List.length (join xs)).
Proof.
  induction xs as [|x xs IH]; [cbn; lia|].
  destruct xs as [|y r]; cbn [map list_sum fold_right join] in *; [lia|].
  rewrite length_app. cbn [List.length]. lia.
Qed.

Lemma list_sum_map_le {A} (f g : A -> nat) l :
  (forall x, In x l -> f x <= g x) -> list_sum (map f l) <= list_sum (map g l).
Proof.
  induction l as [|x l IH]; intros H; cbn [map list_sum fold_right]; [lia|].
  pose proof (H x (or_introl eq_refl)). specialize (IH (fun y Hy => H y (or_intror Hy))).
  unfold list_sum in IH. lia.
Qed.

Lemma need_le_length v : need v <= List.length (stringify v).
Proof.
  induction v as [|b|z|s|l IH|l IH] using json_ind'; cbn [need];
    try (match goal with |- 1 <= List.length (stringify ?w) =>
           destruct (stringify_head w) as (x & t & Ht & _); rewrite Ht; cbn; lia end).
  - cbn [stringify List.length]. rewrite length_app. cbn [List.length].
    pose proof (join_length (map stringify l)). rewrite map_map in H.
    enough (list_sum (map (fun x => S (need x)) l) <= list_sum (map (fun x => S (List.length (stringify x))) l))
      by lia.
    apply list_sum_map_le. rewrite Forall_forall in IH. intros x Hx. specialize (IH x Hx). lia.
  - cbn [stringify List.length]. rewrite length_app. cbn [List.length].
    pose proof (join_length (map member_text l)). rewrite map_map in H.
    change (map (fun kv => quote (fst kv) ++ c ":" :: stringify (snd kv)) l) with (map member_text l).
    enough (list_sum (map (fun kv => S (need (snd kv))) l) <=
            list_sum (map (fun kv => S (List.length (member_text kv))) l)) by lia.
    apply list_sum_map_le. rewrite Forall_forall in IH. intros kv Hkv. specialize (IH kv Hkv).
    unfold member_text. rewrite length_app. cbn [List.length]. lia.
Qed.

(** [JSON.parse] reads back what [JSON.stringify] writes. *)
Theorem parse_stringify v : parse (stringify v) = Some v.
Proof.
  unfold parse. pose proof (need_le_length v).
  rewrite <- (app_nil_r (stringify v)) at 2.
  rewrite parse_value_text by (exact I || lia). reflexivity.
Qed.

(** ** The fuel is enough *)

Lemma skip_ws_length s : List.length (skip_ws s) <= List.length s.
Proof. induction s as [|j s IH]; cbn; [lia|]. destruct (json_ws j); cbn; lia. Qed.

Lemma option_map_Some {A B} (f : A -> B) o y : option_map f o = Some y -> exists x, o = Some x /\ f x = y.
Proof. destruct o; cbn; [intros H; injection H as <-; eauto|discriminate]. Qed.

Lemma parse_chars_length s t r : parse_chars s = Some (t, r) -> List.length r < List.length s.
Proof.
  revert t r. induction s as [s IH] using (induction_ltof1 _ (@List.length jchar)); unfold ltof in IH.
  intros t r H. destruct s as [|j r0]; [discriminate|]. cbn [parse_chars] in H.
  destruct (is_char 34 j); [injection H as _ <-; cbn; lia|].
  destruct (is_char 92 j).
  - destruct r0 as [|e r2]; [discriminate|].
    destruct (short_escape e).
    + apply option_map_Some in H as ([t' r'] & H & Hx). injection Hx as _ <-.
      apply IH in H; cbn in *; lia.
    + destruct (is_char 117 e); [|discriminate].
      destruct r2 as [|h1 [|h2 [|h3 [|h4 r3]]]]; try discriminate.
      destruct hex4; [|discriminate].
      apply option_map_Some in H as ([t' r'] & H & Hx). injection Hx as _ <-.
      apply IH in H; cbn in *; lia.
  - destruct (is_control j); [discriminate|].
    apply option_map_Some in H as ([t' r'] & H & Hx). injection Hx as _ <-.
    apply IH in H; cbn in *; lia.
Qed.

Lemma digits_acc_length acc s : List.length (snd (digits_acc acc s)) <= List.length s.
Proof.
  revert acc. induction s as [|j s IH]; intros acc; cbn; [lia|].
  destruct (digit_value j); [specialize (IH (acc * 10 + z)%Z); lia|cbn; lia].
Qed.

Lemma parse_number_length s z r : parse_number s = Some (z, r) -> List.length r < List.length s.
Proof.
  unfold parse_number. intros H.
  assert (Hs : exists neg s1, (match s with j :: r0 => if is_char 45 j then (true, r0) else (false, s)
                                | [] => (false, s) end) = (neg, s1) /\ List.length s1 <= List.length s)
    by (destruct s as [|j r0]; [|destruct (is_char 45 j)]; eexists _, _; split; try reflexivity; cbn; lia).
  destruct Hs as (neg & s1 & Hs & Hl). rewrite Hs in H.
  destruct s1 as [|j r0]; [discriminate|]. cbn [List.length] in Hl.
  destruct (digit_value j) as [[|d|d]|].
  - destruct r0 as [|k t]; [injection H as _ <-; cbn; lia|].
    destruct (_ || _ || _); [discriminate|]. injection H as _ <-. cbn in *; lia.
  - pose proof (digits_acc_length (Z.pos d) r0). destruct (digits_acc (Z.pos d) r0) as [n r1].
    cbn [snd] in *. destruct r1 as [|k t]; [injection H as _ <-; cbn; lia|].
    destruct (_ || _ || _); [discriminate|]. injection H as _ <-. cbn in *; lia.
  - pose proof (digits_acc_length (Z.neg d) r0). destruct (digits_acc (Z.neg d) r0) as [n r1].
    cbn [snd] in *. destruct r1 as [|k t]; [injection H as _ <-; cbn; lia|].
    destruct (_ || _ || _); [discriminate|]. injection H as _ <-. cbn in *; lia.
  - discriminate.
Qed.

(** The equations of the parser, one level at a time. *)
Lemma parse_value_unfold n s : parse_value (S n) s =
      match skip_ws s with
      | [] => None
      | j :: r =>
          if is_char 123 j then
            match skip_ws r with
            | k :: r' =>
                if is_char 125 k then Some (JObj [], r')
                else option_map (fun p => (JObj (fst p), snd p)) (parse_members n (k :: r'))
            | [] => None
            end
          else if is_char 91 j then
            match skip_ws r with
            | k :: r' =>
                if is_char 93 k then Some (JArr [], r')
                else option_map (fun p => (JArr (fst p), snd p)) (parse_elems n (k :: r'))
            | [] => None
            end
          else if is_char 34 j then option_map (fun p => (JStr (fst p), snd p)) (parse_chars r)
          else if is_prefix (lit "true") (j :: r) then Some (JBool true, skipn 4 (j :: r))
          else if is_prefix (lit "false") (j :: r) then Some (JBool false, skipn 5 (j :: r))
          else if is_prefix (lit "null") (j :: r) then Some (JNull, skipn 4 (j :: r))
          else option_map (fun p => (JNum (fst p), snd p)) (parse_number (j :: r))
      end.
Proof. reflexivity. Qed.

Lemma parse_elems_unfold n s : parse_elems (S n) s =
      match parse_value n s with
      | None => None
      | Some (v, r) =>
          match skip_ws r with
          | k :: r' =>
              if is_char 44 k then option_map (cons_fst v) (parse_elems n r')
              else if is_char 93 k then Some ([v], r')
              else None
          | [] => None
          end
      end.
Proof. reflexivity. Qed.

Lemma parse_members_unfold n s :
  parse_members (S n) s =
      match skip_ws s with
      | q :: r =>
          if is_char 34 q then
            match parse_chars r with
            | None => None
            | Some (key, r1) =>
                match skip_ws r1 with
                | col :: r2 =>
                    if is_char 58 col then
                      match parse_value n r2 with
                      | None => None
                      | Some (v, r3) =>
                          match skip_ws r3 with
                          | k :: r4 =>
                              if is_char 44 k then option_map (cons_fst (key, v)) (parse_members n r4)
                              else if is_char 125 k then Some ([(key, v)], r4)
                              else None
                          | [] => None
                          end
                      end
                    else None
                | [] => None
                end
            end
          else None
      | [] => None
      end.
Proof. reflexivity. Qed.

(** Every successful parse consumes input. *)
Lemma parse_consumes n :
  (forall s v r, parse_value n s = Some (v, r) -> List.length r < List.length s) /\
  (forall s l r, parse_elems n s = Some (l, r) -> List.length r < List.length s) /\
  (forall s l r, parse_members n s = Some (l, r) -> List.length r < List.length s).
Proof.
  induction n as [|n (IHv & IHe & IHm)]; [repeat split; discriminate|].
  repeat split.
  - intros s v r H. cbn [parse_value] in H. pose proof (skip_ws_length s).
    destruct (skip_ws s) as [|j r0]; [discriminate|]. cbn [List.length] in *.
    destruct (is_char 123 j); [|destruct (is_char 91 j)].
    + pose proof (skip_ws_length r0). destruct (skip_ws r0) as [|k r']; [discriminate|].
      cbn [List.length] in *. destruct (is_char 125 k); [injection H as _ <-; lia|].
      apply option_map_Some in H as ([m t] & E & Hx). injection Hx as _ <-.
      apply IHm in E. cbn [List.length] in E. lia.
    + pose proof (skip_ws_length r0). destruct (skip_ws r0) as [|k r']; [discriminate|].
      cbn [List.length] in *. destruct (is_char 93 k); [injection H as _ <-; lia|].
      apply option_map_Some in H as ([m t] & E & Hx). injection Hx as _ <-.
      apply IHe in E. cbn [List.length] in E. lia.
    + destruct (is_char 34 j).
      { apply option_map_Some in H as ([m t] & E & Hx). injection Hx as _ <-.
        apply parse_chars_length in E. lia. }
      destruct (is_prefix (lit "true") (j :: r0)).
      { injection H as _ <-. destruct r0 as [|a [|b [|d [|e t]]]]; cbn in *; lia. }
      destruct (is_prefix (lit "false") (j :: r0)).
      { injection H as _ <-. destruct r0 as [|a [|b [|d [|e t]]]]; cbn in *; lia. }
      destruct (is_prefix (lit "null") (j :: r0)).
      { injection H as _ <-. destruct r0 as [|a [|b [|d [|e t]]]]; cbn in *; lia. }
      apply option_map_Some in H as ([m t] & E & Hx). injection Hx as _ <-.
      apply parse_number_length in E. cbn [List.length] in E. lia.
  - intros s l r H. cbn [parse_elems] in H.
    destruct (parse_value n s) as [[v r1]|] eqn:E; [|discriminate]. apply IHv in E.
    pose proof (skip_ws_length r1). destruct (skip_ws r1) as [|k r']; [discriminate|].
    cbn [List.length] in *. destruct (is_char 44 k).
    + apply option_map_Some in H as ([m t] & E2 & Hx). injection Hx as _ <-. apply IHe in E2. lia.
    + destruct (is_char 93 k); [injection H as _ <-; lia|discriminate].
  - intros s l r H. cbn [parse_members] in H. pose proof (skip_ws_length s).
    destruct (skip_ws s) as [|q r0]; [discriminate|]. cbn [List.length] in *.
    destruct (is_char 34 q); [|discriminate].
    destruct (parse_chars r0) as [[key r1]|] eqn:E1; [|discriminate]. apply parse_chars_length in E1.
    pose proof (skip_ws_length r1). destruct (skip_ws r1) as [|col r2]; [discriminate|].
    cbn [List.length] in *. destruct (is_char 58 col); [|discriminate].
    destruct (parse_value n r2) as [[v r3]|] eqn:E3; [|discriminate]. apply IHv in E3.
    pose proof (skip_ws_length r3). destruct (skip_ws r3) as [|k r4]; [discriminate|].
    cbn [List.length] in *. destruct (is_char 44 k).
    + apply option_map_Some in H as ([m t] & E4 & Hx). injection Hx as _ <-. apply IHm in E4. lia.
    + destruct (is_char 125 k); [injection H as _ <-; lia|discriminate].
Qed.

(** One more unit of fuel changes nothing once the fuel is twice the
    length of the text. *)
Lemma parse_fuel_step n :
  (forall s, 2 * List.length s + 1 <= n -> parse_value (S n) s = parse_value n s) /\
  (forall s, 2 * List.length s + 2 <= n -> parse_elems (S n) s = parse_elems n s) /\
  (forall s, 2 * List.length s + 2 <= n -> parse_members (S n) s = parse_members n s).
Proof.
  induction n as [|n (IHv & IHe & IHm)]; [repeat split; intros; lia|].
  destruct (parse_consumes n) as (Cv & _ & _).
  repeat split.
  - intros s Hn. rewrite !parse_value_unfold. pose proof (skip_ws_length s).
    destruct (skip_ws s) as [|j r0]; [reflexivity|]. cbn [List.length] in *.
    destruct (is_char 123 j); [|destruct (is_char 91 j)].
    + pose proof (skip_ws_length r0). destruct (skip_ws r0) as [|k r']; [reflexivity|].
      cbn [List.length] in *. destruct (is_char 125 k); [reflexivity|].
      rewrite IHm by (cbn [List.length]; lia). reflexivity.
    + pose proof (skip_ws_length r0). destruct (skip_ws r0) as [|k r']; [reflexivity|].
      cbn [List.length] in *. destruct (is_char 93 k); [reflexivity|].
      rewrite IHe by (cbn [List.length]; lia). reflexivity.
    + reflexivity.
  - intros s Hn. rewrite !parse_elems_unfold. rewrite IHv by lia.
    destruct (parse_value n s) as [[v r1]|] eqn:E; [|reflexivity]. apply Cv in E.
    pose proof (skip_ws_length r1). destruct (skip_ws r1) as [|k r']; [reflexivity|].
    cbn [List.length] in *. destruct (is_char 44 k); [|reflexivity].
    rewrite IHe by lia. reflexivity.
  - intros s Hn. rewrite !parse_members_unfold. pose proof (skip_ws_length s).
    destruct (skip_ws s) as [|q r0]; [reflexivity|]. cbn [List.length] in *.
    destruct (is_char 34 q); [|reflexivity].
    destruct (parse_chars r0) as [[key r1]|] eqn:E1; [|reflexivity]. apply parse_chars_length in E1.
    pose proof (skip_ws_length r1). destruct (skip_ws r1) as [|col r2]; [reflexivity|].
    cbn [List.length] in *. destruct (is_char 58 col); [|reflexivity].
    rewrite IHv by lia.
    destruct (parse_value n r2) as [[v r3]|] eqn:E3; [|reflexivity]. apply Cv in E3.
    pose proof (skip_ws_length r3). destruct (skip_ws r3) as [|k r4]; [reflexivity|].
    cbn [List.length] in *. destruct (is_char 44 k); [|reflexivity].
    rewrite IHm by lia. reflexivity.
Qed.



Definition str_member (k : jstring) (l : list (jstring * json)) : option jstring :=
  match member k l with Some (JStr s) => Some s | _ => None end.

(** ** Witnesses *)


End Json.
