(* ===== verification/Layout.v ===== *)
(** * The layout engine of dashboard.js

    The pure computations of [src/public/js/dashboard.js]: the hour
    labels ([generateHours]), the time label ([formatTime]), the colour
    of a title ([getColor], [getTodoColor]), and what each renderer
    appends to [#eventsColumn]: the positioned blocks of
    [renderHourView]/[renderEvent], the seven day columns of
    [renderWeekView] and the cells of [renderMonthView].  A renderer
    takes the local offset [tz], the current time [now] (the value of
    [new Date()] during the call) and [calendarEvents]; a renderer that
    throws returns what it appended before the exception.  [Dashboard]
    applies these results to the DOM state. *)

From Stdlib Require Import ZArith List String Ascii Bool Lia.
From Stdlib Require Import PrimFloat.
From S2P Require Import Prelude Civil JsNumber JsDate JsString.
Import ListNotations.

Module Layout.

Import JsNumber.
Import JsString (str_truthy, str_or, js_length).
Local Open Scope cal_scope.

(** ** The events as fetched from [/calendar/events]

    Google's JSON: [{ summary?, start: { dateTime?, date? }, end: ... }].
    An absent property is [None]. *)
Record event_time := { dateTime : option string; date : option string }.

Record cal_event := {
  summary : option string;
  start : option event_time;
  end_ : option event_time
}.

(** [new Date(x)] on a string or [undefined] (the latter is NaN). *)
Definition new_date (tz : Z) (o : option string) : JsDate.time_value :=
  match o with Some s => JsDate.parse tz s | None => None end.

(** [event.summary || 'Untitled'] *)
Definition title_of (e : cal_event) : string :=
  match str_or (summary e) None with Some s => s | None => "Untitled"%string end.

(** ** Helpers *)

Definition palette : list string :=
  ["#A78BFA"; "#60A5FA"; "#34D399"; "#F472B6"; "#FBBF24"]%string.

Definition getColor (text : string) : string :=
  nth (js_length text mod List.length palette) palette ""%string.

Definition todo_palette : list string :=
  ["purple"; "blue"; "green"; "pink"; "orange"]%string.

Definition getTodoColor (index : nat) : string :=
  nth (index mod List.length todo_palette) todo_palette ""%string.

Local Open Scope float_scope.

(** [formatTime(h)]: hour [Math.floor(h)], minutes [Math.round((h % 1) * 60)],
    printed as [`${hour % 12 || 12}:${min === 0 ? '00' : min}`]. *)
Definition formatTime (h : float) : string :=
  let hour := js_floor h in
  let min := js_round (js_rem h 1 * 60) in
  let r := js_rem hour 12 in
  (to_display (if truthy r then r else 12) ++ ":" ++
   (if PrimFloat.eqb min 0 then "00" else to_display min))%string.

Local Close Scope float_scope.

(** ** [generateHours] *)

Definition hour_label (i : Z) : string :=
  let displayHour := if (i mod 12 =? 0)%Z then 12%Z else (i mod 12)%Z in
  let period := if (i <? 12)%Z then "AM"%string else "PM"%string in
  (z_to_string displayHour ++ " " ++ period)%string.

Definition generateHours : list string :=
  map (fun i => hour_label (Z.of_nat i)) (seq 0 24).

(** ** The hour view: [renderHourView] and [renderEvent] *)

Record block := {
  b_title : string;
  b_top : float;         (* style.top, in px *)
  b_height : float;      (* style.height, in px *)
  b_color : string;      (* style.background *)
  b_html : string        (* innerHTML *)
}.

Local Open Scope float_scope.

Definition renderEvent (title : string) (start end_h : float) : block :=
  {| b_title := title;
     b_top := start * 60;
     b_height := (end_h - start) * 60;
     b_color := getColor title;
     b_html := ("
    <strong>" ++ title ++ "</strong>
    <span>" ++ formatTime start ++ " – " ++ formatTime end_h ++ "</span>
  ")%string |}.

(** [d.getHours() + d.getMinutes() / 60]; NaN for an invalid date. *)
Definition fractional_hour (tz : Z) (tv : JsDate.time_value) : float :=
  match tv with
  | Some t => of_Z (JsDate.get_hours tz t) + of_Z (JsDate.get_minutes tz t) / 60
  | None => nan
  end.

Local Close Scope float_scope.

(** The block of one event, or [None] when the guard
    [!event.start?.dateTime || !event.end?.dateTime] returns early. *)
Definition hour_block (tz : Z) (e : cal_event) : option block :=
  match start e, end_ e with
  | Some s, Some en =>
      if str_truthy (dateTime s) && str_truthy (dateTime en) then
        Some (renderEvent (title_of e)
                (fractional_hour tz (new_date tz (dateTime s)))
                (fractional_hour tz (new_date tz (dateTime en))))
      else None
  | _, _ => None
  end.

Definition renderHourView (tz : Z) (events : list cal_event) : list block :=
  flat_map (fun e => match hour_block tz e with Some b => [b] | None => [] end) events.

(** ** Exceptions *)

(** The renderers of the week and month views read [event.start.dateTime]
    without optional chaining: an event without [start] throws. *)
Inductive js_error := TypeError.

(** [new Date(event.start.dateTime || event.start.date)], or the
    [TypeError] of reading a property of [undefined]. *)
Definition start_value (tz : Z) (e : cal_event) : option JsDate.time_value :=
  match start e with
  | None => None
  | Some s => Some (new_date tz (str_or (dateTime s) (date s)))
  end.

Definition date_string_eqb (a b : JsDate.date_string) : bool :=
  match a, b with
  | JsDate.DS_invalid, JsDate.DS_invalid => true
  | JsDate.DS w y m d, JsDate.DS w' y' m' d' =>
      (w =? w')%Z && (y =? y')%Z && (m =? m')%Z && (d =? d')%Z
  | _, _ => false
  end.

(** ** The week view: [renderWeekView] *)

Record week_column := {
  wc_header : option (Z * Z * Z);  (* weekday, month, date; None: "Invalid Date" *)
  wc_events : list string          (* the titles, in the order of the events *)
}.

(** [weekStart.setDate(weekStart.getDate() - weekStart.getDay())] *)
Definition week_start (tz now : Z) : JsDate.time_value :=
  JsDate.set_date tz now (JsDate.get_date tz now - JsDate.get_day tz now).

(** [dayDate = new Date(weekStart); dayDate.setDate(weekStart.getDate() + d)] *)
Definition day_date (tz : Z) (ws : JsDate.time_value) (d : Z) : JsDate.time_value :=
  match ws with
  | Some w => JsDate.set_date tz w (JsDate.get_date tz w + d)
  | None => None
  end.

Definition locale_header (tz : Z) (dd : JsDate.time_value) : option (Z * Z * Z) :=
  match dd with
  | Some t => Some (JsDate.get_day tz t, JsDate.get_month tz t, JsDate.get_date tz t)
  | None => None
  end.

(** The titles of the events whose start has the same [toDateString()] as
    [dayDate]; [None] when an event throws. *)
Fixpoint week_bucket (tz : Z) (dd : JsDate.time_value) (events : list cal_event)
  : option (list string) :=
  match events with
  | [] => Some []
  | e :: r =>
      let? sv := start_value tz e in
      let? rest := week_bucket tz dd r in
      Some (if date_string_eqb (JsDate.to_date_string tz sv) (JsDate.to_date_string tz dd)
            then title_of e :: rest else rest)
  end.

(** The loop [for (let d = 0; d < 7; d++)]: the columns appended before
    an exception, and the exception. *)
Fixpoint week_columns (tz : Z) (ws : JsDate.time_value) (events : list cal_event)
  (ds : list Z) : list week_column * option js_error :=
  match ds with
  | [] => ([], None)
  | d :: ds' =>
      let dd := day_date tz ws d in
      match week_bucket tz dd events with
      | None => ([], Some TypeError)
      | Some titles =>
          let '(cols, err) := week_columns tz ws events ds' in
          ({| wc_header := locale_header tz dd; wc_events := titles |} :: cols, err)
      end
  end.

Definition renderWeekView (tz now : Z) (events : list cal_event)
  : list week_column * option js_error :=
  week_columns tz (week_start tz now) events (map Z.of_nat (seq 0 7)).

(** ** The month view: [renderMonthView] *)

Inductive month_cell :=
| Blank                              (* a leading empty cell *)
| DayCell (day : Z) (badge : option nat).  (* the count, shown when > 0 *)

(** [start.getDate() === day && start.getMonth() === month &&
    start.getFullYear() === year]; NaN compares unequal. *)
Definition starts_on (tz y mon d : Z) (sv : JsDate.time_value) : bool :=
  match sv with
  | Some t => (JsDate.get_date tz t =? d)%Z && (JsDate.get_month tz t =? mon)%Z
              && (JsDate.get_full_year tz t =? y)%Z
  | None => false
  end.

Fixpoint count_on (tz y mon d : Z) (events : list cal_event) : option nat :=
  match events with
  | [] => Some O
  | e :: r =>
      let? sv := start_value tz e in
      let? n := count_on tz y mon d r in
      Some (if starts_on tz y mon d sv then S n else n)
  end.

Definition badge (n : nat) : option nat := if (0 <? n)%nat then Some n else None.

Fixpoint month_days (tz y mon : Z) (events : list cal_event) (days : list Z)
  : list month_cell * option js_error :=
  match days with
  | [] => ([], None)
  | d :: ds =>
      match count_on tz y mon d events with
      | None => ([], Some TypeError)
      | Some n =>
          let '(cells, err) := month_days tz y mon events ds in
          (DayCell d (badge n) :: cells, err)
      end
  end.

(** A loop bound that is NaN runs no iteration. *)
Definition loop_count (v : option Z) : nat :=
  match v with Some n => Z.to_nat n | None => O end.

Definition first_day (tz y mon : Z) : option Z :=
  option_map (JsDate.get_day tz) (JsDate.new_date_ymd tz y mon 1).

Definition days_in_month_of (tz y mon : Z) : option Z :=
  option_map (JsDate.get_date tz) (JsDate.new_date_ymd tz y (mon + 1) 0).

Definition renderMonthView (tz now : Z) (events : list cal_event)
  : list month_cell * option js_error :=
  let year := JsDate.get_full_year tz now in
  let month := JsDate.get_month tz now in
  let blanks := repeat Blank (loop_count (first_day tz year month)) in
  let '(cells, err) :=
    month_days tz year month events
      (map (fun i => Z.of_nat i + 1)%Z (seq 0 (loop_count (days_in_month_of tz year month)))) in
  (blanks ++ cells, err).

(** ** Properties of the labels and colours *)

(** [generateHours] makes 24 distinct labels, from "12 AM" to "11 PM". *)
Theorem generateHours_spec :
  List.length generateHours = 24%nat /\ NoDup generateHours /\
  nth 0 generateHours ""%string = "12 AM"%string /\
  nth 12 generateHours ""%string = "12 PM"%string.
Proof.
  split; [reflexivity|]. split; [|split; reflexivity].
  apply (nodupb_NoDup String.eqb String.eqb_eq). vm_compute. reflexivity.
Qed.

(** [getColor] always yields one of the five palette colours, chosen by
    the length of the title in UTF-16 code units. *)
Theorem getColor_palette text :
  In (getColor text) palette /\
  getColor text = nth (js_length text mod 5) palette ""%string.
Proof.
  split; [|reflexivity]. unfold getColor. apply nth_In. cbn [List.length palette].
  apply Nat.mod_upper_bound. discriminate.
Qed.

(** ** Properties of the hour view *)

(** The clock label [formatTime] means to print for [h:m]. *)
Definition clock_label (h m : Z) : string :=
  (z_to_string (if (h mod 12 =? 0)%Z then 12%Z else (h mod 12)%Z) ++ ":" ++
   (if (m =? 0)%Z then "00" else z_to_string m))%string.

Definition minute_of_day (h m : Z) : Z := (60 * h + m)%Z.

Local Open Scope float_scope.

Definition hr (h m : Z) : float := of_Z h + of_Z m / 60.

Definition top_tolerance : float := 0x1p-40.

Definition top_ok (h m : Z) : bool :=
  match integral_value (js_round (hr h m * 60)) with
  | Some z => (z =? minute_of_day h m)%Z
  | None => false
  end && (PrimFloat.abs (hr h m * 60 - of_Z (minute_of_day h m)) <? top_tolerance).

Definition label_ok (h m : Z) : bool := String.eqb (formatTime (hr h m)) (clock_label h m).

Local Close Scope float_scope.

(** Every minute of a day, checked by evaluation. *)
Definition all_minutes (P : Z -> Z -> bool) : bool :=
  check (fun h => check (fun m => P h m) over 0 .. 60) over 0 .. 24.

Lemma all_minutes_spec P :
  all_minutes P = true -> forall h m, (0 <= h < 24)%Z -> (0 <= m < 60)%Z -> P h m = true.
Proof.
  intros H h m Hh Hm.
  exact (check_between_spec _ _ _ (check_between_spec _ _ _ H h Hh) m Hm).
Qed.

Lemma top_ok_all : all_minutes top_ok = true.
Proof. vm_compute. reflexivity. Qed.

Lemma label_ok_all : all_minutes label_ok = true.
Proof. vm_compute. reflexivity. Qed.

Lemma fractional_hour_hr tz t :
  fractional_hour tz (Some t) = hr (JsDate.get_hours tz t) (JsDate.get_minutes tz t).
Proof. reflexivity. Qed.

(** Instantiate a per-minute check at the local time of [t]. *)
Lemma minute_check_at P tz t :
  all_minutes P = true -> P (JsDate.get_hours tz t) (JsDate.get_minutes tz t) = true.
Proof.
  intros H. apply (all_minutes_spec P H);
    [apply JsDate.get_hours_range | apply JsDate.get_minutes_range].
Qed.

(** The time label of a block prints the local hour on a 12-hour clock
    and the minutes without zero padding: 9:05 prints as "9:5". *)
Theorem formatTime_clock tz t :
  formatTime (fractional_hour tz (Some t)) =
  clock_label (JsDate.get_hours tz t) (JsDate.get_minutes tz t).
Proof.
  rewrite fractional_hour_hr. apply String.eqb_eq.
  exact (minute_check_at label_ok tz t label_ok_all).
Qed.

(** The vertical offset of a block is the minute of the day of its start
    up to binary64 rounding: [Math.round] of it is exactly that minute,
    and it is within 2^-40 px of it. *)
Theorem renderEvent_top tz t title e :
  let top := b_top (renderEvent title (fractional_hour tz (Some t)) e) in
  integral_value (js_round top) =
    Some (minute_of_day (JsDate.get_hours tz t) (JsDate.get_minutes tz t)) /\
  (PrimFloat.abs (top - of_Z (minute_of_day (JsDate.get_hours tz t) (JsDate.get_minutes tz t)))
     <? top_tolerance)%float = true.
Proof.
  cbn zeta. unfold renderEvent, b_top. rewrite fractional_hour_hr.
  pose proof (minute_check_at top_ok tz t top_ok_all) as H. unfold top_ok in H.
  destruct (integral_value _) as [z|]; [|discriminate].
  zbool. subst z. split; [reflexivity|assumption].
Qed.

Definition has_times (e : cal_event) : bool :=
  match start e, end_ e with
  | Some s, Some en => str_truthy (dateTime s) && str_truthy (dateTime en)
  | _, _ => false
  end.

(** The hour view draws one block per event with both a start and an end
    [dateTime], in order, whatever the date of the event; all-day events
    and events missing a bound are skipped. *)
Theorem renderHourView_titles tz evs :
  map b_title (renderHourView tz evs) = map title_of (filter has_times evs).
Proof.
  induction evs as [|e evs IH]; [reflexivity|].
  cbn [renderHourView flat_map filter]. unfold hour_block, has_times.
  destruct (start e) as [s|], (end_ e) as [en|]; try exact IH.
  destruct (str_truthy (dateTime s) && str_truthy (dateTime en)); cbn; [f_equal|]; exact IH.
Qed.

(** [renderEvent] writes the title into [innerHTML] unescaped. *)
Theorem renderEvent_html_raw title start end_h :
  exists pre post, b_html (renderEvent title start end_h) = (pre ++ title ++ post)%string.
Proof. eexists _, _. reflexivity. Qed.

(** An event written with local date-times ("YYYY-MM-DDTHH:mm", no
    offset) is drawn from its wall-clock hours and minutes. *)
Definition timed_event (title : option string) (y m d h mi y' m' d' h' mi' : Z) : cal_event :=
  {| summary := title;
     start := Some {| dateTime := Some (JsDate.iso_local y m d h mi); date := None |};
     end_ := Some {| dateTime := Some (JsDate.iso_local y' m' d' h' mi'); date := None |} |}.

Lemma iso_local_truthy y m d h mi : str_truthy (Some (JsDate.iso_local y m d h mi)) = true.
Proof. reflexivity. Qed.

(** The block of such an event is [renderEvent] at its wall-clock start
    and end, [hh + mm/60]. *)
Theorem hour_block_timed tz title y m d h mi y' m' d' h' mi' :
  (-1440 < tz < 1440)%Z ->
  (0 <= y <= 9999)%Z -> Civil.valid_date y m d = true -> (0 <= h < 24)%Z -> (0 <= mi < 60)%Z ->
  (0 <= y' <= 9999)%Z -> Civil.valid_date y' m' d' = true -> (0 <= h' < 24)%Z -> (0 <= mi' < 60)%Z ->
  hour_block tz (timed_event title y m d h mi y' m' d' h' mi') =
  Some (renderEvent (title_of (timed_event title y m d h mi y' m' d' h' mi')) (hr h mi) (hr h' mi')).
Proof.
  intros Htz Hy Hv Hh Hm Hy' Hv' Hh' Hm'.
  destruct (JsDate.parse_iso_local tz y m d h mi Htz Hy Hv Hh Hm) as (t & Ht & Hth & Htm & _).
  destruct (JsDate.parse_iso_local tz y' m' d' h' mi' Htz Hy' Hv' Hh' Hm')
    as (t' & Ht' & Hth' & Htm' & _).
  unfold hour_block, timed_event. cbn [start end_ dateTime].
  rewrite !iso_local_truthy. cbn [andb new_date]. rewrite Ht, Ht', !fractional_hour_hr.
  now rewrite Hth, Htm, Hth', Htm'.
Qed.

(** ** Properties of the week and month views *)

Definition has_start (e : cal_event) : bool :=
  match start e with Some _ => true | None => false end.

(** The start time value read by the week and month views. *)
Definition start_tv (tz : Z) (e : cal_event) : JsDate.time_value :=
  match start e with Some s => new_date tz (str_or (dateTime s) (date s)) | None => None end.

Lemma start_value_has_start tz e :
  has_start e = true -> start_value tz e = Some (start_tv tz e).
Proof. unfold has_start, start_value, start_tv. destruct (start e); congruence. Qed.

Lemma start_value_no_start tz e : has_start e = false -> start_value tz e = None.
Proof. unfold has_start, start_value. destruct (start e); congruence. Qed.

#[export] Hint Rewrite start_value_has_start start_value_no_start using assumption : cal_rw.

Lemma date_string_eqb_days tz a b :
  date_string_eqb (JsDate.to_date_string tz (Some a)) (JsDate.to_date_string tz (Some b)) =
  (JsDate.day (JsDate.local_time tz a) =? JsDate.day (JsDate.local_time tz b))%Z.
Proof.
  simpl. pose proof (JsDate.same_local_date tz a b) as H.
  unfold JsDate.get_day.
  destruct (Z.eqb_spec (JsDate.day (JsDate.local_time tz a)) (JsDate.day (JsDate.local_time tz b)))
    as [E|E].
  - destruct (proj2 H E) as (-> & -> & ->). rewrite E, !Z.eqb_refl. reflexivity.
  - destruct (Z.eqb_spec (JsDate.get_date tz a) (JsDate.get_date tz b)),
      (Z.eqb_spec (JsDate.get_month tz a) (JsDate.get_month tz b)),
      (Z.eqb_spec (JsDate.get_full_year tz a) (JsDate.get_full_year tz b));
      rewrite ?andb_false_r; auto.
    exfalso. apply E, H. auto.
Qed.

(** Does the event start on local day number [k]? *)
Definition starts_on_day (tz k : Z) (e : cal_event) : bool :=
  match start_tv tz e with
  | Some t => (JsDate.day (JsDate.local_time tz t) =? k)%Z
  | None => false
  end.

Lemma week_bucket_ok tz w evs :
  forallb has_start evs = true ->
  week_bucket tz (Some w) evs =
  Some (map title_of (filter (starts_on_day tz (JsDate.day (JsDate.local_time tz w))) evs)).
Proof.
  induction evs as [|e evs IH]; cbn [week_bucket forallb]; [reflexivity|]. intros H. zbool.
  rewrite start_value_has_start by assumption. cbn [obind]. rewrite IH by assumption.
  cbn [obind filter map].
  assert (Hk : date_string_eqb (JsDate.to_date_string tz (start_tv tz e))
                 (JsDate.to_date_string tz (Some w))
               = starts_on_day tz (JsDate.day (JsDate.local_time tz w)) e).
  { unfold starts_on_day. destruct (start_tv tz e); [apply date_string_eqb_days|reflexivity]. }
  rewrite Hk. destruct (starts_on_day _ _ e); reflexivity.
Qed.

(** A renderer loop throws exactly when some event has no [start]. *)
Lemma week_bucket_none tz dd evs :
  week_bucket tz dd evs = None <-> forallb has_start evs = false.
Proof.
  induction evs as [|e evs IH]; simpl; [split; discriminate|].
  destruct (has_start e) eqn:He; simpl.
  - rewrite start_value_has_start by assumption. simpl.
    rewrite <- IH. destruct (week_bucket tz dd evs); simpl; split; congruence.
  - rewrite start_value_no_start by assumption. simpl. split; reflexivity.
Qed.

Lemma week_columns_ok tz ws evs ds :
  (forall d, In d ds -> exists w, day_date tz ws d = Some w) ->
  forallb has_start evs = true ->
  week_columns tz ws evs ds =
  (map (fun d => {| wc_header := locale_header tz (day_date tz ws d);
                   wc_events := match day_date tz ws d with
                                | Some w => map title_of (filter (starts_on_day tz
                                               (JsDate.day (JsDate.local_time tz w))) evs)
                                | None => [] end |}) ds, None).
Proof.
  intros Hd Hs. induction ds as [|d ds IH]; simpl; [reflexivity|].
  destruct (Hd d (or_introl eq_refl)) as [w Hw]. rewrite Hw, week_bucket_ok by assumption.
  rewrite IH by (intros; apply Hd; simpl; auto). reflexivity.
Qed.

Lemma week_start_eq tz now :
  week_start tz now = JsDate.time_clip (now - JsDate.get_day tz now * JsDate.ms_per_day).
Proof. unfold week_start. rewrite JsDate.set_date_eq. f_equal. lia. Qed.

Lemma time_clip_in t : (Z.abs t <= JsDate.max_time)%Z -> JsDate.time_clip t = Some t.
Proof. unfold JsDate.time_clip. intros H. apply Z.leb_le in H. now rewrite H. Qed.

(** The day columns are the seven days from the last Sunday on. *)
Lemma day_date_eq tz now d :
  (Z.abs now + 7 * JsDate.ms_per_day <= JsDate.max_time)%Z -> (0 <= d < 7)%Z ->
  day_date tz (week_start tz now) d =
  Some (now + (d - JsDate.get_day tz now) * JsDate.ms_per_day)%Z.
Proof.
  intros Hn Hd. pose proof (JsDate.get_day_range tz now).
  rewrite week_start_eq, time_clip_in by (unfold JsDate.ms_per_day in *; lia).
  simpl. rewrite JsDate.set_date_eq, time_clip_in by (unfold JsDate.ms_per_day in *; lia).
  f_equal. lia.
Qed.

Lemma nth_error_days (n d : nat) :
  nth_error (map Z.of_nat (seq 0 n)) d = if (d <? n)%nat then Some (Z.of_nat d) else None.
Proof.
  rewrite nth_error_map, nth_error_seq.
  destruct (Nat.ltb_spec d n); reflexivity.
Qed.

(** C10: The week view shows seven columns, Sunday first: column [d] is the
    day [d - getDay()] days from today, headed by weekday [d], and lists,
    in the order of [calendarEvents], the titles of the events starting
    on that local day. *)
Theorem renderWeekView_columns tz now evs :
  forallb has_start evs = true ->
  (Z.abs now + 7 * JsDate.ms_per_day <= JsDate.max_time)%Z ->
  let '(cols, err) := renderWeekView tz now evs in
  err = None /\ List.length cols = 7%nat /\
  forall d col, nth_error cols d = Some col ->
    let k := (JsDate.day (JsDate.local_time tz now) - JsDate.get_day tz now + Z.of_nat d)%Z in
    (exists mo dt, wc_header col = Some (Z.of_nat d, mo, dt)) /\
    wc_events col = map title_of (filter (starts_on_day tz k) evs).
Proof.
  intros Hs Hn. unfold renderWeekView.
  rewrite week_columns_ok; [|intros d Hd|exact Hs].
  2:{ apply in_map_iff in Hd as (i & <- & Hi). apply in_seq in Hi.
      eexists. apply day_date_eq; [exact Hn|lia]. }
  split; [reflexivity|]. split; [rewrite length_map, length_map, length_seq; reflexivity|].
  intros d col Hc. rewrite nth_error_map, nth_error_days in Hc.
  destruct (Nat.ltb_spec d 7) as [Hd|]; [|discriminate]. cbn [option_map] in Hc. apply Some_eq_inv in Hc; subst col. cbn zeta.
  pose proof (JsDate.get_day_range tz now).
  rewrite day_date_eq by (exact Hn || lia). 
  cbn [wc_header wc_events locale_header]. split.
  - rewrite JsDate.get_day_shift.
    replace ((JsDate.get_day tz now + (Z.of_nat d - JsDate.get_day tz now)) mod 7)%Z with (Z.of_nat d) by zlia.
    eauto.
  - rewrite JsDate.local_time_shift, JsDate.day_shift.
    replace (JsDate.day (JsDate.local_time tz now) + (Z.of_nat d - JsDate.get_day tz now))%Z
      with (JsDate.day (JsDate.local_time tz now) - JsDate.get_day tz now + Z.of_nat d)%Z by lia.
    reflexivity.
Qed.

(** C34: An event without [start] makes [renderWeekView] throw before the
    first column is appended. *)
Theorem renderWeekView_throws tz now evs :
  forallb has_start evs = false -> renderWeekView tz now evs = ([], Some TypeError).
Proof.
  intros Hs. unfold renderWeekView. cbn [seq map week_columns].
  apply (week_bucket_none tz (day_date tz (week_start tz now) (Z.of_nat 0))) in Hs.
  now rewrite Hs.
Qed.

(** *** The month view *)

Lemma count_on_ok tz y mon d evs :
  forallb has_start evs = true ->
  count_on tz y mon d evs =
  Some (List.length (filter (fun e => starts_on tz y mon d (start_tv tz e)) evs)).
Proof.
  induction evs as [|e evs IH]; cbn [count_on forallb]; [reflexivity|]. intros H. zbool.
  rewrite start_value_has_start by assumption. cbn [obind]. rewrite IH by assumption.
  cbn [obind filter]. destruct (starts_on _ _ _ _ _); reflexivity.
Qed.

Lemma count_on_none tz y mon d evs :
  count_on tz y mon d evs = None <-> forallb has_start evs = false.
Proof.
  induction evs as [|e evs IH]; cbn [count_on forallb]; [split; discriminate|].
  destruct (has_start e) eqn:He; cbn [andb].
  - rewrite start_value_has_start by assumption. cbn [obind].
    rewrite <- IH. destruct (count_on tz y mon d evs); cbn [obind]; split; congruence.
  - rewrite start_value_no_start by assumption. split; reflexivity.
Qed.

Definition day_count (tz y mon d : Z) (evs : list cal_event) : nat :=
  List.length (filter (fun e => starts_on tz y mon d (start_tv tz e)) evs).

Lemma month_days_ok tz y mon evs ds :
  forallb has_start evs = true ->
  month_days tz y mon evs ds = (map (fun d => DayCell d (badge (day_count tz y mon d evs))) ds, None).
Proof.
  intros H. induction ds as [|d ds IH]; cbn [month_days map]; [reflexivity|].
  rewrite count_on_ok, IH by assumption. reflexivity.
Qed.

Lemma month_days_throws tz y mon evs d ds :
  forallb has_start evs = false -> month_days tz y mon evs (d :: ds) = ([], Some TypeError).
Proof.
  intros H. cbn [month_days]. apply (count_on_none tz y mon d) in H. now rewrite H.
Qed.

(** [new Date(y, mon, dt)] for a date within a few weeks of [now]. *)
Lemma new_date_ymd_near tz now y mon dt delta :
  (99 < y)%Z ->
  Civil.make_day y mon dt = (JsDate.day (JsDate.local_time tz now) + delta)%Z ->
  (-40 <= delta <= 40)%Z ->
  (Z.abs now + 64 * JsDate.ms_per_day <= JsDate.max_time)%Z ->
  exists t, JsDate.new_date_ymd tz y mon dt = Some t /\
    JsDate.day (JsDate.local_time tz t) = Civil.make_day y mon dt.
Proof.
  intros Hy Hmk Hdt Hn.
  assert (Hc : exists t, JsDate.new_date_ymd tz y mon dt = Some t).
  { unfold JsDate.new_date_ymd.
    replace ((0 <=? y)%Z && (y <=? 99)%Z) with false
      by (symmetry; apply andb_false_iff; right; apply Z.leb_gt; lia).
    rewrite Hmk. eexists. apply time_clip_in.
    unfold JsDate.utc, JsDate.make_date, JsDate.day, JsDate.local_time,
      JsDate.ms_per_minute, JsDate.ms_per_day, JsDate.max_time in *. zlia. }
  destruct Hc as [t Ht]. exists t. split; [exact Ht|].
  exact (JsDate.new_date_ymd_day tz y mon dt t Hy Ht).
Qed.

(** The weekday of the 1st and the length of the current month, as the
    month view computes them. *)
Lemma month_bounds tz now :
  let y := JsDate.get_full_year tz now in
  let mon := JsDate.get_month tz now in
  (99 < y)%Z ->
  (Z.abs now + 64 * JsDate.ms_per_day <= JsDate.max_time)%Z ->
  first_day tz y mon = Some (Civil.week_day (Civil.days_from_civil y (mon + 1) 1)) /\
  days_in_month_of tz y mon = Some (Civil.days_in_month y (mon + 1)).
Proof.
  intros y mon Hy Hn.
  destruct (JsDate.local_civil_spec tz now) as [Hv Hd]. fold y mon in Hv, Hd.
  unfold Civil.valid_date in Hv. zbool.
  pose proof (Civil.days_in_month_range y (mon + 1)).
  rewrite Civil.days_from_civil_day in Hd.
  split.
  - assert (Hm : Civil.make_day y mon 1 = Civil.days_from_civil y (mon + 1) 1).
    { replace mon with (mon + 1 - 1)%Z at 1 by lia. apply Civil.make_day_civil. lia. }
    destruct (new_date_ymd_near tz now y mon 1 (1 - JsDate.get_date tz now)) as (t & Ht & Hday); [lia|lia|lia|exact Hn|].
    unfold first_day. rewrite Ht. cbn [option_map]. f_equal.
    unfold JsDate.get_day. rewrite Hday, Hm. reflexivity.
  - assert (Hm : Civil.make_day y (mon + 1) 0 =
                 Civil.days_from_civil y (mon + 1) (Civil.days_in_month y (mon + 1))).
    { apply Civil.make_day_month_end. lia. }
    rewrite Civil.days_from_civil_day in Hm.
    destruct (new_date_ymd_near tz now y (mon + 1) 0
      (Civil.days_in_month y (mon + 1) - JsDate.get_date tz now)) as (t & Ht & Hday); [lia|lia|lia|exact Hn|].
    unfold days_in_month_of. rewrite Ht. cbn [option_map]. f_equal.
    apply (JsDate.local_civil_of_day tz t y (mon + 1)).
    + apply Civil.valid_date_month_end. lia.
    + rewrite Hday, Hm, (Civil.days_from_civil_day y (mon + 1) (Civil.days_in_month y (mon + 1))). lia.
Qed.

(** The month view's field comparison is a comparison of local days. *)
Lemma starts_on_day_eq tz y mon d t :
  Civil.valid_date y (mon + 1) d = true ->
  starts_on tz y mon d (Some t) =
  (JsDate.day (JsDate.local_time tz t) =? Civil.days_from_civil y (mon + 1) d)%Z.
Proof.
  intros Hv. unfold starts_on.
  destruct (JsDate.local_civil_spec tz t) as [Hvt Hdt].
  destruct (Z.eqb_spec (JsDate.day (JsDate.local_time tz t)) (Civil.days_from_civil y (mon + 1) d))
    as [E|E].
  - destruct (JsDate.local_civil_of_day tz t y (mon + 1) d Hv E) as (-> & -> & ->).
    replace (mon + 1 - 1)%Z with mon by lia. rewrite !Z.eqb_refl. reflexivity.
  - destruct (Z.eqb_spec (JsDate.get_date tz t) d), (Z.eqb_spec (JsDate.get_month tz t) mon),
      (Z.eqb_spec (JsDate.get_full_year tz t) y); try reflexivity.
    exfalso. apply E. rewrite <- Hdt. subst. f_equal; lia.
Qed.

Lemma day_count_days tz y mon d evs :
  Civil.valid_date y (mon + 1) d = true ->
  day_count tz y mon d evs =
  List.length (filter (starts_on_day tz (Civil.days_from_civil y (mon + 1) d)) evs).
Proof.
  intros Hv. unfold day_count. f_equal. apply filter_ext. intros e.
  unfold starts_on_day. destruct (start_tv tz e) as [t|]; [|reflexivity].
  apply starts_on_day_eq, Hv.
Qed.

Definition month_day_numbers (n : Z) : list Z := map (fun i => Z.of_nat i + 1)%Z (seq 0 (Z.to_nat n)).

(** C11: The month view: as many blank cells as the weekday of the 1st, then
    one cell per day of the month, carrying the number of events that
    start on that local day when it is positive. *)
Theorem renderMonthView_cells tz now evs :
  let y := JsDate.get_full_year tz now in
  let mon := JsDate.get_month tz now in
  forallb has_start evs = true -> (99 < y)%Z ->
  (Z.abs now + 64 * JsDate.ms_per_day <= JsDate.max_time)%Z ->
  renderMonthView tz now evs =
  (repeat Blank (Z.to_nat (Civil.week_day (Civil.days_from_civil y (mon + 1) 1))) ++
   map (fun d => DayCell d (badge (List.length
          (filter (starts_on_day tz (Civil.days_from_civil y (mon + 1) d)) evs))))
       (month_day_numbers (Civil.days_in_month y (mon + 1))),
   None).
Proof.
  intros y mon Hs Hy Hn.
  destruct (month_bounds tz now Hy Hn) as [Hf Hl]. fold y mon in Hf, Hl.
  destruct (JsDate.local_civil_spec tz now) as [Hv _]. fold y mon in Hv.
  unfold Civil.valid_date in Hv. zbool.
  unfold renderMonthView. fold y mon. rewrite Hf, Hl. cbn [loop_count].
  rewrite month_days_ok by exact Hs. f_equal. f_equal.
  apply map_ext_in. intros d Hd. rewrite day_count_days; [reflexivity|].
  apply in_map_iff in Hd as (i & <- & Hi). apply in_seq in Hi.
  unfold Civil.valid_date. repeat (apply andb_true_iff; split); apply Z.leb_le; lia.
Qed.

(** With an event lacking [start], the month view throws after the blank
    cells: the grid is left without any day cell. *)
Theorem renderMonthView_throws tz now evs :
  let y := JsDate.get_full_year tz now in
  let mon := JsDate.get_month tz now in
  forallb has_start evs = false -> (99 < y)%Z ->
  (Z.abs now + 64 * JsDate.ms_per_day <= JsDate.max_time)%Z ->
  renderMonthView tz now evs =
  (repeat Blank (Z.to_nat (Civil.week_day (Civil.days_from_civil y (mon + 1) 1))), Some TypeError).
Proof.
  intros y mon Hs Hy Hn.
  destruct (month_bounds tz now Hy Hn) as [Hf Hl]. fold y mon in Hf, Hl.
  pose proof (Civil.days_in_month_range y (mon + 1)).
  unfold renderMonthView. fold y mon. rewrite Hf, Hl. cbn [loop_count].
  destruct (Z.to_nat (Civil.days_in_month y (mon + 1))) as [|n] eqn:E; [lia|].
  cbn [seq map]. rewrite month_days_throws by exact Hs. now rewrite app_nil_r.
Qed.

(** *** All-day events *)

Definition all_day_event (title : option string) (y m d : Z) (en : option event_time) : cal_event :=
  {| summary := title;
     start := Some {| dateTime := None; date := Some (JsDate.iso_date y m d) |};
     end_ := en |}.


(** ** Concrete runs *)

Definition standup : cal_event :=
  timed_event (Some "Standup"%string) 2025 1 10 9 0 2025 1 10 9 30.

Definition holiday : cal_event := all_day_event (Some "Holiday"%string) 2025 1 10 None.

Definition undated : cal_event := {| summary := Some "Draft"%string; start := None; end_ := None |}.

(** 2025-01-10T12:00Z, a Friday. *)
Definition friday_noon : Z := 1736510400000.

(** The spec's scenario: a 09:00-09:30 standup is drawn at 540 px, 30 px
    high, labelled "9:00 – 9:30". *)
Example standup_block :
  map (fun b => (integral_value (b_top b), integral_value (b_height b), b_html b))
      (renderHourView 0 [standup; holiday]) =
  [(Some 540%Z, Some 30%Z, "
    <strong>Standup</strong>
    <span>9:00 – 9:30</span>
  "%string)].
Proof. vm_compute. reflexivity. Qed.

(** A block starting at 00:31 is not placed on a whole pixel. *)
Example hour_top_fraction :
  integral_value (b_top (renderEvent "Standup" (hr 0 31) (hr 1 0))) = None.
Proof. vm_compute. reflexivity. Qed.

(** Minutes below ten are not zero-padded. *)
Example formatTime_unpadded : formatTime (hr 9 5) = "9:5"%string.
Proof. vm_compute. reflexivity. Qed.

Ltac witness_bounds := vm_compute; first [reflexivity | discriminate | intros; discriminate].

Lemma renderWeekView_columns_witness :
  forallb has_start [standup; holiday] = true /\
  (Z.abs friday_noon + 7 * JsDate.ms_per_day <= JsDate.max_time)%Z /\
  (let '(cols, err) := renderWeekView 0 friday_noon [standup; holiday] in
   err = None /\ List.length cols = 7%nat /\
   forall d col, nth_error cols d = Some col ->
     let k := (JsDate.day (JsDate.local_time 0 friday_noon) - JsDate.get_day 0 friday_noon
               + Z.of_nat d)%Z in
     (exists mo dt, wc_header col = Some (Z.of_nat d, mo, dt)) /\
     wc_events col = map title_of (filter (starts_on_day 0 k) [standup; holiday])).
Proof.
  split; [reflexivity|]. split; [witness_bounds|].
  apply renderWeekView_columns; [reflexivity|witness_bounds].
Defined.

Lemma renderWeekView_throws_witness :
  forallb has_start [standup; undated] = false /\
  renderWeekView 0 friday_noon [standup; undated] = ([], Some TypeError).
Proof. split; [reflexivity|]. apply renderWeekView_throws. reflexivity. Defined.

Lemma renderMonthView_cells_witness :
  forallb has_start [standup; holiday] = true /\
  (99 < JsDate.get_full_year 0 friday_noon)%Z /\
  (Z.abs friday_noon + 64 * JsDate.ms_per_day <= JsDate.max_time)%Z /\
  renderMonthView 0 friday_noon [standup; holiday] =
  (repeat Blank (Z.to_nat (Civil.week_day (Civil.days_from_civil
     (JsDate.get_full_year 0 friday_noon) (JsDate.get_month 0 friday_noon + 1) 1))) ++
   map (fun d => DayCell d (badge (List.length (filter (starts_on_day 0 (Civil.days_from_civil
          (JsDate.get_full_year 0 friday_noon) (JsDate.get_month 0 friday_noon + 1) d))
          [standup; holiday]))))
       (month_day_numbers (Civil.days_in_month (JsDate.get_full_year 0 friday_noon)
          (JsDate.get_month 0 friday_noon + 1))),
   None).
Proof.
  split; [reflexivity|]. split; [witness_bounds|]. split; [witness_bounds|].
  apply renderMonthView_cells; [reflexivity|witness_bounds|witness_bounds].
Defined.

Lemma renderMonthView_throws_witness :
  forallb has_start [undated] = false /\
  (99 < JsDate.get_full_year 0 friday_noon)%Z /\
  (Z.abs friday_noon + 64 * JsDate.ms_per_day <= JsDate.max_time)%Z /\
  renderMonthView 0 friday_noon [undated] =
  (repeat Blank (Z.to_nat (Civil.week_day (Civil.days_from_civil
     (JsDate.get_full_year 0 friday_noon) (JsDate.get_month 0 friday_noon + 1) 1))),
   Some TypeError).
Proof.
  split; [reflexivity|]. split; [witness_bounds|]. split; [witness_bounds|].
  apply renderMonthView_throws; [reflexivity|witness_bounds|witness_bounds].
Defined.


Lemma hour_block_timed_witness :
  (-1440 < 0 < 1440)%Z /\ Civil.valid_date 2025 1 10 = true /\
  hour_block 0 (timed_event (Some "Standup"%string) 2025 1 10 9 0 2025 1 10 9 30) =
  Some (renderEvent (title_of (timed_event (Some "Standup"%string) 2025 1 10 9 0 2025 1 10 9 30))
          (hr 9 0) (hr 9 30)).
Proof.
  split; [lia|]. split; [reflexivity|].
  apply hour_block_timed; first [lia | reflexivity].
Defined.

End Layout.
