(* ===== verification/Dashboard.v ===== *)
(** * The calendar widget of dashboard.js as a state machine

    The module-level state of [src/public/js/dashboard.js]
    ([calendarEvents], [currentView], [currentTimeLine]) together with
    the parts of the DOM the widget writes: the hour labels of
    [.time-column], the children and inline style of [#eventsColumn],
    where [#calendarContainer] is mounted and its size, whether
    [#calendarModal] is active, which selector item is active, and the
    scroll offset of the events column's parent.  [switchView] and the
    helpers it calls become functions on this state; the handlers (the
    view selector click, the two backdrop listeners, the 60 s interval
    and the arrival of the events) are the events of a transition
    system, and [reachable] is its reflexive-transitive closure from the
    page-load state.  An exception thrown by a renderer leaves the state
    as it was when thrown and ends the handler. *)

From Stdlib Require Import ZArith List String Bool Lia.
From S2P Require Import Prelude Civil JsNumber JsDate Layout.
Import ListNotations.

Module Dashboard.

Import Layout.
Local Open Scope cal_scope.
Local Open Scope string_scope.

(** ** The state *)

Inductive parent := Inline | Modal.

(** A child of [#eventsColumn]. *)
Inductive node :=
| NBlock (b : block)                  (* an [.event] of the hour view *)
| NWeekColumn (c : week_column)       (* a [.week-day] *)
| NMonthCell (c : month_cell)         (* a blank [div] or a [.month-day] *)
| NTimeLine (id : nat) (top : Z).     (* a [.current-time-line], top in px *)

(** The inline style of [#eventsColumn] ([removeAttribute('style')]
    resets it). *)
Record grid_style := { display : option string; columns : option string; gap : option string }.

Definition no_style : grid_style := {| display := None; columns := None; gap := None |}.

Record dom := {
  time_column : list string;               (* the [.hour] labels *)
  time_display : option string;            (* timeColumn.style.display *)
  events_column : list node;
  events_style : grid_style;
  container_parent : parent;               (* inlineWrapper or modalContent *)
  container_size : option (string * string);
  modal_active : bool;                     (* calendarModal has class active *)
  active_item : option string;             (* data-view of the active li *)
  scroll_top : Z;                          (* eventsColumn.parentElement.scrollTop *)
  calendar_events : list cal_event;
  current_view : string;
  current_line : option nat;               (* currentTimeLine, by identity *)
  next_id : nat                            (* identities of created markers *)
}.

Definition init : dom :=
  {| time_column := []; time_display := None; events_column := [];
     events_style := no_style; container_parent := Inline; container_size := None;
     modal_active := false; active_item := None; scroll_top := 0;
     calendar_events := []; current_view := "hour"; current_line := None; next_id := 0 |}.

(** ** Field updates *)

Definition set_time_column (l : list string) (d : dom) : dom :=
  {| time_column := l; time_display := time_display d; events_column := events_column d;
     events_style := events_style d; container_parent := container_parent d;
     container_size := container_size d; modal_active := modal_active d;
     active_item := active_item d; scroll_top := scroll_top d;
     calendar_events := calendar_events d; current_view := current_view d;
     current_line := current_line d; next_id := next_id d |}.

Definition set_events_column (l : list node) (st : grid_style) (d : dom) : dom :=
  {| time_column := time_column d; time_display := time_display d; events_column := l;
     events_style := st; container_parent := container_parent d;
     container_size := container_size d; modal_active := modal_active d;
     active_item := active_item d; scroll_top := scroll_top d;
     calendar_events := calendar_events d; current_view := current_view d;
     current_line := current_line d; next_id := next_id d |}.

(** Mount the container, size it, (de)activate the modal and show or hide
    the hour column. *)
Definition set_frame (p : parent) (size : string * string) (modal : bool) (disp : string)
  (d : dom) : dom :=
  {| time_column := time_column d; time_display := Some disp; events_column := events_column d;
     events_style := events_style d; container_parent := p; container_size := Some size;
     modal_active := modal; active_item := active_item d; scroll_top := scroll_top d;
     calendar_events := calendar_events d; current_view := current_view d;
     current_line := current_line d; next_id := next_id d |}.

Definition set_marker (l : list node) (id : nat) (d : dom) : dom :=
  {| time_column := time_column d; time_display := time_display d; events_column := l;
     events_style := events_style d; container_parent := container_parent d;
     container_size := container_size d; modal_active := modal_active d;
     active_item := active_item d; scroll_top := scroll_top d;
     calendar_events := calendar_events d; current_view := current_view d;
     current_line := Some id; next_id := S id |}.

Definition set_scroll (s : Z) (d : dom) : dom :=
  {| time_column := time_column d; time_display := time_display d;
     events_column := events_column d; events_style := events_style d;
     container_parent := container_parent d; container_size := container_size d;
     modal_active := modal_active d; active_item := active_item d; scroll_top := s;
     calendar_events := calendar_events d; current_view := current_view d;
     current_line := current_line d; next_id := next_id d |}.

Definition set_modal (b : bool) (d : dom) : dom :=
  {| time_column := time_column d; time_display := time_display d;
     events_column := events_column d; events_style := events_style d;
     container_parent := container_parent d; container_size := container_size d;
     modal_active := b; active_item := active_item d; scroll_top := scroll_top d;
     calendar_events := calendar_events d; current_view := current_view d;
     current_line := current_line d; next_id := next_id d |}.

Definition set_active (v : string) (d : dom) : dom :=
  {| time_column := time_column d; time_display := time_display d;
     events_column := events_column d; events_style := events_style d;
     container_parent := container_parent d; container_size := container_size d;
     modal_active := modal_active d; active_item := Some v; scroll_top := scroll_top d;
     calendar_events := calendar_events d; current_view := current_view d;
     current_line := current_line d; next_id := next_id d |}.

Definition set_events (evs : list cal_event) (d : dom) : dom :=
  {| time_column := time_column d; time_display := time_display d;
     events_column := events_column d; events_style := events_style d;
     container_parent := container_parent d; container_size := container_size d;
     modal_active := modal_active d; active_item := active_item d; scroll_top := scroll_top d;
     calendar_events := evs; current_view := current_view d;
     current_line := current_line d; next_id := next_id d |}.

Definition set_time_display (disp : string) (d : dom) : dom :=
  {| time_column := time_column d; time_display := Some disp;
     events_column := events_column d; events_style := events_style d;
     container_parent := container_parent d; container_size := container_size d;
     modal_active := modal_active d; active_item := active_item d; scroll_top := scroll_top d;
     calendar_events := calendar_events d; current_view := current_view d;
     current_line := current_line d; next_id := next_id d |}.

(** ** The helpers of [switchView] *)

Definition is_line (id : nat) (n : node) : bool :=
  match n with NTimeLine i _ => Nat.eqb i id | _ => false end.

(** [if (currentTimeLine) currentTimeLine.remove()]: removes the last
    marker if it is still a child of [#eventsColumn]. *)
Definition remove_line (d : dom) : list node :=
  match current_line d with
  | Some id => filter (fun n => negb (is_line id n)) (events_column d)
  | None => events_column d
  end.

(** [hours * 60 + minutes] of [new Date()]. *)
Definition now_minutes (tz now : Z) : Z :=
  (JsDate.get_hours tz now * 60 + JsDate.get_minutes tz now)%Z.

Definition showCurrentTimeLine (tz now : Z) (d : dom) : dom :=
  set_marker (remove_line d ++ [NTimeLine (next_id d) (now_minutes tz now)]) (next_id d) d.

Definition scrollToCurrentTime (tz now : Z) (d : dom) : dom :=
  set_scroll (Z.max (now_minutes tz now - 200) 0) d.

(** [generateHours] clears [.time-column] and appends the 24 labels. *)
Definition generate_hours (d : dom) : dom := set_time_column generateHours d.

(** [renderHourView] regenerates the labels and appends the blocks. *)
Definition render_hour_view (tz : Z) (d : dom) : dom :=
  let d1 := generate_hours d in
  set_events_column (events_column d1 ++ map NBlock (renderHourView tz (calendar_events d1)))
    (events_style d1) d1.

Definition week_style : grid_style :=
  {| display := Some "grid"; columns := Some "repeat(7, 1fr)"; gap := Some "14px" |}.

Definition month_style : grid_style :=
  {| display := Some "grid"; columns := Some "repeat(7, 1fr)"; gap := Some "12px" |}.

(** [renderWeekView]: hide the hour column, clear [#eventsColumn], set the
    grid style, append the day columns (up to an exception). *)
Definition render_week_view (tz now : Z) (d : dom) : dom * option js_error :=
  let d1 := set_events_column [] week_style (set_time_display "none" d) in
  let '(cols, err) := renderWeekView tz now (calendar_events d1) in
  (set_events_column (map NWeekColumn cols) week_style d1, err).

Definition render_month_view (tz now : Z) (d : dom) : dom * option js_error :=
  let d1 := set_events_column [] month_style (set_time_display "none" d) in
  let '(cells, err) := renderMonthView tz now (calendar_events d1) in
  (set_events_column (map NMonthCell cells) month_style d1, err).

(** ** [switchView] *)

Definition hour_frame : string * string := ("240px", "600px")%string.
Definition modal_frame : string * string := ("80vw", "80vh")%string.

(** The three [if (view === ...)] blocks are mutually exclusive; a thrown
    exception ends [switchView] and is returned with the state. *)
Definition clear_view (d : dom) : dom := set_events_column [] no_style (set_time_column [] d).

Definition switchView (tz now : Z) (view : string) (d : dom) : dom * option js_error :=
  let d0 := clear_view d in
  if String.eqb view "hour" then
    let d1 := set_frame Inline hour_frame false "block" d0 in
    let d2 := render_hour_view tz (generate_hours d1) in
    (scrollToCurrentTime tz now (showCurrentTimeLine tz now d2), None)
  else if String.eqb view "week" then
    render_week_view tz now (set_frame Modal modal_frame true "none" d0)
  else if String.eqb view "month" then
    render_month_view tz now (set_frame Modal modal_frame true "none" d0)
  else (d0, None).

(** ** The handlers *)

Inductive ui_event :=
| EventsLoaded (evs : option (list cal_event))  (* the JSON of /calendar/events *)
| ViewClick (view : string)                      (* a click on a selector item *)
| BackdropClick                                  (* a click on the modal backdrop *)
| Tick.                                          (* the 60 s interval *)

(** The selector's click listener: mark the item active, switch. *)
Definition click_view (tz now : Z) (v : string) (d : dom) : dom :=
  fst (switchView tz now v (set_active v d)).

(** [loadGoogleEvents]: [calendarEvents = events || []; switchView('hour')]. *)
Definition load_events (tz now : Z) (evs : option (list cal_event)) (d : dom) : dom :=
  fst (switchView tz now "hour" (set_events (match evs with Some l => l | None => [] end) d)).

(** The two backdrop listeners run in order: the first deactivates the
    modal and clicks the hour item, the second clicks it again. *)
Definition backdrop_click (tz now : Z) (d : dom) : dom :=
  let d1 := click_view tz now "hour" (set_modal false d) in
  click_view tz now "hour" d1.

(** The interval: [if (currentView === 'hour') showCurrentTimeLine()]. *)
Definition tick (tz now : Z) (d : dom) : dom :=
  if String.eqb (current_view d) "hour" then showCurrentTimeLine tz now d else d.

Definition handle (tz now : Z) (ev : ui_event) (d : dom) : dom :=
  match ev with
  | EventsLoaded evs => load_events tz now evs d
  | ViewClick v => click_view tz now v d
  | BackdropClick => backdrop_click tz now d
  | Tick => tick tz now d
  end.

(** The states reachable from page load under any sequence of events, at
    any times. *)
Inductive reachable (tz : Z) : dom -> Prop :=
| reach_init : reachable tz init
| reach_step now ev d : reachable tz d -> reachable tz (handle tz now ev d).

(** ** [switchView] by cases *)

Definition hour_branch (tz now : Z) (d : dom) : dom :=
  scrollToCurrentTime tz now (showCurrentTimeLine tz now
    (render_hour_view tz (generate_hours (set_frame Inline hour_frame false "block" (clear_view d))))).

Lemma switchView_hour tz now d : switchView tz now "hour" d = (hour_branch tz now d, None).
Proof. reflexivity. Qed.

Lemma switchView_week tz now d :
  switchView tz now "week" d = render_week_view tz now (set_frame Modal modal_frame true "none" (clear_view d)).
Proof. reflexivity. Qed.

Lemma switchView_month tz now d :
  switchView tz now "month" d = render_month_view tz now (set_frame Modal modal_frame true "none" (clear_view d)).
Proof. reflexivity. Qed.

(** Any other token (the view list's markup decides which exist) empties
    both columns and changes nothing else: it is not a no-op. *)
Lemma switchView_other tz now v d :
  v <> "hour" -> v <> "week" -> v <> "month" -> switchView tz now v d = (clear_view d, None).
Proof.
  intros H1 H2 H3. unfold switchView.
  apply String.eqb_neq in H1, H2, H3. now rewrite H1, H2, H3.
Qed.

Lemma view_cases (v : string) :
  v = "hour" \/ v = "week" \/ v = "month" \/ (v <> "hour" /\ v <> "week" /\ v <> "month").
Proof.
  destruct (string_dec v "hour"); [now left|].
  destruct (string_dec v "week"); [now right; left|].
  destruct (string_dec v "month"); [now right; right; left|].
  now right; right; right.
Qed.

(** The fields the week and month renderers leave alone. *)
Lemma render_week_view_fst tz now d :
  exists cols, fst (render_week_view tz now d) =
    set_events_column (map NWeekColumn cols) week_style (set_time_display "none" d).
Proof.
  unfold render_week_view. cbn [calendar_events set_events_column set_time_display].
  destruct (renderWeekView tz now (calendar_events d)) as [cols err]. now exists cols.
Qed.

Lemma render_month_view_fst tz now d :
  exists cells, fst (render_month_view tz now d) =
    set_events_column (map NMonthCell cells) month_style (set_time_display "none" d).
Proof.
  unfold render_month_view. cbn [calendar_events set_events_column set_time_display].
  destruct (renderMonthView tz now (calendar_events d)) as [cells err]. now exists cells.
Qed.

(** ** The invariant of the reachable states *)

Definition is_marker (n : node) : bool :=
  match n with NTimeLine _ _ => true | _ => false end.

(** A marker in the column is the one [currentTimeLine] refers to. *)
Definition marker_owned (cur : option nat) (n : node) : Prop :=
  match n with NTimeLine j _ => cur = Some j | _ => True end.

Record inv (d : dom) : Prop := {
  inv_view : current_view d = "hour";
  inv_modal : modal_active d = true <-> container_parent d = Modal;
  inv_hours : time_column d = [] \/ time_column d = generateHours;
  inv_one_marker : List.length (filter is_marker (events_column d)) <= 1;
  inv_owned : Forall (marker_owned (current_line d)) (events_column d)
}.

Definition no_marker (l : list node) : Prop := Forall (fun n => is_marker n = false) l.

Lemma no_marker_filter l : no_marker l -> filter is_marker l = [].
Proof. induction 1 as [|n l Hn _ IH]; cbn; [reflexivity|now rewrite Hn]. Qed.

Lemma no_marker_owned c l : no_marker l -> Forall (marker_owned c) l.
Proof. apply Forall_impl. intros [] H; cbn in *; easy. Qed.

Lemma no_marker_map {A} (f : A -> node) l :
  (forall a, is_marker (f a) = false) -> no_marker (map f l).
Proof. intros H. apply Forall_map, Forall_forall. intros; apply H. Qed.

#[export] Hint Resolve no_marker_filter no_marker_owned : cal.

(** After [currentTimeLine.remove()] no marker is left. *)
Lemma remove_line_clean d :
  Forall (marker_owned (current_line d)) (events_column d) -> no_marker (remove_line d).
Proof.
  unfold remove_line, no_marker. intros H.
  destruct (current_line d) as [i|].
  - apply Forall_forall. intros n Hn. apply filter_In in Hn as [Hn Hneg].
    rewrite Forall_forall in H. specialize (H n Hn).
    destruct n; cbn in *; try reflexivity.
    injection H as <-. rewrite Nat.eqb_refl in Hneg. discriminate.
  - eapply Forall_impl; [|exact H]. intros [] Hm; cbn in *; easy.
Qed.

Lemma showCurrentTimeLine_markers tz now d :
  Forall (marker_owned (current_line d)) (events_column d) ->
  let d' := showCurrentTimeLine tz now d in
  filter is_marker (events_column d') = [NTimeLine (next_id d) (now_minutes tz now)] /\
  Forall (marker_owned (current_line d')) (events_column d').
Proof.
  intros H. pose proof (remove_line_clean d H) as Hc. cbn.
  rewrite filter_app, no_marker_filter by exact Hc. split; [reflexivity|].
  apply Forall_app. split; [now apply no_marker_owned|]. repeat constructor.
Qed.

(** The hour branch rebuilds everything it shows, whatever the state. *)
Lemma hour_branch_inv tz now d : current_view d = "hour" -> inv (hour_branch tz now d).
Proof.
  intros Hv.
  set (d2 := render_hour_view tz (generate_hours (set_frame Inline hour_frame false "block" (clear_view d)))).
  assert (Hm : Forall (marker_owned (current_line d2)) (events_column d2)).
  { apply no_marker_owned. apply no_marker_map. reflexivity. }
  destruct (showCurrentTimeLine_markers tz now d2 Hm) as [H1 H2].
  unfold hour_branch. fold d2. constructor; cbn.
  - exact Hv.
  - split; discriminate.
  - now right.
  - cbn in H1. rewrite H1. cbn. lia.
  - exact H2.
Qed.

Lemma inv_modal_view tz now v d : inv d -> inv (fst (switchView tz now v d)).
Proof.
  intros Hi. destruct (view_cases v) as [->|[->|[->|(H1 & H2 & H3)]]].
  - rewrite switchView_hour. apply hour_branch_inv, Hi.
  - rewrite switchView_week.
    destruct (render_week_view_fst tz now (set_frame Modal modal_frame true "none" (clear_view d)))
      as [cols ->].
    pose proof (no_marker_map NWeekColumn cols (fun _ => eq_refl)) as Hn.
    constructor; cbn; [apply Hi|easy|now left| |now apply no_marker_owned].
    rewrite no_marker_filter by exact Hn. cbn. lia.
  - rewrite switchView_month.
    destruct (render_month_view_fst tz now (set_frame Modal modal_frame true "none" (clear_view d)))
      as [cells ->].
    pose proof (no_marker_map NMonthCell cells (fun _ => eq_refl)) as Hn.
    constructor; cbn; [apply Hi|easy|now left| |now apply no_marker_owned].
    rewrite no_marker_filter by exact Hn. cbn. lia.
  - rewrite switchView_other by assumption. cbn.
    constructor; cbn; [apply Hi|apply Hi|now left|lia|constructor].
Qed.

(** C1: In every state reachable from page load: [currentView] is still
    'hour', the modal is active exactly when the calendar is mounted in
    it, the hour column is empty or holds exactly the 24 labels, and the
    events column holds at most one time marker, the one
    [currentTimeLine] refers to. *)
Theorem reachable_inv tz d : reachable tz d -> inv d.
Proof.
  induction 1 as [|now ev d Hr IH].
  - constructor; cbn; [reflexivity|easy|now left|lia|constructor].
  - destruct ev as [evs|v| |]; cbn [handle].
    + unfold load_events. apply inv_modal_view.
      destruct IH; constructor; cbn; auto.
    + unfold click_view. apply inv_modal_view.
      destruct IH; constructor; cbn; auto.
    + unfold backdrop_click, click_view. rewrite !switchView_hour. cbn [fst].
      apply hour_branch_inv. cbn. apply IH.
    + unfold tick. rewrite (inv_view _ IH). cbn [String.eqb Ascii.eqb Bool.eqb].
      destruct (showCurrentTimeLine_markers tz now d (inv_owned _ IH)) as [H1 H2].
      destruct IH; constructor; cbn in *; auto. rewrite H1. cbn. lia.
Qed.

(** ** What the hour view shows *)

(** Marker identities are bookkeeping: the screen shows their offsets. *)
Definition erase (n : node) : node :=
  match n with NTimeLine _ top => NTimeLine 0 top | n => n end.

Definition screen (d : dom) :=
  (time_column d, time_display d, map erase (events_column d), events_style d,
   container_parent d, container_size d, modal_active d, scroll_top d).

Lemma remove_line_no_marker d : no_marker (events_column d) -> remove_line d = events_column d.
Proof.
  unfold remove_line. intros H. destruct (current_line d) as [i|]; [|reflexivity].
  induction H as [|n l Hn _ IH]; [reflexivity|]. cbn.
  destruct n; cbn in Hn; try discriminate; cbn; f_equal; exact IH.
Qed.

(** C25: [switchView('hour')] draws the 24 labels, one block per timed event
    and the marker at the current minute, scrolled 200 px above it,
    inline at 240x600 with the modal closed: nothing of the previous
    state is left on screen. *)
Theorem hour_branch_screen tz now d :
  screen (hour_branch tz now d) =
  (generateHours, Some "block",
   (map NBlock (renderHourView tz (calendar_events d)) ++ [NTimeLine 0 (now_minutes tz now)])%list,
   no_style, Inline, Some hour_frame, false, Z.max (now_minutes tz now - 200) 0).
Proof.
  unfold hour_branch, screen, scrollToCurrentTime, showCurrentTimeLine. cbn.
  rewrite remove_line_no_marker by (apply no_marker_map; reflexivity). cbn.
  rewrite map_app, map_map. reflexivity.
Qed.

Lemma switchView_events tz now v d :
  calendar_events (fst (switchView tz now v d)) = calendar_events d.
Proof.
  destruct (view_cases v) as [->|[->|[->|(H1 & H2 & H3)]]].
  - reflexivity.
  - rewrite switchView_week.
    destruct (render_week_view_fst tz now (set_frame Modal modal_frame true "none" (clear_view d)))
      as [c ->]. reflexivity.
  - rewrite switchView_month.
    destruct (render_month_view_fst tz now (set_frame Modal modal_frame true "none" (clear_view d)))
      as [c ->]. reflexivity.
  - now rewrite switchView_other.
Qed.

(** C40: Switching to the hour view, then to any view, then back to the hour
    view shows what switching to the hour view once shows. *)
Theorem switchView_hour_idempotent tz now now1 now2 v d :
  screen (fst (switchView tz now "hour" (fst (switchView tz now1 v (fst (switchView tz now2 "hour" d)))))) =
  screen (fst (switchView tz now "hour" d)).
Proof.
  rewrite !switchView_hour. cbn [fst]. rewrite !hour_branch_screen.
  rewrite switchView_events. reflexivity.
Qed.

(** ** The interval and the selector *)

(** C36: [currentView] is never reassigned, so the interval's guard always
    holds: every tick appends a fresh marker, also over the week and
    month grids. *)
Theorem tick_always_draws tz now d :
  reachable tz d ->
  exists l, events_column (handle tz now Tick d) = (l ++ [NTimeLine (next_id d) (now_minutes tz now)])%list
            /\ no_marker l.
Proof.
  intros Hr. pose proof (reachable_inv tz d Hr) as Hi.
  cbn [handle]. unfold tick. rewrite (inv_view _ Hi). cbn [String.eqb Ascii.eqb Bool.eqb].
  exists (remove_line d). split; [reflexivity|].
  apply remove_line_clean, Hi.
Qed.

(** The backdrop listeners return to the hour view and highlight its
    selector item. *)
Theorem backdrop_returns_to_hour tz now d :
  screen (handle tz now BackdropClick d) = screen (hour_branch tz now d) /\
  active_item (handle tz now BackdropClick d) = Some "hour".
Proof.
  cbn [handle]. unfold backdrop_click, click_view. rewrite !switchView_hour. cbn [fst].
  rewrite !hour_branch_screen. split; reflexivity.
Qed.

(** The selector and the view can disagree: a click on "week" before the
    events arrive leaves "week" highlighted over the inline hour view
    that [loadGoogleEvents] switches to. *)
Theorem load_after_click_desyncs tz now1 now2 evs :
  let d := handle tz now2 (EventsLoaded evs) (handle tz now1 (ViewClick "week") init) in
  reachable tz d /\ active_item d = Some "week" /\ container_parent d = Inline.
Proof.
  cbn zeta. split; [repeat constructor|].
  cbn [handle]. unfold load_events, click_view. rewrite switchView_hour. cbn [fst].
  rewrite switchView_week.
  destruct (render_week_view_fst tz now1
             (set_frame Modal modal_frame true "none" (clear_view (set_active "week" init))))
    as [c ->].
  split; reflexivity.
Qed.

(** ** Concrete runs *)

(** Page load, the events arrive, the user opens the week view, a tick
    fires, the user clicks the backdrop. *)
Definition session : dom :=
  handle 0 (friday_noon + 120000) BackdropClick
    (handle 0 (friday_noon + 60000) Tick
       (handle 0 friday_noon (ViewClick "week")
          (handle 0 friday_noon (EventsLoaded (Some [standup; holiday])) init))).

Lemma session_reachable : reachable 0 session.
Proof. repeat constructor. Qed.

Lemma reachable_inv_witness : reachable 0 session /\ inv session.
Proof. split; [exact session_reachable|]. apply (reachable_inv 0 session session_reachable). Defined.

Lemma tick_always_draws_witness :
  let d := handle 0 friday_noon (ViewClick "week")
             (handle 0 friday_noon (EventsLoaded (Some [standup])) init) in
  reachable 0 d /\
  exists l, events_column (handle 0 friday_noon Tick d) =
            (l ++ [NTimeLine (next_id d) (now_minutes 0 friday_noon)])%list /\ no_marker l.
Proof.
  cbv zeta. split; [repeat constructor|]. apply tick_always_draws. repeat constructor.
Defined.

(** "year", the token of the commented-out year view, empties both
    columns and leaves the calendar where it was. *)
Lemma switchView_other_witness :
  "year" <> "hour" /\ "year" <> "week" /\ "year" <> "month" /\
  switchView 0 friday_noon "year" session = (clear_view session, None).
Proof.
  split; [discriminate|]. split; [discriminate|]. split; [discriminate|].
  apply switchView_other; discriminate.
Defined.

End Dashboard.
