(* ===== verification/ChatServer.v ===== *)
(** * The chat endpoint of server.js

    [POST /api/chat] (src/server.js, lines 74-150) and its weather side
    channel [handleWeather] (lines 152-193).  The two external services
    are parameters of the section: [gemini] answers [chat.sendMessage]
    for a history and a text (or fails with an error carrying a message
    and perhaps an HTTP status), and [weather_api] answers
    [fetch(url)] followed by [response.json()] (or throws, [None]).
    [OPENWEATHER_API_KEY] is the parameter [api_key].  A handler's
    result is the status and the [reply] field of its JSON body. *)

From Stdlib Require Import ZArith List String Ascii Bool Lia.
From S2P Require Import Prelude JsString.
Import ListNotations.

Module Chat.

Import JsString.
Local Open Scope list_scope.

(** ** Requests, Gemini turns, responses *)

(** An element of [req.body.messages]: [{ role, content }], the content
    as its UTF-8 text, [None] when it is [undefined]. *)
Record message := { role : string; content : option string }.

Inductive grole := GUser | GModel.

(** [{ role: 'user' | 'model', parts: [{ text: m.content }] }] *)
Record turn := { trole : grole; text : option string }.

Record response := { status : Z; reply : string }.

Definition ok (r : string) : response := {| status := 200; reply := r |}.

(** What [chat.sendMessage] rejects with. *)
Record gemini_error := { err_message : string; err_status : option Z }.

(** A value of [data.cod]: OpenWeather sends the number 200 on success
    and a string such as ["404"] otherwise. *)
Inductive jsval := JNum (z : Z) | JStr (s : string).

(** The fields of [data] the handler reads, as they print in a template
    literal; [main] and [weather[0]] may be missing. *)
Record weather_data := {
  cod : jsval;
  name : string;
  main : option (string * string);  (* temp, humidity *)
  weather : list string             (* the descriptions *)
}.

(** What the [try] blocks catch. *)
Inductive chat_error :=
  | TypeError          (* a property read on undefined *)
  | GeminiError (e : gemini_error).

(** ** [handleWeather] *)

(** The literal [weather in ] of the regular expression, compared under
    the [i] flag: ASCII letters match either case. *)
Definition fold_case (j : jchar) : jchar :=
  match j with
  | JAscii c => JAscii (if is_upper c then ascii_of_nat (byte c + 32) else c)
  | JWide _ => j
  end.

Fixpoint ci_prefix (p s : jstring) : bool :=
  match p, s with
  | [], _ => true
  | a :: p', b :: s' => jchar_eqb (fold_case a) (fold_case b) && ci_prefix p' s'
  | _ :: _, [] => false
  end.

Definition weather_in : jstring := lit "weather in ".

(** [([a-zA-Z\s]+)] is greedy: the longest run of the class. *)
Fixpoint take_class (s : jstring) : jstring :=
  match s with
  | j :: r => if in_city_class j then j :: take_class r else []
  | [] => []
  end.

(** [text.match(/weather in ([a-zA-Z\s]+)/i)]: the first position where
    the literal is followed by at least one character of the class; the
    result is the group [match[1]]. *)
Fixpoint weather_match (s : jstring) : option jstring :=
  let here :=
    if ci_prefix weather_in s then
      match take_class (skipn (List.length weather_in) s) with
      | [] => None
      | run => Some run
      end
    else None in
  match here, s with
  | Some g, _ => Some g
  | None, [] => None
  | None, _ :: s' => weather_match s'
  end.

(** [const city = match ? match[1].trim() : "your area"] *)
Definition city_of (text : jstring) : jstring :=
  match weather_match text with
  | Some g => trim g
  | None => lit "your area"
  end.

Section Services.

Variable api_key : option string.
Variable weather_api : string -> option weather_data.
Variable gemini : list turn -> option string -> gemini_error + string.

Definition simulated_reply (city : jstring) : string :=
  ("
🌤 Weather in " ++ encode city ++ " (Simulated)
🌡 Temperature: 24°C
☁ Condition: Clear Sky
💧 Humidity: 45%
It looks like a beautiful, calm day!
       ")%string.

Definition weather_url (city : jstring) (key : string) : string :=
  ("https://api.openweathermap.org/data/2.5/weather?q=" ++ encode city ++ "&units=metric&appid=" ++ key)%string.

Definition no_data_reply (city : jstring) : string :=
  ("I couldn't get the exact data for " ++ encode city ++ ", but let's assume it's a nice 24°C today!")%string.

Definition calm_reply : string := "It feels like a calm 24°C with clear skies today!".

(** The report, or [TypeError] when [data.main] or [data.weather[0]] is
    missing. *)
Definition report (d : weather_data) : chat_error + string :=
  match main d, weather d with
  | Some (temp, humidity), desc :: _ => inr (("
🌤 Weather in " ++ name d ++ "
🌡 Temperature: " ++ temp ++ "°C
☁ Condition: " ++ desc ++ "
💧 Humidity: " ++ humidity ++ "%
    ")%string)
  | _, _ => inl TypeError
  end.

Definition handleWeather (txt : jstring) : response :=
  let city := city_of txt in
  match api_key with
  | None | Some EmptyString => ok (simulated_reply city)
  | Some key =>
      match weather_api (weather_url city key) with
      | None => ok calm_reply
      | Some d =>
          match cod d with
          | JNum 200%Z =>
              match report d with inr r => ok r | inl _ => ok calm_reply end
          | _ => ok (no_data_reply city)
          end
      end
  end.

(** ** [POST /api/chat] *)

Definition greeting : string := "Hi! How can I help you?".
Definition rate_limit_reply : string := "I'm receiving too many messages right now! 🤯 Please give me a minute to cool down.".
Definition trouble_reply : string := "I'm having trouble connecting. Please try again later.".

(** [.filter(m => m.role === "user" || m.role === "assistant")] *)
Definition chat_role (m : message) : bool :=
  String.eqb (role m) "user" || String.eqb (role m) "assistant".

(** [.map(m => ({ role: m.role === "assistant" ? "model" : "user", ... }))] *)
Definition to_turn (m : message) : turn :=
  {| trole := if String.eqb (role m) "assistant" then GModel else GUser;
     text := content m |}.

(** [Array.prototype.pop]: the last element and what remains. *)
Definition pop {A} (l : list A) : option (list A * A) :=
  match rev l with
  | [] => None
  | x :: r => Some (rev r, x)
  end.

Definition is_model (t : turn) : bool :=
  match trole t with GModel => true | GUser => false end.

(** [while (chatHistory.length > 0 && chatHistory[0].role === 'model')
    chatHistory.shift();] *)
Fixpoint drop_leading_model (h : list turn) : list turn :=
  match h with
  | t :: r => if is_model t then drop_leading_model r else h
  | [] => []
  end.

(** The arguments of [model.startChat({history})] and
    [chat.sendMessage(lastUserMessage.parts[0].text)]; [TypeError] when
    no message is a user or assistant message ([lastUserMessage] is
    [undefined]). *)
Definition gemini_request (ms : list message) : chat_error + (list turn * option string) :=
  match pop (map to_turn (filter chat_role ms)) with
  | None => inl TypeError
  | Some (h, lastu) => inr (drop_leading_model h, text lastu)
  end.

(** [error.message.includes('429') || error.response.status === 429] *)
Definition rate_limited (e : chat_error) : bool :=
  match e with
  | TypeError => false
  | GeminiError g =>
      includes (decode (err_message g)) (lit "429")
      || match err_status g with Some 429%Z => true | _ => false end
  end.

(** The [catch] block. *)
Definition on_error (e : chat_error) : response :=
  if rate_limited e then ok rate_limit_reply
  else {| status := 500; reply := trouble_reply |}.

Definition gemini_reply (ms : list message) : response :=
  match gemini_request ms with
  | inl e => on_error e
  | inr (h, t) =>
      match gemini h t with
      | inr r => ok r
      | inl g => on_error (GeminiError g)
      end
  end.

(** The handler; [messages] is [None] when absent from the body. *)
Definition chat_post (messages : option (list message)) : response :=
  match messages with
  | None | Some [] => ok greeting
  | Some ms =>
      match pop ms with
      | None => ok greeting
      | Some (_, lastm) =>
          match content lastm with
          | None => on_error TypeError
          | Some c =>
              let lastMessage := to_lower (decode c) in
              if includes lastMessage (lit "weather") then handleWeather lastMessage
              else gemini_reply ms
          end
      end
  end.

(** ** Lemmas on the helpers *)

Lemma pop_app {A} (l : list A) x : pop (l ++ [x]) = Some (l, x).
Proof. unfold pop. rewrite rev_app_distr. cbn. now rewrite rev_involutive. Qed.

Lemma pop_Some {A} (l r : list A) x : pop l = Some (r, x) -> l = r ++ [x].
Proof.
  unfold pop. destruct (rev l) as [|y q] eqn:E; [discriminate|].
  intros H. injection H as <- <-. rewrite <- (rev_involutive l), E. reflexivity.
Qed.

Lemma pop_None {A} (l : list A) : pop l = None -> l = [].
Proof.
  unfold pop. destruct (rev l) eqn:E; [|discriminate].
  intros _. rewrite <- (rev_involutive l), E. reflexivity.
Qed.

(** The loop removes a prefix of model turns and stops at a user turn. *)
Lemma drop_leading_model_spec h :
  exists p, h = p ++ drop_leading_model h /\ Forall (fun t => is_model t = true) p /\
    (forall t r, drop_leading_model h = t :: r -> is_model t = false).
Proof.
  induction h as [|t h IH]; cbn.
  - exists []. repeat split; [constructor|discriminate].
  - destruct (is_model t) eqn:E.
    + destruct IH as (p & Hp & Hf & Hh). exists (t :: p). cbn. repeat split; auto; congruence.
    + exists []. repeat split; [constructor|]. intros t' r H. injection H as <- _. exact E.
Qed.

Lemma take_class_spec s :
  exists b, s = take_class s ++ b /\ Forall (fun j => in_city_class j = true) (take_class s) /\
    (forall j b', b = j :: b' -> in_city_class j = false).
Proof.
  induction s as [|j s IH]; cbn.
  - exists []. repeat split; [constructor|discriminate].
  - destruct (in_city_class j) eqn:E.
    + destruct IH as (b & Hb & Hf & Hm). exists b. cbn. repeat split; auto; congruence.
    + exists (j :: s). repeat split; [constructor|]. intros j' b' H. injection H as <- _. exact E.
Qed.

Lemma ci_prefix_split p s :
  ci_prefix p s = true -> s = firstn (List.length p) s ++ skipn (List.length p) s /\
    List.length (firstn (List.length p) s) = List.length p /\
    ci_prefix p (firstn (List.length p) s) = true.
Proof.
  revert s. induction p as [|a p IH]; intros [|b s]; cbn; try discriminate; auto.
  intros H. apply andb_true_iff in H as [H1 H2]. destruct (IH s H2) as (E & L & C).
  rewrite H1, C. split; [congruence|auto].
Qed.

Lemma handleWeather_status txt : status (handleWeather txt) = 200%Z.
Proof.
  unfold handleWeather.
  repeat match goal with |- context [match ?x with _ => _ end] => destruct x end;
  reflexivity.
Qed.

Lemma on_error_cases e :
  on_error e = ok rate_limit_reply \/ on_error e = {| status := 500; reply := trouble_reply |}.
Proof. unfold on_error. destruct rate_limited; auto. Qed.

Lemma gemini_reply_cases ms :
  status (gemini_reply ms) = 200%Z \/ gemini_reply ms = {| status := 500; reply := trouble_reply |}.
Proof.
  unfold gemini_reply. destruct gemini_request as [e|[h t]].
  - destruct (on_error_cases e) as [->| ->]; auto.
  - destruct gemini as [g|r]; [|auto]. destruct (on_error_cases (GeminiError g)) as [->| ->]; auto.
Qed.

(** ** The Gemini request *)

(** C3: The history handed to Gemini never starts with a model turn: the
    loop of lines 108-110 removes every leading assistant message. *)
Theorem gemini_history_head ms h t :
  gemini_request ms = inr (h, t) -> forall t0 r, h = t0 :: r -> trole t0 = GUser.
Proof.
  unfold gemini_request. destruct pop as [[h0 lu]|] eqn:E; [|discriminate].
  intros H. injection H as <- <-. intros t0 r Hh.
  destruct (drop_leading_model_spec h0) as (_ & _ & _ & Hd).
  specialize (Hd _ _ Hh). unfold is_model in Hd. destruct (trole t0); congruence.
Qed.

(** The request is the user and assistant messages in order, mapped
    to turns, with only a prefix of model turns removed; the text sent
    is the content of the last of them. *)
Theorem gemini_request_spec ms h t :
  gemini_request ms = inr (h, t) ->
  exists p lt, map to_turn (filter chat_role ms) = p ++ h ++ [lt] /\
    Forall (fun u => is_model u = true) p /\ text lt = t.
Proof.
  unfold gemini_request. destruct pop as [[h0 lu]|] eqn:E; [|discriminate].
  intros H. injection H as <- <-. apply pop_Some in E.
  destruct (drop_leading_model_spec h0) as (p & Hp & Hf & _).
  exists p, lu. rewrite E, Hp at 1. rewrite <- app_assoc. auto.
Qed.

(** No user message is lost: it is in the history or it is the text
    sent. *)
Theorem user_turns_kept ms h t m :
  gemini_request ms = inr (h, t) -> In m ms -> role m = "user"%string ->
  In {| trole := GUser; text := content m |} h \/ t = content m.
Proof.
  intros Hr Hin Hu. destruct (gemini_request_spec ms h t Hr) as (p & lt & Hm & Hf & Ht).
  assert (Hc : In (to_turn m) (map to_turn (filter chat_role ms))).
  { apply in_map, filter_In. split; [exact Hin|]. unfold chat_role. rewrite Hu. reflexivity. }
  assert (Ht0 : to_turn m = {| trole := GUser; text := content m |})
    by (unfold to_turn; rewrite Hu; reflexivity).
  rewrite Hm, Ht0 in Hc.
  apply in_app_or in Hc as [Hc|Hc].
  - rewrite Forall_forall in Hf. specialize (Hf _ Hc). discriminate.
  - apply in_app_or in Hc as [Hc|[Hc|[]]]; [left; exact Hc|right].
    rewrite <- Ht, Hc. reflexivity.
Qed.

(** ** Routing and errors *)

(** Weather comes first: when the lower-cased last message contains
    [weather], the reply is [handleWeather]'s, whatever Gemini would
    answer. *)
Theorem weather_first ms r m c :
  pop ms = Some (r, m) -> content m = Some c ->
  includes (to_lower (decode c)) (lit "weather") = true ->
  chat_post (Some ms) = handleWeather (to_lower (decode c)).
Proof.
  intros Hp Hc Hw. destruct ms as [|m0 ms']; [discriminate|].
  unfold chat_post. rewrite Hp, Hc, Hw. reflexivity.
Qed.

(** Every response is a 200, or the 500 of the [catch] block with
    its fixed reply. *)
Theorem chat_post_status messages :
  status (chat_post messages) = 200%Z \/
  chat_post messages = {| status := 500; reply := trouble_reply |}.
Proof.
  unfold chat_post. destruct messages as [[|m ms]|]; auto.
  destruct pop as [[r lastm]|]; auto. destruct (content lastm) as [c|].
  - destruct includes; [left; apply handleWeather_status|apply gemini_reply_cases].
  - destruct (on_error_cases TypeError) as [->| ->]; auto.
Qed.

(** A Gemini failure with HTTP status 429 is answered with the
    rate-limit message and status 200. *)
Theorem chat_post_rate_limit ms r m c h t g :
  pop ms = Some (r, m) -> content m = Some c ->
  includes (to_lower (decode c)) (lit "weather") = false ->
  gemini_request ms = inr (h, t) -> gemini h t = inl g -> err_status g = Some 429%Z ->
  chat_post (Some ms) = ok rate_limit_reply.
Proof.
  intros Hp Hc Hw Hr Hg Hs. destruct ms as [|m0 ms']; [discriminate|].
  unfold chat_post. rewrite Hp, Hc, Hw. unfold gemini_reply. rewrite Hr, Hg.
  unfold on_error, rate_limited. rewrite Hs, orb_true_r. reflexivity.
Qed.

(** A conversation with no user or assistant message (a last message
    of another role) reads [parts] of [undefined]: status 500. *)
Theorem chat_post_no_turns ms r m c :
  pop ms = Some (r, m) -> content m = Some c ->
  includes (to_lower (decode c)) (lit "weather") = false ->
  filter chat_role ms = [] ->
  chat_post (Some ms) = {| status := 500; reply := trouble_reply |}.
Proof.
  intros Hp Hc Hw Hf. destruct ms as [|m0 ms']; [discriminate|].
  unfold chat_post. rewrite Hp, Hc, Hw. unfold gemini_reply, gemini_request.
  rewrite Hf. reflexivity.
Qed.

End Services.

(** ** The city of the weather request *)

(** [weather_match] models the regular expression: a match is a piece
    of the text equal to [weather in] up to case, followed by a non-empty
    run of [[a-zA-Z\s]] that the next character does not extend. *)
Theorem weather_match_sound s g :
  weather_match s = Some g ->
  exists a w b, s = a ++ w ++ g ++ b /\ ci_prefix weather_in w = true /\
    List.length w = List.length weather_in /\ g <> [] /\
    Forall (fun j => in_city_class j = true) g /\
    (forall j b', b = j :: b' -> in_city_class j = false).
Proof.
  induction s as [|x s IH]; intros Hm.
  - discriminate.
  - revert Hm. cbn [weather_match]. destruct (ci_prefix weather_in (x :: s)) eqn:Ec.
    + destruct (take_class (skipn (List.length weather_in) (x :: s))) as [|j g'] eqn:Et; intros Hm.
      * destruct (IH Hm) as (a & w & b & -> & H). exists (x :: a), w, b. split; [reflexivity|exact H].
      * injection Hm as <-. destruct (ci_prefix_split _ _ Ec) as (Hs & Hl & Hc).
        destruct (take_class_spec (skipn (List.length weather_in) (x :: s))) as (b & Hb & Hf & Hx).
        rewrite Et in Hb, Hf. exists [], (firstn (List.length weather_in) (x :: s)), b.
        repeat split; auto; [|discriminate]. rewrite <- Hb. exact Hs.
    + intros Hm. destruct (IH Hm) as (a & w & b & -> & H). exists (x :: a), w, b.
      split; [reflexivity|exact H].
Qed.

(** The city put into the OpenWeather URL holds only letters and
    white space and does not start or end with white space, so it cannot
    add query parameters ([&], [=], [#] are not in the class). *)
Theorem city_of_class txt :
  Forall (fun j => in_city_class j = true) (city_of txt) /\
  (forall j r, city_of txt = j :: r -> is_ws j = false) /\
  (forall j r, city_of txt = r ++ [j] -> is_ws j = false).
Proof.
  unfold city_of. destruct (weather_match txt) as [g|] eqn:E.
  - destruct (weather_match_sound _ _ E) as (a & w & b & _ & _ & _ & _ & Hf & _).
    destruct (trim_spec g) as (_ & _ & _ & Hh & Hl). split; [|auto].
    rewrite Forall_forall in *. intros x Hx. apply Hf, trim_incl, Hx.
  - split; [repeat constructor|split].
    + intros j r H. injection H as <- _. reflexivity.
    + intros j r H. apply (f_equal (@rev _)) in H. rewrite rev_app_distr in H.
      cbn in H. injection H as <- _. reflexivity.
Qed.

(** ** Runs on concrete requests *)

Definition msg (r c : string) : message := {| role := r; content := Some c |}.

Definition convo : list message :=
  [msg "assistant" "Hello! How can I help?"; msg "user" "Plan my day";
   msg "assistant" "Sure, here is a plan."]%string.

(** The text sent to Gemini is the assistant's last message, not the
    user's: [lastUserMessage] is the last user {i or} assistant turn. *)
Example assistant_text_sent :
  gemini_request convo =
  inr ([{| trole := GUser; text := Some "Plan my day"%string |}],
       Some "Sure, here is a plan."%string).
Proof. reflexivity. Qed.

(** The class [[a-zA-Z\s]] runs over the words after the city. *)
Example city_trailing_words :
  city_of (to_lower (decode "What's the weather in New York today?")) = lit "new york today".
Proof. vm_compute. reflexivity. Qed.

(** A request with only white space after [weather in] gives an empty
    city, not ["your area"]. *)
Example city_blank : city_of (lit "weather in   ?") = [].
Proof. vm_compute. reflexivity. Qed.

Example weather_simulated :
  chat_post None (fun _ => None) (fun _ _ => inr ""%string)
    (Some [msg "user" "What's the Weather in Paris?"]) = ok (simulated_reply (lit "paris")).
Proof. vm_compute. reflexivity. Qed.

Lemma gemini_history_head_witness :
  trole {| trole := GUser; text := Some "Plan my day"%string |} = GUser.
Proof.
  exact (gemini_history_head
           (msg "assistant" "Hi" :: convo)%string
           [{| trole := GUser; text := Some "Plan my day"%string |}]
           (Some "Sure, here is a plan."%string) eq_refl _ [] eq_refl).
Defined.

Lemma gemini_request_spec_witness :
  exists p lt, map to_turn (filter chat_role convo) =
    p ++ [{| trole := GUser; text := Some "Plan my day"%string |}] ++ [lt] /\
    Forall (fun u => is_model u = true) p /\ text lt = Some "Sure, here is a plan."%string.
Proof. apply gemini_request_spec. reflexivity. Defined.

Lemma user_turns_kept_witness :
  In {| trole := GUser; text := Some "Plan my day"%string |}
     [{| trole := GUser; text := Some "Plan my day"%string |}] \/
  Some "Sure, here is a plan."%string = Some "Plan my day"%string.
Proof.
  apply (user_turns_kept convo _ _ (msg "user" "Plan my day"%string)); cbn; auto.
Defined.

Lemma weather_first_witness :
  chat_post None (fun _ => None) (fun _ _ => inr ""%string)
    (Some [msg "user" "What's the Weather in Paris?"%string]) =
  handleWeather None (fun _ => None) (to_lower (decode "What's the Weather in Paris?"%string)).
Proof. apply (weather_first _ _ _ _ [] (msg "user" "What's the Weather in Paris?"%string)); vm_compute; reflexivity. Defined.

Definition busy : gemini_error := {| err_message := "Resource exhausted"%string; err_status := Some 429%Z |}.

Lemma chat_post_rate_limit_witness :
  chat_post None (fun _ => None) (fun _ _ => inl busy) (Some [msg "user" "Plan my day"%string]) =
  ok rate_limit_reply.
Proof.
  apply (chat_post_rate_limit _ _ _ _ [] (msg "user" "Plan my day"%string) "Plan my day"%string
           [] (Some "Plan my day"%string) busy); vm_compute; reflexivity.
Defined.

Lemma chat_post_no_turns_witness :
  chat_post None (fun _ => None) (fun _ _ => inr ""%string) (Some [msg "system" "Be brief"%string]) =
  {| status := 500; reply := trouble_reply |}.
Proof.
  apply (chat_post_no_turns _ _ _ _ [] (msg "system" "Be brief"%string) "Be brief"%string);
    vm_compute; reflexivity.
Defined.

Lemma weather_match_sound_witness :
  exists a w b, lit "weather in paris!" = a ++ w ++ lit "paris" ++ b /\
    ci_prefix weather_in w = true /\ List.length w = List.length weather_in /\
    lit "paris" <> [] /\ Forall (fun j => in_city_class j = true) (lit "paris") /\
    (forall j b', b = j :: b' -> in_city_class j = false).
Proof. apply weather_match_sound. vm_compute. reflexivity. Defined.

End Chat.
