(* ===== verification/ChatWidget.v ===== *)
(** * The chat custom element (src/public/js/chatbot-widget.js)

    [SupportChatbot] keeps a transcript [this.messages] (the objects it
    pushes, or whatever [JSON.parse] restored), an [isOpen] and a
    [typing] flag, its attribute-derived configuration, and a shadow DOM
    (the panel, the launcher, the list of bubbles, the title, the text
    area).  [localStorage] holds one item, under [stateKey]; it is the
    field [storage] of the state.  Every method is a function on
    [widget]; the methods that may throw return the uncaught error's
    message next to the state reached when it was thrown.  [Date.now()]
    is an argument [now]; the locale formatting of a bubble's time is
    the section parameter [time_label].  The network is a
    [fetch_result] given to the reply step, and the element's life is
    the step relation [wstep], where replies may come back in any order. *)

From Stdlib Require Import ZArith List String Ascii Bool Lia.
From S2P Require Import Prelude JsString Json.
Import ListNotations.

Module Widget.

Import JsString Json.
Local Open Scope list_scope.

(** ** State *)

Record host_style := {
  accent_var : option jstring;   (* --chat-accent, removed when null *)
  style_right : jstring;
  style_left : jstring }.

(** A [div] appended to [.list]: its [className] and [innerHTML]. *)
Record bubble := { b_class : jstring; b_html : jstring }.

(** The fields the constructor reads from the attributes; [None] is the
    [null] that [attributeChangedCallback] stores when an attribute is
    removed. *)
Record config := {
  defaultTitle : option jstring;
  defaultWelcome : option jstring;
  endpoint : jstring;
  position : option jstring;
  accent : option jstring;
  isEmbedded : bool }.

Record view := {
  panel_open : bool;             (* .panel has class open *)
  fab_display : jstring;         (* .fab style.display *)
  list_items : list bubble;      (* children of .list *)
  title_text : jstring;          (* .title textContent *)
  host : host_style;             (* the host element's inline style *)
  ta_value : jstring }.          (* textarea value *)

Record widget := {
  cfg : config;
  messages : list json;
  isOpen : bool;
  typing : bool;
  dom : view;
  storage : option jstring }.    (* localStorage item under stateKey *)

Definition with_cfg (w : widget) (x : config) : widget :=
  {| cfg := x; messages := messages w; isOpen := isOpen w; typing := typing w;
     dom := dom w; storage := storage w |}.
Definition with_messages (w : widget) (x : list json) : widget :=
  {| cfg := cfg w; messages := x; isOpen := isOpen w; typing := typing w;
     dom := dom w; storage := storage w |}.
Definition with_open (w : widget) (x : bool) : widget :=
  {| cfg := cfg w; messages := messages w; isOpen := x; typing := typing w;
     dom := dom w; storage := storage w |}.
Definition with_typing (w : widget) (x : bool) : widget :=
  {| cfg := cfg w; messages := messages w; isOpen := isOpen w; typing := x;
     dom := dom w; storage := storage w |}.
Definition with_dom (w : widget) (x : view) : widget :=
  {| cfg := cfg w; messages := messages w; isOpen := isOpen w; typing := typing w;
     dom := x; storage := storage w |}.
Definition with_storage (w : widget) (x : option jstring) : widget :=
  {| cfg := cfg w; messages := messages w; isOpen := isOpen w; typing := typing w;
     dom := dom w; storage := x |}.

Definition with_list (v : view) (x : list bubble) : view :=
  {| panel_open := panel_open v; fab_display := fab_display v; list_items := x;
     title_text := title_text v; host := host v; ta_value := ta_value v |}.
Definition with_panel (v : view) (p : bool) (f : jstring) : view :=
  {| panel_open := p; fab_display := f; list_items := list_items v;
     title_text := title_text v; host := host v; ta_value := ta_value v |}.
Definition with_styles (v : view) (h : host_style) (t : jstring) : view :=
  {| panel_open := panel_open v; fab_display := fab_display v;
     list_items := list_items v; title_text := t; host := h; ta_value := ta_value v |}.
Definition with_ta (v : view) (x : jstring) : view :=
  {| panel_open := panel_open v; fab_display := fab_display v;
     list_items := list_items v; title_text := title_text v; host := host v;
     ta_value := x |}.

(** ** Strings the element writes *)

Definition nl : jstring := [JAscii (ascii_of_nat 10)].

(** [<span class="k">] *)
Definition span_open (k : string) : jstring :=
  lit "<span class=" ++ c dq :: lit k ++ c dq :: lit ">".
Definition span_close : jstring := lit "</span>".

Definition welcome_default : jstring := lit "Hi! 👋 How can I help?".
Definition warn_prefix : jstring := lit "⚠️ ".

(** V8's messages for the two [TypeError]s a bubble can raise. *)
Definition err_null_role : jstring := lit "Cannot read properties of null (reading 'role')".
Definition err_null_replace : jstring := lit "Cannot read properties of null (reading 'replace')".
Definition err_not_function : jstring := lit "str.replace is not a function".

(** ** Construction and styles *)

(** [getAttribute(n)], the attributes in document order. *)
Definition get_attr (attrs : list (jstring * jstring)) (n : jstring) : option jstring :=
  option_map snd (find (fun a => jstring_eqb (fst a) n) attrs).

(** [this.getAttribute(n) || d] *)
Definition attr_or (attrs : list (jstring * jstring)) (n d : jstring) : jstring :=
  match get_attr attrs n with Some ((_ :: _) as v) => v | _ => d end.

Definition has_attr (attrs : list (jstring * jstring)) (n : jstring) : bool :=
  match get_attr attrs n with Some _ => true | None => false end.

(** [(this.position || '').includes('right')] *)
Definition pos_right (cf : config) : bool :=
  includes (match position cf with Some p => p | None => [] end) (lit "right").

(** [updateStyles]: the accent variable, the side the launcher sits on
    (no inline offsets when embedded, [removeAttribute('style')]), and
    the title's [textContent] ([null] writes the empty string). *)
Definition updateStyles (w : widget) : widget :=
  let cf := cfg w in
  let h := if isEmbedded cf
           then {| accent_var := accent cf; style_right := []; style_left := [] |}
           else {| accent_var := accent cf;
                   style_right := if pos_right cf then lit "20px" else [];
                   style_left := if pos_right cf then [] else lit "20px" |} in
  with_dom w (with_styles (dom w) h (match defaultTitle cf with Some t => t | None => [] end)).

(** [render]: a fresh shadow tree (closed panel, empty list and text
    area; the host's inline style survives), then [updateStyles]. *)
Definition render (w : widget) : widget :=
  updateStyles (with_dom w {| panel_open := false; fab_display := []; list_items := [];
                              title_text := []; host := host (dom w); ta_value := [] |}).

(** [constructor()], with the element's attributes and the current
    [localStorage] item. *)
Definition construct (attrs : list (jstring * jstring)) (stored : option jstring) : widget :=
  render
    {| cfg := {| defaultTitle := Some (attr_or attrs (lit "title") (lit "Support"));
                 defaultWelcome := Some (attr_or attrs (lit "welcome") welcome_default);
                 endpoint := attr_or attrs (lit "endpoint") [];
                 position := Some (attr_or attrs (lit "position") (lit "bottom-right"));
                 accent := Some (attr_or attrs (lit "accent") (lit "#0ea5e9"));
                 isEmbedded := has_attr attrs (lit "embedded") |};
       messages := []; isOpen := false; typing := false;
       dom := {| panel_open := false; fab_display := []; list_items := []; title_text := [];
                 host := {| accent_var := None; style_right := []; style_left := [] |};
                 ta_value := [] |};
       storage := stored |}.

(** ** Persistence *)

(** [messages.slice(-200)] *)
Definition last200 (l : list json) : list json := skipn (List.length l - 200) l.

(** [JSON.stringify({ isOpen, messages: this.messages.slice(-200) })] *)
Definition saved_text (op : bool) (ms : list json) : jstring :=
  stringify (JObj [(lit "isOpen", JBool op); (lit "messages", JArr (last200 ms))]).

Definition persistState (w : widget) : widget :=
  with_storage w (Some (saved_text (isOpen w) (messages w))).

Definition opt_eqb (a b : option jstring) : bool :=
  match a, b with
  | Some x, Some y => jstring_eqb x y
  | None, None => true
  | _, _ => false
  end.

(** The six [if (name === ...)] of [attributeChangedCallback]; the
    names are distinct, so at most one field changes. *)
Definition set_attr (name : jstring) (v : option jstring) (cf : config) : config :=
  {| defaultTitle := if jstring_eqb name (lit "title") then v else defaultTitle cf;
     defaultWelcome := if jstring_eqb name (lit "welcome") then v else defaultWelcome cf;
     accent := if jstring_eqb name (lit "accent") then v else accent cf;
     position := if jstring_eqb name (lit "position") then v else position cf;
     endpoint := if jstring_eqb name (lit "endpoint")
                 then match v with Some s => s | None => [] end else endpoint cf;
     isEmbedded := if jstring_eqb name (lit "embedded")
                   then match v with Some _ => true | None => false end else isEmbedded cf |}.

Definition attributeChangedCallback (name : jstring) (oldVal newVal : option jstring)
    (w : widget) : widget :=
  if opt_eqb oldVal newVal then w
  else persistState (updateStyles (with_cfg w (set_attr name newVal (cfg w)))).

Definition observedAttributes : list jstring :=
  map lit ["title"; "welcome"; "accent"; "position"; "endpoint"; "embedded"]%string.

(** The [try] block of [connectedCallback]: a [SyntaxError] from
    [JSON.parse], or the [TypeError] of [null.isOpen], leaves the state
    as it was. *)
Definition restore (saved : option jstring) (w : widget) : widget :=
  match saved with
  | Some ((_ :: _) as t) =>
      match parse t with
      | None | Some JNull => w
      | Some s =>
          with_messages (with_open w (truthy (prop s (lit "isOpen"))))
            (match prop s (lit "messages") with Some (JArr l) => l | _ => [] end)
      end
  | _ => w
  end.

(** [{ role, content, ts: Date.now() }] *)
Definition message_obj (role : jstring) (content : json) (ts : Z) : json :=
  JObj [(lit "role", JStr role); (lit "content", content); (lit "ts", JNum ts)].

(** [updateOpenState(open)]; scrolling and focusing are not state. *)
Definition updateOpenState (open : bool) (w : widget) : widget :=
  persistState
    (if isEmbedded (cfg w) then with_open w true
     else with_dom (with_open w open)
            (with_panel (dom w) open (if open then lit "none" else lit "grid"))).

(** [autoResize()], run on every [input] of the text area: its
    [style.height] from the height its content needs ([scrollHeight], a
    layout measurement in whole pixels), capped at 120 px. *)
Definition autoResize (scrollHeight : Z) : jstring :=
  number_text (Z.min scrollHeight 120) ++ lit "px".

(** ** Rendering *)

Definition escape_html (j : jchar) : jstring :=
  if jchar_eqb j (c "&") then lit "&amp;"
  else if jchar_eqb j (c "<") then lit "&lt;"
  else if jchar_eqb j (c ">") then lit "&gt;"
  else [j].

(** [escape(str = "")] on a string. *)
Definition escape (s : jstring) : jstring := flat_map escape_html s.

(** [this.escape(m.content)]: the default for [undefined], a
    [TypeError] for [null] and for any value without [replace]. *)
Definition content_html (o : option json) : jstring + jstring :=
  match o with
  | None => inr []
  | Some (JStr s) => inr (escape s)
  | Some JNull => inl err_null_replace
  | Some _ => inl err_not_function
  end.

(** [m.ts || Date.now()] *)
Definition shown_ts (o : option json) (now : Z) : json :=
  match o with Some v => if truthy o then v else JNum now | None => JNum now end.

Definition typing_bubble : bubble :=
  {| b_class := lit "bubble assistant";
     b_html := span_open "typing" ++ span_open "dot" ++ span_close ++ span_open "dot"
               ++ span_close ++ span_open "dot" ++ span_close ++ span_close |}.

Section Render.

(** [new Date(t).toLocaleTimeString([], {hour, minute})]: locale data,
    total (an invalid date prints as such). *)
Variable time_label : json -> jstring.

(** The body of the [for (const m of this.messages)] loop. *)
Definition bubble_of (now : Z) (m : json) : jstring + bubble :=
  match m with
  | JNull => inl err_null_role
  | _ =>
      match content_html (prop m (lit "content")) with
      | inl e => inl e
      | inr h =>
          inr {| b_class := lit "bubble " ++ template (prop m (lit "role"));
                 b_html := h ++ span_open "time"
                           ++ time_label (shown_ts (prop m (lit "ts")) now) ++ span_close |}
      end
  end.

(** The bubbles appended before the loop ends or throws. *)
Fixpoint render_items (now : Z) (ms : list json) : list bubble * option jstring :=
  match ms with
  | [] => ([], None)
  | m :: r =>
      match bubble_of now m with
      | inl e => ([], Some e)
      | inr b => let '(bs, e) := render_items now r in (b :: bs, e)
      end
  end.

(** [renderMessages]: a throw leaves the bubbles appended so far and
    skips the typing bubble and [persistState]. *)
Definition renderMessages (now : Z) (w : widget) : widget * option jstring :=
  let '(bs, e) := render_items now (messages w) in
  match e with
  | Some err => (with_dom w (with_list (dom w) bs), Some err)
  | None =>
      (persistState (with_dom w (with_list (dom w)
                                   (bs ++ if typing w then [typing_bubble] else []))), None)
  end.

(** [push(role, content)] *)
Definition push (role : jstring) (content : json) (now : Z) (w : widget) : widget * option jstring :=
  renderMessages now (with_messages w (messages w ++ [message_obj role content now])).

(** [connectedCallback()]: restore, force open when embedded, greet an
    empty transcript, render, and open or close the panel; a throw in
    [renderMessages] leaves the callback before [updateOpenState]. *)
Definition connectedCallback (now : Z) (w : widget) : widget * option jstring :=
  let w1 := restore (storage w) w in
  let w2 := if isEmbedded (cfg w1) then with_open w1 true else w1 in
  let w3 := match messages w2 with
            | [] => with_messages w2 [message_obj (lit "assistant") (opt_str (defaultWelcome (cfg w2))) now]
            | _ => w2
            end in
  match renderMessages now w3 with
  | (w4, None) => (updateOpenState (isOpen w4) w4, None)
  | (w4, Some e) => (w4, Some e)
  end.

(** An element found in the document: the constructor, then one
    [attributeChangedCallback(name, null, value)] per observed
    attribute it carries, in document order, then [connectedCallback]. *)
Definition upgrade (attrs : list (jstring * jstring)) (stored : option jstring) (now : Z)
    : widget * option jstring :=
  let w := fold_left (fun w a => attributeChangedCallback (fst a) None (Some (snd a)) w)
             (filter (fun a => existsb (jstring_eqb (fst a)) observedAttributes) attrs)
             (construct attrs stored) in
  connectedCallback now w.

End Render.

(** ** Sending and replies *)

(** What [handleSend] hands to [getReply(text, this.messages)]: the text
    and, when [this.endpoint] is set, the body of the [fetch] made
    before the first [await] (the transcript as it is then). *)
Record request := { req_text : jstring; req_body : option jstring }.

Definition getReply_request (text : jstring) (w : widget) : request :=
  {| req_text := text;
     req_body := match endpoint (cfg w) with
                 | [] => None
                 | _ => Some (stringify (JObj [(lit "messages", JArr (messages w))]))
                 end |}.

(** UTF-16 code units of a character. *)
Definition units (j : jchar) : nat :=
  match j with JAscii _ => 1 | JWide b => if String.length b =? 4 then 2 else 1 end.

(** [text.slice(0, n)]; a surrogate pair cut in half is dropped whole
    (JavaScript keeps its lone high half). *)
Fixpoint slice_units (n : nat) (s : jstring) : jstring :=
  match s with
  | [] => []
  | j :: r => if units j <=? n then j :: slice_units (n - units j) r else []
  end.

(** [detail = JSON.parse(text).error || text], the [catch] keeping
    [text] on a [SyntaxError] and on the [TypeError] of [null.error]. *)
Definition error_detail (text : jstring) : jstring :=
  match parse text with
  | None | Some JNull => text
  | Some v => let e := prop v (lit "error") in if truthy e then template e else text
  end.

(** The response branch of the second [getReply]: what it throws
    ([inl], the error's message) or returns ([inr], the value of
    [data.reply || data.message || data.text || 'Thanks!']). *)
Definition server_reply (st : Z) (text : jstring) : jstring + json :=
  if negb (http_ok st) then inl (lit "HTTP " ++ number_text st ++ lit ": " ++ error_detail text)
  else match parse text with
       | None | Some JNull => inl (lit "Bad JSON from server: " ++ slice_units 200 text)
       | Some d => inr (first_truthy [prop d (lit "reply"); prop d (lit "message");
                                      prop d (lit "text")] (JStr (lit "Thanks!")))
       end.

Definition demo_reply (t : jstring) : jstring :=
  lit "You said: " ++ c dq :: t ++ c dq :: nl ++ nl
  ++ lit "(This is a demo reply. Connect your backend via the 'endpoint' attribute.)".

(** [getReply(latestUserText, history)], the second of the two methods
    of that name in the class body, which is the one the class keeps. *)
Definition getReply (r : request) (fr : fetch_result) : jstring + json :=
  match req_body r with
  | None => inr (JStr (demo_reply (req_text r)))
  | Some _ => match fr with
              | NetworkError m => inl m
              | Response st text => server_reply st text
              end
  end.

(** The first [getReply(latestUserText)] of the class body (dead: the
    second definition replaces it): the body it would post, and its
    outcome; the engine's [SyntaxError] message is abbreviated to the
    error's name. *)
Definition getReply_v1_body (t : jstring) : jstring :=
  stringify (JObj [(lit "message", JStr t)]).

Definition getReply_v1 (t : jstring) (ep : jstring) (fr : fetch_result) : jstring + json :=
  match ep with
  | [] => inr (JStr (lit "You said: " ++ c dq :: t ++ [c dq]))
  | _ => match fr with
         | NetworkError m => inl m
         | Response st text =>
             if negb (http_ok st) then inl (lit "HTTP " ++ number_text st ++ lit ": " ++ text)
             else match parse text with
                  | None => inl (lit "SyntaxError")
                  | Some JNull => inl (lit "Cannot read properties of null (reading 'reply')")
                  | Some d => inr (first_truthy [prop d (lit "reply"); prop d (lit "message")]
                                     (JStr (lit "No response from server")))
                  end
         end
  end.

Definition warning (m : jstring) : jstring := warn_prefix ++ m.

Section Reply.

Variable time_label : json -> jstring.

Inductive send_result := NoSend | SendThrew (e : jstring) | Sent (r : request).

(** The part of [handleSend] before [await]: an empty trimmed text
    returns; otherwise the text area is cleared, the text pushed, the
    typing bubble shown, and the request made.  A throw in either
    render rejects the call before the request. *)
Definition handleSend (now : Z) (w : widget) : widget * send_result :=
  match trim (ta_value (dom w)) with
  | [] => (w, NoSend)
  | text =>
      match push time_label (lit "user") (JStr text) now (with_dom w (with_ta (dom w) [])) with
      | (w1, Some e) => (w1, SendThrew e)
      | (w1, None) =>
          match renderMessages time_label now (with_typing w1 true) with
          | (w2, Some e) => (w2, SendThrew e)
          | (w2, None) => (w2, Sent (getReply_request text w2))
          end
      end
  end.

(** The part of [handleSend] after [await]: push the reply; when that
    push throws, or [getReply] threw, the [catch] pushes the warning
    (and a throw there rejects [handleSend]). *)
Definition finishSend (now : Z) (out : jstring + json) (w : widget) : widget * option jstring :=
  match out with
  | inr v =>
      match push time_label (lit "assistant") v now (with_typing w false) with
      | (w1, None) => (w1, None)
      | (w1, Some e) => push time_label (lit "assistant") (JStr (warning e)) now (with_typing w1 false)
      end
  | inl m => push time_label (lit "assistant") (JStr (warning m)) now (with_typing w false)
  end.

(** The element's life once connected, with the requests in flight.
    [resp r fr] says which way the network may settle request [r]; the
    replies come back in any order. *)
Variable resp : request -> fetch_result -> Prop.

Definition session := (widget * list request)%type.

Inductive wstep : session -> session -> Prop :=
| WType w p s : wstep (w, p) (with_dom w (with_ta (dom w) s), p)
| WToggle w p b : wstep (w, p) (updateOpenState b w, p)
| WAttr w p n o v : wstep (w, p) (attributeChangedCallback n o v w, p)
| WSend w p now w' r :
    handleSend now w = (w', Sent r) -> wstep (w, p) (w', p ++ [r])
| WSendNone w p now w' res :
    handleSend now w = (w', res) -> (forall r, res <> Sent r) -> wstep (w, p) (w', p)
| WReply w p1 r p2 fr now w' e :
    resp r fr -> finishSend now (getReply r fr) w = (w', e) -> wstep (w, p1 ++ r :: p2) (w', p1 ++ p2).

End Reply.

(** ** Lemmas on the operations *)

(** The part of the state a render, a style update or an attribute
    write leaves alone. *)
Definition same_model (w w' : widget) : Prop :=
  messages w' = messages w /\ isOpen w' = isOpen w /\ typing w' = typing w /\ cfg w' = cfg w
  /\ ta_value (dom w') = ta_value (dom w).

Lemma renderMessages_same tl now w : same_model w (fst (renderMessages tl now w)).
Proof.
  unfold renderMessages. destruct (render_items tl now (messages w)) as [bs [e|]];
    repeat split.
Qed.

Lemma renderMessages_ok tl now w w' :
  renderMessages tl now w = (w', None) -> storage w' = Some (saved_text (isOpen w) (messages w)).
Proof.
  unfold renderMessages. destruct (render_items tl now (messages w)) as [bs [e|]];
    intros H; inversion H; reflexivity.
Qed.

Lemma renderMessages_err tl now w w' e :
  renderMessages tl now w = (w', Some e) -> storage w' = storage w.
Proof.
  unfold renderMessages. destruct (render_items tl now (messages w)) as [bs [e'|]];
    intros H; inversion H; reflexivity.
Qed.

Lemma push_messages tl role v now w :
  messages (fst (push tl role v now w)) = messages w ++ [message_obj role v now].
Proof. unfold push. now rewrite (proj1 (renderMessages_same _ _ _)). Qed.

Lemma updateOpenState_messages b w : messages (updateOpenState b w) = messages w.
Proof. unfold updateOpenState. now destruct (isEmbedded (cfg w)). Qed.

Lemma attributeChanged_model n o v w : messages (attributeChangedCallback n o v w) = messages w
  /\ isOpen (attributeChangedCallback n o v w) = isOpen w.
Proof. unfold attributeChangedCallback. now destruct (opt_eqb o v). Qed.

Lemma attributeChanged_saves n v w :
  storage (attributeChangedCallback n None (Some v) w) = Some (saved_text (isOpen w) (messages w)).
Proof. reflexivity. Qed.

Lemma last200_suffix l : l = firstn (List.length l - 200) l ++ last200 l.
Proof. unfold last200. now rewrite firstn_skipn. Qed.

Lemma last200_length l : List.length (last200 l) = Nat.min (List.length l) 200.
Proof. unfold last200. rewrite length_skipn. lia. Qed.

Lemma restore_saved b ms w :
  restore (Some (saved_text b ms)) w = with_messages (with_open w b) (last200 ms).
Proof.
  assert (Hc : exists j t, saved_text b ms = j :: t) by (eexists _, _; reflexivity).
  destruct Hc as (j & t & Ht). unfold restore. rewrite Ht, <- Ht.
  unfold saved_text at 1. rewrite parse_stringify. destruct b; reflexivity.
Qed.

(** The attribute callbacks an element gets before it is connected
    keep the empty transcript and save it. *)
Lemma attributes_save_empty (l : list (jstring * jstring)) w :
  messages w = [] -> isOpen w = false ->
  let w' := fold_left (fun w a => attributeChangedCallback (fst a) None (Some (snd a)) w) l w in
  messages w' = [] /\ isOpen w' = false /\ (l <> [] -> storage w' = Some (saved_text false [])).
Proof.
  revert w. induction l as [|a l IH]; intros w Hm Ho; cbn [fold_left].
  - repeat split; auto. now intros [].
  - destruct (attributeChanged_model (fst a) None (Some (snd a)) w) as [Hm' Ho'].
    destruct (IH (attributeChangedCallback (fst a) None (Some (snd a)) w)) as (H1 & H2 & H3);
      try congruence.
    repeat split; auto. intros _. destruct l as [|a' l]; [|apply H3; discriminate].
    cbn [fold_left]. now rewrite attributeChanged_saves, Hm, Ho.
Qed.

(** The browser's decoding of the three character references [escape]
    writes (the reading side of [innerHTML]); [n] is fuel. *)
Definition entity (r : jstring) : option (jchar * jstring) :=
  if is_prefix (lit "amp;") r then Some (c "&", skipn 4 r)
  else if is_prefix (lit "lt;") r then Some (c "<", skipn 3 r)
  else if is_prefix (lit "gt;") r then Some (c ">", skipn 3 r)
  else None.

Fixpoint unescape (n : nat) (s : jstring) : jstring :=
  match n with
  | O => s
  | S n' =>
      match s with
      | [] => []
      | j :: r =>
          if jchar_eqb j (c "&") then
            match entity r with
            | Some (x, r') => x :: unescape n' r'
            | None => j :: unescape n' r
            end
          else j :: unescape n' r
      end
  end.

Lemma unescape_step j t n : unescape (S n) (escape_html j ++ t) = j :: unescape n t.
Proof.
  unfold escape_html.
  destruct (jchar_eqb j (c "&")) eqn:Ha; [apply jchar_eqb_eq in Ha; now subst|].
  destruct (jchar_eqb j (c "<")) eqn:Hl; [apply jchar_eqb_eq in Hl; now subst|].
  destruct (jchar_eqb j (c ">")) eqn:Hg; [apply jchar_eqb_eq in Hg; now subst|].
  cbn. now rewrite Ha.
Qed.

Lemma escape_html_length j : 1 <= List.length (escape_html j).
Proof.
  unfold escape_html. repeat match goal with |- context [if ?b then _ else _] => destruct b end;
    apply Nat.leb_le; reflexivity.
Qed.

Lemma unescape_escape s : forall n, List.length (escape s) <= n -> unescape n (escape s) = s.
Proof.
  induction s as [|j s IH]; intros n Hn; [now destruct n|].
  unfold escape in *. cbn [flat_map] in *. rewrite length_app in Hn.
  pose proof (escape_html_length j). destruct n as [|n]; [lia|].
  rewrite unescape_step. f_equal. apply IH. lia.
Qed.

Lemma restore_model saved w : cfg (restore saved w) = cfg w /\ typing (restore saved w) = typing w.
Proof.
  unfold restore. destruct saved as [[|j t]|]; auto.
  destruct (parse (j :: t)) as [[]|]; auto.
Qed.

(** What [connectedCallback] leaves in the transcript: the restored
    messages, or the welcome message when none were restored. *)
Lemma connected_messages tl now w :
  let ms := messages (restore (storage w) w) in
  (ms = [] -> exists v, messages (fst (connectedCallback tl now w)) = [message_obj (lit "assistant") v now])
  /\ (ms <> [] -> messages (fst (connectedCallback tl now w)) = ms).
Proof.
  cbv zeta. unfold connectedCallback.
  set (w1 := restore (storage w) w).
  set (w2 := if isEmbedded (cfg w1) then with_open w1 true else w1).
  assert (H2 : messages w2 = messages w1) by (unfold w2; now destruct (isEmbedded (cfg w1))).
  set (w3 := match messages w2 with [] => _ | _ => w2 end).
  assert (H3 : messages (fst (match renderMessages tl now w3 with
                              | (w4, None) => (updateOpenState (isOpen w4) w4, None)
                              | (w4, Some e) => (w4, Some e) end)) = messages w3).
  { pose proof (renderMessages_same tl now w3) as [Hm _].
    destruct (renderMessages tl now w3) as [w4 [e|]]; cbn [fst] in *;
      [|rewrite updateOpenState_messages]; exact Hm. }
  rewrite H3. unfold w3. split; intros Hm.
  - rewrite H2, Hm. eexists. reflexivity.
  - destruct (messages w2) eqn:E; [congruence|congruence].
Qed.

Lemma construct_model attrs stored :
  messages (construct attrs stored) = [] /\ isOpen (construct attrs stored) = false
  /\ storage (construct attrs stored) = stored.
Proof. repeat split. Qed.

Lemma last200_app2 l x y :
  exists pre, last200 (l ++ [x; y]) = pre ++ [x; y] /\ exists older, l = older ++ pre.
Proof.
  unfold last200. rewrite length_app. cbn [List.length].
  exists (skipn (List.length l + 2 - 200) l). rewrite skipn_app.
  replace (List.length l + 2 - 200 - List.length l) with 0 by lia. split; [reflexivity|].
  exists (firstn (List.length l + 2 - 200) l). symmetry. apply firstn_skipn.
Qed.

(** ** Messages of the expected shape *)

(** A message as [push] builds it from a string. *)
Definition msg_ok (m : json) : Prop := exists r s t, m = message_obj r (JStr s) t.

Definition wf (w : widget) : Prop := Forall msg_ok (messages w).

Lemma bubble_of_ok tl now m : msg_ok m -> exists b, bubble_of tl now m = inr b.
Proof. intros (r & s & t & ->). eexists. reflexivity. Qed.

Lemma render_items_app tl now ms r :
  Forall msg_ok ms -> snd (render_items tl now (ms ++ r)) = snd (render_items tl now r).
Proof.
  induction 1 as [|m ms Hm _ IH]; [reflexivity|]. cbn [app render_items].
  destruct (bubble_of_ok tl now m Hm) as [b ->].
  destruct (render_items tl now (ms ++ r)) as [bs e]. exact IH.
Qed.

Lemma renderMessages_wf tl now w :
  wf w -> exists w', renderMessages tl now w = (w', None).
Proof.
  intros H. unfold renderMessages.
  pose proof (render_items_app tl now (messages w) [] H) as He.
  rewrite app_nil_r in He. destruct (render_items tl now (messages w)) as [bs e].
  cbn in He. subst e. eexists. reflexivity.
Qed.

Lemma push_wf tl role s now w :
  wf w -> exists w', push tl role (JStr s) now w = (w', None)
    /\ messages w' = messages w ++ [message_obj role (JStr s) now] /\ wf w'.
Proof.
  intros H. assert (H' : wf (with_messages w (messages w ++ [message_obj role (JStr s) now]))).
  { apply Forall_app. split; [exact H|]. repeat econstructor. }
  destruct (renderMessages_wf tl now _ H') as [w' Hw']. exists w'.
  pose proof (push_messages tl role (JStr s) now w) as Hm. unfold push in *. rewrite Hw' in *. cbn [fst] in Hm.
  split; [reflexivity|]. split; [exact Hm|]. unfold wf. now rewrite Hm.
Qed.

Lemma push_same tl role v now w : let w' := fst (push tl role v now w) in
  isOpen w' = isOpen w /\ typing w' = typing w /\ cfg w' = cfg w /\ ta_value (dom w') = ta_value (dom w).
Proof.
  unfold push. destruct (renderMessages_same tl now (with_messages w (messages w ++ [message_obj role v now])))
    as (_ & H1 & H2 & H3 & H4). repeat split; assumption.
Qed.

(** ** The element's properties *)

(** C4: Persistence round trip: the item [persistState] writes is read back
    by the restore of [connectedCallback] as the open flag and the last
    200 messages of the transcript, oldest first. *)
Theorem persist_restore w w' :
  restore (storage (persistState w)) w' = with_messages (with_open w' (isOpen w)) (last200 (messages w))
  /\ List.length (last200 (messages w)) <= 200
  /\ exists older, messages w = older ++ last200 (messages w).
Proof.
  split; [apply restore_saved|]. split; [rewrite last200_length; lia|].
  eexists. apply last200_suffix.
Qed.

(** C23: An element found in the page with any observed attribute loses the
    saved transcript: the attribute callbacks, which run after the
    constructor and before [connectedCallback], each call
    [persistState] on the still empty transcript, so the restore reads
    back nothing and the transcript is the welcome message alone. *)
Theorem upgrade_forgets_history tl attrs stored now a :
  In a attrs -> existsb (jstring_eqb (fst a)) observedAttributes = true ->
  exists v, messages (fst (upgrade tl attrs stored now)) = [message_obj (lit "assistant") v now].
Proof.
  intros Hin Hobs. unfold upgrade.
  set (l := filter _ attrs).
  assert (Hl : l <> []) by (intros E; assert (In a l) by (apply filter_In; auto);
                            rewrite E in *; contradiction).
  destruct (construct_model attrs stored) as (Hm & Ho & _).
  destruct (attributes_save_empty l _ Hm Ho) as (_ & _ & Hs).
  apply (connected_messages tl now). rewrite (Hs Hl), restore_saved. reflexivity.
Qed.

Lemma handleSend_spec tl now w :
  wf w ->
  match trim (ta_value (dom w)) with
  | [] => handleSend tl now w = (w, NoSend)
  | text => exists w', handleSend tl now w = (w', Sent (getReply_request text w'))
      /\ messages w' = messages w ++ [message_obj (lit "user") (JStr text) now]
      /\ typing w' = true /\ ta_value (dom w') = [] /\ cfg w' = cfg w /\ wf w'
  end.
Proof.
  intros H. unfold handleSend. destruct (trim (ta_value (dom w))) as [|j t]; [reflexivity|].
  destruct (push_wf tl (lit "user") (j :: t) now (with_dom w (with_ta (dom w) [])) H)
    as (w1 & Hp & Hm1 & Hw1).
  pose proof (push_same tl (lit "user") (JStr (j :: t)) now (with_dom w (with_ta (dom w) [])))
    as (_ & _ & Hc & Hta). rewrite Hp in Hta, Hc. cbn [fst] in Hta, Hc. rewrite Hp.
  destruct (renderMessages_wf tl now (with_typing w1 true) Hw1) as [w2 Hr].
  pose proof (renderMessages_same tl now (with_typing w1 true)) as (Hm2 & _ & Ht2 & Hc2 & Hta2).
  rewrite Hr in *. cbn [fst messages typing dom cfg ta_value with_typing with_dom with_ta] in *.
  exists w2. repeat split; try congruence. unfold wf. rewrite Hm2. exact Hw1.
Qed.

Lemma finishSend_spec tl now out w :
  wf w -> (forall v, out = inr v -> exists s, v = JStr s) ->
  exists s w', finishSend tl now out w = (w', None)
    /\ messages w' = messages w ++ [message_obj (lit "assistant") (JStr s) now]
    /\ typing w' = false /\ wf w'
    /\ match out with inl m => s = warning m | inr v => v = JStr s end.
Proof.
  intros H Hout.
  assert (Hstr : exists s, match out with inl m => s = warning m | inr v => v = JStr s end).
  { destruct out as [m|v]; [eauto|]. destruct (Hout v eq_refl) as [s ->]. eauto. }
  destruct Hstr as [s Hs]. exists s.
  destruct (push_wf tl (lit "assistant") s now (with_typing w false) H) as (w1 & Hp & Hm & Hw).
  pose proof (push_same tl (lit "assistant") (JStr s) now (with_typing w false)) as (_ & Ht & _).
  rewrite Hp in Ht. exists w1. unfold finishSend.
  destruct out as [m|v]; [subst s|subst v]; rewrite Hp; repeat split; assumption.
Qed.

(** A network whose replies the element can show as text: a thrown
    error, or a string. *)
Definition text_replies (resp : request -> fetch_result -> Prop) : Prop :=
  forall r fr v, resp r fr -> getReply r fr = inr v -> exists s, v = JStr s.

Lemma wstep_wf tl resp s s' : text_replies resp -> wstep tl resp s s' -> wf (fst s) -> wf (fst s').
Proof.
  intros Hr Hs Hw. destruct Hs; cbn [fst] in *.
  - exact Hw.
  - unfold wf. now rewrite updateOpenState_messages.
  - unfold wf. now rewrite (proj1 (attributeChanged_model n o v w)).
  - pose proof (handleSend_spec tl now w Hw) as Hh.
    destruct (trim (ta_value (dom w))); [rewrite Hh in H; congruence|].
    destruct Hh as (w2 & Hh & _ & _ & _ & _ & Hw2). rewrite Hh in H. congruence.
  - pose proof (handleSend_spec tl now w Hw) as Hh.
    destruct (trim (ta_value (dom w))); [rewrite Hh in H; congruence|].
    destruct Hh as (w2 & Hh & _ & _ & _ & _ & Hw2). rewrite Hh in H. inversion H; subst.
    exfalso. eapply H0. reflexivity.
  - destruct (finishSend_spec tl now (getReply r fr) w Hw (fun v E => Hr r fr v H E)) as (x & w2 & Hf & _ & _ & Hw2 & _).
    rewrite Hf in H0. congruence.
Qed.

Lemma escape_html_no_tag j : ~ In (c "<") (escape_html j) /\ ~ In (c ">") (escape_html j).
Proof.
  unfold escape_html.
  destruct (jchar_eqb j (c "&")) eqn:Ha; [|destruct (jchar_eqb j (c "<")) eqn:Hl;
    [|destruct (jchar_eqb j (c ">")) eqn:Hg]];
  try (split; intros H; compute in H; repeat destruct H as [H|H]; try discriminate H; exact H).
  split; intros [H|[]]; subst j; [rewrite jchar_eqb_refl in Hl | rewrite jchar_eqb_refl in Hg];
    discriminate.
Qed.

Lemma render_items_bad tl now r v t rest :
  (forall s, v <> JStr s) -> v <> JNull ->
  render_items tl now (message_obj r v t :: rest) = ([], Some err_not_function).
Proof.
  intros Hs Hn. destruct v as [|b|z|s|l|l];
    [congruence|reflexivity|reflexivity|now destruct (Hs s)|reflexivity|reflexivity].
Qed.

Lemma renderMessages_result tl now w :
  snd (renderMessages tl now w) = snd (render_items tl now (messages w)).
Proof. unfold renderMessages. now destruct (render_items tl now (messages w)) as [bs [e|]]. Qed.

Lemma push_throws tl role v now w e :
  snd (render_items tl now (messages w ++ [message_obj role v now])) = Some e ->
  exists w', push tl role v now w = (w', Some e) /\ storage w' = storage w
             /\ messages w' = messages w ++ [message_obj role v now].
Proof.
  intros H. pose proof (push_messages tl role v now w) as Hm.
  pose proof (renderMessages_result tl now (with_messages w (messages w ++ [message_obj role v now]))) as Hr.
  unfold push in *. destruct (renderMessages tl now _) as [w' e'] eqn:E.
  cbn [snd fst messages with_messages] in *. rewrite H in Hr. subst e'.
  exists w'. split; [reflexivity|]. split; [|exact Hm]. now apply renderMessages_err in E.
Qed.

Lemma updateOpenState_storage b w :
  storage (updateOpenState b w) = Some (saved_text (isOpen (updateOpenState b w)) (messages w)).
Proof. unfold updateOpenState. now destruct (isEmbedded (cfg w)). Qed.

(** When something was restored, [connectedCallback] throws exactly when
    rendering the restored transcript throws. *)
Lemma connected_result tl now w :
  messages (restore (storage w) w) <> [] ->
  snd (connectedCallback tl now w) = snd (render_items tl now (messages (restore (storage w) w))).
Proof.
  intros Hne. unfold connectedCallback.
  set (w1 := restore (storage w) w) in *.
  set (w2 := if isEmbedded (cfg w1) then with_open w1 true else w1).
  assert (H2 : messages w2 = messages w1) by (unfold w2; now destruct (isEmbedded (cfg w1))).
  assert (H3 : match messages w2 with [] => with_messages w2 [message_obj (lit "assistant")
                  (opt_str (defaultWelcome (cfg w2))) now] | _ => w2 end = w2)
    by (destruct (messages w2) eqn:E; [congruence|reflexivity]).
  rewrite H3. pose proof (renderMessages_result tl now w2) as Hr.
  destruct (renderMessages tl now w2) as [w4 [e|]]; cbn [snd] in *; congruence.
Qed.

Lemma connected_throws tl now attrs o ms pre rest r z t :
  last200 ms = pre ++ message_obj r (JNum z) t :: rest -> Forall msg_ok pre ->
  snd (connectedCallback tl now (construct attrs (Some (saved_text o ms)))) = Some err_not_function.
Proof.
  intros Hl Hp. rewrite connected_result; rewrite (proj2 (proj2 (construct_model attrs _))),
    restore_saved; cbn [messages with_messages]; rewrite Hl.
  - rewrite render_items_app by exact Hp. now rewrite render_items_bad by discriminate.
  - destruct pre; discriminate.
Qed.

(** C24: The bubbles show the text as typed: the browser decodes what
    [escape] writes back to the message's text, and that HTML has no
    [<] or [>], so a message cannot open an element. *)
Theorem escape_roundtrip s :
  unescape (List.length (escape s)) (escape s) = s /\ ~ In (c "<") (escape s) /\ ~ In (c ">") (escape s).
Proof.
  split; [apply unescape_escape; lia|].
  split; intros H; apply in_flat_map in H as (j & _ & Hj);
    [apply (proj1 (escape_html_no_tag j)) | apply (proj2 (escape_html_no_tag j))]; exact Hj.
Qed.

(** C14: Type invariant: when every reply of the network is an error or a
    string, each step of the element keeps every message an object
    [{role, content, ts}] with a string content, so no render throws. *)
Theorem wf_invariant tl resp s s' :
  text_replies resp -> star (wstep tl resp) s s' -> wf (fst s) -> wf (fst s').
Proof.
  intros Hr. apply (star_invariant _ (fun s => wf (fst s))).
  intros a b Ha Hab. exact (wstep_wf tl resp a b Hr Hab Ha).
Qed.



(** ** Witnesses *)

Definition tl0 (_ : json) : jstring := lit "10:00".

(** A network that answers every request with [{"reply":"ok"}]. *)
Definition resp0 (_ : request) (fr : fetch_result) : Prop :=
  fr = Response 200 (stringify (JObj [(lit "reply", JStr (lit "ok"))])).

Definition w0 : widget := fst (upgrade tl0 [] None 1000).

Lemma upgrade_forgets_history_witness :
  let attrs := [(lit "title", lit "Help")] in
  In (lit "title", lit "Help") attrs /\
  existsb (jstring_eqb (fst (lit "title", lit "Help"))) observedAttributes = true /\
  exists v, messages (fst (upgrade tl0 attrs
              (Some (saved_text false [message_obj (lit "user") (JStr (lit "hi")) 5])) 1000))
            = [message_obj (lit "assistant") v 1000].
Proof.
  cbv zeta. split; [left; reflexivity|]. split; [reflexivity|].
  apply upgrade_forgets_history with (a := (lit "title", lit "Help")); [left; reflexivity|reflexivity].
Defined.

Lemma wf_invariant_witness :
  let w1 := with_dom w0 (with_ta (dom w0) (lit "hello")) in
  text_replies resp0 /\ star (wstep tl0 resp0) (w0, []) (w1, []) /\ wf w0 /\ wf w1.
Proof.
  cbv zeta.
  assert (Hr : text_replies resp0).
  { intros r fr v Hf Hv. unfold resp0 in Hf. subst fr. unfold getReply in Hv.
    destruct (req_body r); vm_compute in Hv; inversion Hv; eauto. }
  assert (H0 : wf w0) by (unfold wf; vm_compute; repeat constructor; eexists _, _, _; reflexivity).
  assert (Hs : star (wstep tl0 resp0) (w0, []) (with_dom w0 (with_ta (dom w0) (lit "hello")), []))
    by (apply star_one; apply WType).
  split; [exact Hr|]. split; [exact Hs|]. split; [exact H0|].
  exact (wf_invariant tl0 resp0 _ _ Hr Hs H0).
Defined.



End Widget.
