(* ===== verification/ChatSession.v ===== *)
(** * The chat widget talking to [POST /api/chat]

    The composition of [ChatWidget] (the browser side,
    src/public/js/chatbot-widget.js) with [ChatServer] (the handler of
    src/server.js): the request body the widget posts is read by
    [express.json()] and destructured as [req.body.messages]; the
    handler's [res.json({ reply })] (with [res.status(500)] in its
    [catch]) is the response the widget's [getReply] reads.  The
    network [server] relates each request of the widget to that
    response, and is the [resp] of the widget's step relation. *)

From Stdlib Require Import ZArith List String Ascii Bool Lia.
From S2P Require Import Prelude JsString Json ChatServer ChatWidget.
Import ListNotations.

Module Session.

Import JsString Json Widget.
Local Open Scope list_scope.

(** An element of [req.body.messages] as the handler reads it: a
    string [role] and a string or absent [content] (other values are
    outside the handler's model). *)
Definition to_message (m : json) : option Chat.message :=
  match prop m (lit "role"), prop m (lit "content") with
  | Some (JStr r), Some (JStr t) => Some {| Chat.role := encode r; Chat.content := Some (encode t) |}
  | Some (JStr r), None => Some {| Chat.role := encode r; Chat.content := None |}
  | _, _ => None
  end.

Fixpoint all_some {A B} (f : A -> option B) (l : list A) : option (list B) :=
  match l with
  | [] => Some []
  | x :: r => match f x, all_some f r with
              | Some y, Some ys => Some (y :: ys)
              | _, _ => None
              end
  end.

(** [const { messages } = req.body]: [Some None] when absent. *)
Definition body_messages (body : jstring) : option (option (list Chat.message)) :=
  match parse body with
  | Some (JObj l) =>
      match member (lit "messages") l with
      | None => Some None
      | Some (JArr ms) => option_map Some (all_some to_message ms)
      | Some _ => None
      end
  | _ => None
  end.

Section Server.

Variable api_key : option string.
Variable weather_api : string -> option Chat.weather_data.
Variable gemini : list Chat.turn -> option string -> Chat.gemini_error + string.

(** [res.status(s).json({ reply })] for the handler's response. *)
Definition answer (ms : option (list Chat.message)) : fetch_result :=
  let r := Chat.chat_post api_key weather_api gemini ms in
  Response (Chat.status r) (stringify (JObj [(lit "reply", JStr (decode (Chat.reply r)))])).

(** The network of the application: the widget's [endpoint] is the
    handler, each request answered with the handler's response. *)
Definition server (rq : request) (fr : fetch_result) : Prop :=
  exists b ms, req_body rq = Some b /\ body_messages b = Some ms /\ fr = answer ms.

End Server.

(** ** Lemmas *)

Lemma prop_reply_only x k :
  prop (JObj [(lit "reply", JStr x)]) k = if jstring_eqb k (lit "reply") then Some (JStr x) else None.
Proof. reflexivity. Qed.

Lemma to_message_obj r s t :
  to_message (message_obj r (JStr s) t) = Some {| Chat.role := encode r; Chat.content := Some (encode s) |}.
Proof. reflexivity. Qed.

Lemma all_some_wf ms :
  Forall msg_ok ms -> exists l, all_some to_message ms = Some l.
Proof.
  induction 1 as [|m ms (r & s & t & ->) _ [l IH]]; [now exists []|].
  cbn [all_some]. rewrite to_message_obj, IH. eauto.
Qed.

Lemma all_some_app {A B} (f : A -> option B) l1 l2 y1 y2 :
  all_some f l1 = Some y1 -> all_some f l2 = Some y2 -> all_some f (l1 ++ l2) = Some (y1 ++ y2).
Proof.
  revert y1. induction l1 as [|x l1 IH]; cbn; intros y1 H1 H2; [now inversion H1|].
  destruct (f x) as [y|], (all_some f l1) as [ys|]; try discriminate.
  inversion H1. now rewrite (IH ys eq_refl H2).
Qed.

Lemma body_of_transcript ms :
  body_messages (stringify (JObj [(lit "messages", JArr ms)])) = option_map Some (all_some to_message ms).
Proof. unfold body_messages. rewrite parse_stringify. reflexivity. Qed.

Lemma server_reply_ok x :
  server_reply 200 (stringify (JObj [(lit "reply", JStr x)]))
  = inr (match x with [] => JStr (lit "Thanks!") | _ => JStr x end).
Proof. unfold server_reply. rewrite parse_stringify. destruct x; reflexivity. Qed.

Section Props.

Variable api_key : option string.
Variable weather_api : string -> option Chat.weather_data.
Variable gemini : list Chat.turn -> option string -> Chat.gemini_error + string.

Abbreviation chat_post := (Chat.chat_post api_key weather_api gemini).
Abbreviation answer := (answer api_key weather_api gemini).
Abbreviation server := (server api_key weather_api gemini).

Lemma getReply_answer r b ms :
  req_body r = Some b ->
  getReply r (answer ms) = server_reply (Chat.status (chat_post ms))
                             (stringify (JObj [(lit "reply", JStr (decode (Chat.reply (chat_post ms))))])).
Proof. intros Hb. unfold getReply. now rewrite Hb. Qed.

Lemma server_text_replies : text_replies server.
Proof.
  intros r fr v (b & ms & Hb & Hm & ->) Hv. rewrite (getReply_answer r b ms Hb) in Hv.
  unfold server_reply in Hv. destruct (negb (http_ok _)); [discriminate|].
  rewrite parse_stringify in Hv.
  destruct (decode (Chat.reply (chat_post ms))); injection Hv as <-; eauto.
Qed.

(** C5: Type invariant of the application: with the widget's endpoint
    served by the handler of server.js, every message of the transcript
    stays an object with a string content, whatever the handler, the
    weather service and Gemini answer, and in whatever order. *)
Theorem session_wf tl s s' :
  star (wstep tl server) s s' -> wf (fst s) -> wf (fst s').
Proof.
  apply (star_invariant _ (fun s => wf (fst s))).
  intros a b Ha Hab. exact (wstep_wf tl server a b server_text_replies Hab Ha).
Qed.

(** C18: What the user types is what the handler reads as the last message:
    the body posted after [handleSend] holds the transcript, ending with
    a user message whose content is the trimmed text. *)
Theorem typed_text_reaches_server tl now w :
  wf w -> endpoint (cfg w) <> [] -> trim (ta_value (dom w)) <> [] ->
  exists w' r b ms, handleSend tl now w = (w', Sent r) /\ req_body r = Some b /\
    body_messages b = Some (Some (ms ++ [{| Chat.role := "user";
                                            Chat.content := Some (encode (trim (ta_value (dom w)))) |}])).
Proof.
  intros Hw He Ht. pose proof (handleSend_spec tl now w Hw) as Hs.
  destruct (trim (ta_value (dom w))) as [|j t]; [contradiction|].
  destruct Hs as (w' & Hh & Hm & _ & _ & Hc & _).
  destruct (all_some_wf _ Hw) as [l Hl].
  exists w', (getReply_request (j :: t) w'), (stringify (JObj [(lit "messages", JArr (messages w'))])), l.
  split; [exact Hh|]. split.
  - unfold getReply_request. cbn [req_body]. rewrite Hc. now destruct (endpoint (cfg w)).
  - rewrite body_of_transcript, Hm.
    assert (Hu : all_some to_message [message_obj (lit "user") (JStr (j :: t)) now]
                 = Some [{| Chat.role := "user"; Chat.content := Some (encode (j :: t)) |}])
      by reflexivity.
    now rewrite (all_some_app _ _ _ _ _ Hl Hu).
Qed.


(** A successful reply with text is shown verbatim. *)
Theorem reply_shown r b ms :
  req_body r = Some b -> Chat.status (chat_post ms) = 200%Z -> Chat.reply (chat_post ms) <> ""%string ->
  getReply r (answer ms) = inr (JStr (decode (Chat.reply (chat_post ms)))).
Proof.
  intros Hb Hs Hr. rewrite (getReply_answer r b ms Hb), Hs, server_reply_ok.
  apply decode_nonempty in Hr. now destruct (decode (Chat.reply (chat_post ms))).
Qed.

(** The first [getReply] of the class, whose comment says the backend
    expects [{ message }], would post a body without [messages]: the
    handler answers every such request with its greeting. *)
Theorem getReply_v1_greeted t ep :
  ep <> [] ->
  body_messages (getReply_v1_body t) = Some None /\
  getReply_v1 t ep (answer None) = inr (JStr (decode Chat.greeting)).
Proof.
  intros He. split; [unfold body_messages, getReply_v1_body; now rewrite parse_stringify|].
  destruct ep as [|j ep]; [contradiction|]. vm_compute. reflexivity.
Qed.

End Props.

(** ** Witnesses *)

Definition no_weather (_ : string) : option Chat.weather_data := None.
Definition hello_gemini (_ : list Chat.turn) (_ : option string) : Chat.gemini_error + string :=
  inr "Hello!"%string.

(** An element with [endpoint="/api/chat"] and [" Hi "] typed. *)
Definition wE : widget :=
  let w := fst (upgrade tl0 [(lit "endpoint", lit "/api/chat")] None 1000) in
  with_dom w (with_ta (dom w) (lit " Hi ")).

Definition system_only : list Chat.message :=
  [{| Chat.role := "system"; Chat.content := Some "hello"%string |}].

Lemma wE_wf : wf wE.
Proof. unfold wf; vm_compute; repeat constructor; eexists _, _, _; reflexivity. Qed.

Lemma session_wf_witness :
  star (wstep tl0 (server None no_weather hello_gemini)) (wE, []) (wE, []) /\ wf wE /\ wf wE.
Proof.
  assert (Hs : star (wstep tl0 (server None no_weather hello_gemini)) (wE, []) (wE, []))
    by apply star_refl.
  split; [exact Hs|]. split; [exact wE_wf|].
  exact (session_wf None no_weather hello_gemini tl0 (wE, []) (wE, []) Hs wE_wf).
Defined.

Lemma typed_text_reaches_server_witness :
  wf wE /\ endpoint (cfg wE) <> [] /\ trim (ta_value (dom wE)) <> [] /\
  exists w' r b ms, handleSend tl0 2000 wE = (w', Sent r) /\ req_body r = Some b /\
    body_messages b = Some (Some (ms ++ [{| Chat.role := "user";
                                            Chat.content := Some (encode (trim (ta_value (dom wE)))) |}])).
Proof.
  assert (He : endpoint (cfg wE) <> []) by (vm_compute; discriminate).
  assert (Ht : trim (ta_value (dom wE)) <> []) by (vm_compute; discriminate).
  split; [exact wE_wf|]. split; [exact He|]. split; [exact Ht|].
  exact (typed_text_reaches_server tl0 2000 wE wE_wf He Ht).
Defined.


Lemma reply_shown_witness :
  let r := getReply_request (lit "Hi") wE in
  let ms := Some [{| Chat.role := "user"; Chat.content := Some "Hi"%string |}] in
  req_body r = Some (stringify (JObj [(lit "messages", JArr (messages wE))])) /\
  Chat.status (Chat.chat_post None no_weather hello_gemini ms) = 200%Z /\
  Chat.reply (Chat.chat_post None no_weather hello_gemini ms) <> ""%string /\
  getReply r (answer None no_weather hello_gemini ms)
  = inr (JStr (decode (Chat.reply (Chat.chat_post None no_weather hello_gemini ms)))).
Proof.
  cbv zeta.
  assert (Hb : req_body (getReply_request (lit "Hi") wE)
               = Some (stringify (JObj [(lit "messages", JArr (messages wE))]))) by reflexivity.
  assert (Hs : Chat.status (Chat.chat_post None no_weather hello_gemini
                 (Some [{| Chat.role := "user"; Chat.content := Some "Hi"%string |}])) = 200%Z)
    by (vm_compute; reflexivity).
  assert (Hr : Chat.reply (Chat.chat_post None no_weather hello_gemini
                 (Some [{| Chat.role := "user"; Chat.content := Some "Hi"%string |}])) <> ""%string)
    by (vm_compute; discriminate).
  split; [exact Hb|]. split; [exact Hs|]. split; [exact Hr|].
  exact (reply_shown None no_weather hello_gemini _ _ _ Hb Hs Hr).
Defined.

Lemma getReply_v1_greeted_witness :
  lit "/api/chat" <> [] /\
  body_messages (getReply_v1_body (lit "Hi")) = Some None /\
  getReply_v1 (lit "Hi") (lit "/api/chat") (answer None no_weather hello_gemini None)
  = inr (JStr (decode Chat.greeting)).
Proof.
  assert (He : lit "/api/chat" <> []) by discriminate.
  split; [exact He|]. exact (getReply_v1_greeted None no_weather hello_gemini (lit "Hi") _ He).
Defined.

End Session.
