(* ===== verification/TaskServer.v ===== *)
(** * Users, tasks and reminders of server.js

    The handlers of src/server.js that touch the database: the user
    resolution [getDbUser] (lines 238-274), [POST /api/analyze-task]
    (lines 279-318), the reminder poller [checkReminders] (lines
    323-345, run every 10 s) and the session endpoints [/user] (lines
    199-206) and [/calendar/events] (lines 209-229).  The stored event
    is the schema of src/models/Event.js.

    The user collection is reached through the class [UserStore]: what
    [getDbUser] needs of [User.findOne] and [User.create] (the User
    model is not among the sources; its use fixes the fields [_id],
    [username], [email]).  [ListStore] implements it as a collection in
    insertion order, which is how MongoDB answers [findOne] without an
    index or sort.  The asynchronous steps of [getDbUser] and of
    [checkReminders] are also modelled one [await] at a time, to show
    what interleaved requests and overlapping polls do. *)

From Stdlib Require Import ZArith List String Ascii Bool Lia.
From S2P Require Import Prelude JsString.
Import ListNotations.

Module Tasks.

Import JsString.
Local Open Scope Z_scope.
Local Open Scope list_scope.

(** ** The stored records *)

Record user := { uid : Z; username : string; email : string }.

(** [type] and [data.priority] of src/models/Event.js *)
Inductive ev_type := CALENDAR_EVENT | REMINDER | TODO | UNKNOWN.
Inductive priority := HIGH | MEDIUM | LOW.

(** An event document; dates are milliseconds, [None] for [null]. *)
Record event := {
  ev_id : Z;
  ev_user : Z;
  ev_kind : ev_type;
  title : option string;
  description : option string;
  startTime : option Z;
  endTime : option Z;
  ev_priority : option priority;
  reminderSent : bool;
  originalInput : option string
}.

(** What the [catch] blocks see: a [TypeError] with V8's message. *)
Inductive server_error := TypeError (message : string).

Definition read_undefined (prop : string) : server_error :=
  TypeError ("Cannot read properties of undefined (reading '" ++ prop ++ "')")%string.

(** ** The user collection, through an interface *)

(** [User.findOne({ email })] and [User.create({ username, email })]:
    [find_one] finds a user with that email, and after [create] a search
    for any email answers as before, except that an email with no user
    now finds the new one. *)
Class UserStore (S : Type) := {
  find_one : S -> string -> option user;
  create : S -> string -> string -> S * user;
  find_one_email : forall s e u, find_one s e = Some u -> email u = e;
  create_fields : forall s n e s' u, create s n e = (s', u) -> username u = n /\ email u = e;
  find_one_create : forall s n e s' u, create s n e = (s', u) ->
    forall e', find_one s' e' =
      match find_one s e' with
      | Some v => Some v
      | None => if String.eqb e' e then Some u else None
      end
}.

(** The find-or-create step the three branches of [getDbUser] share. *)
Definition find_or_create {S} `{UserStore S} (s : S) (name mail : string) : S * user :=
  match find_one s mail with
  | Some u => (s, u)
  | None => create s name mail
  end.

(** ** [getDbUser] *)

(** [req.user] of a Google session (passport's profile). *)
Record profile := {
  emails : list string;          (* the [value]s of [emails] *)
  photos : list string;          (* the [value]s of [photos] *)
  displayName : option string;
  accessToken : string
}.

Record task_body := {
  taskDescription : option string;
  userEmail : option string;
  userName : option string
}.

(** [name || email.split('@')[0]] *)
Definition name_or_local (name : option string) (mail : string) : string :=
  match str_or name None with
  | Some n => n
  | None => encode (split_first (JAscii "@") (decode mail))
  end.

Definition demo_email : string := "demo@example.com".

(** Branches 2 and 3: the session's first email, else the demo user.
    [req.user.emails[0].value] on a profile with no email throws. *)
Definition session_target (req : option profile) : server_error + (string * string) :=
  match req with
  | None => inr ("DemoUser"%string, demo_email)
  | Some p =>
      match emails p with
      | [] => inl (read_undefined "value")
      | v :: _ => if str_truthy (Some v) then inr (name_or_local (displayName p) v, v)
                  else inr ("DemoUser"%string, demo_email)
      end
  end.

(** The [(username, email)] a request resolves to, before its first
    [await]: branch 1 is the body's [userEmail]. *)
Definition db_target (req : option profile) (body : task_body)
    : server_error + (string * string) :=
  match userEmail body with
  | Some mail => if str_truthy (Some mail) then inr (name_or_local (userName body) mail, mail)
                 else session_target req
  | None => session_target req
  end.

Definition getDbUser {S} `{UserStore S} (s : S) (req : option profile) (body : task_body)
    : server_error + (S * user) :=
  match db_target req body with
  | inl e => inl e
  | inr (name, mail) => inr (find_or_create s name mail)
  end.

(** ** The collection in insertion order *)

Record user_col := { docs : list user; next_uid : Z }.

Definition list_find_one (c : user_col) (e : string) : option user :=
  find (fun u => String.eqb (email u) e) (docs c).

Definition list_create (c : user_col) (n e : string) : user_col * user :=
  let u := {| uid := next_uid c; username := n; email := e |} in
  ({| docs := docs c ++ [u]; next_uid := next_uid c + 1 |}, u).

Lemma find_app_one {A} (f : A -> bool) l x :
  find f (l ++ [x]) = match find f l with Some v => Some v | None => if f x then Some x else None end.
Proof. induction l as [|y l IH]; cbn; [reflexivity|]. destruct (f y); auto. Qed.

Lemma find_none_forall {A} (f : A -> bool) l : find f l = None -> forall x, In x l -> f x = false.
Proof.
  induction l as [|y l IH]; cbn; [tauto|].
  destruct (f y) eqn:E; [discriminate|]. intros H x [<-|Hx]; auto.
Qed.

#[export] Instance ListStore : UserStore user_col.
Proof.
  refine {| find_one := list_find_one; create := list_create |}.
  - intros c e u H. apply find_some in H as [_ H]. now apply String.eqb_eq.
  - intros c n e c' u H. injection H as <- <-. auto.
  - intros c n e c' u H e'. injection H as <- <-. unfold list_find_one. cbn.
    rewrite find_app_one. destruct find; [reflexivity|]. cbn.
    destruct (String.eqb e e') eqn:E1, (String.eqb e' e) eqn:E2; auto;
      apply String.eqb_eq in E1 || apply String.eqb_eq in E2; subst;
      rewrite String.eqb_refl in *; discriminate.
Defined.

(** ** Find-or-create against the interface *)

Section Store.
Context {S : Type} `{UserStore S}.

Lemma find_or_create_email s n e s' u : find_or_create s n e = (s', u) -> email u = e.
Proof.
  unfold find_or_create. destruct (find_one s e) eqn:E.
  - intros Hr. injection Hr as <- <-. now apply (find_one_email s).
  - intros Hc. now apply create_fields in Hc.
Qed.

Lemma find_or_create_found s n e s' u : find_or_create s n e = (s', u) -> find_one s' e = Some u.
Proof.
  unfold find_or_create. destruct (find_one s e) eqn:E.
  - intros Hr. injection Hr as <- <-. exact E.
  - intros Hc. rewrite (find_one_create _ _ _ _ _ Hc), E, String.eqb_refl. reflexivity.
Qed.

(** A second resolution of the same email finds the user the first
    returned and changes nothing. *)
Lemma find_or_create_again s n e s' u n' :
  find_or_create s n e = (s', u) -> find_or_create s' n' e = (s', u).
Proof. intros Hr. unfold find_or_create at 1. now rewrite (find_or_create_found _ _ _ _ _ Hr). Qed.

End Store.

(** ** [getDbUser] one [await] at a time

    A request in [getDbUser] is before its [findOne], between [findOne]
    and [create], or done.  The event loop may run any request's next
    step: [gstep] picks one. *)
Inductive gphase := GFind (name mail : string) | GCreate (name mail : string) | GDone (u : user).

Inductive gstep {S} `{UserStore S} : S * list gphase -> S * list gphase -> Prop :=
  | gstep_found s pre post n e u :
      find_one s e = Some u ->
      gstep (s, pre ++ GFind n e :: post) (s, pre ++ GDone u :: post)
  | gstep_missing s pre post n e :
      find_one s e = None ->
      gstep (s, pre ++ GFind n e :: post) (s, pre ++ GCreate n e :: post)
  | gstep_create s s' pre post n e u :
      create s n e = (s', u) ->
      gstep (s, pre ++ GCreate n e :: post) (s', pre ++ GDone u :: post).

(** ** [POST /api/analyze-task] *)

Record db := {
  users : user_col;
  events : list event;
  next_eid : Z;
  webhook : list string     (* the messages handed to [sendToWebhook] *)
}.

Inductive task_response :=
  | TaskOk (title : string) (dbId : Z)      (* { type: 'TODO', data: { title }, dbId } *)
  | TaskError (status : Z) (error : string).

(** The document [Event.create] stores for a task. *)
Definition todo_event (id owner : Z) (desc : string) : event :=
  {| ev_id := id; ev_user := owner; ev_kind := TODO; title := Some desc;
     description := Some "Forwarded to Webhook"%string; startTime := None; endTime := None;
     ev_priority := Some MEDIUM; reminderSent := false; originalInput := Some desc |}.

Definition analyze_task (d : db) (req : option profile) (body : task_body) : db * task_response :=
  match taskDescription body with
  | Some desc =>
      if str_truthy (Some desc) then
        let d1 := {| users := users d; events := events d; next_eid := next_eid d;
                     webhook := webhook d ++ [desc] |} in
        match getDbUser (users d1) req body with
        | inl (TypeError m) => (d1, TaskError 500 m)
        | inr (us, u) =>
            ({| users := us; events := events d ++ [todo_event (next_eid d) (uid u) desc];
                next_eid := next_eid d + 1; webhook := webhook d1 |},
             TaskOk desc (next_eid d))
        end
      else (d, TaskError 400 "Task description is required"%string)
  | None => (d, TaskError 400 "Task description is required"%string)
  end.

(** ** [checkReminders] *)

Definition five_minutes : Z := 5 * 60000.

(** The query of lines 330-334. *)
Definition due (now : Z) (e : event) : bool :=
  match ev_kind e with CALENDAR_EVENT | REMINDER => true | _ => false end
  && negb (reminderSent e)
  && match startTime e with
     | Some t => (now <=? t) && (t <=? now + five_minutes)
     | None => false
     end.

Definition with_sent (e : event) : event :=
  {| ev_id := ev_id e; ev_user := ev_user e; ev_kind := ev_kind e; title := title e;
     description := description e; startTime := startTime e; endTime := endTime e;
     ev_priority := ev_priority e; reminderSent := true; originalInput := originalInput e |}.

(** [event.reminderSent = true; await event.save();] *)
Definition save_sent (id : Z) (evs : list event) : list event :=
  map (fun e => if ev_id e =? id then with_sent e else e) evs.

(** What the loop amounts to: every event whose id was alerted is
    saved as sent. *)
Definition mark_all (ids : list Z) (evs : list event) : list event :=
  map (fun e => if existsb (Z.eqb (ev_id e)) ids then with_sent e else e) evs.

(** One pass of the loop: the ids alerted, in order, and the saved
    events. *)
Fixpoint alert_loop (found : list event) (evs : list event) : list Z * list event :=
  match found with
  | [] => ([], evs)
  | e :: r => let '(al, evs') := alert_loop r (save_sent (ev_id e) evs) in (ev_id e :: al, evs')
  end.

Definition checkReminders (now : Z) (d : db) : db * list Z :=
  let '(al, evs) := alert_loop (filter (due now) (events d)) (events d) in
  ({| users := users d; events := evs; next_eid := next_eid d; webhook := webhook d |}, al).

(** Polls run back to back at the given times. *)
Fixpoint run_polls (nows : list Z) (d : db) : db * list Z :=
  match nows with
  | [] => (d, [])
  | t :: r => let '(d1, a1) := checkReminders t d in
              let '(d2, a2) := run_polls r d1 in (d2, a1 ++ a2)
  end.

(** The times of [setInterval(checkReminders, 10000)] from [t0]. *)
Definition poll_times (t0 : Z) (k : nat) : list Z :=
  map (fun i => t0 + 10000 * Z.of_nat i) (seq 0 k).

(** ** The server as a step relation

    A request to [/api/analyze-task], a poll, or an insertion by another
    writer of the collection (the n8n workflow the webhook triggers, or
    anyone with database access): a new document with a fresh id.  The
    state is the database and the alerts printed so far. *)
Inductive srv_step : db * list Z -> db * list Z -> Prop :=
  | srv_analyze d log req body :
      srv_step (d, log) (fst (analyze_task d req body), log)
  | srv_poll d log now :
      srv_step (d, log) (fst (checkReminders now d), log ++ snd (checkReminders now d))
  | srv_insert d log e :
      ev_id e = next_eid d ->
      srv_step (d, log) ({| users := users d; events := events d ++ [e];
                            next_eid := next_eid d + 1; webhook := webhook d |}, log).

Definition empty_db : db :=
  {| users := {| docs := []; next_uid := 1 |}; events := []; next_eid := 1; webhook := [] |}.

Inductive reachable : db * list Z -> Prop :=
  | reach_init : reachable (empty_db, [])
  | reach_step st st' : reachable st -> srv_step st st' -> reachable st'.

(** The server alone: requests and polls, no other writer. *)
Inductive server_only : db * list Z -> Prop :=
  | so_init : server_only (empty_db, [])
  | so_analyze d log req body : server_only (d, log) -> server_only (fst (analyze_task d req body), log)
  | so_poll d log now :
      server_only (d, log) -> server_only (fst (checkReminders now d), log ++ snd (checkReminders now d)).

(** ** Overlapping polls, one [await] at a time

    [setInterval] starts a poll every 10 s whether or not the previous
    one has finished; a poll that has run its query holds the list it
    found and saves one document per step. *)
Inductive pphase := PQuery (now : Z) | PLoop (found : list event).

Inductive pstep : db * list Z * list pphase -> db * list Z * list pphase -> Prop :=
  | pstep_query d log pre post now :
      pstep (d, log, pre ++ PQuery now :: post)
            (d, log, pre ++ PLoop (filter (due now) (events d)) :: post)
  | pstep_alert d log pre post e found :
      pstep (d, log, pre ++ PLoop (e :: found) :: post)
            ({| users := users d; events := save_sent (ev_id e) (events d);
                next_eid := next_eid d; webhook := webhook d |},
             log ++ [ev_id e], pre ++ PLoop found :: post).

(** ** The session endpoints *)

Inductive user_response :=
  | UserUnauthorized                                  (* 401 {} *)
  | UserInfo (email photo token : string)
  | UserThrows (e : server_error).                      (* Express answers 500 *)

(** [GET /user] *)
Definition get_user (req : option profile) : user_response :=
  match req with
  | None => UserUnauthorized
  | Some p =>
      match emails p, photos p with
      | v :: _, ph :: _ => UserInfo v ph (accessToken p)
      | [], _ => UserThrows (read_undefined "value")
      | _, [] => UserThrows (read_undefined "value")
      end
  end.

(** [GET /calendar/events]: [calendar.events.list] for the session's
    token answers the items or fails; a failure is answered with [[]].
    The status is 401 without a session. *)
Definition calendar_events {A} (list_events : string -> option (list A)) (req : option profile)
    : Z * list A :=
  match req with
  | None => (401, [])
  | Some p => match list_events (accessToken p) with Some items => (200, items) | None => (200, []) end
  end.

(** ** Sequential resolution keeps one user per email *)

Definition unique_emails (c : user_col) : Prop := NoDup (map email (docs c)).

Lemma list_find_one_none c e : list_find_one c e = None -> ~ In e (map email (docs c)).
Proof.
  intros Hn Hin. apply in_map_iff in Hin as (u & Hu & Hin).
  pose proof (find_none_forall _ _ Hn u Hin) as Hf. cbn in Hf.
  rewrite Hu, String.eqb_refl in Hf. discriminate.
Qed.

Lemma find_or_create_unique c n e c' u :
  unique_emails c -> find_or_create c n e = (c', u) -> unique_emails c'.
Proof.
  unfold find_or_create, unique_emails. cbn. destruct (list_find_one c e) eqn:E.
  - intros Hu Hr. injection Hr as <- _. exact Hu.
  - intros Hu Hr. injection Hr as <- _. cbn. rewrite map_app. cbn.
    apply NoDup_app; auto using NoDup_cons, NoDup_nil.
    intros x Hx [<-|[]]. exact (list_find_one_none _ _ E Hx).
Qed.

(** ** The reminder loop *)

Lemma mark_all_nil evs : mark_all [] evs = evs.
Proof. unfold mark_all. rewrite <- (map_id evs) at 2. now apply map_ext. Qed.

Lemma save_sent_mark id ids evs : mark_all ids (save_sent id evs) = mark_all (id :: ids) evs.
Proof.
  unfold mark_all, save_sent. rewrite map_map. apply map_ext. intros e. cbn [existsb].
  destruct (ev_id e =? id); cbn [orb]; [|reflexivity].
  change (ev_id (with_sent e)) with (ev_id e). destruct existsb; reflexivity.
Qed.

(** The loop alerts the events found, in order, and saves exactly them. *)
Lemma alert_loop_spec found evs :
  alert_loop found evs = (map ev_id found, mark_all (map ev_id found) evs).
Proof.
  revert evs. induction found as [|e found IH]; intros evs; cbn.
  - now rewrite mark_all_nil.
  - rewrite IH, save_sent_mark. reflexivity.
Qed.

Lemma checkReminders_eq now d :
  checkReminders now d =
  ({| users := users d; events := mark_all (map ev_id (filter (due now) (events d))) (events d);
      next_eid := next_eid d; webhook := webhook d |},
   map ev_id (filter (due now) (events d))).
Proof. unfold checkReminders. now rewrite alert_loop_spec. Qed.

Lemma mark_all_ids ids evs : map ev_id (mark_all ids evs) = map ev_id evs.
Proof.
  unfold mark_all. rewrite map_map. apply map_ext. intros e. now destruct existsb.
Qed.

Lemma in_mark_all ids evs e' :
  In e' (mark_all ids evs) ->
  exists e, In e evs /\ ev_id e' = ev_id e /\
    (if existsb (Z.eqb (ev_id e)) ids then reminderSent e' = true else e' = e).
Proof.
  unfold mark_all. rewrite in_map_iff. intros (e & <- & Hin). exists e. split; [exact Hin|].
  destruct existsb; split; reflexivity.
Qed.

Lemma mark_all_keep ids evs e :
  In e evs -> existsb (Z.eqb (ev_id e)) ids = false -> In e (mark_all ids evs).
Proof. intros Hin Hx. unfold mark_all. apply in_map_iff. exists e. now rewrite Hx. Qed.

Lemma existsb_eqb_In id ids : existsb (Z.eqb id) ids = true <-> In id ids.
Proof.
  rewrite existsb_exists. split.
  - intros (x & Hx & E). apply Z.eqb_eq in E. congruence.
  - intros H. exists id. split; [exact H|apply Z.eqb_refl].
Qed.

Lemma NoDup_map_filter {A B} (f : A -> B) (p : A -> bool) l :
  NoDup (map f l) -> NoDup (map f (filter p l)).
Proof.
  induction l as [|x l IH]; cbn; [auto|]. intros Hn. inversion Hn as [|? ? Hx Hl]; subst.
  destruct (p x); cbn; [constructor|]; auto.
  intros Hin. apply Hx. apply in_map_iff in Hin as (y & Hy & Hin).
  apply in_map_iff. exists y. split; [exact Hy|]. apply filter_In in Hin. tauto.
Qed.

(** ** The alert invariant *)

(** Event ids are distinct and below the next id; the alerts printed are
    distinct ids below the next id, and every event with an alerted id
    is saved as sent. *)
Record alert_inv (evs : list event) (next : Z) (log : list Z) : Prop := {
  ai_ids : NoDup (map ev_id evs);
  ai_fresh : forall e, In e evs -> ev_id e < next;
  ai_log : NoDup log;
  ai_log_fresh : forall id, In id log -> id < next;
  ai_sent : forall id e, In id log -> In e evs -> ev_id e = id -> reminderSent e = true
}.

Lemma alert_inv_append evs next log e :
  alert_inv evs next log -> ev_id e = next -> alert_inv (evs ++ [e]) (next + 1) log.
Proof.
  intros [Hi Hf Hl Hlf Hs] He. constructor; auto.
  - rewrite map_app. cbn [map]. apply NoDup_app; auto using NoDup_cons, NoDup_nil.
    intros x Hx [<-|[]]. apply in_map_iff in Hx as (e' & He' & Hin).
    specialize (Hf _ Hin). lia.
  - intros e' Hin. apply in_app_or in Hin as [Hin|[<-|[]]]; [specialize (Hf _ Hin)|]; lia.
  - intros id Hid. specialize (Hlf _ Hid). lia.
  - intros id e' Hid Hin Heq. apply in_app_or in Hin as [Hin|[<-|[]]]; [eauto|].
    specialize (Hlf _ Hid). lia.
Qed.

Lemma alert_inv_poll evs next log now :
  alert_inv evs next log ->
  alert_inv (mark_all (map ev_id (filter (due now) evs)) evs) next
            (log ++ map ev_id (filter (due now) evs)).
Proof.
  intros [Hi Hf Hl Hlf Hs]. set (A := map ev_id (filter (due now) evs)).
  assert (HA : forall id, In id A -> exists e, In e evs /\ ev_id e = id /\ reminderSent e = false).
  { intros id Hid. apply in_map_iff in Hid as (e & <- & Hin). apply filter_In in Hin as [Hin Hd].
    exists e. repeat split; auto. unfold due in Hd.
    destruct (reminderSent e); [rewrite andb_false_r in Hd|]; [discriminate|reflexivity]. }
  constructor.
  - now rewrite mark_all_ids.
  - intros e' Hin. destruct (in_mark_all _ _ _ Hin) as (e & He & Hid & _). rewrite Hid. auto.
  - apply NoDup_app; [exact Hl|apply NoDup_map_filter, Hi|].
    intros id Hlog HinA. destruct (HA _ HinA) as (e & He & Hid & Hr).
    rewrite (Hs id e Hlog He Hid) in Hr. discriminate.
  - intros id Hid. apply in_app_or in Hid as [Hid|Hid]; [auto|].
    destruct (HA _ Hid) as (e & He & <- & _). auto.
  - intros id e' Hid Hin Heq. destruct (in_mark_all _ _ _ Hin) as (e & He & Hide & Hc).
    destruct (existsb (Z.eqb (ev_id e)) A) eqn:Ex; [exact Hc|subst e'].
    apply in_app_or in Hid as [Hid|Hid]; [eauto|].
    assert (Hn : ~ In (ev_id e) A) by (rewrite <- existsb_eqb_In; congruence).
    exfalso. apply Hn. congruence.
Qed.

Lemma analyze_task_events d req body :
  let d' := fst (analyze_task d req body) in
  (events d' = events d /\ next_eid d' = next_eid d) \/
  exists u, events d' = events d ++ [todo_event (next_eid d) u (match taskDescription body with
                                                              | Some x => x | None => ""%string end)]
            /\ next_eid d' = next_eid d + 1.
Proof.
  unfold analyze_task. destruct (taskDescription body) as [desc|]; [|left; auto].
  destruct (str_truthy (Some desc)); [|left; auto].
  destruct getDbUser as [[m]|[us u]]; [left; auto|right]. cbn. eauto.
Qed.

Lemma reachable_alert_inv st :
  reachable st -> alert_inv (events (fst st)) (next_eid (fst st)) (snd st).
Proof.
  induction 1 as [|st st' Hr IH Hs].
  - constructor; cbn; try tauto; constructor.
  - destruct Hs as [d log req body|d log now|d log e He]; cbn in *.
    + destruct (analyze_task_events d req body) as [[-> ->]|(u & -> & ->)]; [exact IH|].
      now apply alert_inv_append.
    + rewrite checkReminders_eq. cbn. now apply alert_inv_poll.
    + now apply alert_inv_append.
Qed.

(** ** Polling every 10 seconds *)

Lemma due_intro now e t :
  (ev_kind e = REMINDER \/ ev_kind e = CALENDAR_EVENT) -> reminderSent e = false ->
  startTime e = Some t -> now <= t <= now + five_minutes -> due now e = true.
Proof.
  intros Hk Hs Ht Hw. unfold due. rewrite Hs, Ht.
  unfold five_minutes in *.
  destruct Hk as [-> | ->]; cbn; apply andb_true_iff; split; apply Z.leb_le; lia.
Qed.

Lemma poll_grid t0 t K :
  (1 <= K)%nat -> t0 <= t <= t0 + 10000 * (Z.of_nat K - 1) + five_minutes ->
  exists p, In p (poll_times t0 K) /\ p <= t <= p + five_minutes.
Proof.
  intros HK Ht. set (k := Z.min (Z.of_nat K - 1) ((t - t0) / 10000)).
  pose proof (Z.min_spec (Z.of_nat K - 1) ((t - t0) / 10000)) as Hm.
  assert (Hk : 0 <= k < Z.of_nat K) by (subst k; destruct Hm as [[? ->]|[? ->]]; zlia).
  exists (t0 + 10000 * k). split.
  - apply in_map_iff. exists (Z.to_nat k). split; [f_equal; f_equal; lia|].
    apply in_seq. lia.
  - unfold five_minutes in *. subst k. destruct Hm as [[? ->]|[? ->]]; zlia.
Qed.

Lemma run_polls_fire nows d e t :
  In e (events d) -> (ev_kind e = REMINDER \/ ev_kind e = CALENDAR_EVENT) ->
  reminderSent e = false -> startTime e = Some t ->
  (exists p, In p nows /\ p <= t <= p + five_minutes) ->
  In (ev_id e) (snd (run_polls nows d)).
Proof.
  revert d. induction nows as [|p' r IH]; intros d Hin Hk Hs Ht (p & Hp & Hw); [destruct Hp|].
  cbn [run_polls]. rewrite checkReminders_eq.
  destruct (run_polls r _) as [d2 a2] eqn:Er. cbn [snd]. apply in_or_app.
  set (A := map ev_id (filter (due p') (events d))).
  destruct (existsb (Z.eqb (ev_id e)) A) eqn:Ex; [left; now apply existsb_eqb_In|right].
  assert (Hnd : due p' e = false).
  { destruct (due p' e) eqn:Ed; [|reflexivity].
    assert (In (ev_id e) A) by (apply in_map, filter_In; auto).
    apply existsb_eqb_In in H. congruence. }
  destruct Hp as [<-|Hp]; [rewrite (due_intro p' e t Hk Hs Ht Hw) in Hnd; discriminate|].
  change a2 with (snd (d2, a2)). rewrite <- Er. apply IH; eauto. cbn.
  now apply mark_all_keep.
Qed.

(** C12: Liveness of the poller: polls started at [t0], 10 s apart, alert
    every unsent reminder or calendar event of the database whose start
    lies between [t0] and five minutes after the last poll. *)
Theorem reminder_fires d e t t0 K :
  (1 <= K)%nat -> In e (events d) ->
  (ev_kind e = REMINDER \/ ev_kind e = CALENDAR_EVENT) -> reminderSent e = false ->
  startTime e = Some t -> t0 <= t <= t0 + 10000 * (Z.of_nat K - 1) + five_minutes ->
  In (ev_id e) (snd (run_polls (poll_times t0 K) d)).
Proof. intros HK Hin Hk Hs Ht Hw. apply run_polls_fire with (t := t); auto using poll_grid. Qed.

(** ** Alerts are printed once *)

(** C2: In every run of the server (task requests, polls back to back and
    insertions by other writers) no event id is alerted twice. *)
Theorem alerts_once d log : reachable (d, log) -> NoDup log.
Proof. intros Hr. exact (ai_log _ _ _ (reachable_alert_inv _ Hr)). Qed.

Lemma NoDup_map_inj_in {A B} (f : A -> B) l x y :
  NoDup (map f l) -> In x l -> In y l -> f x = f y -> x = y.
Proof.
  induction l as [|z l IH]; cbn; [tauto|]. intros Hn Hx Hy Hf.
  inversion Hn as [|? ? Hz Hl]; subst.
  destruct Hx as [<-|Hx], Hy as [<-|Hy]; auto.
  - exfalso. apply Hz. rewrite Hf. now apply in_map.
  - exfalso. apply Hz. rewrite <- Hf. now apply in_map.
Qed.

(** C13: With distinct ids, one poll saves as sent exactly the events due
    in the next five minutes, and leaves the others as they were. *)
Theorem checkReminders_spec now d :
  NoDup (map ev_id (events d)) ->
  events (fst (checkReminders now d)) =
  map (fun e => if due now e then with_sent e else e) (events d).
Proof.
  intros Hn. rewrite checkReminders_eq. cbn. unfold mark_all.
  apply map_ext_in. intros e Hin.
  destruct (due now e) eqn:Ed.
  - replace (existsb _ _) with true; [reflexivity|]. symmetry. apply existsb_eqb_In.
    apply in_map, filter_In. auto.
  - destruct (existsb (Z.eqb (ev_id e)) _) eqn:Ex; [|reflexivity].
    apply existsb_eqb_In, in_map_iff in Ex as (e2 & Hid & Hin2). apply filter_In in Hin2 as [Hin2 Hd].
    rewrite (NoDup_map_inj_in _ _ e2 e Hn Hin2 Hin Hid) in Hd. congruence.
Qed.

Lemma no_due_todo now evs : Forall (fun e => ev_kind e = TODO) evs -> filter (due now) evs = [].
Proof.
  induction 1 as [|e evs He _ IH]; [reflexivity|]. cbn. unfold due at 1. now rewrite He.
Qed.

Lemma server_only_todo st :
  server_only st -> snd st = [] /\ Forall (fun e => ev_kind e = TODO) (events (fst st)).
Proof.
  induction 1 as [|d log req body Hs IH|d log now Hs IH]; cbn in *.
  - split; [reflexivity|constructor].
  - destruct IH as [IH1 IH2]. split; [exact IH1|].
    destruct (analyze_task_events d req body) as [[-> _]|(u & -> & _)]; [exact IH2|].
    apply Forall_app. split; [exact IH2|repeat constructor].
  - destruct IH as [IH1 IH2]. rewrite checkReminders_eq. cbn.
    rewrite (no_due_todo now _ IH2), IH1, mark_all_nil. split; [reflexivity|exact IH2].
Qed.

(** C33: The server alone never alerts: it stores only [TODO] events, and
    the poller looks only for [CALENDAR_EVENT] and [REMINDER] ones. *)
Theorem server_never_reminds d log :
  server_only (d, log) -> log = [] /\ forall now, snd (checkReminders now d) = [].
Proof.
  intros Hs. destruct (server_only_todo _ Hs) as [H1 H2]. cbn in *. split; [exact H1|].
  intros now. rewrite checkReminders_eq. cbn. now rewrite (no_due_todo now _ H2).
Qed.

(** ** User resolution and task requests *)

(** C19: Requests resolved one after the other keep one user per email:
    the user returned carries the email the request resolves to, and
    resolving the same request again returns that user and creates
    nobody. *)
Theorem getDbUser_resolves c req body c' u :
  unique_emails c -> getDbUser c req body = inr (c', u) ->
  unique_emails c' /\ (exists n, db_target req body = inr (n, email u)) /\
  getDbUser c' req body = inr (c', u).
Proof.
  unfold getDbUser. intros Hu. destruct (db_target req body) as [e|[n m]]; [discriminate|].
  intros Hr. injection Hr as Hr. repeat split.
  - exact (find_or_create_unique _ _ _ _ _ Hu Hr).
  - exists n. now rewrite (find_or_create_email _ _ _ _ _ Hr).
  - now rewrite (find_or_create_again _ _ _ _ _ n Hr).
Qed.

(** A task request with a description stores one [TODO] event with
    the next id, owned by the user of the resolved email, forwards the
    description to the webhook and answers with the event's id. *)
Theorem analyze_task_ok d req body desc n m :
  taskDescription body = Some desc -> str_truthy (Some desc) = true ->
  db_target req body = inr (n, m) ->
  exists us u,
    analyze_task d req body =
      ({| users := us; events := events d ++ [todo_event (next_eid d) (uid u) desc];
          next_eid := next_eid d + 1; webhook := webhook d ++ [desc] |},
       TaskOk desc (next_eid d)) /\
    email u = m /\ find_one us m = Some u.
Proof.
  intros Hd Ht Hr. unfold analyze_task, getDbUser. rewrite Hd, Ht. cbn [users]. rewrite Hr.
  destruct (find_or_create (users d) n m) as [us u] eqn:Ef. exists us, u. split; [reflexivity|].
  split; [exact (find_or_create_email _ _ _ _ _ Ef)|exact (find_or_create_found _ _ _ _ _ Ef)].
Qed.

(** C37: The webhook is called before the user is resolved: a request
    whose session has no email is answered 500, yet its description has
    been forwarded. *)
Theorem webhook_before_failure d req body desc msg :
  taskDescription body = Some desc -> str_truthy (Some desc) = true ->
  db_target req body = inl (TypeError msg) ->
  analyze_task d req body =
    ({| users := users d; events := events d; next_eid := next_eid d;
        webhook := webhook d ++ [desc] |}, TaskError 500 msg).
Proof.
  intros Hd Ht Hr. unfold analyze_task, getDbUser. rewrite Hd, Ht. cbn [users]. now rewrite Hr.
Qed.

(** A request without a description (absent or empty) is answered
    400 and changes nothing, the webhook included. *)
Theorem analyze_task_400 d req body :
  str_truthy (taskDescription body) = false ->
  analyze_task d req body = (d, TaskError 400 "Task description is required"%string).
Proof.
  unfold analyze_task. destruct (taskDescription body) as [desc|]; [|reflexivity].
  intros H. now rewrite H.
Qed.

(** ** Interleavings *)

Definition ann : string := "ann@example.com".
Definition no_users : user_col := {| docs := []; next_uid := 1 |}.


Definition standup_reminder : event :=
  {| ev_id := 1; ev_user := 1; ev_kind := REMINDER; title := Some "Standup"%string;
     description := None; startTime := Some 600000; endTime := None; ev_priority := None;
     reminderSent := false; originalInput := None |}.

(** The database after another writer inserted one reminder. *)
Definition with_reminder : db :=
  {| users := users empty_db; events := events empty_db ++ [standup_reminder];
     next_eid := next_eid empty_db + 1; webhook := webhook empty_db |}.


(** ** Witnesses *)

Definition jane : task_body :=
  {| taskDescription := Some "Write report"%string; userEmail := Some "jane.doe@example.com"%string;
     userName := None |}.

Definition no_email_session : profile :=
  {| emails := []; photos := []; displayName := None; accessToken := "t"%string |}.

Lemma reachable_with_reminder : reachable (with_reminder, []).
Proof. eapply reach_step; [apply reach_init|]. apply srv_insert. reflexivity. Qed.

Lemma alerts_once_witness : NoDup ([] ++ snd (checkReminders 400000 with_reminder)).
Proof.
  apply (alerts_once (fst (checkReminders 400000 with_reminder))).
  eapply reach_step; [exact reachable_with_reminder|]. apply srv_poll.
Defined.

Lemma reminder_fires_witness : In 1 (snd (run_polls (poll_times 0 31) with_reminder)).
Proof.
  apply (reminder_fires with_reminder standup_reminder 600000 0 31);
    cbn; auto; unfold five_minutes; lia.
Defined.

Lemma checkReminders_spec_witness :
  events (fst (checkReminders 400000 with_reminder)) =
  map (fun e => if due 400000 e then with_sent e else e) (events with_reminder).
Proof. apply checkReminders_spec. cbn. repeat constructor. cbn. tauto. Defined.

Lemma server_never_reminds_witness :
  @nil Z = [] /\ forall now, snd (checkReminders now (fst (analyze_task empty_db None jane))) = [].
Proof.
  apply (server_never_reminds _ []). apply so_analyze. apply so_init.
Defined.

Definition jane_user : user := {| uid := 1; username := "jane.doe"; email := "jane.doe@example.com" |}.
Definition jane_users : user_col := {| docs := [jane_user]; next_uid := 2 |}.

Lemma getDbUser_resolves_witness :
  unique_emails jane_users /\ (exists n, db_target None jane = inr (n, email jane_user)) /\
  getDbUser jane_users None jane = inr (jane_users, jane_user).
Proof.
  apply (getDbUser_resolves no_users None jane jane_users jane_user).
  - unfold unique_emails. cbn. constructor.
  - vm_compute. reflexivity.
Defined.

Lemma analyze_task_ok_witness :
  exists us u,
    analyze_task empty_db None jane =
      ({| users := us; events := events empty_db ++ [todo_event (next_eid empty_db) (uid u)
                                                      "Write report"%string];
          next_eid := next_eid empty_db + 1; webhook := webhook empty_db ++ ["Write report"%string] |},
       TaskOk "Write report"%string (next_eid empty_db)) /\
    email u = "jane.doe@example.com"%string /\ find_one us "jane.doe@example.com"%string = Some u.
Proof. apply (analyze_task_ok _ _ _ _ "jane.doe"%string); vm_compute; reflexivity. Defined.

Lemma webhook_before_failure_witness :
  analyze_task empty_db (Some no_email_session)
    {| taskDescription := Some "Call Bob"%string; userEmail := None; userName := None |} =
    ({| users := users empty_db; events := events empty_db; next_eid := next_eid empty_db;
        webhook := webhook empty_db ++ ["Call Bob"%string] |},
     TaskError 500 "Cannot read properties of undefined (reading 'value')"%string).
Proof. apply webhook_before_failure; reflexivity. Defined.

Lemma analyze_task_400_witness :
  analyze_task empty_db None {| taskDescription := Some ""%string; userEmail := None; userName := None |} =
  (empty_db, TaskError 400 "Task description is required"%string).
Proof. apply analyze_task_400. reflexivity. Defined.

End Tasks.
