(* ===== verification/Forms.v ===== *)
(** * The dashboard's forms and lists (src/public/js/dashboard.js)

    The task modal and its form ([openTaskModal], [closeTaskModal], the
    [.save-btn] click handler posting to [/api/analyze-task]), the todo
    list built from [/todo.json], the pending-task checklist whose
    checkboxes write into the shared [pendingTasksData] objects,
    [openChatModal], the profile header filled from [/user], and the
    bar chart's data, colours and tooltip.  The form is composed with the server's
    [analyze_task] ([TaskServer]) through the JSON body it posts and
    the JSON response it reads. *)

From Stdlib Require Import ZArith List String Ascii Bool Lia.
From S2P Require Import Prelude JsString Json Layout TaskServer.
Import ListNotations.

Module Forms.

Import JsString Json.
Local Open Scope list_scope.

(** ** The task form *)

Record form := {
  input_value : jstring;          (* #taskInput value *)
  btn_text : jstring;             (* .save-btn innerText *)
  btn_disabled : bool;            (* .save-btn disabled *)
  modal_display : jstring;        (* #taskModal style.display *)
  alerts : list jstring;          (* the texts passed to alert(), in order *)
  user_email : option jstring;    (* localStorage.getItem('userEmail') *)
  user_name : option jstring }.   (* localStorage.getItem('userName') *)

Definition with_modal (f : form) (d : jstring) : form :=
  {| input_value := input_value f; btn_text := btn_text f; btn_disabled := btn_disabled f;
     modal_display := d; alerts := alerts f; user_email := user_email f; user_name := user_name f |}.
Definition with_button (f : form) (t : jstring) (b : bool) : form :=
  {| input_value := input_value f; btn_text := t; btn_disabled := b;
     modal_display := modal_display f; alerts := alerts f; user_email := user_email f;
     user_name := user_name f |}.
Definition with_input (f : form) (v : jstring) : form :=
  {| input_value := v; btn_text := btn_text f; btn_disabled := btn_disabled f;
     modal_display := modal_display f; alerts := alerts f; user_email := user_email f;
     user_name := user_name f |}.
Definition alert (m : jstring) (f : form) : form :=
  {| input_value := input_value f; btn_text := btn_text f; btn_disabled := btn_disabled f;
     modal_display := modal_display f; alerts := alerts f ++ [m]; user_email := user_email f;
     user_name := user_name f |}.

Definition openTaskModal (f : form) : form := with_modal f (lit "flex").
Definition closeTaskModal (f : form) : form := with_modal f (lit "none").

(** [JSON.stringify({ taskDescription, userEmail, userName })] *)
Definition task_request_body (desc : jstring) (f : form) : jstring :=
  stringify (JObj [(lit "taskDescription", JStr desc); (lit "userEmail", opt_str (user_email f));
                   (lit "userName", opt_str (user_name f))]).

(** The click handler up to its [await]: a blank description is
    refused with an alert; otherwise the button shows [Analyzing...],
    is disabled, and the body is posted. *)
Definition submit_click (f : form) : form * option jstring :=
  match trim (input_value f) with
  | [] => (alert (lit "Please enter a task") f, None)
  | desc => (with_button f (lit "Analyzing...") true, Some (task_request_body desc f))
  end.

Definition nl : jstring := [JAscii (ascii_of_nat 10)].

(** [`Task Created!\n\nType: ${data.type}\nTitle: ${data.data?.title}`] *)
Definition created_text (ty title : jstring) : jstring :=
  lit "Task Created!" ++ nl ++ nl ++ lit "Type: " ++ ty ++ nl ++ lit "Title: " ++ title.

(** [data.data?.title] *)
Definition optional_title (d : json) : option json :=
  match prop d (lit "data") with
  | None | Some JNull => None
  | Some x => prop x (lit "title")
  end.

(** The rest of the handler: [!response.ok] and a body [response.json()]
    rejects (or [null], whose [type] throws) end in the [catch]; the
    [finally] restores the button in every case. *)
Definition submit_finish (fr : fetch_result) (f : form) : form :=
  let failed := alert (lit "Failed to analyze task") f in
  let f1 := match fr with
            | NetworkError _ => failed
            | Response st text =>
                if negb (http_ok st) then failed
                else match parse text with
                     | None | Some JNull => failed
                     | Some d =>
                         closeTaskModal
                           (with_input (alert (created_text (template (prop d (lit "type")))
                                                            (template (optional_title d))) f) [])
                     end
            end in
  with_button f1 (lit "Submit") false.

(** ** The form talking to [POST /api/analyze-task] *)

(** A field of [req.body] as the handler reads it: a string, or
    [null]/absent (both falsy there). *)
Definition str_field (o : option json) : option string :=
  match o with Some (JStr s) => Some (encode s) | _ => None end.

(** [const { taskDescription, userEmail, userName } = req.body] *)
Definition body_task (b : jstring) : option Tasks.task_body :=
  match parse b with
  | Some (JObj l) =>
      Some {| Tasks.taskDescription := str_field (member (lit "taskDescription") l);
              Tasks.userEmail := str_field (member (lit "userEmail") l);
              Tasks.userName := str_field (member (lit "userName") l) |}
  | _ => None
  end.

(** [res.json({ type: 'TODO', data: { title }, dbId })] and
    [res.status(s).json({ error })]; a document id is written as the
    decimal of the model's integer id (the page does not read it). *)
Definition task_answer (r : Tasks.task_response) : fetch_result :=
  match r with
  | Tasks.TaskOk title id =>
      Response 200 (stringify (JObj [(lit "type", JStr (lit "TODO"));
                                     (lit "data", JObj [(lit "title", JStr (decode title))]);
                                     (lit "dbId", JStr (number_text id))]))
  | Tasks.TaskError st msg => Response st (stringify (JObj [(lit "error", JStr (decode msg))]))
  end.

(** The form's life: typing, opening and closing the modal, clicks on
    the button (a disabled button gets none), and responses to the
    bodies in flight, answered as [resp] allows. *)
Section Steps.

Variable resp : jstring -> fetch_result -> Prop.

Inductive fstep : form * list jstring -> form * list jstring -> Prop :=
| FType f p v : fstep (f, p) (with_input f v, p)
| FOpen f p : fstep (f, p) (openTaskModal f, p)
| FClose f p : fstep (f, p) (closeTaskModal f, p)
| FClick f p f' ob :
    btn_disabled f = false -> submit_click f = (f', ob) ->
    fstep (f, p) (f', p ++ match ob with Some b => [b] | None => [] end)
| FReply f p1 b p2 fr : resp b fr -> fstep (f, p1 ++ b :: p2) (submit_finish fr f, p1 ++ p2).

End Steps.

(** ** The todo list *)

Record todo_item := { t_class : string; t_title_html : jstring; t_completed : bool }.

(** [todos.forEach((todo, index) => ...)]: the class cycles through
    [getTodoColor]; [todo.title] goes into [innerHTML] unescaped; a
    [null] entry throws on [todo.title], leaving the items appended
    before it. *)
Fixpoint todo_items (index : nat) (todos : list json) : list todo_item * option jstring :=
  match todos with
  | [] => ([], None)
  | JNull :: _ => ([], Some (lit "Cannot read properties of null (reading 'title')"))
  | todo :: r =>
      let it := {| t_class := ("todo-item " ++ Layout.getTodoColor index)%string;
                   t_title_html := template (prop todo (lit "title")); t_completed := false |} in
      let '(its, e) := todo_items (S index) r in (it :: its, e)
  end.

(** The [then] of [fetch('/todo.json')]: anything but an array has no
    [forEach]. *)
Definition render_todos (v : json) : list todo_item * option jstring :=
  match v with
  | JArr l => todo_items 0 l
  | _ => ([], Some (lit "todos.forEach is not a function"))
  end.

(** The checkbox's [change] handler: only the item's class. *)
Definition todo_change (checked : bool) (it : todo_item) : todo_item :=
  {| t_class := t_class it; t_title_html := t_title_html it; t_completed := checked |}.

(** ** The pending-task checklist *)

Record ptask := { pid : Z; ptitle : jstring; completed : bool }.

Definition pendingTasksData : list ptask :=
  [ {| pid := 1; ptitle := lit "Fix login bug"; completed := false |};
    {| pid := 2; ptitle := lit "Prepare weekly report"; completed := false |};
    {| pid := 3; ptitle := lit "Review PRs"; completed := true |} ].

(** A [.pending-item]: the object of [pendingTasksData] its [change]
    handler closes over (by position), its [completed] class, its
    checkbox, its title. *)
Record pitem := { p_task : nat; p_class : bool; p_checked : bool; p_title : jstring }.

(** The shared objects and [#pendingTasks]: [None] when the page has no
    container, [Some None] before the first list. *)
Record page := { store : list ptask; container : option (option (list pitem)) }.

Fixpoint pitems (i : nat) (l : list ptask) : list pitem :=
  match l with
  | [] => []
  | t :: r => {| p_task := i; p_class := completed t; p_checked := completed t; p_title := ptitle t |}
              :: pitems (S i) r
  end.

(** [renderPendingTasks]: the old list is removed and a new one built
    from the objects as they are now. *)
Definition renderPendingTasks (pg : page) : page :=
  match container pg with
  | None => pg
  | Some _ => {| store := store pg; container := Some (Some (pitems 0 (store pg))) |}
  end.

Definition set_completed (b : bool) (t : ptask) : ptask :=
  {| pid := pid t; ptitle := ptitle t; completed := b |}.

Definition set_item (b : bool) (x : pitem) : pitem :=
  {| p_task := p_task x; p_class := b; p_checked := b; p_title := p_title x |}.

(** A click on the [k]-th checkbox: it flips, and the handler writes
    [task.completed = checkbox.checked] into the shared object and
    toggles the item's class. *)
Definition pending_change (k : nat) (pg : page) : page :=
  match container pg with
  | Some (Some items) =>
      match nth_error items k with
      | Some it =>
          let b := negb (p_checked it) in
          {| store := update_nth (set_completed b) (p_task it) (store pg);
             container := Some (Some (update_nth (set_item b) k items)) |}
      | None => pg
      end
  | _ => pg
  end.

Inductive clstep : page -> page -> Prop :=
| PRender pg : clstep pg (renderPendingTasks pg)
| PChange pg k : clstep pg (pending_change k pg).

(** ** The help button *)

(** [openChatModal], given the [style.display] of the element with
    [id="chatbotModal"] if the page has one: [chatbotModal] is declared nowhere in the script,
    so it names the element with [id="chatbotModal"] (a property of
    [window]); without one the name is unbound and the call throws a
    [ReferenceError] before the [if] is reached. *)
Definition openChatModal (chatbotModal : option jstring) : jstring + jstring :=
  match chatbotModal with
  | Some _ => inl (lit "flex")
  | None => inr (lit "chatbotModal is not defined")
  end.

(** ** The profile header *)

Record header := {
  profile_src : jstring;      (* #profilePic src *)
  name_text : jstring;        (* #userName innerText *)
  email_text : jstring;       (* #userEmail innerText *)
  calendar_title : jstring }. (* #calendarTitle innerText *)

(** The [then] of [fetch('/user')]: without an email it returns; else
    it fills the header and calls [loadGoogleEvents] (the [bool]).  An
    email that is not a string has no [split]. *)
Definition show_user (user : json) (h : header) : (header * bool) + jstring :=
  let email := prop user (lit "email") in
  if negb (truthy email) then inl (h, false)
  else match email with
       | Some (JStr e) =>
           inl ({| profile_src := template (prop user (lit "photo"));
                   name_text := split_first (JAscii "@") e; email_text := e;
                   calendar_title := lit "Calendar" |}, true)
       | _ => inr (lit "user.email.split is not a function")
       end.

(** ** The charts *)

Definition bar_labels : list string :=
  ["6 AM"; "7 AM"; "8 AM"; "9 AM"; "10 AM"; "11 AM"; "12 PM"; "1 PM"; "2 PM"; "3 PM"; "4 PM";
   "5 PM"; "6 PM"; "7 PM"; "8 PM"; "9 PM"; "10 PM"; "11 PM"]%string.

Definition bar_data : list Z := [0; 1; 3; 4; 5; 3; 2; 1; 0; 2; 3; 4; 2; 1; 0; 0; 0; 0]%Z.

Definition green : string := "#22c55e".
Definition red : string := "#ef4444".

Definition bar_colors : list string :=
  [green; red; red; red; red; red; red; red; green; red; red; red; red; red; green; green; green; green].

(** The tooltip's [label] callback. *)
Definition tooltip_label (raw : Z) : jstring :=
  if Z.eqb raw 0 then lit "Free slot" else number_text raw ++ lit " task(s)".

(** ** Lemmas *)

Lemma analyze_task_response d req tb :
  match snd (Tasks.analyze_task d req tb) with
  | Tasks.TaskOk title _ => Tasks.taskDescription tb = Some title
  | Tasks.TaskError st _ => st = 400%Z \/ st = 500%Z
  end.
Proof.
  unfold Tasks.analyze_task. destruct (Tasks.taskDescription tb) as [desc|]; [|cbn; auto].
  destruct (str_truthy (Some desc)); [|cbn; auto].
  cbv zeta. destruct (Tasks.getDbUser _ _ _) as [[m]|[us u]]; cbn; auto.
Qed.

Lemma finish_ok f title id :
  submit_finish (task_answer (Tasks.TaskOk title id)) f
  = with_button (closeTaskModal (with_input (alert (created_text (lit "TODO") (decode title)) f) []))
      (lit "Submit") false.
Proof. unfold submit_finish, task_answer. rewrite parse_stringify. reflexivity. Qed.

Lemma finish_error f st msg :
  st = 400%Z \/ st = 500%Z ->
  submit_finish (task_answer (Tasks.TaskError st msg)) f
  = with_button (alert (lit "Failed to analyze task") f) (lit "Submit") false.
Proof. intros [-> | ->]; reflexivity. Qed.

Lemma submit_finish_enabled fr f : btn_disabled (submit_finish fr f) = false.
Proof. reflexivity. Qed.

Lemma submit_click_spec f :
  match trim (input_value f) with
  | [] => submit_click f = (alert (lit "Please enter a task") f, None)
  | desc => submit_click f = (with_button f (lit "Analyzing...") true, Some (task_request_body desc f))
  end.
Proof. unfold submit_click. now destruct (trim (input_value f)). Qed.

Lemma body_task_request desc f :
  body_task (task_request_body desc f)
  = Some {| Tasks.taskDescription := Some (encode desc);
            Tasks.userEmail := option_map encode (user_email f);
            Tasks.userName := option_map encode (user_name f) |}.
Proof.
  unfold body_task, task_request_body. rewrite parse_stringify.
  now destruct (user_email f), (user_name f).
Qed.

(** ** Properties *)

(** C9: Round trip through the server: a description typed in the form is
    posted, read back by [/api/analyze-task] as the same text, and the
    alert that follows names a TODO with that text as its title (the
    input is cleared and the modal closed); when the handler refuses or
    fails, the alert says so and the input is kept.  The button is
    enabled again in both cases. *)
Theorem task_form_roundtrip d req f s :
  input_value f = decode s -> trim (decode s) <> [] ->
  exists b tb, snd (submit_click f) = Some b /\ body_task b = Some tb /\
    Tasks.taskDescription tb = Some (encode (trim (decode s))) /\
    let f2 := submit_finish (task_answer (snd (Tasks.analyze_task d req tb))) (fst (submit_click f)) in
    btn_disabled f2 = false /\ btn_text f2 = lit "Submit" /\
    match snd (Tasks.analyze_task d req tb) with
    | Tasks.TaskOk _ _ => alerts f2 = alerts f ++ [created_text (lit "TODO") (trim (decode s))]
                          /\ input_value f2 = [] /\ modal_display f2 = lit "none"
    | Tasks.TaskError _ _ => alerts f2 = alerts f ++ [lit "Failed to analyze task"]
                             /\ input_value f2 = input_value f
    end.
Proof.
  intros Hin Hne. pose proof (submit_click_spec f) as Hc. rewrite Hin in Hc.
  pose proof (decode_encode_trim s) as Hde.
  destruct (trim (decode s)) as [|j t]; [contradiction|]. rewrite Hc. cbn [fst snd].
  eexists _, _. split; [reflexivity|]. split; [apply body_task_request|]. split; [reflexivity|].
  match goal with |- context [Tasks.analyze_task d req ?tb] =>
    pose proof (analyze_task_response d req tb) as Hr;
    destruct (snd (Tasks.analyze_task d req tb)) as [title id|st msg] end.
  - injection Hr as <-. rewrite finish_ok.
    change (jchar_bytes j ++ encode t)%string with (encode (j :: t)). rewrite Hde. repeat split.
  - rewrite (finish_error _ _ _ Hr). repeat split.
Qed.

Definition one_in_flight (st : form * list jstring) : Prop :=
  List.length (snd st) <= 1 /\ (btn_disabled (fst st) = true <-> snd st <> []).

(** C20: The form's invariant: at most one analysis is in flight, and the
    button is disabled exactly while one is. *)
Theorem one_task_in_flight resp st st' :
  star (fstep resp) st st' -> one_in_flight st -> one_in_flight st'.
Proof.
  apply star_invariant. intros s s' [Hl Hd] Hs.
  destruct Hs as [f p v|f p|f p|f p f' ob Hbd Hsc|f p1 b p2 fr Hr];
    unfold one_in_flight; cbn [fst snd btn_disabled with_input with_modal openTaskModal closeTaskModal] in *;
    try (split; assumption).
  - destruct p as [|j p].
    2: exfalso; assert (btn_disabled f = true) by (apply Hd; discriminate); congruence.
    pose proof (submit_click_spec f) as Hc.
    destruct (trim (input_value f)); rewrite Hc in Hsc; injection Hsc as <- <-;
      cbn [app List.length btn_disabled with_button alert].
    + split; [lia|]. rewrite Hbd. split; [discriminate|now intros []].
    + split; [lia|]. split; [discriminate|reflexivity].
  - rewrite length_app in Hl. cbn in Hl.
    assert (p1 = [] /\ p2 = []) as [-> ->] by (destruct p1, p2; cbn in Hl; split; auto; lia).
    rewrite submit_finish_enabled. split; [cbn; lia|]. split; [discriminate|now intros []].
Qed.

(** ** The checklist: lemmas and invariant *)

(** The list shown is what a fresh render of the shared objects would
    show. *)
Definition view_ok (pg : page) : Prop :=
  match container pg with Some (Some items) => items = pitems 0 (store pg) | _ => True end.

Lemma pitems_update n k b l :
  pitems n (update_nth (set_completed b) k l) = update_nth (set_item b) k (pitems n l).
Proof. revert n k. induction l as [|t l IH]; intros n [|k]; cbn; f_equal; auto. Qed.

Lemma nth_pitems n l k it : nth_error (pitems n l) k = Some it -> p_task it = n + k.
Proof.
  revert n k. induction l as [|t l IH]; intros n [|k]; cbn; intros H; try discriminate.
  - injection H as <-. cbn. lia.
  - rewrite (IH _ _ H). lia.
Qed.

(** C28: The checkboxes write into the shared [pendingTasksData] objects, so
    the list on screen always agrees with a fresh render of them: a
    re-render keeps every box the user ticked or cleared, and each item
    shows its own task's state. *)
Theorem pending_view_consistent p p' : star clstep p p' -> view_ok p -> view_ok p'.
Proof.
  apply star_invariant. intros a b Ha Hs. destruct Hs as [pg|pg k].
  - unfold view_ok, renderPendingTasks. now destruct (container pg).
  - unfold view_ok, pending_change in *.
    destruct (container pg) as [[items|]|] eqn:E; try (rewrite E; exact I).
    destruct (nth_error items k) as [it|] eqn:En; [|now rewrite E]. cbn. subst items.
    rewrite (nth_pitems 0 _ _ _ En). symmetry. apply pitems_update.
Qed.

(** The bar chart is consistent: the green bars are exactly the hours
    with no task, and exactly the bars whose tooltip says [Free slot];
    there is one label, one value and one colour per hour. *)
Definition bar_ok (i : nat) : bool :=
  Bool.eqb (String.eqb (nth i bar_colors green) green) (Z.eqb (nth i bar_data 1%Z) 0%Z)
  && Bool.eqb (jstring_eqb (tooltip_label (nth i bar_data 1%Z)) (lit "Free slot"))
              (Z.eqb (nth i bar_data 1%Z) 0%Z).

Lemma bar_ok_spec i : bar_ok i = true ->
  (nth i bar_colors green = green <-> nth i bar_data 1%Z = 0%Z) /\
  (tooltip_label (nth i bar_data 1%Z) = lit "Free slot" <-> nth i bar_data 1%Z = 0%Z).
Proof.
  unfold bar_ok. intros H. apply andb_true_iff in H as [H1 H2].
  apply Bool.eqb_prop in H1, H2.
  rewrite <- String.eqb_eq, <- Z.eqb_eq, H1. rewrite <- jstring_eqb_eq, H2. tauto.
Qed.

Theorem free_slots_green :
  List.length bar_labels = List.length bar_data /\ List.length bar_colors = List.length bar_data /\
  forall i : nat, i < List.length bar_data ->
    (nth i bar_colors green = green <-> nth i bar_data 1%Z = 0%Z) /\
    (tooltip_label (nth i bar_data 1%Z) = lit "Free slot" <-> nth i bar_data 1%Z = 0%Z).
Proof.
  split; [reflexivity|]. split; [reflexivity|]. intros i Hi. apply bar_ok_spec.
  assert (Hall : forallb bar_ok (seq 0 18) = true) by (vm_compute; reflexivity).
  rewrite forallb_forall in Hall. apply Hall, in_seq. cbn in Hi. lia.
Qed.

(** ** Witnesses *)

Definition f0 : form :=
  {| input_value := decode "  Buy milk "; btn_text := lit "Submit"; btn_disabled := false;
     modal_display := lit "flex"; alerts := []; user_email := Some (lit "ann@example.com");
     user_name := None |}.

Lemma task_form_roundtrip_witness :
  input_value f0 = decode "  Buy milk " /\ trim (decode "  Buy milk ") <> [] /\
  exists b tb, snd (submit_click f0) = Some b /\ body_task b = Some tb /\
    Tasks.taskDescription tb = Some (encode (trim (decode "  Buy milk "))) /\
    let f2 := submit_finish (task_answer (snd (Tasks.analyze_task Tasks.empty_db None tb)))
                (fst (submit_click f0)) in
    btn_disabled f2 = false /\ btn_text f2 = lit "Submit" /\
    match snd (Tasks.analyze_task Tasks.empty_db None tb) with
    | Tasks.TaskOk _ _ => alerts f2 = alerts f0 ++ [created_text (lit "TODO") (trim (decode "  Buy milk "))]
                          /\ input_value f2 = [] /\ modal_display f2 = lit "none"
    | Tasks.TaskError _ _ => alerts f2 = alerts f0 ++ [lit "Failed to analyze task"]
                             /\ input_value f2 = input_value f0
    end.
Proof.
  assert (Hne : trim (decode "  Buy milk ") <> []) by (vm_compute; discriminate).
  split; [reflexivity|]. split; [exact Hne|].
  exact (task_form_roundtrip Tasks.empty_db None f0 "  Buy milk " eq_refl Hne).
Defined.

Definition ok_answer (_ : jstring) (fr : fetch_result) : Prop :=
  fr = task_answer (Tasks.TaskOk "Buy milk" 1).

Lemma one_task_in_flight_witness :
  let f1 := fst (submit_click f0) in
  let fr := task_answer (Tasks.TaskOk "Buy milk" 1) in
  star (fstep ok_answer) (f0, []) (submit_finish fr f1, []) /\
  one_in_flight (f0, []) /\ one_in_flight (submit_finish fr f1, []).
Proof.
  cbv zeta.
  assert (Hs : star (fstep ok_answer) (f0, [])
                 (submit_finish (task_answer (Tasks.TaskOk "Buy milk" 1)) (fst (submit_click f0)), [])).
  { eapply star_step.
    - apply (FClick ok_answer f0 [] (fst (submit_click f0)) (snd (submit_click f0))); reflexivity.
    - eapply star_step; [|apply star_refl].
      exact (FReply ok_answer (fst (submit_click f0)) [] (task_request_body (trim (input_value f0)) f0) []
               _ eq_refl). }
  assert (H0 : one_in_flight (f0, [])) by (split; [cbn; lia|split; [discriminate|now intros []]]).
  split; [exact Hs|]. split; [exact H0|]. exact (one_task_in_flight ok_answer _ _ Hs H0).
Defined.

Definition page0 : page := {| store := pendingTasksData; container := Some None |}.

Lemma pending_view_consistent_witness :
  let pg := renderPendingTasks (pending_change 2 (pending_change 0 (renderPendingTasks page0))) in
  star clstep page0 pg /\ view_ok page0 /\ view_ok pg.
Proof.
  cbv zeta.
  assert (Hs : star clstep page0
                 (renderPendingTasks (pending_change 2 (pending_change 0 (renderPendingTasks page0))))).
  { eapply star_step; [apply PRender|]. eapply star_step; [apply PChange|].
    eapply star_step; [apply PChange|]. apply star_one, PRender. }
  assert (H0 : view_ok page0) by exact I.
  split; [exact Hs|]. split; [exact H0|]. exact (pending_view_consistent _ _ Hs H0).
Defined.

End Forms.
