(* ===== verification/Auth.v ===== *)
(** * Sign-in, sessions and the session routes of server.js

    The routes of src/server.js that read or change the login session:
    [GET /auth/google] (lines 56-64), the verify callback of the Google
    strategy (lines 46-53), [GET /auth/google/callback] (lines 194-197),
    [GET /user] (lines 199-206), [GET /calendar/events] (lines 209-229),
    [GET /logout] (lines 231-233) and the constant [GET /api/chat]
    (lines 66-70).  passport stores [serializeUser(user)] in the
    express-session of the request and hands [deserializeUser] of it to
    the handlers as [req.user] (lines 42-43: both are the identity, so the
    whole profile, access token included, lives in the session).

    The session middleware is a library; what the routes need of it is
    the class [SessionStore] with its laws [SessionLaws]: a login answers
    a cookie under which the profile is then found, and leaves every
    other session alone; a logout empties its session.  Two lawful stores
    are given: [KeepStore] (passport before 0.6 logs in inside the
    current session) and [RegenStore] (passport 0.6 and later regenerate
    the session at login).  The theorems about the routes are proved
    for every lawful store, so they hold whichever passport version the
    server runs.

    [spec_trace] is the contract of the routes on the view a client has
    of the sessions (cookie to profile, up to pointwise equality);
    [routes_refine_spec] shows that the handler implements it. *)

From Stdlib Require Import ZArith List String Ascii Bool Lia Morphisms Setoid.
From S2P Require Import Prelude JsString Json TaskServer Forms.
Import ListNotations.

Module Auth.

Import JsString Json Tasks.
Local Open Scope list_scope.

(** ** Profiles, requests and responses *)

(** The profile passport-google-oauth20 hands to the verify callback. *)
Record google_profile := {
  g_emails : list string;
  g_photos : list string;
  g_displayName : option string }.

(** The verify callback: [profile.accessToken = accessToken;
    done(null, profile)].  The refresh token is dropped. *)
Definition verify (accessToken : string) (refreshToken : option string)
    (gp : google_profile) : profile :=
  {| emails := g_emails gp; photos := g_photos gp;
     displayName := g_displayName gp; accessToken := accessToken |}.

(** [passport.serializeUser((user, done) => done(null, user))] and
    [deserializeUser] likewise. *)
Definition serializeUser (u : profile) : profile := u.
Definition deserializeUser (u : profile) : profile := u.

(** The session cookie. *)
Definition sid := nat.

(** What the Google consent screen answers the callback. *)
Inductive oauth_outcome :=
  | OAuthDenied
  | OAuthGranted (accessToken : string) (refreshToken : option string) (gp : google_profile).

Inductive route :=
  | GetAuthGoogle
  | GetAuthCallback (o : oauth_outcome)
  | GetUser
  | GetCalendarEvents
  | GetLogout
  | GetApiChat.

Record http_request := { cookie : option sid; route_of : route }.

Inductive http_response :=
  | GoogleConsent (scopes : list string)               (* redirect to Google *)
  | Redirect (location : string) (set_cookie : option sid)
  | UserResp (r : user_response)
  | EventsResp (status : Z) (items : list json)
  | ChatInfo (reply : string).

Definition google_scopes : list string :=
  ["profile"; "email"; "https://www.googleapis.com/auth/calendar.readonly"]%string.

Definition chat_info : string := "Chat API is running. Send a POST request to chat.".

(** ** The session store *)

Class SessionStore (S : Type) := {
  sess_empty : S;
  (** [req.session.passport.user] of the session a cookie names *)
  sess_user : S -> sid -> option profile;
  (** [req.login(user)]: the store after it and the cookie answered *)
  sess_login : S -> option sid -> profile -> S * sid;
  (** [req.logout()] *)
  sess_logout : S -> sid -> S }.

Class SessionLaws (S : Type) `{SessionStore S} := {
  empty_user c : sess_user sess_empty c = None;
  login_user s c p : sess_user (fst (sess_login s c p)) (snd (sess_login s c p)) = Some p;
  login_fresh s c p : c = Some (snd (sess_login s c p)) \/ sess_user s (snd (sess_login s c p)) = None;
  login_old s c0 p : c0 <> snd (sess_login s (Some c0) p) ->
    sess_user (fst (sess_login s (Some c0) p)) c0 = None;
  login_other s c p c0 : c <> Some c0 -> c0 <> snd (sess_login s c p) ->
    sess_user (fst (sess_login s c p)) c0 = sess_user s c0;
  logout_user s c : sess_user (sess_logout s c) c = None;
  logout_other s c c0 : c0 <> c -> sess_user (sess_logout s c) c0 = sess_user s c0 }.

(** ** The routes *)

Section Routes.
Context {S : Type} `{SessionStore S}.
(** [calendar.events.list] for an access token: the items, or [None]
    when the call fails. *)
Variable list_events : string -> option (list json).

(** [req.user], present exactly when [req.isAuthenticated()]. *)
Definition req_user (s : S) (c : option sid) : option profile :=
  match c with Some c => option_map deserializeUser (sess_user s c) | None => None end.

(** [app.get('/auth/google', passport.authenticate('google', {scope}))]:
    a redirect to Google's consent screen. *)
Definition auth_google (s : S) : S * http_response := (s, GoogleConsent google_scopes).

(** [app.get('/api/chat', ...)] *)
Definition api_chat_info (s : S) : S * http_response := (s, ChatInfo chat_info).

(** [app.get('/auth/google/callback', passport.authenticate('google',
    { failureRedirect: '/' }), (req, res) => res.redirect('/dashboard.html'))]:
    a granted consent runs the verify callback and logs its profile in. *)
Definition auth_callback (s : S) (c : option sid) (o : oauth_outcome) : S * http_response :=
  match o with
  | OAuthDenied => (s, Redirect "/" None)
  | OAuthGranted tok rt gp =>
      let (s', c') := sess_login s c (serializeUser (verify tok rt gp)) in
      (s', Redirect "/dashboard.html" (Some c'))
  end.

(** [app.get('/user', ...)] *)
Definition user_route (s : S) (c : option sid) : S * http_response :=
  (s, UserResp (get_user (req_user s c))).

(** [app.get('/calendar/events', ...)] *)
Definition calendar_route (s : S) (c : option sid) : S * http_response :=
  let (st, items) := calendar_events list_events (req_user s c) in (s, EventsResp st items).

(** [app.get('/logout', (req, res) => { req.logout(() => res.redirect('/')) })] *)
Definition logout_route (s : S) (c : option sid) : S * http_response :=
  match c with
  | Some c => (sess_logout s c, Redirect "/" None)
  | None => (s, Redirect "/" None)
  end.

(** Express's router: the handler registered for the request's route. *)
Definition router (s : S) (r : http_request) : S * http_response :=
  match route_of r with
  | GetAuthGoogle => auth_google s
  | GetAuthCallback o => auth_callback s (cookie r) o
  | GetUser => user_route s (cookie r)
  | GetCalendarEvents => calendar_route s (cookie r)
  | GetLogout => logout_route s (cookie r)
  | GetApiChat => api_chat_info s
  end.

(** A sequence of requests served one after the other. *)
Fixpoint run (s : S) (rs : list http_request) : S * list http_response :=
  match rs with
  | [] => (s, [])
  | r :: rs' =>
      let (s1, resp) := router s r in
      let (s2, resps) := run s1 rs' in
      (s2, resp :: resps)
  end.

End Routes.

(** ** The dashboard's [fetch('/user')] *)

(** The answer of [GET /user] on the wire: [res.status(401).json({})],
    [res.json({email, photo, token})], and for a throw Express' HTML
    error page with status 500. *)
Definition user_http (r : user_response) : Z * jstring :=
  match r with
  | UserUnauthorized => (401%Z, stringify (JObj []))
  | UserInfo e ph tok =>
      (200%Z, stringify (JObj [(lit "email", JStr (decode e)); (lit "photo", JStr (decode ph));
                               (lit "token", JStr (decode tok))]))
  | UserThrows _ => (500%Z, lit "<!DOCTYPE html>")
  end.

(** dashboard.js lines 28-39: [res.json()] rejects on a body that is
    not JSON (nothing else happens), else the [then] of [show_user]. *)
Definition load_user (body : jstring) (h : Forms.header) : option ((Forms.header * bool) + jstring) :=
  match parse body with
  | Some user => Some (Forms.show_user user h)
  | None => None
  end.

(** ** Two lawful stores *)

(** The sessions of a memory store, newest first; a fresh cookie is
    one above every cookie in use (express-session draws a random one). *)
Definition mem := list (sid * profile).

Definition mem_get (l : mem) (c : sid) : option profile :=
  option_map snd (find (fun kv => Nat.eqb (fst kv) c) l).

Definition mem_remove (l : mem) (c : sid) : mem :=
  filter (fun kv => negb (Nat.eqb (fst kv) c)) l.

Definition mem_fresh (l : mem) : sid := S (list_max (map fst l)).

(** Before passport 0.6: the login is written into the request's own
    session; a request without one gets a new session. *)
Record keep_store := Keep { keep_sessions : mem }.

#[export] Instance KeepStore : SessionStore keep_store := {|
  sess_empty := Keep [];
  sess_user s := mem_get (keep_sessions s);
  sess_login s c p :=
    let c' := match c with Some c => c | None => mem_fresh (keep_sessions s) end in
    (Keep ((c', p) :: mem_remove (keep_sessions s) c'), c');
  sess_logout s c := Keep (mem_remove (keep_sessions s) c) |}.

(** passport 0.6 and later: [req.login] regenerates the session, the
    old one is destroyed and the answer carries a new cookie. *)
Record regen_store := Regen { regen_sessions : mem }.

#[export] Instance RegenStore : SessionStore regen_store := {|
  sess_empty := Regen [];
  sess_user s := mem_get (regen_sessions s);
  sess_login s c p :=
    let l := match c with Some c => mem_remove (regen_sessions s) c | None => regen_sessions s end in
    let c' := mem_fresh (regen_sessions s) in
    (Regen ((c', p) :: l), c');
  sess_logout s c := Regen (mem_remove (regen_sessions s) c) |}.

Lemma mem_get_cons l c p c0 :
  mem_get ((c, p) :: l) c0 = if Nat.eqb c c0 then Some p else mem_get l c0.
Proof. unfold mem_get. cbn. now destruct (Nat.eqb c c0). Qed.

Lemma mem_get_remove l c c0 :
  mem_get (mem_remove l c) c0 = if Nat.eqb c0 c then None else mem_get l c0.
Proof.
  unfold mem_get, mem_remove. induction l as [|[k q] l IH]; cbn.
  - now destruct (Nat.eqb c0 c).
  - destruct (Nat.eqb_spec k c) as [->|Hk]; cbn.
    + rewrite IH. destruct (Nat.eqb_spec c0 c), (Nat.eqb_spec c c0); congruence.
    + destruct (Nat.eqb_spec k c0); [|exact IH].
      subst. destruct (Nat.eqb_spec c0 c); congruence.
Qed.

Lemma mem_get_fresh l : mem_get l (mem_fresh l) = None.
Proof.
  unfold mem_get, mem_fresh.
  destruct (find (fun kv => Nat.eqb (fst kv) (S (list_max (map fst l)))) l) as [[k q]|] eqn:Hf;
    [|reflexivity].
  apply find_some in Hf as [Hin Hk]. cbn in Hk. apply Nat.eqb_eq in Hk.
  apply (in_map fst) in Hin. cbn in Hin.
  pose proof (proj1 (list_max_le (map fst l) _) (le_n _)) as Hle.
  rewrite Forall_forall in Hle. specialize (Hle k Hin). lia.
Qed.

Ltac mem_simpl :=
  repeat first [ rewrite mem_get_cons | rewrite mem_get_remove | rewrite mem_get_fresh
               | rewrite Nat.eqb_refl
               | match goal with H : ?a <> ?b |- context [Nat.eqb ?a ?b] =>
                   rewrite (proj2 (Nat.eqb_neq a b) H)
                 | H : ?b <> ?a |- context [Nat.eqb ?a ?b] =>
                   rewrite (proj2 (Nat.eqb_neq a b) (not_eq_sym H)) end ].

#[export] Instance KeepLaws : SessionLaws keep_store.
Proof.
  split; cbn.
  - reflexivity.
  - intros s c p. now mem_simpl.
  - intros s [c|] p; [now left|right]. now mem_simpl.
  - congruence.
  - intros s c p c0 Hc Hc'. now mem_simpl.
  - intros s c. now mem_simpl.
  - intros s c c0 Hc. now mem_simpl.
Qed.

#[export] Instance RegenLaws : SessionLaws regen_store.
Proof.
  split; cbn.
  - reflexivity.
  - intros s c p. now mem_simpl.
  - intros s c p. right. now mem_simpl.
  - intros s c0 p Hc. now mem_simpl.
  - intros s [c|] p c0 Hc Hc'; mem_simpl; [|reflexivity].
    assert (c0 <> c) by congruence. now mem_simpl.
  - intros s c. now mem_simpl.
  - intros s c c0 Hc. now mem_simpl.
Qed.

(** ** The contract of the routes *)

(** What a client can observe of the sessions: the profile behind each
    cookie.  Two stores with the same view are indistinguishable. *)
Definition view := sid -> option profile.

Definition view_eq (v w : view) : Prop := forall c, v c = w c.

#[export] Instance view_eq_equiv : Equivalence view_eq.
Proof.
  split; [intros v c | intros v w H c | intros u v w H1 H2 c]; congruence || (rewrite H1; apply H2).
Qed.

Definition view_user (v : view) (c : option sid) : option profile :=
  match c with Some c => v c | None => None end.

Definition is_cookie (c : option sid) (x : sid) : bool :=
  match c with Some c => Nat.eqb x c | None => false end.

(** A login on the session of cookie [c] answering cookie [c']: the
    profile is found under [c'], the session [c] is gone if it is not
    [c'], every other session is kept. *)
Definition spec_login (v : view) (c : option sid) (c' : sid) (p : profile) : view :=
  fun x => if Nat.eqb x c' then Some p else if is_cookie c x then None else v x.

Definition spec_logout (v : view) (c : sid) : view :=
  fun x => if Nat.eqb x c then None else v x.

(** The cookie a login may answer: the request's own, or one no session uses. *)
Definition fresh_ok (v : view) (c : option sid) (c' : sid) : Prop :=
  c = Some c' \/ v c' = None.

Section Spec.
Variable list_events : string -> option (list json).

(** The view after a request, given the cookie [c'] a login answers. *)
Definition spec_next (v : view) (c' : sid) (r : http_request) : view :=
  match route_of r with
  | GetAuthCallback (OAuthGranted tok rt gp) => spec_login v (cookie r) c' (verify tok rt gp)
  | GetLogout => match cookie r with Some c => spec_logout v c | None => v end
  | _ => v
  end.

Definition spec_resp (v : view) (c' : sid) (r : http_request) : http_response :=
  match route_of r with
  | GetAuthGoogle => GoogleConsent google_scopes
  | GetAuthCallback OAuthDenied => Redirect "/" None
  | GetAuthCallback (OAuthGranted _ _ _) => Redirect "/dashboard.html" (Some c')
  | GetUser => UserResp (get_user (view_user v (cookie r)))
  | GetCalendarEvents =>
      let (st, items) := calendar_events list_events (view_user v (cookie r)) in EventsResp st items
  | GetLogout => Redirect "/" None
  | GetApiChat => ChatInfo chat_info
  end.

Definition admissible (v : view) (r : http_request) (c' : sid) : Prop :=
  match route_of r with
  | GetAuthCallback (OAuthGranted _ _ _) => fresh_ok v (cookie r) c'
  | _ => True
  end.

(** The responses the contract allows to a sequence of requests. *)
Inductive spec_trace : view -> list http_request -> list http_response -> Prop :=
  | spec_nil v : spec_trace v [] []
  | spec_cons v r rs c' resps :
      admissible v r c' -> spec_trace (spec_next v c' r) rs resps ->
      spec_trace v (r :: rs) (spec_resp v c' r :: resps).

End Spec.

#[export] Instance view_user_proper : Proper (view_eq ==> eq ==> eq) view_user.
Proof. intros v w H c ? <-. destruct c; cbn; auto. Qed.

#[export] Instance spec_login_proper : Proper (view_eq ==> eq ==> eq ==> eq ==> view_eq) spec_login.
Proof. intros v w H c ? <- c' ? <- p ? <- x. unfold spec_login. now rewrite H. Qed.

#[export] Instance spec_logout_proper : Proper (view_eq ==> eq ==> view_eq) spec_logout.
Proof. intros v w H c ? <- x. unfold spec_logout. now rewrite H. Qed.

#[export] Instance spec_next_proper : Proper (view_eq ==> eq ==> eq ==> view_eq) spec_next.
Proof.
  intros v w H c' ? <- r ? <-. unfold spec_next.
  destruct (route_of r) as [|[|]| | | |], (cookie r); try exact H; now rewrite H.
Qed.

#[export] Instance spec_resp_proper le : Proper (view_eq ==> eq ==> eq ==> eq) (spec_resp le).
Proof. intros v w H c' ? <- r ? <-. unfold spec_resp, view_user. destruct (cookie r); now rewrite ?H. Qed.

#[export] Instance admissible_proper : Proper (view_eq ==> eq ==> eq ==> iff) admissible.
Proof. intros v w H r ? <- c' ? <-. unfold admissible, fresh_ok. now rewrite H. Qed.

#[export] Instance spec_trace_proper le : Proper (view_eq ==> eq ==> eq ==> iff) (spec_trace le).
Proof.
  enough (Himp : forall v w rs resps, view_eq v w -> spec_trace le v rs resps -> spec_trace le w rs resps).
  { intros v w H rs ? <- resps ? <-. split; apply Himp; [exact H | now symmetry]. }
  intros v w rs resps H Ht. revert w H.
  induction Ht as [v|v r rs c' resps Ha Ht IH]; intros w H; [constructor|].
  rewrite H. constructor; [now rewrite <- H|]. apply IH. now rewrite H.
Qed.

(** ** The routes implement the contract *)

Ltac unfold_routes :=
  unfold router, auth_google, api_chat_info, auth_callback, user_route, calendar_route, logout_route.

Section Props.
Context {S : Type} `{SessionLaws S}.
Variable list_events : string -> option (list json).

Lemma req_user_view s c : req_user s c = view_user (sess_user s) c.
Proof. destruct c as [c|]; cbn; [|reflexivity]. now destruct (sess_user s c). Qed.

Lemma login_view s c p :
  view_eq (sess_user (fst (sess_login s c p))) (spec_login (sess_user s) c (snd (sess_login s c p)) p).
Proof.
  intros x. unfold spec_login.
  destruct (Nat.eqb_spec x (snd (sess_login s c p))) as [->|Hx]; [apply login_user|].
  destruct c as [c|]; cbn; [destruct (Nat.eqb_spec x c) as [->|Hc]|].
  - now apply login_old.
  - apply login_other; congruence.
  - now apply login_other.
Qed.

Lemma logout_view s c : view_eq (sess_user (sess_logout s c)) (spec_logout (sess_user s) c).
Proof.
  intros x. unfold spec_logout.
  destruct (Nat.eqb_spec x c) as [->|Hx]; [apply logout_user | now apply logout_other].
Qed.

(** One request: the handler's answer is one the contract allows, and
    the view after it is the contract's. *)
Lemma router_step s r :
  exists c', admissible (sess_user s) r c' /\
    snd (router list_events s r) = spec_resp list_events (sess_user s) c' r /\
    view_eq (sess_user (fst (router list_events s r))) (spec_next (sess_user s) c' r).
Proof.
  unfold_routes. unfold spec_resp, spec_next, admissible. rewrite !req_user_view.
  destruct r as [c rt]; cbn [route_of cookie].
  destruct rt as [|[|tok rt gp]| | | |]; try (exists 0; repeat split; reflexivity).
  - exists (snd (sess_login s c (serializeUser (verify tok rt gp)))).
    destruct (sess_login s c _) as [s' c'] eqn:Hl. cbn.
    split; [|split; [reflexivity|]].
    + assert (Hf := login_fresh s c (verify tok rt gp)). unfold serializeUser in Hl.
      now rewrite Hl in Hf.
    + assert (Hv := login_view s c (verify tok rt gp)). unfold serializeUser in Hl.
      now rewrite Hl in Hv.
  - exists 0. destruct (calendar_events _ _). repeat split; reflexivity.
  - exists 0. destruct c as [c|]; (split; [exact I|split; [reflexivity|]]);
      [apply logout_view|reflexivity].
Qed.

(** C6: Every sequence of requests, served from any store, is answered
    the way the contract on the store's view allows: the session routes
    refine [spec_trace] whichever lawful session store runs them. *)
Theorem routes_refine_spec s rs :
  spec_trace list_events (sess_user s) rs (snd (run list_events s rs)).
Proof.
  revert s. induction rs as [|r rs IH]; intros s; [constructor|].
  destruct (router_step s r) as (c' & Ha & Hr & Hv). cbn.
  destruct (router list_events s r) as [s1 resp] eqn:Hh.
  destruct (run list_events s1 rs) as [s2 resps] eqn:Hrun. cbn in *.
  subst resp. constructor; [exact Ha|].
  rewrite <- Hv. specialize (IH s1). now rewrite Hrun in IH.
Qed.

(** The logins a response records: the profile and the cookie answered. *)
Definition granted (r : http_request) (resp : http_response) : list (sid * profile) :=
  match route_of r, resp with
  | GetAuthCallback (OAuthGranted tok rt gp), Redirect _ (Some c') => [(c', verify tok rt gp)]
  | _, _ => []
  end.

(** The server answering requests one at a time, with the log of logins. *)
Inductive serve : S * list (sid * profile) -> S * list (sid * profile) -> Prop :=
  | serve_req s log r :
      serve (s, log) (fst (router list_events s r), log ++ granted r (snd (router list_events s r))).

Definition logged (st : S * list (sid * profile)) : Prop :=
  forall c p, sess_user (fst st) c = Some p -> In (c, p) (snd st).

Lemma serve_logged st st' : logged st -> serve st st' -> logged st'.
Proof.
  intros Hl Hs. destruct Hs as [s log r].
  destruct (router_step s r) as (c' & _ & Hr & Hv).
  intros c p Hc. cbn in Hc |- *. rewrite (Hv c) in Hc. rewrite Hr. apply in_or_app.
  destruct r as [ck rt]. unfold spec_next in Hc. cbn in Hc |- *.
  destruct rt as [|[|tok rt gp]| | | |]; try (left; now apply Hl).
  - unfold spec_login in Hc. destruct (Nat.eqb_spec c c') as [->|Hne].
    + right. injection Hc as <-. now left.
    + destruct (is_cookie ck c); [discriminate | left; now apply Hl].
  - destruct ck as [k|]; [unfold spec_logout in Hc; destruct (Nat.eqb c k)|];
      [discriminate | left; now apply Hl ..].
Qed.

Lemma get_user_info p e ph tok :
  get_user (Some p) = UserInfo e ph tok ->
  hd_error (emails p) = Some e /\ hd_error (photos p) = Some ph /\ accessToken p = tok.
Proof. cbn. destruct (emails p), (photos p); cbn; intros Hg; inversion Hg; auto. Qed.


(** The cookie a granted callback answers, and the session it names. *)
Lemma callback_session s c tok rt gp :
  exists c', snd (router list_events s {| cookie := c; route_of := GetAuthCallback (OAuthGranted tok rt gp) |})
             = Redirect "/dashboard.html" (Some c') /\
    req_user (fst (router list_events s {| cookie := c; route_of := GetAuthCallback (OAuthGranted tok rt gp) |}))
      (Some c') = Some (verify tok rt gp).
Proof.
  unfold_routes; cbn [route_of cookie]; unfold serializeUser.
  assert (Hu := login_user s c (verify tok rt gp)).
  destruct (sess_login s c (verify tok rt gp)) as [s1 c'] eqn:Hl. cbn in Hu |- *.
  exists c'. now rewrite Hu.
Qed.

Lemma get_user_verify tok rt gp e es ph phs :
  g_emails gp = e :: es -> g_photos gp = ph :: phs ->
  get_user (Some (verify tok rt gp)) = UserInfo e ph tok.
Proof. intros He Hp. cbn. now rewrite He, Hp. Qed.

(** C15: After a granted sign-in, the cookie the callback answers gives
    [GET /user] the Google profile's first email and photo with the
    granted access token, and [GET /calendar/events] lists the calendar
    of that token. *)
Theorem login_then_user s c tok rt gp e es ph phs :
  g_emails gp = e :: es -> g_photos gp = ph :: phs ->
  exists c', snd (router list_events s {| cookie := c; route_of := GetAuthCallback (OAuthGranted tok rt gp) |})
             = Redirect "/dashboard.html" (Some c') /\
    let s1 := fst (router list_events s {| cookie := c; route_of := GetAuthCallback (OAuthGranted tok rt gp) |}) in
    snd (router list_events s1 {| cookie := Some c'; route_of := GetUser |}) = UserResp (UserInfo e ph tok) /\
    snd (router list_events s1 {| cookie := Some c'; route_of := GetCalendarEvents |})
      = match list_events tok with Some items => EventsResp 200 items | None => EventsResp 200 [] end.
Proof.
  intros He Hp. destruct (callback_session s c tok rt gp) as (c' & Hr & Hu).
  exists c'. split; [exact Hr|]. cbn zeta. unfold router at 1 3; cbn [route_of cookie]. unfold user_route, calendar_route.
  rewrite Hu. split; [now rewrite (get_user_verify tok rt gp e es ph phs He Hp)|].
  cbn. now destruct (list_events tok).
Qed.

(** C22: After [GET /logout] with a cookie, [GET /user] on it answers 401
    and [GET /calendar/events] answers 401 with no items; every other
    cookie is answered as before. *)
Theorem logout_revokes s c c0 rt :
  let s' := fst (router list_events s {| cookie := Some c; route_of := GetLogout |}) in
  snd (router list_events s' {| cookie := Some c; route_of := GetUser |}) = UserResp UserUnauthorized /\
  snd (router list_events s' {| cookie := Some c; route_of := GetCalendarEvents |}) = EventsResp 401 [] /\
  (c0 <> c -> (rt = GetUser \/ rt = GetCalendarEvents) ->
   snd (router list_events s' {| cookie := Some c0; route_of := rt |})
   = snd (router list_events s {| cookie := Some c0; route_of := rt |})).
Proof.
  unfold_routes; cbn. rewrite logout_user. repeat split; [].
  intros Hc [-> | ->]; cbn; rewrite (logout_other s c c0 Hc); [reflexivity|].
  now destruct (calendar_events _ _).
Qed.

Lemma load_user_info e ph tok h :
  e <> ""%string ->
  load_user (snd (user_http (UserInfo e ph tok))) h =
  Some (inl ({| Forms.profile_src := decode ph; Forms.name_text := split_first (JAscii "@") (decode e);
                Forms.email_text := decode e; Forms.calendar_title := lit "Calendar" |}, true)).
Proof.
  intros He. unfold load_user. cbn [snd user_http]. rewrite parse_stringify.
  unfold Forms.show_user. change (Json.prop _ (lit "email")) with (Some (JStr (decode e))).
  change (Json.prop _ (lit "photo")) with (Some (JStr (decode ph))).
  apply decode_nonempty in He. destruct (decode e); [congruence|reflexivity].
Qed.

(** Composed with the dashboard: after a granted sign-in, the page
    the callback redirects to fills its header from [GET /user] with the
    Google profile's photo, the part of the email before [@] and the
    email, and goes on to load the calendar; a page loaded without a
    session leaves the header as it is and loads nothing. *)
Theorem page_load_after_login s c tok rt gp e es ph phs h :
  g_emails gp = e :: es -> g_photos gp = ph :: phs -> e <> ""%string ->
  (exists c', snd (router list_events s {| cookie := c; route_of := GetAuthCallback (OAuthGranted tok rt gp) |})
             = Redirect "/dashboard.html" (Some c') /\
    let s1 := fst (router list_events s {| cookie := c; route_of := GetAuthCallback (OAuthGranted tok rt gp) |}) in
    exists r, snd (router list_events s1 {| cookie := Some c'; route_of := GetUser |}) = UserResp r /\
      load_user (snd (user_http r)) h =
      Some (inl ({| Forms.profile_src := decode ph; Forms.name_text := split_first (JAscii "@") (decode e);
                    Forms.email_text := decode e; Forms.calendar_title := lit "Calendar" |}, true))) /\
  (exists r, snd (router list_events s {| cookie := None; route_of := GetUser |}) = UserResp r /\
     load_user (snd (user_http r)) h = Some (inl (h, false))).
Proof.
  intros He Hp Hne. split; [|eexists; split; reflexivity].
  destruct (callback_session s c tok rt gp) as (c' & Hr & Hu).
  exists c'. split; [exact Hr|]. exists (UserInfo e ph tok). split; [|now apply load_user_info].
  cbn zeta. unfold router at 1; cbn [route_of cookie]. unfold user_route. rewrite Hu.
  now rewrite (get_user_verify tok rt gp e es ph phs He Hp).
Qed.

End Props.

(** ** Session fixation *)

Lemma mem_fresh_used l k q : mem_get l k = Some q -> k <> mem_fresh l.
Proof. intros Hk ->. now rewrite mem_get_fresh in Hk. Qed.

(** C26: Whether a cookie fixed before sign-in survives it depends on the
    session library: on a store that logs in inside the request's own
    session (passport before 0.6) the cookie [k] a third party had the
    browser send now names the new profile, so its holder is served the
    victim's profile and calendar; on a store that regenerates the
    session, the old cookie names nothing after the login. *)
Theorem session_fixation_keep_only le l k q tok rt gp :
  mem_get l k = Some q ->
  req_user (fst (router le (Keep l) {| cookie := Some k; route_of := GetAuthCallback (OAuthGranted tok rt gp) |}))
    (Some k) = Some (verify tok rt gp) /\
  req_user (fst (router le (Regen l) {| cookie := Some k; route_of := GetAuthCallback (OAuthGranted tok rt gp) |}))
    (Some k) = None.
Proof.
  intros Hk. apply mem_fresh_used in Hk. unfold_routes.
  cbn [route_of cookie sess_login sess_user KeepStore RegenStore keep_sessions regen_sessions fst req_user].
  split; mem_simpl; reflexivity.
Qed.

(** ** Concrete runs *)

Local Open Scope string_scope.

Definition no_events : string -> option (list json) := fun _ => None.

Definition gp0 : google_profile :=
  {| g_emails := ["ada@example.com"]; g_photos := ["https://example.com/ada.png"];
     g_displayName := Some "Ada" |}.

Definition login0 (c : option sid) : http_request :=
  {| cookie := c; route_of := GetAuthCallback (OAuthGranted "ya29.token" None gp0) |}.

Definition header0 : Forms.header :=
  {| Forms.profile_src := []; Forms.name_text := []; Forms.email_text := []; Forms.calendar_title := [] |}.

Definition ask (c : option sid) (rt : route) : http_request := {| cookie := c; route_of := rt |}.

(** Sign in, read the profile, sign out, read it again, on a store
    that regenerates sessions; the trace is one the contract allows. *)
Lemma routes_refine_spec_witness :
  snd (run no_events (@sess_empty regen_store _)
         [login0 None; ask (Some 1) GetUser; ask (Some 1) GetLogout; ask (Some 1) GetUser])
  = [Redirect "/dashboard.html" (Some 1);
     UserResp (UserInfo "ada@example.com" "https://example.com/ada.png" "ya29.token");
     Redirect "/" None; UserResp UserUnauthorized] /\
  spec_trace no_events (sess_user sess_empty)
    [login0 None; ask (Some 1) GetUser; ask (Some 1) GetLogout; ask (Some 1) GetUser]
    (snd (run no_events (@sess_empty regen_store _)
            [login0 None; ask (Some 1) GetUser; ask (Some 1) GetLogout; ask (Some 1) GetUser])).
Proof. split; [vm_compute; reflexivity | apply routes_refine_spec; exact RegenLaws]. Defined.


Lemma login_then_user_witness :
  exists c', snd (router no_events (Keep [(4, verify "old" None gp0)]) (login0 (Some 7)))
             = Redirect "/dashboard.html" (Some c') /\
    let s1 := fst (router no_events (Keep [(4, verify "old" None gp0)]) (login0 (Some 7))) in
    snd (router no_events s1 (ask (Some c') GetUser))
      = UserResp (UserInfo "ada@example.com" "https://example.com/ada.png" "ya29.token") /\
    snd (router no_events s1 (ask (Some c') GetCalendarEvents)) = EventsResp 200 [].
Proof.
  exact (login_then_user (H0 := KeepLaws) no_events (Keep [(4, verify "old" None gp0)]) (Some 7)
           "ya29.token" None gp0 _ [] _ [] eq_refl eq_refl).
Defined.

Lemma logout_revokes_witness :
  (2 <> 1)%nat /\
  snd (router no_events (fst (router no_events (Regen [(1, verify "t1" None gp0); (2, verify "t2" None gp0)])
                                (ask (Some 1) GetLogout))) (ask (Some 2) GetUser))
  = snd (router no_events (Regen [(1, verify "t1" None gp0); (2, verify "t2" None gp0)]) (ask (Some 2) GetUser)).
Proof.
  split; [discriminate|].
  apply (proj2 (proj2 (logout_revokes (H0 := RegenLaws) no_events
           (Regen [(1, verify "t1" None gp0); (2, verify "t2" None gp0)]) 1 2 GetUser)));
    [discriminate | now left].
Defined.

Lemma page_load_after_login_witness :
  exists c', snd (router no_events (@sess_empty regen_store _) (login0 None)) = Redirect "/dashboard.html" (Some c') /\
    let s1 := fst (router no_events (@sess_empty regen_store _) (login0 None)) in
    exists r, snd (router no_events s1 (ask (Some c') GetUser)) = UserResp r /\
      load_user (snd (user_http r)) header0 =
      Some (inl ({| Forms.profile_src := lit "https://example.com/ada.png"; Forms.name_text := lit "ada";
                    Forms.email_text := lit "ada@example.com"; Forms.calendar_title := lit "Calendar" |}, true)).
Proof.
  exact (proj1 (page_load_after_login (H0 := RegenLaws) no_events sess_empty None "ya29.token" None gp0
                  _ [] _ [] header0 eq_refl eq_refl ltac:(discriminate))).
Defined.

Lemma session_fixation_keep_only_witness :
  mem_get [(3, verify "attacker" None gp0)] 3 = Some (verify "attacker" None gp0) /\
  req_user (fst (router no_events (Keep [(3, verify "attacker" None gp0)]) (login0 (Some 3)))) (Some 3)
    = Some (verify "ya29.token" None gp0) /\
  req_user (fst (router no_events (Regen [(3, verify "attacker" None gp0)]) (login0 (Some 3)))) (Some 3) = None.
Proof.
  split; [reflexivity|].
  exact (session_fixation_keep_only no_events [(3, verify "attacker" None gp0)] 3
           (verify "attacker" None gp0) "ya29.token" None gp0 eq_refl).
Defined.

End Auth.
