(* ===== verification/PageLoad.v ===== *)
(** * The signed-in page load, across server and browser

    What dashboard.js does when the page the sign-in callback redirects
    to loads (lines 28-51): [fetch('/user')], the profile header, then
    [loadGoogleEvents]: [fetch('/calendar/events')], [calendarEvents =
    events || []] and [switchView('hour')].  The two fetches are answered
    by the session routes of [Auth] (the bodies on the wire are the
    [stringify] of what [res.json] sends, read back by [res.json()]),
    the header is [Forms.show_user] and the calendar is
    [Dashboard.load_events].  The fetches are taken one after the other,
    with no other request of the same browser in between.

    Google's event resources reach the dashboard as JSON; [event_json]
    is the shape of the fields the dashboard reads, and [event_of_json]
    is how it reads them ([event.summary], [event.start.dateTime],
    [event.start.date], and the same of [event.end]). *)

From Stdlib Require Import ZArith List String Ascii Bool Lia.
From S2P Require Import Prelude JsString Json Layout Dashboard TaskServer Forms Auth.
Import ListNotations.

Module PageLoad.

Import JsString Json Tasks Auth.
Local Open Scope list_scope.

(** ** Google's events as JSON *)

Definition str_member (k : string) (o : option string) : list (jstring * json) :=
  match o with Some v => [(lit k, JStr (decode v))] | None => [] end.

Definition time_json (t : Layout.event_time) : json :=
  JObj (str_member "dateTime" (Layout.dateTime t) ++ str_member "date" (Layout.date t)).

Definition time_member (k : string) (o : option Layout.event_time) : list (jstring * json) :=
  match o with Some t => [(lit k, time_json t)] | None => [] end.

(** An event resource with the fields the dashboard reads. *)
Definition event_json (e : Layout.cal_event) : json :=
  JObj (str_member "summary" (Layout.summary e) ++ time_member "start" (Layout.start e)
        ++ time_member "end" (Layout.end_ e)).

(** ** The dashboard's reading of them *)

(** A string property as the renderers use it; Google's resources
    carry strings in these fields, other values are read as absent. *)
Definition str_prop (v : json) (k : string) : option string :=
  match prop v (lit k) with Some (JStr s) => Some (encode s) | _ => None end.

(** [event.start] / [event.end]: an object, or [undefined]. *)
Definition time_prop (v : json) (k : string) : option Layout.event_time :=
  match prop v (lit k) with
  | Some (JObj _ as t) => Some {| Layout.dateTime := str_prop t "dateTime"; Layout.date := str_prop t "date" |}
  | _ => None
  end.

Definition event_of_json (v : json) : Layout.cal_event :=
  {| Layout.summary := str_prop v "summary"; Layout.start := time_prop v "start";
     Layout.end_ := time_prop v "end" |}.

(** [loadGoogleEvents] (lines 45-51): [res.json()] rejects on a body
    that is not JSON; an array becomes [calendarEvents]; a falsy value
    gives [[]].  A truthy value that is not an array makes the hour
    view's [forEach] throw; that case and a rejection are [None]. *)
Definition load_calendar (tz now : Z) (body : jstring) (d : Dashboard.dom) : option Dashboard.dom :=
  match parse body with
  | Some (JArr items) => Some (Dashboard.load_events tz now (Some (map event_of_json items)) d)
  | Some v => if truthy (Some v) then None else Some (Dashboard.load_events tz now None d)
  | None => None
  end.

(** ** The page load *)

Section Page.
Context {S : Type} `{SessionStore S}.
Variable list_events : string -> option (list json).
Variables (tz now : Z).

(** Lines 28-40 with [loadGoogleEvents]: the header and the calendar
    after both fetches, or [None] when a promise rejects or a callback
    throws.  The fetches are asynchronous: [others] are the requests the
    server handles between them (from another tab of the same browser,
    for instance). *)
Definition page_load_between (s : S) (c : option sid) (others : list http_request)
    (h : Forms.header) (d : Dashboard.dom) : option (Forms.header * Dashboard.dom) :=
  let (s1, r1) := router list_events s {| cookie := c; route_of := GetUser |} in
  match r1 with
  | UserResp u =>
      match load_user (snd (user_http u)) h with
      | Some (inl (h1, true)) =>
          let s2 := fst (run list_events s1 others) in
          match snd (router list_events s2 {| cookie := c; route_of := GetCalendarEvents |}) with
          | EventsResp _ items =>
              option_map (fun d1 => (h1, d1)) (load_calendar tz now (stringify (JArr items)) d)
          | _ => None
          end
      | Some (inl (h1, false)) => Some (h1, d)
      | _ => None
      end
  | _ => None
  end.

(** The page load with nothing in between. *)
Definition page_load (s : S) (c : option sid) (h : Forms.header) (d : Dashboard.dom)
    : option (Forms.header * Dashboard.dom) :=
  page_load_between s c [] h d.

End Page.

(** ** Properties *)

(** Decide the comparisons of literal keys by evaluation. *)
Ltac keys :=
  repeat match goal with
         | |- context [jstring_eqb (lit ?a) (lit ?b)] =>
             let v := eval vm_compute in (jstring_eqb (lit a) (lit b)) in
             change (jstring_eqb (lit a) (lit b)) with v
         end; cbn beta iota;
  try (progress cbn [member]; keys).

Lemma event_roundtrip e : event_of_json (event_json e) = e.
Proof.
  destruct e as [[sm|] [[[a|] [b|]]|] [[[c|] [d|]]|]];
    unfold event_of_json, event_json, time_member, time_json, str_member, time_prop, str_prop, prop;
    cbn -[decode encode lit]; keys; rewrite ?encode_decode; reflexivity.
Qed.

Lemma load_calendar_events tz now evs d :
  load_calendar tz now (stringify (JArr (map event_json evs))) d
  = Some (Dashboard.load_events tz now (Some evs) d).
Proof.
  unfold load_calendar. rewrite parse_stringify, map_map.
  rewrite (map_ext _ _ event_roundtrip), map_id. reflexivity.
Qed.

(** The header [show_user] writes for a profile. *)
Definition profile_header (e ph : string) : Forms.header :=
  {| Forms.profile_src := decode ph; Forms.name_text := split_first (JAscii "@") (decode e);
     Forms.email_text := decode e; Forms.calendar_title := lit "Calendar" |}.

Section Props.
Context {S : Type} `{SessionLaws S}.
Variable list_events : string -> option (list json).

(** C16: After a granted sign-in, the page the callback redirects to shows
    the profile in its header and, in the hour view, exactly the events
    Google lists for the granted token (none when the listing fails);
    without a session the page keeps its header and loads no calendar. *)
Theorem signed_in_page_shows_calendar tz now s c tok rt gp e es ph phs h d evs :
  g_emails gp = e :: es -> g_photos gp = ph :: phs -> e <> ""%string ->
  list_events tok = Some (map event_json evs) \/ (list_events tok = None /\ evs = []) ->
  (exists c',
    snd (router list_events s {| cookie := c; route_of := GetAuthCallback (OAuthGranted tok rt gp) |})
      = Redirect "/dashboard.html" (Some c') /\
    page_load list_events tz now
      (fst (router list_events s {| cookie := c; route_of := GetAuthCallback (OAuthGranted tok rt gp) |}))
      (Some c') h d
    = Some (profile_header e ph, Dashboard.load_events tz now (Some evs) d)) /\
  page_load list_events tz now s None h d = Some (h, d).
Proof.
  intros He Hp Hne Hevs. split; [|reflexivity].
  destruct (callback_session list_events s c tok rt gp) as (c' & Hr & Hu).
  exists c'. split; [exact Hr|].
  remember (fst (router list_events s _)) as s1 eqn:Hs1. clear Hs1 Hr.
  unfold page_load, page_load_between, router; cbn [route_of cookie run fst]. unfold user_route, calendar_route.
  rewrite Hu, (get_user_verify tok rt gp e es ph phs He Hp), (load_user_info e ph tok h Hne).
  cbn [snd fst calendar_events accessToken verify].
  destruct Hevs as [Hl | [Hl ->]]; rewrite Hl; cbn [snd option_map];
    [|change (@nil json) with (map event_json [])]; now rewrite load_calendar_events.
Qed.

(** C29: A sign-out from another tab between the page's two fetches: the
    header already shows the profile, [GET /calendar/events] answers 401
    with [[]], and since [loadGoogleEvents] never looks at [res.ok] the
    page shows the signed-out profile over an empty calendar, with no
    sign of the lost session. *)
Theorem logout_between_fetches tz now s c tok rt gp e es ph phs h d :
  g_emails gp = e :: es -> g_photos gp = ph :: phs -> e <> ""%string ->
  exists c',
    snd (router list_events s {| cookie := c; route_of := GetAuthCallback (OAuthGranted tok rt gp) |})
      = Redirect "/dashboard.html" (Some c') /\
    page_load_between list_events tz now
      (fst (router list_events s {| cookie := c; route_of := GetAuthCallback (OAuthGranted tok rt gp) |}))
      (Some c') [{| cookie := Some c'; route_of := GetLogout |}] h d
    = Some (profile_header e ph, Dashboard.load_events tz now (Some []) d).
Proof.
  intros He Hp Hne.
  destruct (callback_session list_events s c tok rt gp) as (c' & Hr & Hu).
  exists c'. split; [exact Hr|].
  remember (fst (router list_events s _)) as s1 eqn:Hs1. clear Hs1 Hr.
  unfold page_load_between; cbn [run]. unfold router; cbn [route_of cookie fst].
  unfold user_route, calendar_route, logout_route.
  rewrite Hu, (get_user_verify tok rt gp e es ph phs He Hp), (load_user_info e ph tok h Hne).
  cbn [fst snd req_user]. rewrite logout_user. cbn [option_map calendar_events snd].
  change (@nil json) with (map event_json []). now rewrite load_calendar_events.
Qed.

End Props.

(** ** The task form of the signed-in page *)

Lemma str_truthy_encode_trim t : trim (decode t) <> [] -> str_truthy (Some (encode (trim (decode t)))) = true.
Proof.
  intros Hne. destruct (encode (trim (decode t))) eqn:E; [|reflexivity].
  exfalso. apply Hne. now rewrite <- decode_encode_trim, E.
Qed.

(** A task whose body names no email is filed for the session's first
    email. *)
Lemma analyze_task_session d p e es tb desc :
  emails p = e :: es -> e <> ""%string ->
  taskDescription tb = Some desc -> str_truthy (Some desc) = true -> userEmail tb = None ->
  exists u, email u = e /\
    snd (analyze_task d (Some p) tb) = TaskOk desc (next_eid d) /\
    events (fst (analyze_task d (Some p) tb)) = events d ++ [todo_event (next_eid d) (uid u) desc] /\
    find_one (users (fst (analyze_task d (Some p) tb))) e = Some u.
Proof.
  intros He Hne Hd Ht Hu. unfold analyze_task. rewrite Hd, Ht. cbv zeta.
  unfold getDbUser, db_target, session_target. rewrite Hu, He. cbn [users].
  destruct e as [|a e']; [contradiction|]. cbn [str_truthy].
  destruct (find_or_create (users d) _ _) as [us u] eqn:Hf.
  exists u. split; [exact (find_or_create_email _ _ _ _ _ Hf)|].
  split; [reflexivity|]. split; [reflexivity|]. exact (find_or_create_found _ _ _ _ _ Hf).
Qed.

Section Tasks.
Context {S : Type} `{SessionLaws S}.
Variable list_events : string -> option (list json).

(** C17: On the signed-in page, whose [localStorage] holds no [userEmail]
    (no code of the repository writes it), a task typed in the form is
    posted, and [/api/analyze-task], reading the session the sign-in
    created, files it as a TODO of the user whose email is the Google
    profile's first email. *)
Theorem signed_in_task_owner s c tok rt gp e es d f t :
  g_emails gp = e :: es -> e <> ""%string ->
  Forms.user_email f = None -> Forms.input_value f = decode t -> trim (decode t) <> [] ->
  exists c' b tb u,
    snd (router list_events s {| cookie := c; route_of := GetAuthCallback (OAuthGranted tok rt gp) |})
      = Redirect "/dashboard.html" (Some c') /\
    snd (Forms.submit_click f) = Some b /\ Forms.body_task b = Some tb /\
    let req := req_user (fst (router list_events s
                 {| cookie := c; route_of := GetAuthCallback (OAuthGranted tok rt gp) |})) (Some c') in
    email u = e /\
    snd (analyze_task d req tb) = TaskOk (encode (trim (decode t))) (next_eid d) /\
    events (fst (analyze_task d req tb)) = events d ++ [todo_event (next_eid d) (uid u) (encode (trim (decode t)))] /\
    find_one (users (fst (analyze_task d req tb))) e = Some u.
Proof.
  intros He Hne Hf Hin Ht.
  destruct (callback_session list_events s c tok rt gp) as (c' & Hr & Hu).
  assert (Hc : snd (Forms.submit_click f) = Some (Forms.task_request_body (trim (decode t)) f)).
  { pose proof (Forms.submit_click_spec f) as Hc. rewrite Hin in Hc.
    destruct (trim (decode t)); [contradiction|]. now rewrite Hc. }
  destruct (analyze_task_session d (verify tok rt gp) e es
              {| taskDescription := Some (encode (trim (decode t)));
                 userEmail := option_map encode (Forms.user_email f);
                 userName := option_map encode (Forms.user_name f) |}
              (encode (trim (decode t))) He Hne eq_refl (str_truthy_encode_trim t Ht) ltac:(now rewrite Hf))
    as (u & Hue & Hok & Hev & Hfind).
  exists c', (Forms.task_request_body (trim (decode t)) f),
    {| taskDescription := Some (encode (trim (decode t)));
       userEmail := option_map encode (Forms.user_email f);
       userName := option_map encode (Forms.user_name f) |}, u.
  split; [exact Hr|]. split; [exact Hc|]. split; [apply Forms.body_task_request|].
  cbv zeta. rewrite Hu. auto.
Qed.

End Tasks.

(** ** A concrete page load *)

Local Open Scope string_scope.

Definition standup : Layout.cal_event := Layout.timed_event (Some "Standup") 2025 6 13 9 30 2025 6 13 10 0.

Definition calendar0 (token : string) : option (list json) :=
  if String.eqb token "ya29.token" then Some (map event_json [standup]) else None.

Lemma signed_in_page_shows_calendar_witness :
  (exists c',
    snd (router calendar0 (@sess_empty regen_store _) (login0 None)) = Redirect "/dashboard.html" (Some c') /\
    page_load calendar0 0 0 (fst (router calendar0 (@sess_empty regen_store _) (login0 None))) (Some c')
      header0 Dashboard.init
    = Some (profile_header "ada@example.com" "https://example.com/ada.png",
            Dashboard.load_events 0 0 (Some [standup]) Dashboard.init)) /\
  page_load calendar0 0 0 (@sess_empty regen_store _) None header0 Dashboard.init
  = Some (header0, Dashboard.init).
Proof.
  exact (signed_in_page_shows_calendar (H0 := RegenLaws) calendar0 0 0 sess_empty None "ya29.token" None gp0
           _ [] _ [] header0 Dashboard.init [standup] eq_refl eq_refl ltac:(discriminate)
           (or_introl eq_refl)).
Defined.

(** Google lists an event for the token, yet after the sign-out in
    between the page shows none. *)
Lemma logout_between_fetches_witness :
  calendar0 "ya29.token" = Some (map event_json [standup]) /\
  exists c',
    snd (router calendar0 (@sess_empty regen_store _) (login0 None)) = Redirect "/dashboard.html" (Some c') /\
    page_load_between calendar0 0 0 (fst (router calendar0 (@sess_empty regen_store _) (login0 None)))
      (Some c') [{| cookie := Some c'; route_of := GetLogout |}] header0 Dashboard.init
    = Some (profile_header "ada@example.com" "https://example.com/ada.png",
            Dashboard.load_events 0 0 (Some []) Dashboard.init).
Proof.
  split; [reflexivity|].
  exact (logout_between_fetches (H0 := RegenLaws) calendar0 0 0 sess_empty None "ya29.token" None gp0
           _ [] _ [] header0 Dashboard.init eq_refl eq_refl ltac:(discriminate)).
Defined.

(** The form of the signed-in page: nothing in [localStorage]. *)
Definition form1 : Forms.form :=
  {| Forms.input_value := decode "  Buy milk "; Forms.btn_text := lit "Submit"; Forms.btn_disabled := false;
     Forms.modal_display := lit "flex"; Forms.alerts := []; Forms.user_email := None;
     Forms.user_name := None |}.

Lemma signed_in_task_owner_witness :
  exists c' b tb u,
    snd (router no_events (@sess_empty regen_store _) (login0 None)) = Redirect "/dashboard.html" (Some c') /\
    snd (Forms.submit_click form1) = Some b /\ Forms.body_task b = Some tb /\
    let req := req_user (fst (router no_events (@sess_empty regen_store _) (login0 None))) (Some c') in
    email u = "ada@example.com" /\
    snd (analyze_task empty_db req tb) = TaskOk (encode (trim (decode "  Buy milk "))) (next_eid empty_db) /\
    events (fst (analyze_task empty_db req tb))
      = (events empty_db ++ [todo_event (next_eid empty_db) (uid u) (encode (trim (decode "  Buy milk ")))])%list /\
    find_one (users (fst (analyze_task empty_db req tb))) "ada@example.com" = Some u.
Proof.
  exact (signed_in_task_owner (H0 := RegenLaws) no_events sess_empty None "ya29.token" None gp0
           "ada@example.com" [] empty_db form1 "  Buy milk " eq_refl ltac:(discriminate) eq_refl eq_refl
           ltac:(intros Hx; vm_compute in Hx; discriminate)).
Defined.

End PageLoad.
