(* ===== verification/Webhook.v ===== *)
(** * The webhook forwarder (src/send.js)

    [sendToWebhook(text)] posts [{ message: text }] to the n8n webhook
    and resolves to the text of the response, or to [null] when [fetch]
    rejects; [/api/analyze-task] calls it without waiting
    ([TaskServer] records the texts it is given in [webhook]).  The
    network's answer is a [fetch_result]; logging is not modelled. *)

From Stdlib Require Import ZArith List String.
From S2P Require Import Prelude JsString Json.
Import ListNotations.

Module Webhook.

Import JsString Json.

Definition webhookUrl : string := "https://pheonixnnk.app.n8n.cloud/webhook/prompt-trigger".

(** [JSON.stringify({ message: text })] *)
Definition webhook_body (text : string) : jstring :=
  stringify (JObj [(lit "message", JStr (decode text))]).

(** What the returned promise resolves to: [await res.text()] whatever
    the status, [null] from the [catch]. *)
Definition sendToWebhook (text : string) (fr : fetch_result) : option jstring :=
  match fr with
  | NetworkError _ => None
  | Response _ data => Some data
  end.

(** What the receiving end reads as [body.message]. *)
Definition received_message (body : jstring) : option string :=
  match parse body with
  | Some (JObj l) => option_map encode (str_member (lit "message") l)
  | _ => None
  end.

(** The webhook receives the text it was given, byte for byte: the body
    is JSON whose [message] is the text. *)
Theorem webhook_roundtrip text : received_message (webhook_body text) = Some text.
Proof.
  unfold received_message, webhook_body. rewrite parse_stringify.
  replace (str_member (lit "message") [(lit "message", JStr (decode text))]) with (Some (decode text))
    by reflexivity.
  cbn [option_map]. now rewrite encode_decode.
Qed.

End Webhook.
