(* ===== verification/GenerateData.v ===== *)
(** * The sample-data generator (src/generateData.js)

    [randomInt], [generateTasks] and the [dataset] it prints.  Every
    call of [Math.random()] is a draw: the section parameter [u] gives
    the [k]-th result, and the generator is a state-passing computation
    [M] whose state is the number of draws made so far, so the order of
    the draws is the order of evaluation in the source (the two
    [randomInt]s before [tasks.push], then the four in the object
    literal, left to right).  The product [Math.random() * n] is exact
    here (a rational); for the ranges the file uses (at most 151
    values) the double product of a draw below 1 stays below [n], so the
    floor is the same.  The final [console.log(JSON.stringify(dataset,
    null, 2))] prints the value and is not modelled. *)

From Stdlib Require Import ZArith QArith Qround List String Lia.
From S2P Require Import Prelude.
Import ListNotations.

Module Generate.

Local Open Scope string_scope.

Definition categories : list (string * list string) :=
  [("Work", ["Team meeting"; "Code development"; "Client call"; "Report preparation"; "Bug fixing"]);
   ("Personal", ["Family time"; "Grocery shopping"; "Doctor visit"; "Bill payments"; "Personal planning"]);
   ("Hobby", ["Reading books"; "Learning guitar"; "Painting"; "Photography"; "Blog writing"]);
   ("Fun", ["Watching movies"; "Gaming"; "Friends meetup"; "Social media"; "Music time"]);
   ("Rest", ["Sleeping"; "Meditation"; "Power nap"; "Relaxing"; "Yoga"])].

Definition priorities : list string := ["Low"; "Medium"; "High"].

(** [categories[category]]; [generateTasks] is called with the five
    keys only (another key would make [categories[category][i]] throw). *)
Definition titles_of (c : string) : list string :=
  match find (fun p => String.eqb (fst p) c) categories with
  | Some (_, l) => l
  | None => []
  end.

(** The object [tasks.push] receives. *)
Record task := {
  id : string;
  category : string;
  title : string;
  description : string;
  startTime : string;
  endTime : string;
  priority : string;
  durationMinutes : Z }.

(** ** Drawing from [Math.random] *)

(** A computation that draws: from the number of draws made so far to
    its value and the new number. *)
Definition M (A : Type) : Type := nat -> A * nat.

Definition ret {A} (a : A) : M A := fun k => (a, k).
Definition bind {A B} (m : M A) (f : A -> M B) : M B :=
  fun k => let '(a, k') := m k in f a k'.

Declare Scope gen_scope.
Delimit Scope gen_scope with gen.
Notation "x <- m ;; k" := (bind m (fun x => k))
  (at level 61, m at next level, right associativity) : gen_scope.
Local Open Scope gen_scope.

Section Random.

(** The [k]-th result of [Math.random()]. *)
Variable u : nat -> Q.

Definition random : M Q := fun k => (u k, S k).

(** [Math.floor(Math.random() * (max - min + 1)) + min] *)
Definition randomInt (min max : Z) : M Z :=
  r <- random ;; ret (Qfloor (r * inject_Z (max - min + 1)) + min)%Z.

(** [`2025-01-${day}T${hour}:00`] *)
Definition time_text (day hour : Z) : string :=
  "2025-01-" ++ z_to_string day ++ "T" ++ z_to_string hour ++ ":00".

(** One turn of the [for] loop of [generateTasks]. *)
Definition gen_task (c : string) (i : nat) : M task :=
  startHour <- randomInt 6 20 ;;
  duration <- randomInt 30 180 ;;
  t <- randomInt 0 4 ;;
  d1 <- randomInt 1 28 ;;
  d2 <- randomInt 1 28 ;;
  p <- randomInt 0 2 ;;
  ret {| id := c ++ "-" ++ nat_to_string (i + 1);
         category := c;
         title := nth (Z.to_nat t) (titles_of c) "";
         description := c ++ " related activity";
         startTime := time_text d1 startHour;
         endTime := time_text d2 (startHour + 1);
         priority := nth (Z.to_nat p) priorities "";
         durationMinutes := duration |}.

(** [for (let i = start; i < start + n; i++) tasks.push(...)] *)
Fixpoint gen_loop (c : string) (i n : nat) : M (list task) :=
  match n with
  | O => ret []
  | S n' => t <- gen_task c i ;; ts <- gen_loop c (S i) n' ;; ret (t :: ts)
  end.

Definition generateTasks (c : string) (count : nat) : M (list task) := gen_loop c 0 count.

(** [const dataset = { Work: ..., Personal: ..., ... }], the properties
    evaluated in order. *)
Definition dataset : M (list (string * list task)) :=
  w <- generateTasks "Work" 120 ;;
  p <- generateTasks "Personal" 110 ;;
  h <- generateTasks "Hobby" 100 ;;
  f <- generateTasks "Fun" 105 ;;
  r <- generateTasks "Rest" 130 ;;
  ret [("Work", w); ("Personal", p); ("Hobby", h); ("Fun", f); ("Rest", r)].

End Random.

(** ** Lemmas *)

Section Props.

Variable u : nat -> Q.
Hypothesis u_range : forall k, 0 <= u k < 1.

Lemma randomInt_range min max k :
  (min <= max)%Z -> (min <= fst (randomInt u min max k) <= max)%Z /\ snd (randomInt u min max k) = S k.
Proof.
  intros Hm. unfold randomInt, bind, random, ret. cbn [fst snd]. split; [|reflexivity].
  destruct (u_range k) as [H0 H1].
  assert (Hn : inject_Z 0 < inject_Z (max - min + 1)) by (rewrite <- Zlt_Qlt; lia).
  assert (Hlo : (0 <= Qfloor (u k * inject_Z (max - min + 1)))%Z).
  { rewrite <- (Qfloor_Z 0). apply Qfloor_resp_le.
    apply Qmult_le_0_compat; [exact H0|apply Qlt_le_weak, Hn]. }
  assert (Hhi : (Qfloor (u k * inject_Z (max - min + 1)) < max - min + 1)%Z).
  { rewrite Zlt_Qlt. eapply Qle_lt_trans; [apply Qfloor_le|].
    assert (H2 := Qmult_lt_compat_r _ _ _ Hn H1). now rewrite Qmult_1_l in H2. }
  lia.
Qed.

(** One draw of [randomInt lo hi] in a goal: its value is in range and
    the draw count goes up by one. *)
Ltac draw :=
  match goal with |- context [randomInt u ?lo ?hi ?k] =>
    let E := fresh "E" in let R := fresh "R" in
    pose proof (randomInt_range lo hi k ltac:(lia)) as R;
    destruct (randomInt u lo hi k) eqn:E; cbn [fst snd] in R; cbv beta iota zeta
  end.

Definition task_ok (c : string) (t : task) : Prop :=
  exists h dur d1 d2, (6 <= h <= 20)%Z /\ (30 <= dur <= 180)%Z /\ (1 <= d1 <= 28)%Z /\ (1 <= d2 <= 28)%Z /\
    startTime t = time_text d1 h /\ endTime t = time_text d2 (h + 1) /\ durationMinutes t = dur /\
    category t = c /\ In (priority t) priorities /\ (titles_of c <> [] -> In (title t) (titles_of c)).

Lemma titles_of_length c : titles_of c <> [] -> List.length (titles_of c) = 5%nat.
Proof.
  unfold titles_of. cbn [find categories fst].
  repeat (destruct (String.eqb _ c); [reflexivity|]). now intros [].
Qed.

Lemma gen_task_ok c i k :
  task_ok c (fst (gen_task u c i k)) /\ snd (gen_task u c i k) = (k + 6)%nat
  /\ id (fst (gen_task u c i k)) = c ++ "-" ++ nat_to_string (i + 1).
Proof.
  unfold gen_task, bind, ret. do 6 draw. cbn [fst snd id]. split; [|split; [lia|reflexivity]].
  destruct R as [R _], R0 as [R0 _], R1 as [R1 _], R2 as [R2 _], R3 as [R3 _], R4 as [R4 _].
  exists z, z0, z2, z3. do 8 (split; [try assumption; try reflexivity|]). split.
  - apply nth_In. cbn. lia.
  - intros Hc. apply nth_In. rewrite titles_of_length by exact Hc. lia.
Qed.

Lemma gen_loop_ok c n : forall i k,
  let r := gen_loop u c i n k in
  Forall (task_ok c) (fst r) /\ snd r = (k + 6 * n)%nat /\
  map id (fst r) = map (fun j => c ++ "-" ++ nat_to_string j) (seq (S i) n).
Proof.
  induction n as [|n IH]; intros i k; cbn zeta; [cbn; split; [constructor|split; [lia|reflexivity]]|].
  cbn [gen_loop]. unfold bind.
  destruct (gen_task_ok c i k) as (Ht & Hk & Hid).
  destruct (gen_task u c i k) as [t k1]; cbv beta iota zeta. cbn [fst snd] in *.
  destruct (IH (S i) k1) as (Hf & Hk' & Hids).
  destruct (gen_loop u c (S i) n k1) as [ts k2]; cbv beta iota zeta. unfold ret.
  cbn [fst snd map] in *.
  split; [constructor; assumption|]. split; [lia|]. rewrite Hid, Hids, Nat.add_1_r. reflexivity.
Qed.

End Props.

Lemma seq_length_map {A} (f : nat -> A) (l : list A) a n :
  l = map f (seq a n) -> List.length l = n.
Proof. intros ->. now rewrite length_map, length_seq. Qed.

(** C27: Every generated task is in range: a start hour in 6..20 with the end
    one hour later, a duration in 30..180, days of January in 1..28, a
    title of its category and one of the three priorities; the ids are
    [category-1] to [category-count], and each task takes six draws. *)
Theorem generateTasks_spec u c count k :
  (forall j, 0 <= u j < 1) ->
  let r := generateTasks u c count k in
  List.length (fst r) = count /\ Forall (task_ok c) (fst r) /\ snd r = (k + 6 * count)%nat /\
  map id (fst r) = map (fun j => c ++ "-" ++ nat_to_string j) (seq 1 count).
Proof.
  intros Hu. cbv zeta. destruct (gen_loop_ok u Hu c count 0 k) as (Hf & Hk & Hids).
  unfold generateTasks. split; [|auto].
  rewrite <- (length_map id). eapply seq_length_map. exact Hids.
Qed.

(** The printed dataset: the five categories in order, with 120, 110,
    100, 105 and 130 tasks in range, after 3390 draws. *)
Theorem dataset_spec u k :
  (forall j, 0 <= u j < 1) ->
  map (fun p => (fst p, List.length (snd p))) (fst (dataset u k))
    = [("Work", 120%nat); ("Personal", 110%nat); ("Hobby", 100%nat); ("Fun", 105%nat); ("Rest", 130%nat)]
  /\ Forall (fun p => Forall (task_ok (fst p)) (snd p)) (fst (dataset u k))
  /\ snd (dataset u k) = (k + 3390)%nat.
Proof.
  intros Hu. unfold dataset, generateTasks, bind, ret.
  destruct (gen_loop_ok u Hu "Work" 120 0 k) as (F1 & K1 & I1).
  destruct (gen_loop u "Work" 0 120 k) as [w k1]; cbv beta iota zeta.
  destruct (gen_loop_ok u Hu "Personal" 110 0 k1) as (F2 & K2 & I2).
  destruct (gen_loop u "Personal" 0 110 k1) as [p k2]; cbv beta iota zeta.
  destruct (gen_loop_ok u Hu "Hobby" 100 0 k2) as (F3 & K3 & I3).
  destruct (gen_loop u "Hobby" 0 100 k2) as [h k3]; cbv beta iota zeta.
  destruct (gen_loop_ok u Hu "Fun" 105 0 k3) as (F4 & K4 & I4).
  destruct (gen_loop u "Fun" 0 105 k3) as [f k4]; cbv beta iota zeta.
  destruct (gen_loop_ok u Hu "Rest" 130 0 k4) as (F5 & K5 & I5).
  destruct (gen_loop u "Rest" 0 130 k4) as [r k5]; cbv beta iota zeta.
  cbn [fst snd map] in *. split; [|split; [repeat constructor; assumption|lia]].
  apply seq_length_map in I1, I2, I3, I4, I5. rewrite length_map in I1, I2, I3, I4, I5.
  now rewrite I1, I2, I3, I4, I5.
Qed.

(** Draws for which the fourth draw is the last day of the month. *)
Definition u_late (k : nat) : Q := match k with 3%nat => 27 # 28 | _ => 0 end.

(** The end day is a draw of its own, not the start day: a task may end
    before it starts (and the day and hour are not zero-padded, so the
    texts are not ISO dates). *)
Theorem end_before_start :
  (forall k, 0 <= u_late k < 1) /\
  map (fun t => (startTime t, endTime t)) (fst (generateTasks u_late "Work" 1%nat 0%nat))
    = [("2025-01-28T6:00", "2025-01-1T7:00")].
Proof.
  split; [|vm_compute; reflexivity].
  intros [|[|[|[|k]]]]; unfold u_late, Qle, Qlt; cbn; lia.
Qed.

(** ** Witnesses *)

Definition u_zero (_ : nat) : Q := 0.

Lemma u_zero_range : forall j, 0 <= u_zero j < 1.
Proof. intros j. unfold u_zero, Qle, Qlt. cbn. lia. Qed.

Lemma generateTasks_spec_witness :
  (forall j, 0 <= u_zero j < 1) /\
  let r := generateTasks u_zero "Work" 3%nat 0%nat in
  List.length (fst r) = 3%nat /\ Forall (task_ok "Work") (fst r) /\ snd r = (0 + 6 * 3)%nat /\
  map id (fst r) = map (fun j => "Work" ++ "-" ++ nat_to_string j) (seq 1 3)%nat.
Proof.
  split; [exact u_zero_range|]. exact (generateTasks_spec u_zero "Work" 3%nat 0%nat u_zero_range).
Defined.

Lemma dataset_spec_witness :
  (forall j, 0 <= u_zero j < 1) /\
  map (fun p => (fst p, List.length (snd p))) (fst (dataset u_zero 0%nat))
    = [("Work", 120%nat); ("Personal", 110%nat); ("Hobby", 100%nat); ("Fun", 105%nat); ("Rest", 130%nat)]
  /\ Forall (fun p => Forall (task_ok (fst p)) (snd p)) (fst (dataset u_zero 0%nat))
  /\ snd (dataset u_zero 0%nat) = (0 + 3390)%nat.
Proof. split; [exact u_zero_range|]. exact (dataset_spec u_zero 0%nat u_zero_range). Defined.

End Generate.
